(** * Point-in-time restore orchestrator for the quote tables

    A shallow embedding of [scripts/restore-dynamodb-pitr/restore_dynamodb_pitr.py]
    (classes [RestoreLock] and [DynamoDBPITRRestore]) and of the parts of the
    earlier build [scripts/restore_dynamodb_pitr.py] that differ from it.

    - The boto3 client is an interface ([DynamoDB]): every operation maps a
      provider state to a new provider state and either a response or a raised
      exception.  Nothing is assumed about the provider.
    - dateutil and pytz are an interface too ([Runtime]).
    - The orchestrator runs in a state-and-exception monad [M] over the
      provider state, the wall clock, the lock file, the status file, the log
      and the trace of provider calls.
    - Time is counted in microseconds; only [time.sleep] advances the clock.
    - Loops that wait for the provider take fuel; running out of it is the
      outcome [Diverge], which no [except] clause catches. *)

From Stdlib Require Import ZArith List String Ascii Bool Lia.
Import ListNotations.
Local Open Scope string_scope.
Local Open Scope Z_scope.

(** ** Strings *)

Module Str.

Fixpoint startswith (s p : string) {struct p} : bool :=
  match p with
  | EmptyString => true
  | String c p' =>
      match s with
      | String d s' => Ascii.eqb c d && startswith s' p'
      | EmptyString => false
      end
  end.

Definition mem (x : string) (l : list string) : bool :=
  existsb (String.eqb x) l.

Lemma startswith_app (p s : string) : startswith (p ++ s) p = true.
Proof.
  induction p as [|c p IH]; simpl; [reflexivity|].
  now rewrite Ascii.eqb_refl, IH.
Qed.

Lemma startswith_spec (s p : string) :
  startswith s p = true <-> exists r, s = p ++ r.
Proof.
  split.
  - revert s; induction p as [|c p IH]; intros s H; simpl in *.
    + now exists s.
    + destruct s as [|d s]; [discriminate|].
      apply andb_true_iff in H as [Hc Hs].
      apply Ascii.eqb_eq in Hc; subst d.
      destruct (IH _ Hs) as [r ->]. now exists r.
  - intros [r ->]. apply startswith_app.
Qed.

Lemma mem_In (x : string) (l : list string) : mem x l = true <-> In x l.
Proof.
  unfold mem. rewrite existsb_exists. split.
  - intros [y [Hy He]]. apply String.eqb_eq in He. now subst.
  - intros H. exists x. split; [assumption|apply String.eqb_refl].
Qed.

Lemma app_inv_head (p a b : string) : p ++ a = p ++ b -> a = b.
Proof.
  induction p as [|c p IH]; simpl; intros H; [assumption|].
  injection H as H. now apply IH.
Qed.

Lemma app_assoc (a b c : string) : (a ++ b) ++ c = a ++ (b ++ c).
Proof. induction a as [|x a IH]; simpl; [reflexivity|now rewrite IH]. Qed.

End Str.

(** ** datetime

    [datetime.datetime] with an optional fixed-offset [tzinfo]; instants are
    microseconds since the epoch, as [timedelta] resolves them. *)

Module DateTime.

Record tzinfo := { utcoffset : Z (* seconds east of UTC *); tzname : string }.

Record datetime := {
  year : Z; month : Z; day : Z;
  hour : Z; minute : Z; second : Z; microsecond : Z;
  tz : option tzinfo
}.

(** The field ranges [datetime] enforces on construction. *)
Definition valid (d : datetime) : Prop :=
  1 <= year d <= 9999 /\ 1 <= month d <= 12 /\ 1 <= day d <= 31 /\
  0 <= hour d <= 23 /\ 0 <= minute d <= 59 /\ 0 <= second d <= 59 /\
  0 <= microsecond d <= 999999.

Definition replace_tzinfo (d : datetime) (z : tzinfo) : datetime :=
  {| year := year d; month := month d; day := day d;
     hour := hour d; minute := minute d; second := second d;
     microsecond := microsecond d; tz := Some z |}.

(** Days from 1970-01-01 to a proleptic Gregorian date. *)
Definition days_from_civil (y m d : Z) : Z :=
  let y' := if m <=? 2 then y - 1 else y in
  let era := y' / 400 in
  let yoe := y' - era * 400 in
  let mp := if m <=? 2 then m + 9 else m - 3 in
  let doy := (153 * mp + 2) / 5 + d - 1 in
  let doe := yoe * 365 + yoe / 4 - yoe / 100 + doy in
  era * 146097 + doe - 719468.

Definition second_us : Z := 1000000.
Definition day_us : Z := 86400 * second_us.

(** [d.astimezone(pytz.UTC)] as an instant, for an aware [d] of offset [off]. *)
Definition utc_instant (d : datetime) (off : Z) : Z :=
  (days_from_civil (year d) (month d) (day d) * 86400
   + hour d * 3600 + minute d * 60 + second d - off) * second_us
  + microsecond d.

(** The date [days] days after 1970-01-01. *)
Definition civil_from_days (days : Z) : Z * Z * Z :=
  let z := days + 719468 in
  let era := z / 146097 in
  let doe := z - era * 146097 in
  let yoe := (doe - doe / 1460 + doe / 36524 - doe / 146096) / 365 in
  let doy := doe - (365 * yoe + yoe / 4 - yoe / 100) in
  let mp := (5 * doy + 2) / 153 in
  let d := doy - (153 * mp + 2) / 5 + 1 in
  let m := if mp <? 10 then mp + 3 else mp - 9 in
  let y := yoe + era * 400 in
  (if m <=? 2 then y + 1 else y, m, d).

(** The naive UTC [datetime] of an instant. *)
Definition utc_datetime (instant : Z) : datetime :=
  let secs := instant / second_us in
  let days := secs / 86400 in
  let rem := secs mod 86400 in
  let '(y, m, d) := civil_from_days days in
  {| year := y; month := m; day := d;
     hour := rem / 3600; minute := rem mod 3600 / 60; second := rem mod 60;
     microsecond := instant mod second_us; tz := None |}.

Definition digit (n : Z) : ascii :=
  match n with
  | 0 => "0" | 1 => "1" | 2 => "2" | 3 => "3" | 4 => "4"
  | 5 => "5" | 6 => "6" | 7 => "7" | 8 => "8" | _ => "9"
  end%char.

(** [%m], [%d], [%H], [%M], [%S]: two digits. *)
Definition pad2 (n : Z) : string :=
  String (digit (n / 10 mod 10)) (String (digit (n mod 10)) "").

(** [%Y]: four digits. *)
Definition pad4 (n : Z) : string :=
  String (digit (n / 1000 mod 10)) (String (digit (n / 100 mod 10)) (pad2 n)).

(** [d.strftime('%Y%m%d%H%M%S')] *)
Definition strftime_compact (d : datetime) : string :=
  pad4 (year d) ++ pad2 (month d) ++ pad2 (day d) ++
  pad2 (hour d) ++ pad2 (minute d) ++ pad2 (second d).

Lemma digit_inj (a b : Z) :
  0 <= a <= 9 -> 0 <= b <= 9 -> digit a = digit b -> a = b.
Proof.
  intros Ha Hb H.
  assert (Ea : a = 0 \/ a = 1 \/ a = 2 \/ a = 3 \/ a = 4 \/
               a = 5 \/ a = 6 \/ a = 7 \/ a = 8 \/ a = 9) by lia.
  assert (Eb : b = 0 \/ b = 1 \/ b = 2 \/ b = 3 \/ b = 4 \/
               b = 5 \/ b = 6 \/ b = 7 \/ b = 8 \/ b = 9) by lia.
  repeat (destruct Ea as [Ea|Ea]; [subst a|]); try subst a;
    repeat (destruct Eb as [Eb|Eb]; [subst b|]); try subst b;
    first [reflexivity | discriminate H].
Qed.

Lemma pad2_inj (a b : Z) :
  0 <= a < 100 -> 0 <= b < 100 -> pad2 a = pad2 b -> a = b.
Proof.
  intros Ha Hb H. unfold pad2 in H. injection H as H1 H0.
  apply digit_inj in H0; [|pose proof (Z.mod_pos_bound a 10); lia
                          |pose proof (Z.mod_pos_bound b 10); lia].
  apply digit_inj in H1; [|pose proof (Z.mod_pos_bound (a / 10) 10); lia
                          |pose proof (Z.mod_pos_bound (b / 10) 10); lia].
  rewrite (Z.mod_small (a / 10)) in H1
    by (split; [apply Z.div_pos; lia|apply Z.div_lt_upper_bound; lia]).
  rewrite (Z.mod_small (b / 10)) in H1
    by (split; [apply Z.div_pos; lia|apply Z.div_lt_upper_bound; lia]).
  rewrite (Z.div_mod a 10), (Z.div_mod b 10) by lia. lia.
Qed.

Lemma digits4_inj (a b : Z) :
  0 <= a < 10000 -> 0 <= b < 10000 ->
  a mod 10 = b mod 10 -> a / 10 mod 10 = b / 10 mod 10 ->
  a / 100 mod 10 = b / 100 mod 10 -> a / 1000 mod 10 = b / 1000 mod 10 ->
  a = b.
Proof.
  intros Ha Hb H0 H1 H2 H3.
  rewrite (Z.mod_small (a / 1000)) in H3
    by (split; [apply Z.div_pos; lia|apply Z.div_lt_upper_bound; lia]).
  rewrite (Z.mod_small (b / 1000)) in H3
    by (split; [apply Z.div_pos; lia|apply Z.div_lt_upper_bound; lia]).
  replace (a / 100) with (a / 10 / 10) in *
    by (rewrite Z.div_div by lia; reflexivity).
  replace (b / 100) with (b / 10 / 10) in *
    by (rewrite Z.div_div by lia; reflexivity).
  replace (a / 1000) with (a / 10 / 10 / 10) in *
    by (rewrite !Z.div_div by lia; reflexivity).
  replace (b / 1000) with (b / 10 / 10 / 10) in *
    by (rewrite !Z.div_div by lia; reflexivity).
  rewrite (Z.div_mod a 10), (Z.div_mod b 10) by lia.
  rewrite (Z.div_mod (a / 10) 10), (Z.div_mod (b / 10) 10) by lia.
  rewrite (Z.div_mod (a / 10 / 10) 10), (Z.div_mod (b / 10 / 10) 10) by lia.
  rewrite H0, H1, H2, H3. reflexivity.
Qed.

Lemma pad4_inj (a b : Z) :
  0 <= a < 10000 -> 0 <= b < 10000 -> pad4 a = pad4 b -> a = b.
Proof.
  intros Ha Hb H. unfold pad4, pad2 in H. injection H as H3 H2 H1 H0.
  apply digit_inj in H0; [|pose proof (Z.mod_pos_bound a 10); lia
                          |pose proof (Z.mod_pos_bound b 10); lia].
  apply digit_inj in H1; [|pose proof (Z.mod_pos_bound (a / 10) 10); lia
                          |pose proof (Z.mod_pos_bound (b / 10) 10); lia].
  apply digit_inj in H2; [|pose proof (Z.mod_pos_bound (a / 100) 10); lia
                          |pose proof (Z.mod_pos_bound (b / 100) 10); lia].
  apply digit_inj in H3; [|pose proof (Z.mod_pos_bound (a / 1000) 10); lia
                          |pose proof (Z.mod_pos_bound (b / 1000) 10); lia].
  now apply digits4_inj.
Qed.

Lemma pad2_length (n : Z) : String.length (pad2 n) = 2%nat.
Proof. reflexivity. Qed.

Lemma pad4_length (n : Z) : String.length (pad4 n) = 4%nat.
Proof. reflexivity. Qed.

(** Two strings of equal length followed by suffixes split the same way. *)
Lemma app_inj_length (a b c d : string) :
  String.length a = String.length b -> a ++ c = b ++ d -> a = b /\ c = d.
Proof.
  revert b; induction a as [|x a IH]; intros [|y b] Hl H; simpl in *;
    try discriminate.
  - now split.
  - injection H as -> H. injection Hl as Hl.
    destruct (IH _ Hl H) as [-> ->]. now split.
Qed.

Lemma strftime_compact_nonempty (d : datetime) : strftime_compact d <> "".
Proof. unfold strftime_compact, pad4. simpl. discriminate. Qed.

Lemma strftime_compact_inj (d e : datetime) :
  valid d -> valid e -> strftime_compact d = strftime_compact e ->
  year d = year e /\ month d = month e /\ day d = day e /\
  hour d = hour e /\ minute d = minute e /\ second d = second e.
Proof.
  intros Vd Ve H. unfold valid in *. unfold strftime_compact in H.
  apply app_inj_length in H as [Hy H]; [|reflexivity].
  apply app_inj_length in H as [Hm H]; [|reflexivity].
  apply app_inj_length in H as [Hd H]; [|reflexivity].
  apply app_inj_length in H as [Hh H]; [|reflexivity].
  apply app_inj_length in H as [Hmi Hs]; [|reflexivity].
  apply pad4_inj in Hy; [|lia|lia].
  apply pad2_inj in Hm; [|lia|lia].
  apply pad2_inj in Hd; [|lia|lia].
  apply pad2_inj in Hh; [|lia|lia].
  apply pad2_inj in Hmi; [|lia|lia].
  apply pad2_inj in Hs; [|lia|lia].
  tauto.
Qed.

Lemma strftime_compact_replace_tzinfo (d : datetime) (z : tzinfo) :
  strftime_compact (replace_tzinfo d z) = strftime_compact d.
Proof. reflexivity. Qed.

End DateTime.

(** ** Exceptions, log records, dictionaries *)

Inductive exn :=
| ClientError (code message : string)   (* botocore.exceptions.ClientError *)
| PyError (kind message : string).      (* every other [Exception] *)

(** [str(e)] *)
Definition str_exn (e : exn) : string :=
  match e with
  | ClientError _ message => message
  | PyError _ message => message
  end.

Inductive level := INFO | WARNING | ERROR.

(** An f-string: its literal text and the values it interpolates. *)
Inductive fragment :=
| FLit (text : string)
| FStr (s : string)
| FInt (n : Z)
| FExn (e : exn)
| FDelta (microseconds : Z)                      (* a [timedelta] *)
| FTime (fmt zone : string) (instant : Z).       (* an aware [datetime] *)

Record log_record := { levelname : level; message : list fragment }.

(** A [dict] with string keys, in insertion order. *)
Definition dict (V : Type) := list (string * V).

Fixpoint dict_get {V} (d : dict V) (k : string) : option V :=
  match d with
  | [] => None
  | (k', v) :: d' => if String.eqb k k' then Some v else dict_get d' k
  end.

Fixpoint dict_set {V} (d : dict V) (k : string) (v : V) : dict V :=
  match d with
  | [] => [(k, v)]
  | (k', v') :: d' =>
      if String.eqb k k' then (k', v) :: d' else (k', v') :: dict_set d' k v
  end.

Definition values {V} (d : dict V) : list V := map snd d.

(** ** The DynamoDB client *)

Definition attribute_value := string.
Definition item := dict attribute_value.

Record table_description := {
  TableStatus : string;
  KeySchema : list string;                        (* the [AttributeName]s *)
  RestoreSummary_EarliestRestorableDateTime : option Z;
  LatestRestorableDateTime : option Z
}.

Record point_in_time_recovery_description := {
  pitr_EarliestRestorableDateTime : option Z;
  pitr_LatestRestorableDateTime : option Z
}.

Record scan_output := { Items : list item; LastEvaluatedKey : option item }.

Inductive write_request :=
| DeleteRequest (Key : item)
| PutRequest (Item : item).

Inductive call :=
| describe_table (TableName : string)
| list_tables
| delete_table (TableName : string)
| restore_table_to_point_in_time
    (SourceTableName TargetTableName : string) (RestoreDateTime : Z)
| scan_count (TableName : string)
| scan (TableName : string) (ExclusiveStartKey : option item)
| batch_write_item (TableName : string) (requests : list write_request)
| describe_continuous_backups (TableName : string).

Inductive response :=
| RTable (d : table_description)
| RTableNames (pages : list (list string))
| RCount (n : Z)
| RScan (o : scan_output)
| RBackups (d : point_in_time_recovery_description)
| RDone.

(** One provider call of the run, with what came back. *)
Record event := { ev_call : call; ev_result : exn + response }.

(** The operations of the boto3 client the script uses.  [db_list_tables]
    is the whole [list_tables] paginator: all pages, or the exception that
    interrupted it. *)
Class DynamoDB (provider : Type) := {
  db_describe_table : provider -> string -> provider * (exn + table_description);
  db_list_tables : provider -> provider * (exn + list (list string));
  db_delete_table : provider -> string -> provider * (exn + unit);
  db_restore_table_to_point_in_time :
    provider -> string -> string -> Z -> provider * (exn + unit);
  db_scan_count : provider -> string -> provider * (exn + Z);
  db_scan : provider -> string -> option item -> provider * (exn + scan_output);
  db_batch_write_item :
    provider -> string -> list write_request -> provider * (exn + unit);
  db_describe_continuous_backups :
    provider -> string -> provider * (exn + point_in_time_recovery_description)
}.

(** dateutil, pytz and the host clock's local time. *)
Class Runtime := {
  (* [dateutil.parser.isoparse]; [None] when it raises [ValueError] *)
  isoparse : string -> option DateTime.datetime;
  (* the zone [pytz.timezone('Europe/Berlin').localize] attaches *)
  berlin : DateTime.datetime -> DateTime.tzinfo;
  (* [datetime.now()] at a clock reading: naive, in the host's zone *)
  local_now : Z -> DateTime.datetime
}.

(** ** The run's configuration and state *)

Record status_data := {
  sd_restore_id : string;
  sd_status : string;
  sd_restore_point_in_time : string;
  sd_started_at : Z;
  sd_environment : string;
  sd_tables : dict string;
  sd_error_message : option string
}.

(** The attributes [__init__] sets and the run never changes. *)
Record config := {
  environment : string;
  region : string;
  timeout_minutes : Z;
  dry_run : bool;
  lock_file : string;
  verbose : bool;
  restore_id : string
}.

(** How a computation ends: with a value, with an exception, or without
    end for lack of fuel. *)
Inductive outcome (A : Type) :=
| Ok (a : A)
| Raise (e : exn)
| Diverge.
Arguments Ok {A} a.
Arguments Raise {A} e.
Arguments Diverge {A}.

Section Orchestrator.

Context {provider : Type} {db : DynamoDB provider} {py : Runtime}.

Record state := {
  provider_state : provider;
  clock : Z;                                  (* [time.time()], microseconds *)
  lock_marker : option Z;                       (* [st_mtime] of the marker, if it exists *)
  lock_acquired : bool;                       (* [RestoreLock.lock_acquired] *)
  restore_point_timestamp : option string;    (* [self.restore_point_timestamp] *)
  status_file : option status_data;
  log : list log_record;
  trace : list event
}.

Definition set_provider (s : state) (p : provider) (e : event) : state :=
  {| provider_state := p; clock := clock s; lock_marker := lock_marker s;
     lock_acquired := lock_acquired s;
     restore_point_timestamp := restore_point_timestamp s;
     status_file := status_file s; log := log s; trace := (trace s ++ [e])%list |}.

Definition set_clock (s : state) (t : Z) : state :=
  {| provider_state := provider_state s; clock := t; lock_marker := lock_marker s;
     lock_acquired := lock_acquired s;
     restore_point_timestamp := restore_point_timestamp s;
     status_file := status_file s; log := log s; trace := trace s |}.

Definition set_lock (s : state) (f : option Z) (a : bool) : state :=
  {| provider_state := provider_state s; clock := clock s; lock_marker := f;
     lock_acquired := a;
     restore_point_timestamp := restore_point_timestamp s;
     status_file := status_file s; log := log s; trace := trace s |}.

Definition set_restore_point_timestamp (s : state) (t : string) : state :=
  {| provider_state := provider_state s; clock := clock s;
     lock_marker := lock_marker s; lock_acquired := lock_acquired s;
     restore_point_timestamp := Some t;
     status_file := status_file s; log := log s; trace := trace s |}.

Definition set_status_file (s : state) (d : status_data) : state :=
  {| provider_state := provider_state s; clock := clock s;
     lock_marker := lock_marker s; lock_acquired := lock_acquired s;
     restore_point_timestamp := restore_point_timestamp s;
     status_file := Some d; log := log s; trace := trace s |}.

Definition add_log (s : state) (r : log_record) : state :=
  {| provider_state := provider_state s; clock := clock s;
     lock_marker := lock_marker s; lock_acquired := lock_acquired s;
     restore_point_timestamp := restore_point_timestamp s;
     status_file := status_file s; log := (log s ++ [r])%list; trace := trace s |}.

(** ** The monad *)

Definition M (A : Type) := state -> outcome A * state.

Definition ret {A} (a : A) : M A := fun s => (Ok a, s).

Definition bind {A B} (m : M A) (k : A -> M B) : M B :=
  fun s =>
    match m s with
    | (Ok a, s') => k a s'
    | (Raise e, s') => (Raise e, s')
    | (Diverge, s') => (Diverge, s')
    end.

Definition raise {A} (e : exn) : M A := fun s => (Raise e, s).

Definition diverge {A} : M A := fun s => (Diverge, s).

(** [try: m  except Exception as e: h e] *)
Definition try_except {A} (m : M A) (h : exn -> M A) : M A :=
  fun s =>
    match m s with
    | (Raise e, s') => h e s'
    | r => r
    end.

(** [try: m  except ClientError as e: h e] *)
Definition try_except_ClientError {A} (m : M A) (h : exn -> M A) : M A :=
  fun s =>
    match m s with
    | (Raise (ClientError c msg), s') => h (ClientError c msg) s'
    | r => r
    end.

(** [try: m  finally: f], for an [f] that does not raise. *)
Definition finally {A} (m : M A) (f : M unit) : M A :=
  fun s =>
    match m s with
    | (Diverge, s') => (Diverge, s')
    | (r, s') => (r, snd (f s'))
    end.

Notation "x <- m ;; k" := (bind m (fun x => k))
  (at level 61, m at next level, right associativity).
Notation "m ;; k" := (bind m (fun _ => k))
  (at level 61, right associativity).

(** [for x in l: body x], where [body] answers [Some r] to [return r]. *)
Fixpoint for_each {A R} (l : list A) (body : A -> M (option R)) : M (option R) :=
  match l with
  | [] => ret None
  | x :: l' =>
      r <- body x ;;
      match r with
      | Some v => ret (Some v)
      | None => for_each l' body
      end
  end.

(** A [for] loop that updates local variables [acc]. *)
Fixpoint fold_each {A B} (l : list A) (acc : B) (body : B -> A -> M B) : M B :=
  match l with
  | [] => ret acc
  | x :: l' => acc' <- body acc x ;; fold_each l' acc' body
  end.

Definition logger (lvl : level) (msg : list fragment) : M unit :=
  fun s => (Ok tt, add_log s {| levelname := lvl; message := msg |}).

Definition time_time : M Z := fun s => (Ok (clock s), s).

Definition time_sleep (microseconds : Z) : M unit :=
  fun s => (Ok tt, set_clock s (clock s + microseconds)).

(** [d[k]] *)
Definition subscript {V} (d : dict V) (k : string) : M V :=
  match dict_get d k with
  | Some v => ret v
  | None => raise (PyError "KeyError" k)
  end.

(** A call of the client: the provider moves on, the event is recorded, and
    the response is returned or its exception raised. *)
Definition invoke {A} (c : call) (op : provider -> provider * (exn + A))
    (wrap : A -> response) : M A :=
  fun s =>
    match op (provider_state s) with
    | (p, inl e) =>
        (Raise e, set_provider s p {| ev_call := c; ev_result := inl e |})
    | (p, inr a) =>
        (Ok a, set_provider s p {| ev_call := c; ev_result := inr (wrap a) |})
    end.

Definition dynamodb_describe_table (name : string) : M table_description :=
  invoke (describe_table name) (fun p => db_describe_table p name) RTable.

Definition dynamodb_list_tables : M (list (list string)) :=
  invoke list_tables db_list_tables RTableNames.

Definition dynamodb_delete_table (name : string) : M unit :=
  invoke (delete_table name) (fun p => db_delete_table p name) (fun _ => RDone).

Definition dynamodb_restore_table_to_point_in_time
    (source target : string) (instant : Z) : M unit :=
  invoke (restore_table_to_point_in_time source target instant)
    (fun p => db_restore_table_to_point_in_time p source target instant)
    (fun _ => RDone).

Definition dynamodb_scan_count (name : string) : M Z :=
  invoke (scan_count name) (fun p => db_scan_count p name) RCount.

Definition dynamodb_scan (name : string) (start : option item) : M scan_output :=
  invoke (scan name start) (fun p => db_scan p name start) RScan.

Definition dynamodb_batch_write_item
    (name : string) (requests : list write_request) : M unit :=
  invoke (batch_write_item name requests)
    (fun p => db_batch_write_item p name requests) (fun _ => RDone).

Definition dynamodb_describe_continuous_backups (name : string)
    : M point_in_time_recovery_description :=
  invoke (describe_continuous_backups name)
    (fun p => db_describe_continuous_backups p name) RBackups.

(** ** class RestoreLock *)

(** [os.open(path, O_CREAT | O_EXCL | O_WRONLY)] and the write that follows. *)
Definition RestoreLock_os_open_excl : M unit :=
  fun s =>
    match lock_marker s with
    | Some _ => (Raise (PyError "FileExistsError" "File exists"), s)
    | None => (Ok tt, set_lock s (Some (clock s)) (lock_acquired s))
    end.

Definition RestoreLock_unlink : M unit :=
  fun s =>
    match lock_marker s with
    | Some _ => (Ok tt, set_lock s None (lock_acquired s))
    | None => (Raise (PyError "FileNotFoundError" "No such file"), s)
    end.

Definition RestoreLock_exists : M bool :=
  fun s => (Ok (match lock_marker s with Some _ => true | None => false end), s).

Definition RestoreLock_set_lock_acquired (b : bool) : M unit :=
  fun s => (Ok tt, set_lock s (lock_marker s) b).

Definition RestoreLock_get_lock_acquired : M bool := fun s => (Ok (lock_acquired s), s).

Definition RestoreLock__is_stale (stale_after_seconds : Z) : M bool :=
  fun s =>
    match lock_marker s with
    | None => (Ok false, s)
    | Some mtime =>
        (Ok (stale_after_seconds * DateTime.second_us <? clock s - mtime), s)
    end.

Definition is_FileExistsError (e : exn) : bool :=
  match e with
  | PyError kind _ => String.eqb kind "FileExistsError"
  | ClientError _ _ => false
  end.

(** The [while] loop of [acquire]. *)
Fixpoint RestoreLock_acquire_loop (fuel : nat) (path : string) (start_time timeout_seconds : Z)
    : M bool :=
  match fuel with
  | O => diverge
  | S fuel' =>
      now <- time_time ;;
      if now - start_time <? timeout_seconds * DateTime.second_us then
        try_except
          (RestoreLock_os_open_excl ;;
           RestoreLock_set_lock_acquired true ;;
           logger INFO [FLit "Lock acquired: "; FStr path] ;;
           ret true)
          (fun e =>
             if is_FileExistsError e then
               stale <- RestoreLock__is_stale 3600 ;;
               if stale then
                 logger WARNING [FLit "Removing stale lock file"] ;;
                 try_except RestoreLock_unlink (fun _ => ret tt) ;;
                 RestoreLock_acquire_loop fuel' path start_time timeout_seconds
               else
                 time_sleep 500000 ;;
                 RestoreLock_acquire_loop fuel' path start_time timeout_seconds
             else raise e)
      else
        logger ERROR [FLit "Failed to acquire lock - restore already in progress"] ;;
        ret false
  end.

Definition RestoreLock_acquire (fuel : nat) (path : string) (timeout_seconds : Z) : M bool :=
  start_time <- time_time ;;
  RestoreLock_acquire_loop fuel path start_time timeout_seconds.

Definition RestoreLock_release (path : string) : M unit :=
  held <- RestoreLock_get_lock_acquired ;;
  present <- RestoreLock_exists ;;
  if held && present then
    try_except
      (RestoreLock_unlink ;;
       RestoreLock_set_lock_acquired false ;;
       logger INFO [FLit "Lock released: "; FStr path])
      (fun e => logger WARNING [FLit "Failed to release lock: "; FExn e])
  else ret tt.

(** [RestoreLock(path).__enter__()] *)
Definition RestoreLock_enter (fuel : nat) (path : string) : M unit :=
  RestoreLock_set_lock_acquired false ;;
  acquired <- RestoreLock_acquire fuel path 5 ;;
  if negb acquired then
    raise (PyError "RuntimeError" "Could not acquire restore lock")
  else ret tt.

(** [with RestoreLock(path) as lock: body] *)
Definition RestoreLock_with {A} (fuel : nat) (path : string) (body : M A) : M A :=
  RestoreLock_enter fuel path ;;
  finally body (RestoreLock_release path).

(** ** class DynamoDBPITRRestore *)

Definition base_names : dict string :=
  [("quotes", "quote-lambda-tf-quotes");
   ("user_likes", "quote-lambda-tf-user-likes");
   ("user_views", "quote-lambda-tf-user-views")].

(** The dictionary [_configure_table_names] stores in [self.tables] (its
    log lines belong to the construction of the object, before [run]). *)
Definition _configure_table_names (environment : string) : dict string :=
  map (fun kv =>
         (fst kv,
          if String.eqb environment "dev" then snd kv ++ "-dev" else snd kv))
      base_names.

Definition tables (self : config) : dict string :=
  _configure_table_names (environment self).

Definition error_code (e : exn) : option string :=
  match e with
  | ClientError code _ => Some code
  | PyError _ _ => None
  end.

Definition code_is (e : exn) (code : string) : bool :=
  match error_code e with
  | Some c => String.eqb c code
  | None => false
  end.

Definition parse (restore_point_in_time : string) : M DateTime.datetime :=
  match isoparse restore_point_in_time with
  | Some d => ret d
  | None => raise (PyError "ValueError" "Invalid isoformat string")
  end.

Definition get_restore_point_timestamp : M (option string) :=
  fun s => (Ok (restore_point_timestamp s), s).

Definition put_restore_point_timestamp (t : string) : M unit :=
  fun s => (Ok tt, set_restore_point_timestamp s t).

Definition write_status_file (d : status_data) : M unit :=
  fun s => (Ok tt, set_status_file s d).

Definition _update_status (self : config) (status restore_point_in_time : string)
    (error_message : option string) : M unit :=
  try_except
    (now <- time_time ;;
     write_status_file
       {| sd_restore_id := restore_id self;
          sd_status := status;
          sd_restore_point_in_time := restore_point_in_time;
          sd_started_at := now;
          sd_environment := environment self;
          sd_tables := tables self;
          sd_error_message :=
            match error_message with
            | Some m => if String.eqb m "" then None else Some m
            | None => None
            end |} ;;
     logger INFO [FLit "Status updated: "; FStr status])
    (fun e => logger WARNING [FLit "Failed to update status file: "; FExn e]).

Definition _get_restore_table_names (self : config) : M (dict string) :=
  stored <- get_restore_point_timestamp ;;
  timestamp <-
    match stored with
    | Some t =>
        if String.eqb t "" then
          now <- time_time ;; ret (DateTime.strftime_compact (local_now now))
        else ret t
    | None =>
        now <- time_time ;; ret (DateTime.strftime_compact (local_now now))
    end ;;
  quotes <- subscript (tables self) "quotes" ;;
  user_likes <- subscript (tables self) "user_likes" ;;
  user_views <- subscript (tables self) "user_views" ;;
  ret [("quotes", quotes ++ "-restore-" ++ timestamp);
       ("user_likes", user_likes ++ "-restore-" ++ timestamp);
       ("user_views", user_views ++ "-restore-" ++ timestamp)].

Definition _check_existing_restore_tables (restore_tables : dict string)
    : M (dict string) :=
  fold_each restore_tables []
    (fun existing kv =>
       let table_name := snd kv in
       try_except_ClientError
         (response <- dynamodb_describe_table table_name ;;
          ret (dict_set existing table_name (TableStatus response)))
         (fun e =>
            (if negb (code_is e "ResourceNotFoundException") then
               logger WARNING
                 [FLit "Error checking table "; FStr table_name; FLit ": "; FExn e]
             else ret tt) ;;
            ret existing)).

(** The innermost loop of [_find_old_restore_tables], over [self.tables]. *)
Fixpoint match_restore_pattern (originals : dict string) (table_name : string)
    (current_table_names old_tables : list string) : list string :=
  match originals with
  | [] => old_tables
  | (_, original_table) :: rest =>
      if Str.startswith table_name (original_table ++ "-restore-") then
        if negb (Str.mem table_name current_table_names)
        then (old_tables ++ [table_name])%list
        else old_tables
      else match_restore_pattern rest table_name current_table_names old_tables
  end.

Definition _find_old_restore_tables (self : config)
    (current_restore_tables : dict string) : M (list string) :=
  try_except
    (let current_table_names := values current_restore_tables in
     pages <- dynamodb_list_tables ;;
     ret (fold_left
            (fun old_tables page =>
               fold_left
                 (fun old_tables table_name =>
                    match_restore_pattern (tables self) table_name
                      current_table_names old_tables)
                 page old_tables)
            pages []))
    (fun e =>
       logger WARNING [FLit "Error checking for old restore tables: "; FExn e] ;;
       ret []).

Definition _cleanup_existing_restore_tables (table_names : list string) : M unit :=
  fold_each table_names tt
    (fun _ table_name =>
       try_except_ClientError
         (logger INFO [FLit "Deleting existing restore table: "; FStr table_name] ;;
          dynamodb_delete_table table_name ;;
          logger INFO [FLit "Successfully deleted "; FStr table_name])
         (fun e =>
            logger ERROR [FLit "Failed to delete "; FStr table_name; FLit ": "; FExn e])) ;;
  match table_names with
  | [] => ret tt
  | _ =>
      logger INFO [FLit "Waiting 10 seconds for table deletions to complete..."] ;;
      time_sleep (10 * DateTime.second_us)
  end.

Definition max_age : Z := 35 * DateTime.day_us.

Definition _validate_restore_point (restore_point_in_time : string) : M bool :=
  try_except
    (restore_dt <- parse restore_point_in_time ;;
     zone <-
       match DateTime.tz restore_dt with
       | None =>
           logger INFO [FLit "No timezone specified, assuming CET/CEST (Europe/Berlin)"] ;;
           ret (berlin restore_dt)
       | Some z => ret z
       end ;;
     let restore_dt_utc :=
       DateTime.utc_instant restore_dt (DateTime.utcoffset zone) in
     now_utc <- time_time ;;
     let age := now_utc - restore_dt_utc in
     logger INFO [FLit "Restore point (UTC): "; FTime "" "UTC" restore_dt_utc] ;;
     logger INFO [FLit "Current time (UTC): "; FTime "" "UTC" now_utc] ;;
     logger INFO [FLit "Age: "; FDelta age] ;;
     if max_age <? age then
       logger ERROR [FLit "Restore point is "; FInt (age / DateTime.day_us);
                     FLit " days old, max is 35 days"] ;;
       ret false
     else if age <? 0 then
       logger ERROR [FLit "Restore point is in the future"] ;;
       ret false
     else
       logger INFO [FLit "Restore point is "; FInt (age / DateTime.day_us);
                    FLit " days, ";
                    FInt (age mod DateTime.day_us / DateTime.second_us / 3600);
                    FLit " hours old (within 35-day limit)"] ;;
       ret true)
    (fun e =>
       logger ERROR [FLit "Failed to parse restore point: "; FExn e] ;;
       ret false).

Definition local_fmt : string := "%Y-%m-%d %H:%M:%S %Z".

(** The handler of [InvalidRestoreTimeException] in [_initiate_pitr_restores],
    up to its [raise]. *)
Definition log_restore_window (original_table : string) (e : exn) : M unit :=
  logger ERROR [FLit "Invalid restore time for "; FStr original_table] ;;
  logger ERROR [FLit "Error: "; FExn e] ;;
  try_except
    (table_desc <- dynamodb_describe_table original_table ;;
     window <-
       match RestoreSummary_EarliestRestorableDateTime table_desc with
       | None =>
           backup_desc <- dynamodb_describe_continuous_backups original_table ;;
           ret (pitr_EarliestRestorableDateTime backup_desc,
                pitr_LatestRestorableDateTime backup_desc)
       | Some earliest =>
           ret (Some earliest, LatestRestorableDateTime table_desc)
       end ;;
     match window with
     | (Some earliest, Some latest) =>
         logger ERROR [FLit "Valid restore window for "; FStr original_table; FLit ":"] ;;
         logger ERROR [FLit "  Earliest: "; FTime local_fmt "Europe/Berlin" earliest;
                       FLit " (local)"] ;;
         logger ERROR [FLit "  Latest:   "; FTime local_fmt "Europe/Berlin" latest;
                       FLit " (local)"]
     | _ => ret tt
     end)
    (fun _ => ret tt).

Definition _initiate_pitr_restores (self : config) (restore_point_in_time : string)
    : M bool :=
  try_except_ClientError
    (restore_tables <- _get_restore_table_names self ;;
     restore_dt <- parse restore_point_in_time ;;
     let zone :=
       match DateTime.tz restore_dt with
       | None => berlin restore_dt
       | Some z => z
       end in
     let restore_dt_utc :=
       DateTime.utc_instant restore_dt (DateTime.utcoffset zone) in
     logger INFO [FLit "Using restore point: ";
                  FTime local_fmt "Europe/Berlin" restore_dt_utc;
                  FLit " (local) = "; FTime local_fmt "UTC" restore_dt_utc;
                  FLit " (UTC)"] ;;
     fold_each (tables self) tt
       (fun _ kv =>
          let original_table := snd kv in
          restore_table <- subscript restore_tables (fst kv) ;;
          if dry_run self then
            logger INFO [FLit "[DRY RUN] Would restore "; FStr original_table;
                         FLit " to "; FStr restore_table]
          else
            logger INFO [FLit "Initiating PITR restore for "; FStr original_table;
                         FLit " -> "; FStr restore_table] ;;
            try_except_ClientError
              (dynamodb_restore_table_to_point_in_time
                 original_table restore_table restore_dt_utc ;;
               logger INFO [FLit "PITR restore initiated for "; FStr restore_table])
              (fun e =>
                 if code_is e "InvalidRestoreTimeException" then
                   log_restore_window original_table e ;;
                   raise e
                 else raise e)) ;;
     ret true)
    (fun e =>
       logger ERROR [FLit "Failed to initiate PITR restore: "; FExn e] ;;
       ret false).

Definition poll_interval : Z := 10.

(** The [for] loop of one polling round; its local variables are
    [all_active] and [active_tables]. *)
Definition poll_round (self : config) (restore_tables : dict string)
    (elapsed : Z) (active_tables : list string) : M (bool * list string) :=
  fold_each restore_tables (true, active_tables)
    (fun acc kv =>
       let table_key := fst kv in
       let restore_table := snd kv in
       if dry_run self then ret acc
       else
         try_except_ClientError
           (response <- dynamodb_describe_table restore_table ;;
            let status := TableStatus response in
            if negb (String.eqb status "ACTIVE") then
              logger INFO [FLit "["; FInt elapsed; FLit "s] "; FStr table_key;
                           FLit ": "; FStr status] ;;
              ret (false, snd acc)
            else if negb (Str.mem restore_table (snd acc)) then
              (* the literal ends in a check mark, left out here *)
              logger INFO [FLit "["; FInt elapsed; FLit "s] "; FStr table_key;
                           FLit ": ACTIVE"] ;;
              ret (fst acc, (snd acc ++ [restore_table])%list)
            else ret acc)
           (fun e =>
              if code_is e "ResourceNotFoundException" then
                logger INFO [FLit "["; FInt elapsed; FLit "s] "; FStr table_key;
                             FLit ": Table not found yet (still creating)"] ;;
                ret (false, snd acc)
              else raise e)).

(** The [while] loop of [_poll_restore_completion]. *)
Fixpoint poll_loop (fuel : nat) (self : config) (restore_tables : dict string)
    (start_time timeout_seconds : Z) (active_tables : list string) : M bool :=
  match fuel with
  | O => diverge
  | S fuel' =>
      now <- time_time ;;
      if now - start_time <? timeout_seconds * DateTime.second_us then
        now <- time_time ;;
        let elapsed := Z.quot (now - start_time) DateTime.second_us in
        round <- poll_round self restore_tables elapsed active_tables ;;
        if fst round then
          logger INFO [FLit "All restore tables are ACTIVE after "; FInt elapsed;
                       FLit "s"] ;;
          ret true
        else
          logger INFO [FLit "Waiting "; FInt poll_interval;
                       FLit "s before next poll..."] ;;
          time_sleep (poll_interval * DateTime.second_us) ;;
          poll_loop fuel' self restore_tables start_time timeout_seconds (snd round)
      else
        logger ERROR [FLit "Restore operation timed out after ";
                      FInt (timeout_minutes self); FLit " minutes"] ;;
        ret false
  end.

Definition _poll_restore_completion (fuel : nat) (self : config)
    (restore_tables : dict string) : M bool :=
  try_except
    (start_time <- time_time ;;
     let timeout_seconds := timeout_minutes self * 60 in
     logger INFO [FLit "Polling restore status every "; FInt poll_interval;
                  FLit " seconds (timeout: "; FInt (timeout_minutes self);
                  FLit " minutes)..."] ;;
     poll_loop fuel self restore_tables start_time timeout_seconds [])
    (fun e =>
       logger ERROR [FLit "Error polling restore status: "; FExn e] ;;
       ret false).

Definition _count_items (table_name : string) : M Z :=
  try_except_ClientError
    (dynamodb_scan_count table_name)
    (fun e =>
       logger ERROR [FLit "Failed to count items in "; FStr table_name;
                     FLit ": "; FExn e] ;;
       raise e).

(** The body of the [for] loop of [_verify_item_counts]. *)
Definition verify_table_counts (self : config) (restore_tables : dict string)
    (kv : string * string) : M unit :=
  let table_key := fst kv in
  let original_table := snd kv in
  restore_table <- subscript restore_tables table_key ;;
  if dry_run self then
    logger INFO [FLit "[DRY RUN] Would check counts for "; FStr original_table]
  else
    original_count <- _count_items original_table ;;
    restore_count <- _count_items restore_table ;;
    if original_count <? restore_count then
      logger WARNING
        [FLit "Unexpected: restore table has MORE items than original for ";
         FStr table_key; FLit ": original="; FInt original_count;
         FLit ", restore="; FInt restore_count] ;;
      logger WARNING [FLit "This may indicate an issue - please verify manually"]
    else if restore_count <? original_count then
      logger INFO
        [FStr table_key; FLit ": original="; FInt original_count;
         FLit ", restore="; FInt restore_count; FLit " (restore has ";
         FInt (original_count - restore_count);
         FLit " fewer items - expected for past restore point)"]
    else
      logger INFO
        [FStr table_key; FLit ": original="; FInt original_count;
         FLit ", restore="; FInt restore_count; FLit " (counts match)"].

Definition _verify_item_counts (self : config) (restore_tables : dict string)
    : M bool :=
  try_except
    (logger INFO [FLit "Checking item counts..."] ;;
     fold_each (tables self) tt
       (fun _ kv => verify_table_counts self restore_tables kv) ;;
     ret true)
    (fun e =>
       logger ERROR [FLit "Error checking item counts: "; FExn e] ;;
       ret false).

Definition batch_size : nat := 25.

(** [range(0, stop, step)] *)
Fixpoint range_from (n start stop step : nat) : list nat :=
  match n with
  | O => []
  | S n' =>
      if (start <? stop)%nat
      then start :: range_from n' (start + step) stop step
      else []
  end.

Definition range0 (stop step : nat) : list nat := range_from stop 0 stop step.

(** [l[i:j]] *)
Definition slice {A} (l : list A) (i j : nat) : list A :=
  firstn (j - i) (skipn i l).

(** [{key_name: item[key_name] for key_name in key_names}] *)
Definition key_of (key_names : list string) (it : item) : M item :=
  fold_each key_names []
    (fun key key_name =>
       v <- subscript it key_name ;;
       ret (dict_set key key_name v)).

(** The batching loop over one scanned page, as [_clear_table] runs it for
    the first page and again for every later one. *)
Definition delete_batches (table_name : string) (key_names : list string)
    (items : list item) (items_deleted : Z) : M Z :=
  fold_each (range0 (List.length items) batch_size) items_deleted
    (fun items_deleted i =>
       let batch := slice items i (i + batch_size) in
       delete_requests <-
         fold_each batch []
           (fun delete_requests it =>
              key <- key_of key_names it ;;
              ret (delete_requests ++ [DeleteRequest key])%list) ;;
       match delete_requests with
       | [] => ret items_deleted
       | _ =>
           dynamodb_batch_write_item table_name delete_requests ;;
           ret (items_deleted + Z.of_nat (List.length delete_requests))
       end).

(** The [while 'LastEvaluatedKey' in scan_response] loop of [_clear_table]. *)
Fixpoint clear_pages (fuel : nat) (table_name : string) (key_names : list string)
    (scan_response : scan_output) (items_deleted : Z) : M Z :=
  match LastEvaluatedKey scan_response with
  | None => ret items_deleted
  | Some last =>
      match fuel with
      | O => diverge
      | S fuel' =>
          scan_response' <- dynamodb_scan table_name (Some last) ;;
          items_deleted' <-
            delete_batches table_name key_names (Items scan_response')
              items_deleted ;;
          clear_pages fuel' table_name key_names scan_response' items_deleted'
      end
  end.

Definition _clear_table (fuel : nat) (table_name : string) : M unit :=
  try_except
    (response <- dynamodb_describe_table table_name ;;
     let key_names := KeySchema response in
     scan_response <- dynamodb_scan table_name None ;;
     items_deleted <-
       delete_batches table_name key_names (Items scan_response) 0 ;;
     items_deleted <-
       clear_pages fuel table_name key_names scan_response items_deleted ;;
     logger INFO [FLit "Cleared "; FStr table_name; FLit " ("; FInt items_deleted;
                  FLit " items deleted)"])
    (fun e =>
       logger ERROR [FLit "Error clearing table "; FStr table_name; FLit ": "; FExn e] ;;
       raise e).

(** The batching loop of [_copy_table_data] over one scanned page. *)
Definition put_batches (target_table : string) (items : list item)
    (items_written : Z) : M Z :=
  fold_each (range0 (List.length items) batch_size) items_written
    (fun items_written i =>
       let batch := slice items i (i + batch_size) in
       let put_requests := map PutRequest batch in
       match put_requests with
       | [] => ret items_written
       | _ =>
           dynamodb_batch_write_item target_table put_requests ;;
           ret (items_written + Z.of_nat (List.length put_requests))
       end).

(** The [while 'LastEvaluatedKey' in scan_response] loop of [_copy_table_data]. *)
Fixpoint copy_pages (fuel : nat) (source_table target_table : string)
    (scan_response : scan_output) (items_written : Z) : M Z :=
  match LastEvaluatedKey scan_response with
  | None => ret items_written
  | Some last =>
      match fuel with
      | O => diverge
      | S fuel' =>
          scan_response' <- dynamodb_scan source_table (Some last) ;;
          items_written' <-
            put_batches target_table (Items scan_response') items_written ;;
          copy_pages fuel' source_table target_table scan_response' items_written'
      end
  end.

Definition _copy_table_data (fuel : nat) (source_table target_table : string)
    : M Z :=
  try_except
    (scan_response <- dynamodb_scan source_table None ;;
     items_written <- put_batches target_table (Items scan_response) 0 ;;
     copy_pages fuel source_table target_table scan_response items_written)
    (fun e =>
       logger ERROR [FLit "Error copying table data: "; FExn e] ;;
       raise e).

Definition _swap_table_data (fuel : nat) (original_table restore_table : string)
    : M bool :=
  try_except
    (logger INFO [FLit "Swapping data for "; FStr original_table] ;;
     logger INFO [FLit "Clearing "; FStr original_table; FLit "..."] ;;
     _clear_table fuel original_table ;;
     logger INFO [FLit "Copying data from "; FStr restore_table; FLit " to ";
                  FStr original_table; FLit "..."] ;;
     items_written <- _copy_table_data fuel restore_table original_table ;;
     logger INFO [FLit "Swapped data for "; FStr original_table; FLit " (";
                  FInt items_written; FLit " items)"] ;;
     ret true)
    (fun e =>
       logger ERROR [FLit "Error swapping table data: "; FExn e] ;;
       ret false).

Definition _swap_data (fuel : nat) (self : config) (restore_tables : dict string)
    : M bool :=
  try_except
    (logger INFO [FLit "Swapping data from restore tables to production tables..."] ;;
     returned <-
       for_each (tables self)
         (fun kv =>
            let table_key := fst kv in
            let original_table := snd kv in
            restore_table <- subscript restore_tables table_key ;;
            if dry_run self then
              logger INFO [FLit "[DRY RUN] Would swap data for "; FStr original_table] ;;
              ret None
            else
              swapped <- _swap_table_data fuel original_table restore_table ;;
              if negb swapped then
                logger ERROR [FLit "Failed to swap data for "; FStr table_key] ;;
                ret (Some false)
              else ret None) ;;
     match returned with
     | Some b => ret b
     | None => ret true
     end)
    (fun e =>
       logger ERROR [FLit "Error swapping data: "; FExn e] ;;
       ret false).

Definition _delete_restore_tables (self : config) (restore_tables : dict string)
    : M bool :=
  try_except
    (logger INFO [FLit "Deleting restore tables..."] ;;
     fold_each restore_tables true
       (fun all_deleted kv =>
          let restore_table := snd kv in
          if dry_run self then
            logger INFO [FLit "[DRY RUN] Would delete "; FStr restore_table] ;;
            ret all_deleted
          else
            try_except_ClientError
              (logger INFO [FLit "Deleting restore table: "; FStr restore_table] ;;
               dynamodb_delete_table restore_table ;;
               logger INFO [FLit "Deleted "; FStr restore_table] ;;
               ret all_deleted)
              (fun e =>
                 logger WARNING [FLit "Failed to delete "; FStr restore_table;
                                 FLit ": "; FExn e] ;;
                 ret false)))
    (fun e =>
       logger ERROR [FLit "Error deleting restore tables: "; FExn e] ;;
       ret false).

(** [run], lines 153-161: the timestamp token and the restore table names. *)
Definition name_restore_tables (self : config) (restore_point_in_time : string)
    : M (dict string) :=
  restore_dt <- parse restore_point_in_time ;;
  let restore_dt :=
    match DateTime.tz restore_dt with
    | None => DateTime.replace_tzinfo restore_dt (berlin restore_dt)
    | Some _ => restore_dt
    end in
  put_restore_point_timestamp (DateTime.strftime_compact restore_dt) ;;
  _get_restore_table_names self.

(** [run], lines 162-187: reuse the restore tables of this restore point, or
    clean up those of other restore points.  The result is [skip_restore]. *)
Definition reuse_or_clean (self : config) (restore_tables : dict string) : M bool :=
  existing_restore_tables <- _check_existing_restore_tables restore_tables ;;
  match existing_restore_tables with
  | _ :: _ =>
      logger INFO [FLit "Found "; FInt (Z.of_nat (List.length existing_restore_tables));
                   FLit " existing restore table(s) for this restore point:"] ;;
      fold_each existing_restore_tables tt
        (fun _ kv => logger INFO [FLit "  - "; FStr (fst kv); FLit ": "; FStr (snd kv)]) ;;
      let all_active :=
        forallb (fun status => String.eqb status "ACTIVE")
                (values existing_restore_tables) in
      if all_active then
        logger INFO [FLit "All restore tables already exist and are ACTIVE. Skipping restore initiation."] ;;
        ret true
      else
        logger INFO [FLit "Some restore tables exist but are not ACTIVE. Will wait for them to complete."] ;;
        ret true
  | [] =>
      old_restore_tables <- _find_old_restore_tables self restore_tables ;;
      match old_restore_tables with
      | _ :: _ =>
          logger WARNING [FLit "Found "; FInt (Z.of_nat (List.length old_restore_tables));
                          FLit " old restore table(s) from previous runs:"] ;;
          fold_each old_restore_tables tt
            (fun _ table_name => logger WARNING [FLit "  - "; FStr table_name]) ;;
          if negb (dry_run self) then
            logger INFO [FLit "Cleaning up old restore tables..."] ;;
            _cleanup_existing_restore_tables old_restore_tables
          else ret tt
      | [] => ret tt
      end ;;
      ret false
  end.

(** [run], lines 204-224: polling, verification, swap and clean-up.  The
    result is [false] where the block executes [return False], and [true]
    where it runs to its end. *)
Definition poll_verify_swap (fuel : nat) (self : config)
    (restore_point_in_time : string) (restore_tables : dict string) : M bool :=
  polled <- _poll_restore_completion fuel self restore_tables ;;
  if negb polled then
    logger ERROR [FLit "Restore operation timed out"] ;;
    _update_status self "FAILED" restore_point_in_time
      (Some "Restore operation timed out") ;;
    ret false
  else
    verified <- _verify_item_counts self restore_tables ;;
    if negb verified then
      logger ERROR [FLit "Item count verification failed"] ;;
      _update_status self "FAILED" restore_point_in_time
        (Some "Item count mismatch") ;;
      ret false
    else
      swapped <- _swap_data fuel self restore_tables ;;
      if negb swapped then
        logger ERROR [FLit "Data swap failed"] ;;
        _update_status self "FAILED" restore_point_in_time
          (Some "Data swap failed") ;;
        ret false
      else
        deleted <- _delete_restore_tables self restore_tables ;;
        (if negb deleted
         then logger WARNING [FLit "Some restore tables could not be deleted"]
         else ret tt) ;;
        ret true.

(** [run], lines 197-224: the body of the [with RestoreLock] block. *)
Definition restore_steps (fuel : nat) (self : config)
    (restore_point_in_time : string) (restore_tables : dict string)
    (skip_restore : bool) : M bool :=
  initiated <-
    (if negb skip_restore
     then _initiate_pitr_restores self restore_point_in_time
     else ret true) ;;
  if negb initiated then
    logger ERROR [FLit "Failed to initiate PITR restores"] ;;
    _update_status self "FAILED" restore_point_in_time
      (Some "Failed to initiate PITR restores") ;;
    ret false
  else poll_verify_swap fuel self restore_point_in_time restore_tables.

(** [run], lines 145-151. *)
Definition run_begin (self : config) (restore_point_in_time : string) : M unit :=
  logger INFO [FLit "Starting DynamoDB PITR restore (ID: ";
               FStr (restore_id self); FLit ")"] ;;
  logger INFO [FLit "Restore point: "; FStr restore_point_in_time] ;;
  (if dry_run self
   then logger INFO [FLit "DRY RUN MODE - No changes will be made"]
   else ret tt) ;;
  _update_status self "INITIALIZING" restore_point_in_time None.

(** [run], lines 145-187: all that precedes the validation of the restore
    point.  The result is [(restore_tables, skip_restore)]. *)
Definition before_validation (self : config) (restore_point_in_time : string)
    : M (dict string * bool) :=
  run_begin self restore_point_in_time ;;
  restore_tables <- name_restore_tables self restore_point_in_time ;;
  skip_restore <- reuse_or_clean self restore_tables ;;
  ret (restore_tables, skip_restore).

(** [run], lines 189-228: validation, and the pipeline under the lock. *)
Definition validate_and_restore (fuel : nat) (self : config)
    (restore_point_in_time : string) (restore_tables : dict string)
    (skip_restore : bool) : M bool :=
  valid <- _validate_restore_point restore_point_in_time ;;
  if negb valid then
    logger ERROR [FLit "Restore point validation failed"] ;;
    _update_status self "FAILED" restore_point_in_time
      (Some "Invalid restore point") ;;
    ret false
  else
    completed <-
      RestoreLock_with fuel (lock_file self)
        (restore_steps fuel self restore_point_in_time restore_tables
           skip_restore) ;;
    if completed then
      logger INFO [FLit "Restore completed successfully"] ;;
      _update_status self "COMPLETED" restore_point_in_time None ;;
      ret true
    else ret false.

(** [run], lines 230-233: the handler of [except Exception as e]. *)
Definition run_failed (self : config) (restore_point_in_time : string) (e : exn)
    : M bool :=
  logger ERROR [FLit "Unexpected error during restore: "; FExn e] ;;
  _update_status self "FAILED" restore_point_in_time (Some (str_exn e)) ;;
  ret false.

Definition run (fuel : nat) (self : config) (restore_point_in_time : string)
    : M bool :=
  try_except
    (prepared <- before_validation self restore_point_in_time ;;
     validate_and_restore fuel self restore_point_in_time
       (fst prepared) (snd prepared))
    (run_failed self restore_point_in_time).

(** [main]'s exit code for the result of [run]. *)
Definition exit_code (success : outcome bool) : option Z :=
  match success with
  | Ok true => Some 0
  | Ok false => Some 1
  | Raise _ => Some 1
  | Diverge => None
  end.

(** * Properties *)

(** ** Relating the state before and after a computation

    [steps R m]: whatever [m] does and however it ends, the states before and
    after are related by [R].  [R] is a preorder that the log, the status
    file and the timestamp attribute do not disturb. *)

Class Frame (R : state -> state -> Prop) := {
  frame_refl : forall s, R s s;
  frame_trans : forall a b c, R a b -> R b c -> R a c;
  frame_log : forall s r, R s (add_log s r);
  frame_status : forall s d, R s (set_status_file s d);
  frame_timestamp : forall s t, R s (set_restore_point_timestamp s t)
}.

Definition steps (R : state -> state -> Prop) {A} (m : M A) : Prop :=
  forall s, R s (snd (m s)).

Section Steps.

Context (R : state -> state -> Prop) {F : Frame R}.

Lemma steps_ret {A} (a : A) : steps R (ret a).
Proof. intros s. apply frame_refl. Qed.

Lemma steps_raise {A} (e : exn) : steps R (@raise A e).
Proof. intros s. apply frame_refl. Qed.

Lemma steps_diverge {A} : steps R (@diverge A).
Proof. intros s. apply frame_refl. Qed.

Lemma steps_bind {A B} (m : M A) (k : A -> M B) :
  steps R m -> (forall a, steps R (k a)) -> steps R (bind m k).
Proof.
  intros Hm Hk s. unfold bind. specialize (Hm s).
  destruct (m s) as [[a|e|] s']; simpl in *; try assumption.
  eapply frame_trans; [exact Hm|apply Hk].
Qed.

Lemma steps_try_except {A} (m : M A) (h : exn -> M A) :
  steps R m -> (forall e, steps R (h e)) -> steps R (try_except m h).
Proof.
  intros Hm Hh s. unfold try_except. specialize (Hm s).
  destruct (m s) as [[a|e|] s']; simpl in *; try assumption.
  eapply frame_trans; [exact Hm|apply Hh].
Qed.

Lemma steps_try_except_ClientError {A} (m : M A) (h : exn -> M A) :
  steps R m -> (forall e, steps R (h e)) -> steps R (try_except_ClientError m h).
Proof.
  intros Hm Hh s. unfold try_except_ClientError. specialize (Hm s).
  destruct (m s) as [[a|[c msg|k msg]|] s']; simpl in *; try assumption.
  eapply frame_trans; [exact Hm|apply Hh].
Qed.

Lemma steps_finally {A} (m : M A) (f : M unit) :
  steps R m -> steps R f -> steps R (finally m f).
Proof.
  intros Hm Hf s. unfold finally. specialize (Hm s).
  destruct (m s) as [[a|e|] s']; simpl in *; try assumption;
    (eapply frame_trans; [exact Hm|apply Hf]).
Qed.

Lemma steps_for_each {A B} (l : list A) (body : A -> M (option B)) :
  (forall x, steps R (body x)) -> steps R (for_each l body).
Proof.
  intros Hb. induction l as [|x l IH]; simpl.
  - apply steps_ret.
  - apply steps_bind; [apply Hb|]. intros [v|]; [apply steps_ret|exact IH].
Qed.

Lemma steps_fold_each {A B} (l : list A) (acc : B) (body : B -> A -> M B) :
  (forall acc x, steps R (body acc x)) -> steps R (fold_each l acc body).
Proof.
  intros Hb. revert acc. induction l as [|x l IH]; intros acc; simpl.
  - apply steps_ret.
  - apply steps_bind; [apply Hb|]. intros acc'. apply IH.
Qed.

Lemma steps_logger (lvl : level) (msg : list fragment) : steps R (logger lvl msg).
Proof. intros s. apply frame_log. Qed.

Lemma steps_time_time : steps R time_time.
Proof. intros s. apply frame_refl. Qed.

Lemma steps_subscript {V} (d : dict V) (k : string) : steps R (subscript d k).
Proof. intros s. unfold subscript. destruct (dict_get d k); apply frame_refl. Qed.

Lemma steps_parse (p : string) : steps R (parse p).
Proof. intros s. unfold parse. destruct (isoparse p); apply frame_refl. Qed.

Lemma steps_get_restore_point_timestamp : steps R get_restore_point_timestamp.
Proof. intros s. apply frame_refl. Qed.

Lemma steps_put_restore_point_timestamp (t : string) :
  steps R (put_restore_point_timestamp t).
Proof. intros s. apply frame_timestamp. Qed.

Lemma steps_write_status_file (d : status_data) : steps R (write_status_file d).
Proof. intros s. apply frame_status. Qed.

Lemma steps_RestoreLock_get_lock_acquired : steps R RestoreLock_get_lock_acquired.
Proof. intros s. apply frame_refl. Qed.

Lemma steps_RestoreLock_exists : steps R RestoreLock_exists.
Proof. intros s. apply frame_refl. Qed.

Lemma steps_RestoreLock__is_stale (n : Z) : steps R (RestoreLock__is_stale n).
Proof.
  intros s. unfold RestoreLock__is_stale.
  destruct (lock_marker s); apply frame_refl.
Qed.

End Steps.

(** [returns m Q]: when [m] returns a value, the value satisfies [Q]. *)
Definition returns {A} (m : M A) (Q : A -> Prop) : Prop :=
  forall s, match fst (m s) with Ok a => Q a | _ => True end.

Lemma steps_bind_returns (R : state -> state -> Prop) {F : Frame R} {A B}
    (Q : A -> Prop) (m : M A) (k : A -> M B) :
  returns m Q -> steps R m -> (forall a, Q a -> steps R (k a)) ->
  steps R (bind m k).
Proof.
  intros HQ Hm Hk s. unfold bind. specialize (Hm s). specialize (HQ s).
  destruct (m s) as [[a|e|] s']; simpl in *; try assumption.
  eapply frame_trans; [exact Hm|now apply Hk].
Qed.

Lemma steps_for_each_In (R : state -> state -> Prop) {F : Frame R} {A B}
    (l : list A) (body : A -> M (option B)) :
  (forall x, In x l -> steps R (body x)) -> steps R (for_each l body).
Proof.
  induction l as [|x l IH]; intros Hb; simpl.
  - now apply steps_ret.
  - apply steps_bind; [assumption|apply Hb; now left|].
    intros [v|]; [now apply steps_ret|]. apply IH.
    intros y Hy. apply Hb. now right.
Qed.

Lemma steps_fold_each_In (R : state -> state -> Prop) {F : Frame R} {A B}
    (l : list A) (acc : B) (body : B -> A -> M B) :
  (forall acc x, In x l -> steps R (body acc x)) ->
  steps R (fold_each l acc body).
Proof.
  revert acc. induction l as [|x l IH]; intros acc Hb; simpl.
  - now apply steps_ret.
  - apply steps_bind; [assumption|apply Hb; now left|].
    intros acc'. apply IH. intros a y Hy. apply Hb. now right.
Qed.

Lemma subscript_returns {V} (d : dict V) (k : string) :
  returns (subscript d k) (fun v => In v (values d)).
Proof.
  intros s. unfold subscript. destruct (dict_get d k) as [v|] eqn:E; simpl; [|exact I].
  induction d as [|[k' v'] d IH]; simpl in *; [discriminate|].
  destruct (String.eqb k k'); [injection E as <-; now left|right; now apply IH].
Qed.

Create HintDb steps.

(** Walks down a computation to the calls and sleeps at its leaves, which
    [leaf] has to settle. *)
Ltac steps_with leaf :=
  repeat first
    [ progress intros
    | match goal with
      | |- Frame _ => exact _
      | |- steps _ (ret _) => apply steps_ret
      | |- steps _ (raise _) => apply steps_raise
      | |- steps _ diverge => apply steps_diverge
      | |- steps _ (logger _ _) => apply steps_logger
      | |- steps _ time_time => apply steps_time_time
      | |- steps _ (subscript _ _) => apply steps_subscript
      | |- steps _ (parse _) => apply steps_parse
      | |- steps _ get_restore_point_timestamp =>
          apply steps_get_restore_point_timestamp
      | |- steps _ (put_restore_point_timestamp _) =>
          apply steps_put_restore_point_timestamp
      | |- steps _ (write_status_file _) => apply steps_write_status_file
      | |- steps _ RestoreLock_get_lock_acquired =>
          apply steps_RestoreLock_get_lock_acquired
      | |- steps _ RestoreLock_exists => apply steps_RestoreLock_exists
      | |- steps _ (RestoreLock__is_stale _) => apply steps_RestoreLock__is_stale
      | |- steps _ (bind (subscript _ _) _) =>
          eapply steps_bind_returns;
          [exact _|apply subscript_returns|apply steps_subscript|]
      | |- steps _ (bind _ _) => apply steps_bind
      | |- steps _ (try_except _ _) => apply steps_try_except
      | |- steps _ (try_except_ClientError _ _) =>
          apply steps_try_except_ClientError
      | |- steps _ (finally _ _) => apply steps_finally
      | |- steps _ (for_each _ _) => apply steps_for_each_In
      | |- steps _ (fold_each _ _ _) => apply steps_fold_each_In
      | |- steps _ (if ?b then _ else _) => destruct b eqn:?
      | |- steps _ (match ?x with _ => _ end) => destruct x eqn:?
      end
    | leaf ].

Ltac steps_tac := steps_with ltac:(solve [auto with steps]).

(** ** The provider calls a computation issues *)

Definition emitting (P : event -> Prop) (s s' : state) : Prop :=
  exists evs, trace s' = (trace s ++ evs)%list /\ Forall P evs.

#[export] Instance emitting_Frame (P : event -> Prop) : Frame (emitting P).
Proof.
  split.
  - intros s. exists []. split; [now rewrite app_nil_r|constructor].
  - intros a b c [e1 [H1 F1]] [e2 [H2 F2]]. exists (e1 ++ e2)%list. split.
    + now rewrite H2, H1, app_assoc.
    + apply Forall_app. now split.
  - intros s r. exists []. split; [simpl; now rewrite app_nil_r|constructor].
  - intros s d. exists []. split; [simpl; now rewrite app_nil_r|constructor].
  - intros s t. exists []. split; [simpl; now rewrite app_nil_r|constructor].
Qed.

Lemma emitting_weaken (P Q : event -> Prop) (s s' : state) :
  (forall ev, P ev -> Q ev) -> emitting P s s' -> emitting Q s s'.
Proof.
  intros H [evs [E F]]. exists evs. split; [assumption|].
  eapply Forall_impl; eassumption.
Qed.

Lemma steps_weaken (P Q : event -> Prop) {A} (m : M A) :
  (forall ev, P ev -> Q ev) -> steps (emitting P) m -> steps (emitting Q) m.
Proof. intros H Hm s. eapply emitting_weaken; [exact H|apply Hm]. Qed.

Lemma emitting_same_trace (P : event -> Prop) (s s' : state) :
  trace s' = trace s -> emitting P s s'.
Proof. intros H. exists []. split; [now rewrite app_nil_r|constructor]. Qed.

Definition no_event (ev : event) : Prop := False.

Lemma emitting_no_event (s s' : state) :
  emitting no_event s s' <-> trace s' = trace s.
Proof.
  split.
  - intros [evs [E F]]. destruct evs as [|ev evs].
    + now rewrite app_nil_r in E.
    + inversion F as [|? ? H]. destruct H.
  - apply emitting_same_trace.
Qed.

Lemma steps_invoke (P : event -> Prop) {A} (c : call)
    (op : provider -> provider * (exn + A)) (wrap : A -> response) :
  (forall r, P {| ev_call := c; ev_result := r |}) ->
  steps (emitting P) (invoke c op wrap).
Proof.
  intros H s. unfold invoke.
  destruct (op (provider_state s)) as [p [e|a]]; simpl;
    eexists; (split; [reflexivity|]); repeat constructor; apply H.
Qed.

Lemma steps_time_sleep (P : event -> Prop) (d : Z) :
  steps (emitting P) (time_sleep d).
Proof. intros s. now apply emitting_same_trace. Qed.

Lemma steps_RestoreLock_os_open_excl (P : event -> Prop) :
  steps (emitting P) RestoreLock_os_open_excl.
Proof.
  intros s. unfold RestoreLock_os_open_excl.
  destruct (lock_marker s); now apply emitting_same_trace.
Qed.

Lemma steps_RestoreLock_unlink (P : event -> Prop) :
  steps (emitting P) RestoreLock_unlink.
Proof.
  intros s. unfold RestoreLock_unlink.
  destruct (lock_marker s); now apply emitting_same_trace.
Qed.

Lemma steps_RestoreLock_set_lock_acquired (P : event -> Prop) (b : bool) :
  steps (emitting P) (RestoreLock_set_lock_acquired b).
Proof. intros s. now apply emitting_same_trace. Qed.

#[local] Hint Resolve steps_time_sleep steps_RestoreLock_os_open_excl
  steps_RestoreLock_unlink steps_RestoreLock_set_lock_acquired : steps.

Lemma _update_status_steps (R : state -> state -> Prop) {F : Frame R}
    (self : config) (status p : string) (msg : option string) :
  steps R (_update_status self status p msg).
Proof. unfold _update_status. steps_tac. Qed.

#[local] Hint Resolve _update_status_steps : steps.

Lemma _validate_restore_point_steps (R : state -> state -> Prop) {F : Frame R}
    (p : string) :
  steps R (_validate_restore_point p).
Proof. unfold _validate_restore_point. steps_tac. Qed.

#[local] Hint Resolve _validate_restore_point_steps : steps.

(** ** Which calls each part of the run may issue *)

Definition on_call (P : call -> Prop) (ev : event) : Prop := P (ev_call ev).

(** A table named like a restore table of [self], but not one of
    [restore_tables]. *)
Definition old_restore_table (self : config) (restore_tables : dict string)
    (table_name : string) : Prop :=
  (exists original_table,
      In original_table (values (tables self)) /\
      Str.startswith table_name (original_table ++ "-restore-") = true) /\
  ~ In table_name (values restore_tables).

Inductive stage :=
| Checking | Initiating | Polling | Verifying | Swapping | Deleting.

Definition stage_call (self : config) (restore_tables : dict string)
    (st : stage) (c : call) : Prop :=
  match st, c with
  | Checking, describe_table n => In n (values restore_tables)
  | Checking, list_tables => True
  | Checking, delete_table n =>
      dry_run self = false /\ old_restore_table self restore_tables n
  | Initiating, restore_table_to_point_in_time source _ _ =>
      dry_run self = false /\ In source (values (tables self))
  | Initiating, describe_table n =>
      dry_run self = false /\ In n (values (tables self))
  | Initiating, describe_continuous_backups n =>
      dry_run self = false /\ In n (values (tables self))
  | Polling, describe_table n =>
      dry_run self = false /\ In n (values restore_tables)
  | Verifying, scan_count n =>
      dry_run self = false /\
      (In n (values (tables self)) \/ In n (values restore_tables))
  | Swapping, describe_table n =>
      dry_run self = false /\ In n (values (tables self))
  | Swapping, scan n _ =>
      dry_run self = false /\
      (In n (values (tables self)) \/ In n (values restore_tables))
  | Swapping, batch_write_item n requests =>
      dry_run self = false /\ In n (values (tables self)) /\
      (List.length requests <= batch_size)%nat
  | Deleting, delete_table n =>
      dry_run self = false /\ In n (values restore_tables)
  | _, _ => False
  end.

Lemma In_values {V} (kv : string * V) (d : dict V) :
  In kv d -> In (snd kv) (values d).
Proof. intros H. unfold values. now apply in_map. Qed.

Lemma negb_true_false (b : bool) : negb b = true -> b = false.
Proof. now destruct b. Qed.

Lemma negb_false_true (b : bool) : negb b = false -> b = true.
Proof. now destruct b. Qed.

#[local] Hint Resolve In_values negb_true_false negb_false_true : steps.
#[local] Hint Extern 0 (Frame _) => exact _ : steps.

(** Settles a leaf that is a call of the client. *)
Ltac call_leaf :=
  first
    [ solve [auto with steps]
    | unfold dynamodb_describe_table, dynamodb_list_tables, dynamodb_delete_table,
        dynamodb_restore_table_to_point_in_time, dynamodb_scan_count,
        dynamodb_scan, dynamodb_batch_write_item,
        dynamodb_describe_continuous_backups;
      apply steps_invoke; intros ?; unfold on_call; cbn [ev_call stage_call];
      solve [intuition (auto with steps)] ].

Lemma _check_existing_restore_tables_steps (self : config) (rt : dict string) :
  steps (emitting (on_call (stage_call self rt Checking)))
        (_check_existing_restore_tables rt).
Proof. unfold _check_existing_restore_tables. steps_with call_leaf. Qed.

Lemma match_restore_pattern_old (self : config) (rt : dict string)
    (originals : dict string) (name : string) (old : list string) :
  (forall kv, In kv originals -> In (snd kv) (values (tables self))) ->
  Forall (old_restore_table self rt) old ->
  Forall (old_restore_table self rt)
         (match_restore_pattern originals name (values rt) old).
Proof.
  induction originals as [|[k original] rest IH]; intros Hin Hold; simpl.
  - assumption.
  - destruct (Str.startswith name (original ++ "-restore-")) eqn:Hp.
    + destruct (Str.mem name (values rt)) eqn:Hm; simpl; [assumption|].
      apply Forall_app. split; [assumption|]. constructor; [|constructor].
      split.
      * exists original. split; [apply (Hin (k, original)); now left|assumption].
      * intros Hc. apply Str.mem_In in Hc. congruence.
    + apply IH; [|assumption]. intros kv Hkv. apply Hin. now right.
Qed.

Lemma find_old_pages_old (self : config) (rt : dict string)
    (pages : list (list string)) (old : list string) :
  Forall (old_restore_table self rt) old ->
  Forall (old_restore_table self rt)
    (fold_left
       (fun old_tables page =>
          fold_left
            (fun old_tables table_name =>
               match_restore_pattern (tables self) table_name (values rt)
                 old_tables)
            page old_tables)
       pages old).
Proof.
  revert old. induction pages as [|page pages IH]; intros old Hold;
    cbn [fold_left].
  - assumption.
  - apply IH. clear IH. revert old Hold.
    induction page as [|name page IHp]; intros old Hold; cbn [fold_left].
    + assumption.
    + apply IHp. apply match_restore_pattern_old; [|assumption].
      intros kv Hkv. now apply In_values.
Qed.

Lemma _find_old_restore_tables_returns (self : config) (rt : dict string) :
  returns (_find_old_restore_tables self rt) (Forall (old_restore_table self rt)).
Proof.
  intros s. unfold _find_old_restore_tables, try_except, bind,
    dynamodb_list_tables, invoke.
  destruct (db_list_tables (provider_state s)) as [pv [e|pages]]; simpl.
  - constructor.
  - apply find_old_pages_old. constructor.
Qed.

Lemma _find_old_restore_tables_steps (self : config) (rt : dict string) :
  steps (emitting (on_call (stage_call self rt Checking)))
        (_find_old_restore_tables self rt).
Proof. unfold _find_old_restore_tables. steps_with call_leaf. Qed.

Lemma _cleanup_existing_restore_tables_steps (self : config) (rt : dict string)
    (names : list string) :
  dry_run self = false ->
  Forall (old_restore_table self rt) names ->
  steps (emitting (on_call (stage_call self rt Checking)))
        (_cleanup_existing_restore_tables names).
Proof.
  intros Hdry Hold. unfold _cleanup_existing_restore_tables.
  rewrite Forall_forall in Hold.
  steps_with call_leaf.
Qed.

#[local] Hint Resolve _check_existing_restore_tables_steps
  _find_old_restore_tables_steps : steps.

Lemma reuse_or_clean_steps (self : config) (rt : dict string) :
  steps (emitting (on_call (stage_call self rt Checking)))
        (reuse_or_clean self rt).
Proof.
  unfold reuse_or_clean.
  apply steps_bind; [exact _|apply _check_existing_restore_tables_steps|].
  intros existing. destruct existing as [|kv existing].
  - eapply steps_bind_returns;
      [exact _|apply _find_old_restore_tables_returns
      |apply _find_old_restore_tables_steps|].
    intros old Hold.
    pose proof (fun H => _cleanup_existing_restore_tables_steps self rt old H Hold).
    steps_with call_leaf.
  - steps_with call_leaf.
Qed.

Lemma log_restore_window_steps (self : config) (rt : dict string)
    (original_table : string) (e : exn) :
  dry_run self = false -> In original_table (values (tables self)) ->
  steps (emitting (on_call (stage_call self rt Initiating)))
        (log_restore_window original_table e).
Proof. intros Hdry Hin. unfold log_restore_window. steps_with call_leaf. Qed.

Lemma _get_restore_table_names_steps (R : state -> state -> Prop) {F : Frame R}
    (self : config) :
  steps R (_get_restore_table_names self).
Proof. unfold _get_restore_table_names. steps_tac. Qed.

#[local] Hint Resolve _get_restore_table_names_steps : steps.

Lemma _initiate_pitr_restores_steps (self : config) (rt : dict string) (p : string) :
  steps (emitting (on_call (stage_call self rt Initiating)))
        (_initiate_pitr_restores self p).
Proof.
  unfold _initiate_pitr_restores.
  pose proof (log_restore_window_steps self rt).
  steps_with call_leaf.
Qed.

Lemma poll_round_steps (self : config) (rt : dict string) (elapsed : Z)
    (active : list string) :
  steps (emitting (on_call (stage_call self rt Polling)))
        (poll_round self rt elapsed active).
Proof. unfold poll_round. steps_with call_leaf. Qed.

#[local] Hint Resolve poll_round_steps : steps.

Lemma poll_loop_steps (fuel : nat) (self : config) (rt : dict string)
    (start timeout : Z) (active : list string) :
  steps (emitting (on_call (stage_call self rt Polling)))
        (poll_loop fuel self rt start timeout active).
Proof.
  revert active. induction fuel as [|fuel IH]; intros active; simpl.
  - steps_tac.
  - steps_with call_leaf.
Qed.

#[local] Hint Resolve poll_loop_steps : steps.

Lemma _poll_restore_completion_steps (fuel : nat) (self : config) (rt : dict string) :
  steps (emitting (on_call (stage_call self rt Polling)))
        (_poll_restore_completion fuel self rt).
Proof. unfold _poll_restore_completion. steps_with call_leaf. Qed.

Lemma _verify_item_counts_steps (self : config) (rt : dict string) :
  steps (emitting (on_call (stage_call self rt Verifying)))
        (_verify_item_counts self rt).
Proof.
  unfold _verify_item_counts, verify_table_counts, _count_items.
  steps_with call_leaf.
Qed.

Lemma _delete_restore_tables_steps (self : config) (rt : dict string) :
  steps (emitting (on_call (stage_call self rt Deleting)))
        (_delete_restore_tables self rt).
Proof. unfold _delete_restore_tables. steps_with call_leaf. Qed.

Lemma slice_length {A} (l : list A) (i n : nat) :
  (List.length (slice l i (i + n)) <= n)%nat.
Proof.
  unfold slice. replace (i + n - i)%nat with n by lia.
  apply firstn_le_length.
Qed.

Lemma delete_requests_length (key_names : list string) (batch : list item)
    (acc : list write_request) :
  returns
    (fold_each batch acc
       (fun delete_requests it =>
          key <- key_of key_names it ;;
          ret (delete_requests ++ [DeleteRequest key])%list))
    (fun requests =>
       List.length requests = (List.length acc + List.length batch)%nat).
Proof.
  revert acc. induction batch as [|it batch IH]; intros acc s; simpl.
  - lia.
  - unfold bind at 1. unfold bind at 1.
    destruct (key_of key_names it s) as [[key|e|] s1]; simpl; [|exact I|exact I].
    specialize (IH (acc ++ [DeleteRequest key])%list s1).
    destruct (fst _); [|exact I|exact I].
    rewrite IH, length_app. simpl. lia.
Qed.

Lemma key_of_steps (R : state -> state -> Prop) {F : Frame R}
    (key_names : list string) (it : item) :
  steps R (key_of key_names it).
Proof. unfold key_of. steps_tac. Qed.

#[local] Hint Resolve key_of_steps : steps.

Section Swapping.

Variables (self : config) (rt : dict string).
Hypothesis Hwet : dry_run self = false.

Let allowed := emitting (on_call (stage_call self rt Swapping)).

Lemma delete_batches_steps (table_name : string) (key_names : list string)
    (items : list item) (n : Z) :
  In table_name (values (tables self)) ->
  steps allowed (delete_batches table_name key_names items n).
Proof.
  intros Hin. unfold delete_batches.
  apply steps_fold_each_In; [exact _|]. intros acc i _.
  eapply steps_bind_returns;
    [exact _|apply delete_requests_length|steps_tac|].
  intros requests Hlen. simpl in Hlen.
  pose proof (slice_length items i batch_size) as Hle.
  destruct requests as [|r requests]; [steps_tac|].
  apply steps_bind; [exact _| |steps_tac].
  unfold dynamodb_batch_write_item. apply steps_invoke. intros res.
  unfold on_call. cbn [ev_call stage_call]. repeat split; try assumption.
  rewrite Hlen. exact Hle.
Qed.

Lemma clear_pages_steps (fuel : nat) (table_name : string)
    (key_names : list string) (scan_response : scan_output) (n : Z) :
  In table_name (values (tables self)) ->
  steps allowed (clear_pages fuel table_name key_names scan_response n).
Proof.
  intros Hin. revert scan_response n.
  induction fuel as [|fuel IH]; intros scan_response n; simpl;
    destruct (LastEvaluatedKey scan_response); try solve [steps_tac].
  pose proof (delete_batches_steps table_name key_names).
  steps_with call_leaf.
Qed.

Lemma _clear_table_steps (fuel : nat) (table_name : string) :
  In table_name (values (tables self)) ->
  steps allowed (_clear_table fuel table_name).
Proof.
  intros Hin. unfold _clear_table.
  pose proof (delete_batches_steps table_name).
  pose proof (clear_pages_steps fuel table_name).
  steps_with call_leaf.
Qed.

Lemma put_batches_steps (target_table : string) (items : list item) (n : Z) :
  In target_table (values (tables self)) ->
  steps allowed (put_batches target_table items n).
Proof.
  intros Hin. unfold put_batches.
  apply steps_fold_each_In; [exact _|]. intros acc i _.
  pose proof (slice_length items i batch_size) as Hle.
  destruct (map PutRequest (slice items i (i + batch_size))) as [|r requests] eqn:E;
    [steps_tac|].
  apply steps_bind; [exact _| |steps_tac].
  unfold dynamodb_batch_write_item. apply steps_invoke. intros res.
  unfold on_call. cbn [ev_call stage_call]. repeat split; try assumption.
  rewrite <- E, length_map. exact Hle.
Qed.

Lemma copy_pages_steps (fuel : nat) (source_table target_table : string)
    (scan_response : scan_output) (n : Z) :
  In source_table (values rt) -> In target_table (values (tables self)) ->
  steps allowed (copy_pages fuel source_table target_table scan_response n).
Proof.
  intros Hs Ht. revert scan_response n.
  induction fuel as [|fuel IH]; intros scan_response n; simpl;
    destruct (LastEvaluatedKey scan_response); try solve [steps_tac].
  pose proof (put_batches_steps target_table).
  steps_with call_leaf.
Qed.

Lemma _copy_table_data_steps (fuel : nat) (source_table target_table : string) :
  In source_table (values rt) -> In target_table (values (tables self)) ->
  steps allowed (_copy_table_data fuel source_table target_table).
Proof.
  intros Hs Ht. unfold _copy_table_data.
  pose proof (put_batches_steps target_table).
  pose proof (copy_pages_steps fuel source_table target_table).
  steps_with call_leaf.
Qed.

Lemma _swap_table_data_steps (fuel : nat) (original_table restore_table : string) :
  In original_table (values (tables self)) -> In restore_table (values rt) ->
  steps allowed (_swap_table_data fuel original_table restore_table).
Proof.
  intros Ho Hr. unfold _swap_table_data.
  pose proof (_clear_table_steps fuel original_table).
  pose proof (_copy_table_data_steps fuel restore_table original_table).
  steps_with call_leaf.
Qed.

End Swapping.

Lemma _swap_data_steps (fuel : nat) (self : config) (rt : dict string) :
  steps (emitting (on_call (stage_call self rt Swapping)))
        (_swap_data fuel self rt).
Proof.
  unfold _swap_data.
  pose proof (_swap_table_data_steps self rt).
  steps_with call_leaf.
Qed.

Lemma RestoreLock_acquire_loop_steps (P : event -> Prop) (fuel : nat)
    (path : string) (start timeout : Z) :
  steps (emitting P) (RestoreLock_acquire_loop fuel path start timeout).
Proof. induction fuel as [|fuel IH]; simpl; steps_tac. Qed.

#[local] Hint Resolve RestoreLock_acquire_loop_steps : steps.

Lemma RestoreLock_acquire_steps (P : event -> Prop) (fuel : nat)
    (path : string) (timeout : Z) :
  steps (emitting P) (RestoreLock_acquire fuel path timeout).
Proof. unfold RestoreLock_acquire. steps_tac. Qed.

Lemma RestoreLock_release_steps (P : event -> Prop) (path : string) :
  steps (emitting P) (RestoreLock_release path).
Proof. unfold RestoreLock_release. steps_tac. Qed.

#[local] Hint Resolve RestoreLock_acquire_steps RestoreLock_release_steps : steps.

Lemma RestoreLock_enter_steps (P : event -> Prop) (fuel : nat) (path : string) :
  steps (emitting P) (RestoreLock_enter fuel path).
Proof. unfold RestoreLock_enter. steps_tac. Qed.

#[local] Hint Resolve RestoreLock_enter_steps : steps.

Lemma RestoreLock_with_steps (P : event -> Prop) {A} (fuel : nat)
    (path : string) (body : M A) :
  steps (emitting P) body -> steps (emitting P) (RestoreLock_with fuel path body).
Proof. intros Hb. unfold RestoreLock_with. steps_tac. Qed.

(** The calls a run may issue once it has named its restore tables. *)
Definition run_call (self : config) (restore_tables : dict string) (c : call)
    : Prop :=
  exists st, stage_call self restore_tables st c.

Lemma steps_stage (self : config) (rt : dict string) (st : stage) {A} (m : M A) :
  steps (emitting (on_call (stage_call self rt st))) m ->
  steps (emitting (on_call (run_call self rt))) m.
Proof. apply steps_weaken. intros ev H. now exists st. Qed.
Arguments steps_stage {self rt st A m} _.

Lemma restore_steps_steps (fuel : nat) (self : config) (p : string)
    (rt : dict string) (skip : bool) :
  steps (emitting (on_call (run_call self rt)))
        (restore_steps fuel self p rt skip).
Proof.
  unfold restore_steps, poll_verify_swap.
  pose proof (steps_stage (_initiate_pitr_restores_steps self rt p)).
  pose proof (steps_stage (_poll_restore_completion_steps fuel self rt)).
  pose proof (steps_stage (_verify_item_counts_steps self rt)).
  pose proof (steps_stage (_swap_data_steps fuel self rt)).
  pose proof (steps_stage (_delete_restore_tables_steps self rt)).
  steps_tac.
Qed.

Lemma validate_and_restore_steps (fuel : nat) (self : config) (p : string)
    (rt : dict string) (skip : bool) :
  steps (emitting (on_call (run_call self rt)))
        (validate_and_restore fuel self p rt skip).
Proof.
  unfold validate_and_restore.
  pose proof (RestoreLock_with_steps (on_call (run_call self rt)) fuel
                (lock_file self) _ (restore_steps_steps fuel self p rt skip)).
  steps_tac.
Qed.

Lemma run_begin_steps (R : state -> state -> Prop) {F : Frame R}
    (self : config) (p : string) :
  steps R (run_begin self p).
Proof. unfold run_begin. steps_tac. Qed.

Lemma run_failed_steps (R : state -> state -> Prop) {F : Frame R}
    (self : config) (p : string) (e : exn) :
  steps R (run_failed self p e).
Proof. unfold run_failed. steps_tac. Qed.

Lemma name_restore_tables_steps (R : state -> state -> Prop) {F : Frame R}
    (self : config) (p : string) :
  steps R (name_restore_tables self p).
Proof. unfold name_restore_tables. steps_tac. Qed.

#[local] Hint Resolve run_begin_steps run_failed_steps name_restore_tables_steps
  : steps.

(** The calls of a run, whatever its restore tables are called. *)
Definition any_run_call (self : config) (c : call) : Prop :=
  exists rt, run_call self rt c.

Lemma before_validation_steps (self : config) (p : string) :
  steps (emitting (on_call (fun c => exists rt, stage_call self rt Checking c)))
        (before_validation self p).
Proof.
  unfold before_validation.
  assert (forall rt,
             steps (emitting (on_call (fun c => exists rt, stage_call self rt Checking c)))
                   (reuse_or_clean self rt)) as H.
  { intros rt. eapply steps_weaken; [|apply reuse_or_clean_steps].
    intros ev Hev. exists rt. exact Hev. }
  steps_tac.
Qed.

Lemma run_steps (fuel : nat) (self : config) (p : string) :
  steps (emitting (on_call (any_run_call self))) (run fuel self p).
Proof.
  unfold run.
  assert (steps (emitting (on_call (any_run_call self))) (before_validation self p)).
  { eapply steps_weaken; [|apply before_validation_steps].
    intros ev [rt Hev]. exists rt, Checking. exact Hev. }
  assert (forall rt skip,
             steps (emitting (on_call (any_run_call self)))
                   (validate_and_restore fuel self p rt skip)).
  { intros rt skip. eapply steps_weaken; [|apply validate_and_restore_steps].
    intros ev Hev. exists rt. exact Hev. }
  steps_tac.
Qed.

(** ** Relations that provider calls, the lock and sleeping respect *)

Class Passive (R : state -> state -> Prop) := {
  passive_frame :: Frame R;
  passive_provider : forall s p e, R s (set_provider s p e);
  passive_lock : forall s f a, R s (set_lock s f a);
  passive_sleep : forall s d, 0 <= d -> R s (set_clock s (clock s + d))
}.

Section PassiveSteps.

Context (R : state -> state -> Prop) {PR : Passive R}.

Lemma passive_invoke {A} (c : call) (op : provider -> provider * (exn + A))
    (wrap : A -> response) :
  steps R (invoke c op wrap).
Proof.
  intros s. unfold invoke.
  destruct (op (provider_state s)) as [p [e|a]]; simpl; apply passive_provider.
Qed.

Lemma passive_time_sleep (d : Z) : 0 <= d -> steps R (time_sleep d).
Proof. intros H s. now apply passive_sleep. Qed.

Lemma passive_os_open_excl : steps R RestoreLock_os_open_excl.
Proof.
  intros s. unfold RestoreLock_os_open_excl.
  destruct (lock_marker s); simpl; [apply frame_refl|apply passive_lock].
Qed.

Lemma passive_unlink : steps R RestoreLock_unlink.
Proof.
  intros s. unfold RestoreLock_unlink.
  destruct (lock_marker s); simpl; [apply passive_lock|apply frame_refl].
Qed.

Lemma passive_set_lock_acquired (b : bool) :
  steps R (RestoreLock_set_lock_acquired b).
Proof. intros s. apply passive_lock. Qed.

Ltac passive_leaf :=
  first
    [ solve [auto with steps]
    | apply passive_os_open_excl | apply passive_unlink
    | apply passive_set_lock_acquired
    | apply passive_time_sleep; vm_compute; discriminate
    | unfold dynamodb_describe_table, dynamodb_list_tables, dynamodb_delete_table,
        dynamodb_restore_table_to_point_in_time, dynamodb_scan_count,
        dynamodb_scan, dynamodb_batch_write_item,
        dynamodb_describe_continuous_backups;
      apply passive_invoke ].

Ltac passive_tac := steps_with passive_leaf.

Lemma RestoreLock_acquire_loop_passive (fuel : nat) (path : string)
    (start timeout : Z) :
  steps R (RestoreLock_acquire_loop fuel path start timeout).
Proof. induction fuel as [|fuel IH]; simpl; passive_tac. Qed.

Lemma RestoreLock_enter_passive (fuel : nat) (path : string) :
  steps R (RestoreLock_enter fuel path).
Proof.
  pose proof RestoreLock_acquire_loop_passive.
  unfold RestoreLock_enter, RestoreLock_acquire. passive_tac.
Qed.

Lemma RestoreLock_release_passive (path : string) :
  steps R (RestoreLock_release path).
Proof. unfold RestoreLock_release. passive_tac. Qed.

Lemma _check_existing_restore_tables_passive (rt : dict string) :
  steps R (_check_existing_restore_tables rt).
Proof. unfold _check_existing_restore_tables. passive_tac. Qed.

Lemma _find_old_restore_tables_passive (self : config) (rt : dict string) :
  steps R (_find_old_restore_tables self rt).
Proof. unfold _find_old_restore_tables. passive_tac. Qed.

Lemma _cleanup_existing_restore_tables_passive (names : list string) :
  steps R (_cleanup_existing_restore_tables names).
Proof. unfold _cleanup_existing_restore_tables. passive_tac. Qed.

Lemma reuse_or_clean_passive (self : config) (rt : dict string) :
  steps R (reuse_or_clean self rt).
Proof.
  pose proof _check_existing_restore_tables_passive.
  pose proof _find_old_restore_tables_passive.
  pose proof _cleanup_existing_restore_tables_passive.
  unfold reuse_or_clean. passive_tac.
Qed.

Lemma before_validation_passive (self : config) (p : string) :
  steps R (before_validation self p).
Proof.
  pose proof reuse_or_clean_passive.
  unfold before_validation. passive_tac.
Qed.

Lemma _initiate_pitr_restores_passive (self : config) (p : string) :
  steps R (_initiate_pitr_restores self p).
Proof. unfold _initiate_pitr_restores, log_restore_window. passive_tac. Qed.

Lemma poll_loop_passive (fuel : nat) (self : config) (rt : dict string)
    (start timeout : Z) (active : list string) :
  steps R (poll_loop fuel self rt start timeout active).
Proof.
  revert active. induction fuel as [|fuel IH]; intros active; simpl;
    unfold poll_round; passive_tac.
Qed.

Lemma _poll_restore_completion_passive (fuel : nat) (self : config)
    (rt : dict string) :
  steps R (_poll_restore_completion fuel self rt).
Proof.
  pose proof poll_loop_passive.
  unfold _poll_restore_completion. passive_tac.
Qed.

Lemma _verify_item_counts_passive (self : config) (rt : dict string) :
  steps R (_verify_item_counts self rt).
Proof.
  unfold _verify_item_counts, verify_table_counts, _count_items. passive_tac.
Qed.

Lemma delete_batches_passive (t : string) (ks : list string)
    (items : list item) (n : Z) :
  steps R (delete_batches t ks items n).
Proof. unfold delete_batches. passive_tac. Qed.

Lemma put_batches_passive (t : string) (items : list item) (n : Z) :
  steps R (put_batches t items n).
Proof. unfold put_batches. passive_tac. Qed.

Lemma clear_pages_passive (fuel : nat) (t : string) (ks : list string)
    (r : scan_output) (n : Z) :
  steps R (clear_pages fuel t ks r n).
Proof.
  pose proof delete_batches_passive.
  revert r n. induction fuel as [|fuel IH]; intros r n; simpl;
    destruct (LastEvaluatedKey r); passive_tac.
Qed.

Lemma copy_pages_passive (fuel : nat) (src tgt : string) (r : scan_output) (n : Z) :
  steps R (copy_pages fuel src tgt r n).
Proof.
  pose proof put_batches_passive.
  revert r n. induction fuel as [|fuel IH]; intros r n; simpl;
    destruct (LastEvaluatedKey r); passive_tac.
Qed.

Lemma _swap_data_passive (fuel : nat) (self : config) (rt : dict string) :
  steps R (_swap_data fuel self rt).
Proof.
  pose proof delete_batches_passive. pose proof put_batches_passive.
  pose proof clear_pages_passive. pose proof copy_pages_passive.
  unfold _swap_data, _swap_table_data, _clear_table, _copy_table_data.
  passive_tac.
Qed.

Lemma _delete_restore_tables_passive (self : config) (rt : dict string) :
  steps R (_delete_restore_tables self rt).
Proof. unfold _delete_restore_tables. passive_tac. Qed.

Lemma restore_steps_passive (fuel : nat) (self : config) (p : string)
    (rt : dict string) (skip : bool) :
  steps R (restore_steps fuel self p rt skip).
Proof.
  pose proof _initiate_pitr_restores_passive.
  pose proof _poll_restore_completion_passive.
  pose proof _verify_item_counts_passive.
  pose proof _swap_data_passive.
  pose proof _delete_restore_tables_passive.
  unfold restore_steps, poll_verify_swap. passive_tac.
Qed.

Lemma validate_and_restore_passive (fuel : nat) (self : config) (p : string)
    (rt : dict string) (skip : bool) :
  steps R (validate_and_restore fuel self p rt skip).
Proof.
  pose proof restore_steps_passive.
  pose proof RestoreLock_enter_passive.
  pose proof RestoreLock_release_passive.
  unfold validate_and_restore, RestoreLock_with. passive_tac.
Qed.

Lemma run_passive (fuel : nat) (self : config) (p : string) :
  steps R (run fuel self p).
Proof.
  pose proof before_validation_passive.
  pose proof validate_and_restore_passive.
  unfold run. passive_tac.
Qed.

End PassiveSteps.

(** ** Computations that cannot run out of fuel *)

Definition total {A} (m : M A) : Prop := forall s, fst (m s) <> Diverge.

Lemma total_ret {A} (a : A) : total (ret a).
Proof. intros s. discriminate. Qed.

Lemma total_raise {A} (e : exn) : total (@raise A e).
Proof. intros s. discriminate. Qed.

Lemma total_bind {A B} (m : M A) (k : A -> M B) :
  total m -> (forall a, total (k a)) -> total (bind m k).
Proof.
  intros Hm Hk s. unfold bind. specialize (Hm s).
  destruct (m s) as [[a|e|] s']; simpl in *;
    [apply Hk|discriminate|congruence].
Qed.

Lemma total_try_except {A} (m : M A) (h : exn -> M A) :
  total m -> (forall e, total (h e)) -> total (try_except m h).
Proof.
  intros Hm Hh s. unfold try_except. specialize (Hm s).
  destruct (m s) as [[a|e|] s']; simpl in *;
    [discriminate|apply Hh|congruence].
Qed.

Lemma total_try_except_ClientError {A} (m : M A) (h : exn -> M A) :
  total m -> (forall e, total (h e)) -> total (try_except_ClientError m h).
Proof.
  intros Hm Hh s. unfold try_except_ClientError. specialize (Hm s).
  destruct (m s) as [[a|[c msg|k msg]|] s']; simpl in *;
    [discriminate|apply Hh|discriminate|congruence].
Qed.

Lemma total_fold_each {A B} (l : list A) (acc : B) (body : B -> A -> M B) :
  (forall acc x, total (body acc x)) -> total (fold_each l acc body).
Proof.
  intros Hb. revert acc. induction l as [|x l IH]; intros acc; simpl.
  - apply total_ret.
  - apply total_bind; [apply Hb|]. intros acc'. apply IH.
Qed.

Lemma total_invoke {A} (c : call) (op : provider -> provider * (exn + A))
    (wrap : A -> response) :
  total (invoke c op wrap).
Proof.
  intros s. unfold invoke.
  destruct (op (provider_state s)) as [p [e|a]]; discriminate.
Qed.

Lemma total_subscript {V} (d : dict V) (k : string) : total (subscript d k).
Proof. intros s. unfold subscript. destruct (dict_get d k); discriminate. Qed.

Lemma total_parse (p : string) : total (parse p).
Proof. intros s. unfold parse. destruct (isoparse p); discriminate. Qed.

Ltac total_tac :=
  repeat first
    [ progress intros
    | match goal with
      | |- total (ret _) => apply total_ret
      | |- total (raise _) => apply total_raise
      | |- total (logger _ _) => intros ?; discriminate
      | |- total time_time => intros ?; discriminate
      | |- total (time_sleep _) => intros ?; discriminate
      | |- total get_restore_point_timestamp => intros ?; discriminate
      | |- total (put_restore_point_timestamp _) => intros ?; discriminate
      | |- total (write_status_file _) => intros ?; discriminate
      | |- total (subscript _ _) => apply total_subscript
      | |- total (parse _) => apply total_parse
      | |- total (invoke _ _ _) => apply total_invoke
      | |- total (bind _ _) => apply total_bind
      | |- total (try_except _ _) => apply total_try_except
      | |- total (try_except_ClientError _ _) => apply total_try_except_ClientError
      | |- total (fold_each _ _ _) => apply total_fold_each
      | |- total (if ?b then _ else _) => destruct b eqn:?
      | |- total (match ?x with _ => _ end) => destruct x eqn:?
      end
    | solve [auto] ].

Lemma _update_status_total (self : config) (status p : string)
    (msg : option string) :
  total (_update_status self status p msg).
Proof. unfold _update_status. total_tac. Qed.

Lemma _validate_restore_point_total (p : string) :
  total (_validate_restore_point p).
Proof. unfold _validate_restore_point. total_tac. Qed.

Lemma before_validation_total (self : config) (p : string) :
  total (before_validation self p).
Proof.
  pose proof _update_status_total.
  unfold before_validation, run_begin, name_restore_tables,
    _get_restore_table_names, reuse_or_clean, _check_existing_restore_tables,
    _find_old_restore_tables, _cleanup_existing_restore_tables,
    dynamodb_describe_table, dynamodb_list_tables, dynamodb_delete_table.
  total_tac.
Qed.

(** ** What the run records and returns *)

(** The status file holds a record of this status and error message. *)
Definition recorded (s : state) (status : string) (error : option string) : Prop :=
  exists d, status_file s = Some d /\ sd_status d = status /\
            sd_error_message d = error.

(** The instant a parsed restore point denotes: as written if it carries an
    offset, in Europe/Berlin otherwise. *)
Definition restore_instant (restore_dt : DateTime.datetime) : Z :=
  DateTime.utc_instant restore_dt
    (DateTime.utcoffset
       match DateTime.tz restore_dt with
       | None => berlin restore_dt
       | Some z => z
       end).

(** [wp m Q s]: running [m] from [s] ends in an outcome and a state that
    satisfy [Q]. *)
Definition wp {A} (m : M A) (Q : outcome A -> state -> Prop) (s : state) : Prop :=
  Q (fst (m s)) (snd (m s)).

Lemma wp_eq {A} (m : M A) (Q : outcome A -> state -> Prop) (s s' : state)
    (r : outcome A) :
  m s = (r, s') -> Q r s' -> wp m Q s.
Proof. intros E H. unfold wp. now rewrite E. Qed.

Lemma wp_inv {A} (m : M A) (Q : outcome A -> state -> Prop) (s s' : state)
    (r : outcome A) :
  m s = (r, s') -> wp m Q s -> Q r s'.
Proof. intros E H. unfold wp in H. now rewrite E in H. Qed.

Lemma wp_any {A} (m : M A) (Q : outcome A -> state -> Prop) (s : state) :
  (forall r s', m s = (r, s') -> Q r s') -> wp m Q s.
Proof. intros H. unfold wp. apply H. now destruct (m s). Qed.

Lemma wp_bind {A B} (m : M A) (k : A -> M B) (Q : outcome B -> state -> Prop)
    (s : state) :
  wp m (fun r s' =>
          match r with
          | Ok a => wp (k a) Q s'
          | Raise e => Q (Raise e) s'
          | Diverge => Q Diverge s'
          end) s ->
  wp (bind m k) Q s.
Proof.
  unfold wp, bind. destruct (m s) as [[a|e|] s']; simpl; auto.
Qed.

Lemma wp_try_except {A} (m : M A) (h : exn -> M A)
    (Q : outcome A -> state -> Prop) (s : state) :
  wp m (fun r s' =>
          match r with
          | Raise e => wp (h e) Q s'
          | _ => Q r s'
          end) s ->
  wp (try_except m h) Q s.
Proof.
  unfold wp, try_except. destruct (m s) as [[a|e|] s']; simpl; auto.
Qed.

Lemma wp_try_except_ClientError {A} (m : M A) (h : exn -> M A)
    (Q : outcome A -> state -> Prop) (s : state) :
  wp m (fun r s' =>
          match r with
          | Raise (ClientError c msg) => wp (h (ClientError c msg)) Q s'
          | _ => Q r s'
          end) s ->
  wp (try_except_ClientError m h) Q s.
Proof.
  unfold wp, try_except_ClientError.
  destruct (m s) as [[a|[c msg|k msg]|] s']; simpl; auto.
Qed.

Lemma wp_finally {A} (m : M A) (f : M unit)
    (Q : outcome A -> state -> Prop) (s : state) :
  wp m (fun r s' =>
          match r with
          | Diverge => Q Diverge s'
          | _ => Q r (snd (f s'))
          end) s ->
  wp (finally m f) Q s.
Proof.
  unfold wp, finally. destruct (m s) as [[a|e|] s']; simpl; auto.
Qed.

Lemma wp_ret {A} (a : A) (Q : outcome A -> state -> Prop) (s : state) :
  Q (Ok a) s -> wp (ret a) Q s.
Proof. auto. Qed.

Lemma wp_raise {A} (e : exn) (Q : outcome A -> state -> Prop) (s : state) :
  Q (Raise e) s -> wp (raise e) Q s.
Proof. auto. Qed.

Lemma wp_logger (lvl : level) (msg : list fragment)
    (Q : outcome unit -> state -> Prop) (s : state) :
  Q (Ok tt) (add_log s {| levelname := lvl; message := msg |}) ->
  wp (logger lvl msg) Q s.
Proof. auto. Qed.

Definition status_record (self : config) (status p : string)
    (error_message : option string) (now : Z) : status_data :=
  {| sd_restore_id := restore_id self;
     sd_status := status;
     sd_restore_point_in_time := p;
     sd_started_at := now;
     sd_environment := environment self;
     sd_tables := tables self;
     sd_error_message :=
       match error_message with
       | Some m => if String.eqb m "" then None else Some m
       | None => None
       end |}.

Lemma _update_status_eq (self : config) (status p : string)
    (msg : option string) (s : state) :
  _update_status self status p msg s =
  (Ok tt,
   add_log (set_status_file s (status_record self status p msg (clock s)))
     {| levelname := INFO;
        message := [FLit "Status updated: "; FStr status] |}).
Proof. reflexivity. Qed.

Lemma wp__update_status (self : config) (status p : string)
    (msg : option string) (Q : outcome unit -> state -> Prop) (s : state) :
  Q (Ok tt)
    (add_log (set_status_file s (status_record self status p msg (clock s)))
       {| levelname := INFO;
          message := [FLit "Status updated: "; FStr status] |}) ->
  wp (_update_status self status p msg) Q s.
Proof. intros H. eapply wp_eq; [apply _update_status_eq|exact H]. Qed.

Lemma wp_time_time (Q : outcome Z -> state -> Prop) (s : state) :
  Q (Ok (clock s)) s -> wp time_time Q s.
Proof. auto. Qed.

Lemma wp_time_sleep (d : Z) (Q : outcome unit -> state -> Prop) (s : state) :
  Q (Ok tt) (set_clock s (clock s + d)) -> wp (time_sleep d) Q s.
Proof. auto. Qed.

Lemma wp_get_restore_point_timestamp (Q : outcome (option string) -> state -> Prop)
    (s : state) :
  Q (Ok (restore_point_timestamp s)) s -> wp get_restore_point_timestamp Q s.
Proof. auto. Qed.

Lemma wp_put_restore_point_timestamp (t : string)
    (Q : outcome unit -> state -> Prop) (s : state) :
  Q (Ok tt) (set_restore_point_timestamp s t) ->
  wp (put_restore_point_timestamp t) Q s.
Proof. auto. Qed.

Lemma wp_subscript {V} (d : dict V) (k : string)
    (Q : outcome V -> state -> Prop) (s : state) :
  match dict_get d k with
  | Some v => Q (Ok v) s
  | None => Q (Raise (PyError "KeyError" k)) s
  end ->
  wp (subscript d k) Q s.
Proof. unfold wp, subscript. now destruct (dict_get d k). Qed.

Lemma wp_parse (p : string) (Q : outcome DateTime.datetime -> state -> Prop)
    (s : state) :
  match isoparse p with
  | Some d => Q (Ok d) s
  | None => Q (Raise (PyError "ValueError" "Invalid isoformat string")) s
  end ->
  wp (parse p) Q s.
Proof. unfold wp, parse. now destruct (isoparse p). Qed.

Lemma wp_invoke {A} (c : call) (op : provider -> provider * (exn + A))
    (wrap : A -> response) (Q : outcome A -> state -> Prop) (s : state) :
  (forall pv r, op (provider_state s) = (pv, r) ->
     match r with
     | inl e =>
         Q (Raise e) (set_provider s pv {| ev_call := c; ev_result := inl e |})
     | inr a =>
         Q (Ok a) (set_provider s pv {| ev_call := c; ev_result := inr (wrap a) |})
     end) ->
  wp (invoke c op wrap) Q s.
Proof.
  intros H. unfold wp, invoke.
  destruct (op (provider_state s)) as [pv [e|a]] eqn:E; apply (H _ _ eq_refl).
Qed.

Lemma wp_mono {A} (m : M A) (Q1 Q2 : outcome A -> state -> Prop) (s : state) :
  wp m Q1 s -> (forall r s', Q1 r s' -> Q2 r s') -> wp m Q2 s.
Proof. unfold wp. auto. Qed.

(** What is known of a stage, by [wp_mono]; extended as lemmas are proved. *)
Ltac wp_known := fail.

(** One step of a [wp] goal: a recorded equation for the computation if
    there is one, else the rule of its head; an opaque stage is replaced by
    what is known of it, or by an arbitrary outcome. *)
Ltac wp_step :=
  lazymatch goal with
  | H : ?m ?s = (_, _) |- wp ?m _ ?s => eapply wp_eq; [exact H|]
  | |- wp (bind _ _) _ _ => apply wp_bind
  | |- wp (try_except _ _) _ _ => apply wp_try_except
  | |- wp (try_except_ClientError _ _) _ _ => apply wp_try_except_ClientError
  | |- wp (finally _ _) _ _ => apply wp_finally
  | |- wp (ret _) _ _ => apply wp_ret
  | |- wp (raise _) _ _ => apply wp_raise
  | |- wp (logger _ _) _ _ => apply wp_logger
  | |- wp time_time _ _ => apply wp_time_time
  | |- wp (time_sleep _) _ _ => apply wp_time_sleep
  | |- wp get_restore_point_timestamp _ _ => apply wp_get_restore_point_timestamp
  | |- wp (put_restore_point_timestamp _) _ _ =>
      apply wp_put_restore_point_timestamp
  | |- wp (subscript _ _) _ _ =>
      apply wp_subscript;
      cbn [dict_get tables _configure_table_names base_names map fst snd
           String.eqb Ascii.eqb Bool.eqb]
  | |- wp (fold_each _ _ _) _ _ =>
      first [ progress cbn [fold_each tables _configure_table_names base_names
                            map fst snd]
            | wp_known | apply wp_any; intros [?|?|] ? ? ]
  | |- wp (for_each _ _) _ _ =>
      first [ progress cbn [for_each tables _configure_table_names base_names
                            map fst snd]
            | wp_known | apply wp_any; intros [?|?|] ? ? ]
  | |- wp (parse _) _ _ => apply wp_parse
  | |- wp (invoke _ _ _) _ _ => apply wp_invoke; intros ? [?|?] ?
  | |- wp (_update_status _ _ _ _) _ _ => apply wp__update_status
  | |- wp (if ?b then _ else _) _ _ => destruct b eqn:?
  | |- wp (match ?x with _ => _ end) _ _ => destruct x eqn:?
  | |- wp _ _ _ => first [wp_known | apply wp_any; intros [?|?|] ? ?]
  end; cbn beta iota; cbn [negb].

Ltac wp_run := repeat wp_step.

(** Steps up to the next conditional. *)
Ltac wp_to_if :=
  repeat lazymatch goal with
         | |- wp (if _ then _ else _) _ _ => fail
         | |- wp (match _ with _ => _ end) _ _ => fail
         | _ => wp_step
         end.

Ltac recorded_tac := solve [unfold recorded; cbn; repeat esplit].

Lemma restore_steps_failed (fuel : nat) (self : config) (p : string)
    (rt : dict string) (skip : bool) (s : state) :
  wp (restore_steps fuel self p rt skip)
     (fun r s' =>
        match r with
        | Ok false => exists reason, recorded s' "FAILED" (Some reason)
        | _ => True
        end) s.
Proof.
  unfold restore_steps, poll_verify_swap. wp_run; try exact I; recorded_tac.
Qed.

Ltac wp_known ::=
  lazymatch goal with
  | |- wp (restore_steps _ _ _ _ _) _ _ =>
      eapply wp_mono; [apply restore_steps_failed|]; intros [[|]|?|] ? ?
  end.

Lemma RestoreLock_release_status (path : string) (s : state) :
  status_file (snd (RestoreLock_release path s)) = status_file s.
Proof.
  destruct s as [pv now marker held ts sf lg tr].
  destruct held, marker; reflexivity.
Qed.

Lemma recorded_release (path : string) (s : state) (status : string)
    (err : option string) :
  recorded s status err -> recorded (snd (RestoreLock_release path s)) status err.
Proof. unfold recorded. now rewrite RestoreLock_release_status. Qed.

(** The result of [run] and the status it leaves: [True] with COMPLETED,
    [False] with FAILED; no exception escapes. *)
Definition run_post (r : outcome bool) (s' : state) : Prop :=
  match r with
  | Ok true => recorded s' "COMPLETED" None
  | Ok false => exists err, recorded s' "FAILED" err
  | Raise _ => False
  | Diverge => True
  end.

Lemma run_outcome (fuel : nat) (self : config) (p : string) (s : state) :
  wp (run fuel self p) run_post s.
Proof.
  unfold run, validate_and_restore, RestoreLock_with, run_failed, run_post.
  wp_run; try exact I; try recorded_tac.
  all: match goal with
       | H : exists _, recorded _ _ _ |- _ =>
           destruct H as [reason H]; eexists; apply recorded_release; exact H
       end.
Qed.

(** Only the log differs. *)
Definition logged (s s' : state) : Prop :=
  provider_state s' = provider_state s /\ clock s' = clock s /\
  lock_marker s' = lock_marker s /\ lock_acquired s' = lock_acquired s /\
  restore_point_timestamp s' = restore_point_timestamp s /\
  status_file s' = status_file s /\ trace s' = trace s.

Lemma logged_refl (s : state) : logged s s.
Proof. repeat split. Qed.

Lemma logged_add_log (s s' : state) (r : log_record) :
  logged s s' -> logged s (add_log s' r).
Proof. intros H. exact H. Qed.

Definition last_message (s : state) : option (level * list fragment) :=
  match rev (log s) with
  | r :: _ => Some (levelname r, message r)
  | [] => None
  end.

Lemma last_message_add_log (s : state) (r : log_record) :
  last_message (add_log s r) = Some (levelname r, message r).
Proof. unfold last_message. cbn. now rewrite rev_app_distr. Qed.

(** [_validate_restore_point] on a restore point that parses: the verdict is
    a comparison of the age with zero and thirty-five days, and only the log
    changes. *)
Lemma _validate_restore_point_spec (p : string) (restore_dt : DateTime.datetime)
    (s : state) :
  isoparse p = Some restore_dt ->
  let age := clock s - restore_instant restore_dt in
  wp (_validate_restore_point p)
     (fun r s' =>
        logged s s' /\
        r = Ok (negb (max_age <? age) && negb (age <? 0)) /\
        (max_age < age ->
         last_message s' =
         Some (ERROR, [FLit "Restore point is "; FInt (age / DateTime.day_us);
                       FLit " days old, max is 35 days"])) /\
        (age < 0 ->
         last_message s' = Some (ERROR, [FLit "Restore point is in the future"])))
     s.
Proof.
  intros Hp age. unfold _validate_restore_point.
  apply wp_try_except. apply wp_bind. apply wp_parse. rewrite Hp. cbn beta iota.
  unfold restore_instant in age.
  destruct (DateTime.tz restore_dt) as [z|] eqn:Hz; wp_run.
  all: cbn [clock add_log] in *; fold age in Heqb; try fold age in Heqb0.
  all: repeat split; try reflexivity;
    try (rewrite last_message_add_log; reflexivity).
  all: try rewrite Heqb; try rewrite Heqb0; try reflexivity.
  all: intros Hage; exfalso;
    repeat match goal with
           | H : (_ <? _) = true |- _ => apply Z.ltb_lt in H
           | H : (_ <? _) = false |- _ => apply Z.ltb_ge in H
           end;
    unfold max_age, DateTime.day_us, DateTime.second_us in *; lia.
Qed.

(** ** The restore table names *)

(** The name [run] gives the restore table of [original_table] for a parsed
    restore point. *)
Definition restore_table_name (original_table : string)
    (restore_dt : DateTime.datetime) : string :=
  original_table ++ "-restore-" ++ DateTime.strftime_compact restore_dt.

Definition restore_table_names (self : config) (restore_dt : DateTime.datetime)
    : dict string :=
  map (fun kv => (fst kv, restore_table_name (snd kv) restore_dt)) (tables self).

(** Year, month, day, hour, minute and second as written. *)
Definition same_wall_clock (d e : DateTime.datetime) : Prop :=
  DateTime.year d = DateTime.year e /\ DateTime.month d = DateTime.month e /\
  DateTime.day d = DateTime.day e /\ DateTime.hour d = DateTime.hour e /\
  DateTime.minute d = DateTime.minute e /\ DateTime.second d = DateTime.second e.

Lemma name_restore_tables_eq (self : config) (p : string)
    (restore_dt : DateTime.datetime) (s : state) :
  isoparse p = Some restore_dt ->
  name_restore_tables self p s =
  (Ok (restore_table_names self restore_dt),
   set_restore_point_timestamp s (DateTime.strftime_compact restore_dt)).
Proof.
  intros Hp.
  assert (wp (name_restore_tables self p)
             (fun r s' =>
                r = Ok (restore_table_names self restore_dt) /\
                s' = set_restore_point_timestamp s
                       (DateTime.strftime_compact restore_dt)) s) as H.
  { unfold name_restore_tables, _get_restore_table_names.
    apply wp_bind, wp_parse. rewrite Hp. cbn beta iota.
    replace (DateTime.strftime_compact
               match DateTime.tz restore_dt with
               | Some _ => restore_dt
               | None => DateTime.replace_tzinfo restore_dt (berlin restore_dt)
               end)
      with (DateTime.strftime_compact restore_dt)
      by (destruct (DateTime.tz restore_dt); reflexivity).
    do 4 wp_step.
    cbn [restore_point_timestamp set_restore_point_timestamp].
    destruct (String.eqb_spec (DateTime.strftime_compact restore_dt) "") as [E|_];
      [now apply DateTime.strftime_compact_nonempty in E|].
    wp_run. split; reflexivity. }
  unfold wp in H. destruct (name_restore_tables self p s) as [r s'].
  cbn in H. destruct H as [-> ->]. reflexivity.
Qed.

Lemma restore_table_name_inj (t : string) (d e : DateTime.datetime) :
  DateTime.valid d -> DateTime.valid e ->
  (restore_table_name t d = restore_table_name t e <-> same_wall_clock d e).
Proof.
  intros Vd Ve. unfold restore_table_name. split.
  - intros H. do 2 apply Str.app_inv_head in H.
    now apply DateTime.strftime_compact_inj.
  - intros (Hy & Hm & Hd & Hh & Hmi & Hs). unfold DateTime.strftime_compact.
    now rewrite Hy, Hm, Hd, Hh, Hmi, Hs.
Qed.

(** The restore table names of a run are computed from the parsed restore
    point alone: whatever the state and the clock at the time of the call,
    [run] names the restore table of every table [t] [t-restore-<token>],
    the token being the year, month, day, hour, minute and second of the
    restore point as written.  Two restore points give the same name for a
    table exactly when they agree on these six fields: the UTC offset of
    the restore point does not enter the name. *)
Theorem restore_table_names_from_restore_point (self : config) (p p' : string)
    (restore_dt restore_dt' : DateTime.datetime) (s s' : state) :
  isoparse p = Some restore_dt -> isoparse p' = Some restore_dt' ->
  DateTime.valid restore_dt -> DateTime.valid restore_dt' ->
  fst (name_restore_tables self p s) = Ok (restore_table_names self restore_dt) /\
  fst (name_restore_tables self p s') = fst (name_restore_tables self p s) /\
  fst (name_restore_tables self p' s') = Ok (restore_table_names self restore_dt') /\
  (forall t, restore_table_name t restore_dt' = restore_table_name t restore_dt <->
             same_wall_clock restore_dt' restore_dt).
Proof.
  intros Hp Hp' V V'.
  rewrite !(name_restore_tables_eq self p restore_dt) by assumption.
  rewrite (name_restore_tables_eq self p' restore_dt') by assumption.
  split; [reflexivity|]. split; [reflexivity|]. split; [reflexivity|].
  intros t. now apply restore_table_name_inj.
Qed.

(** ** Old restore tables *)

Lemma production_table_not_old (self : config) (rt : dict string) (n : string) :
  old_restore_table self rt n -> ~ In n (values (tables self)).
Proof.
  intros [[original [Hin Hpre]] _] Hn. revert Hin Hpre Hn.
  unfold tables, _configure_table_names.
  destruct (String.eqb (environment self) "dev"); cbn;
    intros [<-|[<-|[<-|[]]]] Hpre [<-|[<-|[<-|[]]]];
    vm_compute in Hpre; discriminate.
Qed.

(** C10: every table name [_find_old_restore_tables] selects starts with a
    production table name followed by [-restore-] and is not one of the
    restore table names of the current restore point; the clean-up of
    [run] deletes only such tables, so it deletes neither a production
    table nor a restore table of the current restore point. *)
Theorem stale_cleanup_spares_current_tables (self : config) (rt : dict string) :
  returns (_find_old_restore_tables self rt)
          (Forall (old_restore_table self rt)) /\
  steps (emitting (on_call (stage_call self rt Checking)))
        (reuse_or_clean self rt) /\
  (forall n, stage_call self rt Checking (delete_table n) ->
             Str.startswith n "quote-lambda-tf-" = true /\
             (exists original_table,
                 In original_table (values (tables self)) /\
                 Str.startswith n (original_table ++ "-restore-") = true) /\
             ~ In n (values rt) /\ ~ In n (values (tables self))).
Proof.
  split; [apply _find_old_restore_tables_returns|].
  split; [apply reuse_or_clean_steps|].
  intros n [_ Hold]. pose proof (production_table_not_old self rt n Hold) as Hprod.
  destruct Hold as [[original [Hin Hpre]] Hcur].
  repeat split; try assumption; [|now exists original].
  apply Str.startswith_spec in Hpre as [r ->].
  revert Hin. unfold tables, _configure_table_names.
  destruct (String.eqb (environment self) "dev"); cbn;
    intros [<-|[<-|[<-|[]]]]; reflexivity.
Qed.

(** ** Validation of the restore point *)

Definition clock_le (s s' : state) : Prop := clock s <= clock s'.

#[export] Instance clock_le_Frame : Frame clock_le.
Proof.
  split; unfold clock_le; cbn; intros; lia.
Qed.

#[export] Instance clock_le_Passive : Passive clock_le.
Proof.
  split; [exact _| | |]; unfold clock_le; cbn; intros; lia.
Qed.

Definition is_restore (c : call) : bool :=
  match c with
  | restore_table_to_point_in_time _ _ _ => true
  | _ => false
  end.

(** The calls that change the provider's tables. *)
Definition mutating (c : call) : bool :=
  match c with
  | delete_table _ | restore_table_to_point_in_time _ _ _
  | batch_write_item _ _ => true
  | _ => false
  end.

Lemma checking_not_restore (self : config) (c : call) :
  (exists rt, stage_call self rt Checking c) -> is_restore c = false.
Proof. intros [rt H]. destruct c; cbn in *; tauto. Qed.

Lemma run_rejects_old_restore_point (fuel : nat) (self : config) (p : string)
    (restore_dt : DateTime.datetime) (s : state) :
  isoparse p = Some restore_dt ->
  max_age < clock s - restore_instant restore_dt ->
  wp (run fuel self p)
     (fun r s' =>
        r = Ok false /\ (exists err, recorded s' "FAILED" err) /\
        emitting (on_call (fun c => is_restore c = false)) s s') s.
Proof.
  intros Hp Hold. unfold run.
  apply wp_try_except, wp_bind, wp_any. intros r s1 H1.
  pose proof (before_validation_steps self p s) as Hev.
  pose proof (before_validation_passive clock_le self p s) as Hclock.
  pose proof (before_validation_total self p s) as Htot.
  rewrite H1 in Hev, Hclock, Htot. cbn [fst snd] in *.
  apply (emitting_weaken _ (on_call (fun c => is_restore c = false)) _ _
           (fun ev => checking_not_restore self (ev_call ev))) in Hev.
  destruct r as [prepared|e|]; [| |congruence].
  - unfold validate_and_restore. apply wp_bind.
    eapply wp_mono; [apply (_validate_restore_point_spec p restore_dt s1 Hp)|].
    intros r s2 (Hlog & -> & _). cbn beta iota.
    unfold clock_le in Hclock.
    replace (max_age <? clock s1 - restore_instant restore_dt) with true
      by (symmetry; apply Z.ltb_lt; lia).
    cbn [negb andb]. wp_run.
    split; [reflexivity|]. split; [recorded_tac|].
    destruct Hlog as (_ & _ & _ & _ & _ & _ & Htr).
    destruct Hev as [evs [E F]]. exists evs. cbn. rewrite Htr. now split.
  - unfold run_failed. wp_run.
    split; [reflexivity|]. split; [recorded_tac|].
    destruct Hev as [evs [E F]]. exists evs. cbn. now split.
Qed.

(** C6: for a restore point that parses, [_validate_restore_point] compares
    its age, the clock minus its instant, with thirty-five days and with
    zero.  Older than thirty-five days: rejected with the too-old message,
    and a run started at that age returns [False], records FAILED and
    issues no restore.  Negative age: rejected with the in-the-future
    message.  From zero to thirty-five days inclusive: accepted. *)
Theorem validate_restore_point_window (fuel : nat) (self : config) (p : string)
    (restore_dt : DateTime.datetime) (s : state) :
  isoparse p = Some restore_dt ->
  let age := clock s - restore_instant restore_dt in
  (max_age < age ->
     fst (_validate_restore_point p s) = Ok false /\
     last_message (snd (_validate_restore_point p s)) =
       Some (ERROR, [FLit "Restore point is "; FInt (age / DateTime.day_us);
                     FLit " days old, max is 35 days"]) /\
     fst (run fuel self p s) = Ok false /\
     (exists err, recorded (snd (run fuel self p s)) "FAILED" err) /\
     emitting (on_call (fun c => is_restore c = false)) s (snd (run fuel self p s))) /\
  (age < 0 ->
     fst (_validate_restore_point p s) = Ok false /\
     last_message (snd (_validate_restore_point p s)) =
       Some (ERROR, [FLit "Restore point is in the future"])) /\
  (0 <= age <= max_age -> fst (_validate_restore_point p s) = Ok true).
Proof.
  intros Hp age.
  pose proof (_validate_restore_point_spec p restore_dt s Hp) as Hv.
  unfold wp in Hv. cbn zeta in Hv. fold age in Hv.
  destruct Hv as (_ & Hr & Hold & Hfut).
  split; [|split].
  - intros Hage. rewrite Hr.
    replace (max_age <? age) with true by (symmetry; apply Z.ltb_lt; lia).
    split; [reflexivity|]. split; [now apply Hold|].
    apply (run_rejects_old_restore_point fuel self p restore_dt s Hp Hage).
  - intros Hage. rewrite Hr.
    replace (age <? 0) with true by (symmetry; apply Z.ltb_lt; lia).
    split; [now rewrite andb_false_r|now apply Hfut].
  - intros [H0 H35]. rewrite Hr.
    replace (max_age <? age) with false by (symmetry; apply Z.ltb_ge; lia).
    replace (age <? 0) with false by (symmetry; apply Z.ltb_ge; lia).
    reflexivity.
Qed.

(** ** Enough fuel for the lock *)

Lemma RestoreLock_acquire_loop_free (fuel : nat) (path : string)
    (start timeout : Z) (s : state) :
  lock_marker s = None ->
  wp (RestoreLock_acquire_loop (S fuel) path start timeout)
     (fun r s' =>
        r = Ok (clock s - start <? timeout * DateTime.second_us) /\
        clock s' = clock s /\ trace s' = trace s /\
        status_file s' = status_file s) s.
Proof.
  intros Hfree. cbn [RestoreLock_acquire_loop].
  apply wp_bind, wp_time_time. cbn beta iota.
  destruct (clock s - start <? timeout * DateTime.second_us).
  - apply wp_try_except, wp_bind.
    apply wp_eq with (s' := set_lock s (Some (clock s)) (lock_acquired s))
                     (r := Ok tt).
    { unfold RestoreLock_os_open_excl. now rewrite Hfree. }
    apply wp_bind.
    apply wp_eq with (s' := set_lock s (Some (clock s)) true) (r := Ok tt);
      [reflexivity|].
    wp_run. repeat split.
  - wp_run. repeat split.
Qed.

Lemma RestoreLock_acquire_loop_total (n : nat) :
  forall (fuel : nat) (path : string) (start : Z) (s : state),
    (n + 1 < fuel)%nat ->
    5 * DateTime.second_us - (clock s - start) <= Z.of_nat n * 500000 ->
    fst (RestoreLock_acquire_loop fuel path start 5 s) <> Diverge.
Proof.
  induction n as [|n IH]; intros fuel path start s Hfuel Htime;
    (destruct fuel as [|fuel]; [lia|]);
    (destruct (lock_marker s) as [mtime|] eqn:Hm;
     [|pose proof (RestoreLock_acquire_loop_free fuel path start 5 s Hm) as H;
       unfold wp in H; destruct H as [-> _]; discriminate]);
    change (wp (RestoreLock_acquire_loop (S fuel) path start 5)
              (fun r _ => r <> Diverge) s);
    cbn [RestoreLock_acquire_loop]; apply wp_bind, wp_time_time; cbn beta iota.
  - replace (clock s - start <? 5 * DateTime.second_us) with false
      by (symmetry; apply Z.ltb_ge; lia).
    wp_run. discriminate.
  - destruct (clock s - start <? 5 * DateTime.second_us) eqn:Hc;
      [|wp_run; discriminate].
    apply wp_try_except, wp_bind. unfold wp at 1.
    unfold RestoreLock_os_open_excl. rewrite Hm. cbn.
    apply wp_bind. unfold wp at 1, RestoreLock__is_stale. rewrite Hm.
    cbn [fst snd].
    destruct (3600 * DateTime.second_us <? clock s - mtime).
    + apply wp_bind, wp_logger, wp_bind. unfold wp at 1.
      unfold try_except, RestoreLock_unlink. cbn [lock_marker add_log].
      rewrite Hm. cbn [fst snd].
      destruct fuel as [|fuel]; [lia|].
      eapply wp_mono; [apply RestoreLock_acquire_loop_free; reflexivity|].
      intros r s' [-> _]. discriminate.
    + apply wp_bind, wp_time_sleep. unfold wp. apply IH; [lia|].
      cbn [clock set_clock]. unfold DateTime.second_us in *. lia.
Qed.

Lemma RestoreLock_enter_total (fuel : nat) (path : string) :
  (12 <= fuel)%nat -> total (RestoreLock_enter fuel path).
Proof.
  intros Hfuel s.
  change (wp (RestoreLock_enter fuel path) (fun r _ => r <> Diverge) s).
  unfold RestoreLock_enter, RestoreLock_acquire.
  apply wp_bind. unfold wp at 1. cbn [fst snd RestoreLock_set_lock_acquired].
  apply wp_bind, wp_bind, wp_time_time. cbn beta iota.
  apply wp_any. intros r s' H.
  pose proof (RestoreLock_acquire_loop_total 10 fuel path
                (clock (set_lock s (lock_marker s) false))
                (set_lock s (lock_marker s) false)) as Ht.
  rewrite H in Ht. cbn [fst] in Ht.
  destruct r as [[|]|e|]; cbn [negb]; wp_run; try discriminate.
  exfalso. apply Ht; [lia| |reflexivity].
  cbn [clock set_lock]. unfold DateTime.second_us. lia.
Qed.

(** ** Dry runs *)

Lemma dry_run_call_not_mutating (self : config) (c : call) :
  dry_run self = true -> any_run_call self c -> mutating c = false.
Proof.
  intros Hdry [rt [st H]].
  destruct st, c; cbn in *; try reflexivity; try tauto;
    destruct H as [H _]; congruence.
Qed.

Lemma dry_run_emits (fuel : nat) (self : config) (p : string) (s : state) :
  dry_run self = true ->
  emitting (on_call (fun c => mutating c = false)) s (snd (run fuel self p s)).
Proof.
  intros Hdry. eapply emitting_weaken; [|apply run_steps].
  intros ev. apply dry_run_call_not_mutating. exact Hdry.
Qed.

(** The log only grows. *)
Definition log_grows (s s' : state) : Prop :=
  exists l, log s' = (log s ++ l)%list.

#[export] Instance log_grows_Frame : Frame log_grows.
Proof.
  split; unfold log_grows; cbn.
  - intros s. exists []. now rewrite app_nil_r.
  - intros a b c [l1 H1] [l2 H2]. exists (l1 ++ l2)%list.
    now rewrite H2, H1, app_assoc.
  - intros s r. now exists [r].
  - intros s d. exists []. now rewrite app_nil_r.
  - intros s t. exists []. now rewrite app_nil_r.
Qed.

#[export] Instance log_grows_Passive : Passive log_grows.
Proof.
  split; [exact _| | |]; unfold log_grows; cbn; intros;
    exists []; now rewrite app_nil_r.
Qed.

Lemma run_begin_eq (self : config) (p : string) (s : state) :
  exists l,
    run_begin self p s =
    (Ok tt,
     add_log
       (set_status_file
          (fold_left add_log l s)
          (status_record self "INITIALIZING" p None (clock s)))
       {| levelname := INFO;
          message := [FLit "Status updated: "; FStr "INITIALIZING"] |}) /\
    l <> [].
Proof.
  unfold run_begin. destruct (dry_run self).
  - eexists [_; _; _]. split; [reflexivity|discriminate].
  - eexists [_; _]. split; [reflexivity|discriminate].
Qed.

Lemma before_validation_names (self : config) (p : string) (s : state) :
  wp (before_validation self p)
     (fun r _ =>
        match r with
        | Ok prepared =>
            exists restore_dt,
              isoparse p = Some restore_dt /\
              fst prepared = restore_table_names self restore_dt
        | _ => True
        end) s.
Proof.
  assert (forall s0 : state,
             wp (name_restore_tables self p)
                (fun r _ =>
                   match r with
                   | Ok rt => exists restore_dt,
                       isoparse p = Some restore_dt /\
                       rt = restore_table_names self restore_dt
                   | _ => True
                   end) s0) as Hnames.
  { intros s0. destruct (isoparse p) as [restore_dt|] eqn:Hp.
    - eapply wp_eq; [apply name_restore_tables_eq; exact Hp|].
      now exists restore_dt.
    - unfold name_restore_tables. apply wp_bind, wp_parse. now rewrite Hp. }
  unfold before_validation. apply wp_bind.
  destruct (run_begin_eq self p s) as [l [E _]].
  eapply wp_eq; [exact E|]. apply wp_bind.
  eapply wp_mono; [apply Hnames|]. intros [rt|e|] s1 H; try exact I.
  apply wp_bind, wp_any. intros [skip|e|] s2 _; try exact I.
  apply wp_ret. exact H.
Qed.

Section DryRun.

Variables (self : config) (p : string) (restore_dt : DateTime.datetime).
Hypothesis Hdry : dry_run self = true.
Hypothesis Hp : isoparse p = Some restore_dt.

Let rt := restore_table_names self restore_dt.

Lemma _initiate_pitr_restores_dry (s : state) :
  wp (_initiate_pitr_restores self p) (fun r _ => r = Ok true) s.
Proof.
  unfold _initiate_pitr_restores, _get_restore_table_names.
  apply wp_try_except_ClientError.
  do 3 wp_step.
  all: repeat first [rewrite Hp | rewrite Hdry | wp_step]; reflexivity.
Qed.

Lemma poll_round_dry (restore_tables : dict string) (elapsed : Z)
    (active : list string) (s : state) :
  poll_round self restore_tables elapsed active s = (Ok (true, active), s).
Proof.
  unfold poll_round. rewrite Hdry. generalize (true, active) as acc.
  induction restore_tables as [|kv l IH]; intros acc; cbn [fold_each].
  - reflexivity.
  - unfold bind at 1. cbn [ret]. apply IH.
Qed.

Lemma _poll_restore_completion_dry (fuel : nat) (restore_tables : dict string)
    (s : state) :
  (1 <= fuel)%nat -> 0 < timeout_minutes self ->
  wp (_poll_restore_completion fuel self restore_tables)
     (fun r _ => r = Ok true) s.
Proof.
  intros Hfuel Htime. destruct fuel as [|fuel]; [lia|].
  unfold _poll_restore_completion. cbn [poll_loop].
  wp_to_if. cbn [clock add_log].
  replace (clock s - clock s <? timeout_minutes self * 60 * DateTime.second_us)
    with true
    by (symmetry; apply Z.ltb_lt; unfold DateTime.second_us; lia).
  apply wp_bind, wp_time_time, wp_bind.
  eapply wp_eq; [apply poll_round_dry|]. cbn [fst]. wp_run. reflexivity.
Qed.

Lemma _verify_item_counts_dry (s : state) :
  wp (_verify_item_counts self rt) (fun r _ => r = Ok true) s.
Proof.
  unfold _verify_item_counts, verify_table_counts, rt, restore_table_names.
  repeat first [rewrite Hdry | wp_step]; reflexivity.
Qed.

Lemma _swap_data_dry (fuel : nat) (s : state) :
  wp (_swap_data fuel self rt) (fun r _ => r = Ok true) s.
Proof.
  unfold _swap_data, rt, restore_table_names.
  repeat first [rewrite Hdry | wp_step]; reflexivity.
Qed.

Lemma _delete_restore_tables_dry (s : state) :
  wp (_delete_restore_tables self rt) (fun r _ => r = Ok true) s.
Proof.
  unfold _delete_restore_tables, rt, restore_table_names.
  repeat first [rewrite Hdry | wp_step]; reflexivity.
Qed.

End DryRun.

(** [run] after its opening lines. *)
Lemma run_after_begin (fuel : nat) (self : config) (p : string) (s : state) :
  run fuel self p s =
  try_except
    (restore_tables <- name_restore_tables self p ;;
     skip_restore <- reuse_or_clean self restore_tables ;;
     validate_and_restore fuel self p restore_tables skip_restore)
    (run_failed self p)
    (snd (run_begin self p s)).
Proof.
  destruct (run_begin_eq self p s) as [l [E _]].
  unfold run, before_validation, try_except, bind. rewrite E. cbn [snd].
  destruct (name_restore_tables self p _) as [[rt|e|] s1]; try reflexivity.
  destruct (reuse_or_clean self rt s1) as [[skip|e|] s2]; reflexivity.
Qed.

(** The log only grows and a status record, once written, stays. *)
Definition kept (s s' : state) : Prop :=
  log_grows s s' /\ (status_file s <> None -> status_file s' <> None).

#[export] Instance kept_Frame : Frame kept.
Proof.
  split; unfold kept.
  - intros s. split; [apply frame_refl|auto].
  - intros a b c [L1 S1] [L2 S2]. split; [eapply frame_trans; eassumption|auto].
  - intros s r. split; [apply frame_log|auto].
  - intros s d. split; [apply frame_status|cbn; discriminate].
  - intros s t. split; [apply frame_timestamp|auto].
Qed.

#[export] Instance kept_Passive : Passive kept.
Proof.
  split; [exact _| | |]; unfold kept; intros; (split; [|auto]).
  - apply passive_provider.
  - apply passive_lock.
  - now apply passive_sleep.
Qed.

Lemma fold_left_add_log (l : list log_record) (s : state) :
  log (fold_left add_log l s) = (log s ++ l)%list /\
  clock (fold_left add_log l s) = clock s.
Proof.
  revert s. induction l as [|r l IH]; intros s; cbn [fold_left].
  - now rewrite app_nil_r.
  - destruct (IH (add_log s r)) as [-> ->]. cbn. now rewrite <- app_assoc.
Qed.

Lemma run_leaves_log_and_status (fuel : nat) (self : config) (p : string)
    (s : state) :
  (exists l, log (snd (run fuel self p s)) = (log s ++ l)%list /\ l <> []) /\
  (exists d, status_file (snd (run fuel self p s)) = Some d).
Proof.
  rewrite run_after_begin.
  destruct (run_begin_eq self p s) as [l [E Hl]]. rewrite E. cbn [snd].
  match goal with
  | |- context [snd (try_except ?m ?h ?s0)] =>
      assert (steps kept (try_except m h)) as Hk;
      [|destruct (Hk s0) as [[l' Hlog] Hst]]
  end.
  { pose proof (reuse_or_clean_passive kept).
    pose proof (validate_and_restore_passive kept).
    steps_tac. }
  split.
  - rewrite Hlog. cbn [log add_log set_status_file].
    destruct (fold_left_add_log l s) as [-> _].
    rewrite <- !app_assoc. eexists. split; [reflexivity|].
    destruct l; [congruence|discriminate].
  - cbn [status_file add_log set_status_file] in Hst.
    destruct (status_file _) as [d|]; [now exists d|].
    exfalso. now apply Hst.
Qed.

Lemma _poll_restore_completion_dry_total (fuel : nat) (self : config)
    (rt : dict string) (s : state) :
  dry_run self = true -> (1 <= fuel)%nat ->
  wp (_poll_restore_completion fuel self rt) (fun r _ => r <> Diverge) s.
Proof.
  intros Hdry Hfuel. destruct fuel as [|fuel]; [lia|].
  unfold _poll_restore_completion. cbn [poll_loop].
  wp_to_if. wp_step; [|wp_run; discriminate].
  apply wp_bind, wp_time_time, wp_bind.
  eapply wp_eq; [now apply poll_round_dry|]. cbn [fst]. wp_run. discriminate.
Qed.

Lemma restore_steps_dry (fuel : nat) (self : config) (p : string)
    (restore_dt : DateTime.datetime) (skip : bool) (s : state) :
  dry_run self = true -> isoparse p = Some restore_dt -> (1 <= fuel)%nat ->
  wp (restore_steps fuel self p (restore_table_names self restore_dt) skip)
     (fun r _ => r <> Diverge /\ (0 < timeout_minutes self -> r = Ok true)) s.
Proof.
  intros Hdry Hp Hfuel. unfold restore_steps, poll_verify_swap.
  apply wp_bind.
  apply wp_mono with (Q1 := fun r _ => r = Ok true).
  { destruct skip; cbn [negb]; [now apply wp_ret|].
    now apply (_initiate_pitr_restores_dry self p restore_dt). }
  intros r s1 ->. cbn [negb].
  apply wp_bind.
  destruct (Z.ltb_spec 0 (timeout_minutes self)) as [Htime|Htime].
  - eapply wp_mono; [now apply _poll_restore_completion_dry|].
    intros r s2 ->. cbn [negb].
    apply wp_bind.
    eapply wp_mono; [now apply (_verify_item_counts_dry self restore_dt)|].
    intros r s3 ->. cbn [negb].
    apply wp_bind.
    eapply wp_mono; [now apply (_swap_data_dry self restore_dt)|].
    intros r s4 ->. cbn [negb].
    apply wp_bind.
    eapply wp_mono; [now apply (_delete_restore_tables_dry self restore_dt)|].
    intros r s5 ->. cbn [negb]. wp_run. split; [discriminate|reflexivity].
  - eapply wp_mono; [now apply _poll_restore_completion_dry_total|].
    intros [[|]|e|] s2 Hr; [| | |congruence].
    + cbn [negb]. apply wp_bind.
      eapply wp_mono; [now apply (_verify_item_counts_dry self restore_dt)|].
      intros r s3 ->. cbn [negb].
      apply wp_bind.
      eapply wp_mono; [now apply (_swap_data_dry self restore_dt)|].
      intros r s4 ->. cbn [negb].
      apply wp_bind.
      eapply wp_mono; [now apply (_delete_restore_tables_dry self restore_dt)|].
      intros r s5 ->. cbn [negb]. wp_run. split; [discriminate|lia].
    + cbn [negb]. wp_run. split; [discriminate|lia].
    + split; [discriminate|lia].
Qed.

Lemma dry_run_total (fuel : nat) (self : config) (p : string) (s : state) :
  dry_run self = true -> (12 <= fuel)%nat ->
  fst (run fuel self p s) <> Diverge.
Proof.
  intros Hdry Hfuel.
  change (wp (run fuel self p) (fun r _ => r <> Diverge) s).
  unfold run. apply wp_try_except, wp_bind, wp_any. intros r s1 H1.
  pose proof (before_validation_total self p s) as Htot.
  pose proof (before_validation_names self p s) as Hnames.
  unfold wp in Hnames. rewrite H1 in Htot, Hnames. cbn [fst snd] in *.
  destruct r as [prepared|e|]; [| |congruence].
  - destruct Hnames as [restore_dt [Hp Hrt]]. rewrite Hrt.
    unfold validate_and_restore, RestoreLock_with.
    apply wp_bind, wp_any. intros r s2 H2.
    pose proof (_validate_restore_point_total p s1) as Hv.
    rewrite H2 in Hv. cbn [fst] in Hv.
    destruct r as [[|]|e|]; [| | |congruence]; cbn [negb].
    + apply wp_bind, wp_bind, wp_any. intros r s3 H3.
      pose proof (RestoreLock_enter_total fuel (lock_file self) Hfuel s2) as He.
      rewrite H3 in He. cbn [fst] in He.
      destruct r as [[]|e|]; [| |congruence].
      * apply wp_finally.
        eapply wp_mono;
          [apply (restore_steps_dry fuel self p restore_dt (snd prepared) s3 Hdry Hp);
           lia|].
        intros [[|]|e|] s4 [Hr _]; [| | |congruence]; wp_run; discriminate.
      * unfold run_failed. wp_run. discriminate.
    + wp_run. discriminate.
    + unfold run_failed. wp_run. discriminate.
  - unfold run_failed. wp_run. discriminate.
Qed.

(** ** Re-entry and the polling timeout *)

Lemma silent_trace {A} (m : M A) (s : state) :
  steps (emitting no_event) m -> trace (snd (m s)) = trace s.
Proof. intros H. apply emitting_no_event, H. Qed.

Lemma before_validation_emits (self : config) (p : string) (s : state) :
  wp (before_validation self p)
     (fun r s1 =>
        match r with
        | Ok prepared =>
            emitting (on_call (stage_call self (fst prepared) Checking)) s s1
        | _ => True
        end) s.
Proof.
  unfold before_validation.
  apply wp_bind, wp_any. intros r s0 H0.
  pose proof (silent_trace (run_begin self p) s (run_begin_steps _ self p)) as T0.
  rewrite H0 in T0. cbn [snd] in T0.
  destruct r as [[]|e|]; [|exact I|exact I].
  apply wp_bind, wp_any. intros r s1 H1.
  pose proof (silent_trace (name_restore_tables self p) s0
                (name_restore_tables_steps _ self p)) as T1.
  rewrite H1 in T1. cbn [snd] in T1.
  destruct r as [rt|e|]; [|exact I|exact I].
  apply wp_bind, wp_any. intros r s2 H2.
  pose proof (reuse_or_clean_steps self rt s1) as E2.
  rewrite H2 in E2. cbn [snd] in E2.
  destruct r as [skip|e|]; [|exact I|exact I].
  apply wp_ret. cbn [fst].
  destruct E2 as [evs [E F]]. exists evs. split; [|exact F]. congruence.
Qed.

Lemma log_each_trace {A} (l : list A) (lvl : level) (msg : A -> list fragment)
    (s : state) :
  wp (fold_each l tt (fun _ x => logger lvl (msg x)))
     (fun r s' => r = Ok tt /\ trace s' = trace s) s.
Proof.
  revert s. induction l as [|x l IH]; intros s; cbn [fold_each].
  - now apply wp_ret.
  - apply wp_bind, wp_logger. exact (IH _).
Qed.

(** With a restore table of this restore point in place, [run] sets
    [skip_restore] and looks for no old tables. *)
Lemma reuse_or_clean_skip (self : config) (rt existing : dict string)
    (s s' : state) :
  _check_existing_restore_tables rt s = (Ok existing, s') ->
  existing <> [] ->
  wp (reuse_or_clean self rt) (fun r s'' => r = Ok true /\ trace s'' = trace s') s.
Proof.
  intros Hcheck Hne. unfold reuse_or_clean.
  apply wp_bind. wp_step. destruct existing as [|kv existing]; [congruence|].
  apply wp_bind, wp_logger, wp_bind.
  eapply wp_mono; [apply log_each_trace|].
  intros r s1 [-> Ht]. wp_run; (split; [reflexivity|exact Ht]).
Qed.

Lemma stage_not_restore (self : config) (rt : dict string) (st : stage) (c : call) :
  st <> Initiating -> stage_call self rt st c -> is_restore c = false.
Proof. intros Hst H. destruct st, c; cbn in *; try reflexivity; tauto. Qed.

Lemma poll_verify_swap_steps (fuel : nat) (self : config) (p : string)
    (rt : dict string) :
  steps (emitting (on_call (fun c =>
           exists st, st <> Initiating /\ stage_call self rt st c)))
        (poll_verify_swap fuel self p rt).
Proof.
  assert (forall st A (m : M A), st <> Initiating ->
            steps (emitting (on_call (stage_call self rt st))) m ->
            steps (emitting (on_call (fun c =>
                     exists st, st <> Initiating /\ stage_call self rt st c))) m)
    as W.
  { intros st A m Hst. apply steps_weaken. intros ev H. now exists st. }
  pose proof (W Polling _ _ ltac:(discriminate)
                (_poll_restore_completion_steps fuel self rt)).
  pose proof (W Verifying _ _ ltac:(discriminate)
                (_verify_item_counts_steps self rt)).
  pose proof (W Swapping _ _ ltac:(discriminate)
                (_swap_data_steps fuel self rt)).
  pose proof (W Deleting _ _ ltac:(discriminate)
                (_delete_restore_tables_steps self rt)).
  unfold poll_verify_swap. steps_tac.
Qed.

Lemma run_prepared (fuel : nat) (self : config) (p : string)
    (prepared : dict string * bool) (s s1 : state) :
  before_validation self p s = (Ok prepared, s1) ->
  run fuel self p s =
  try_except (validate_and_restore fuel self p (fst prepared) (snd prepared))
             (run_failed self p) s1.
Proof. intros H. unfold run, try_except, bind. now rewrite H. Qed.

Lemma validate_and_restore_skip_steps (fuel : nat) (self : config) (p : string)
    (rt : dict string) :
  steps (emitting (on_call (fun c => is_restore c = false)))
        (try_except (validate_and_restore fuel self p rt true)
                    (run_failed self p)).
Proof.
  assert (steps (emitting (on_call (fun c => is_restore c = false)))
                (poll_verify_swap fuel self p rt)) as H.
  { eapply steps_weaken; [|apply poll_verify_swap_steps].
    intros ev [st [Hst Hc]]. eapply stage_not_restore; eassumption. }
  unfold validate_and_restore, RestoreLock_with, restore_steps. cbn [negb].
  steps_tac.
Qed.

Lemma RestoreLock_release_trace (path : string) (s : state) :
  trace (snd (RestoreLock_release path s)) = trace s.
Proof.
  destruct s as [pv now marker held ts sf lg tr].
  destruct held, marker; reflexivity.
Qed.

(** The calls that leave the production tables and the restore tables
    [restore_tables] as they are. *)
Definition leaves_tables (self : config) (restore_tables : dict string)
    (c : call) : Prop :=
  match c with
  | batch_write_item _ _ => False
  | delete_table n =>
      ~ In n (values restore_tables) /\ ~ In n (values (tables self))
  | _ => True
  end.

Lemma stage_leaves_tables (self : config) (rt : dict string) (st : stage)
    (c : call) :
  st = Checking \/ st = Initiating \/ st = Polling ->
  stage_call self rt st c -> leaves_tables self rt c.
Proof.
  intros Hst H. destruct st, c; cbn in *; try exact I; try tauto;
    try (destruct Hst as [?|[?|?]]; discriminate).
  destruct H as [_ Hold]. split; [apply Hold|].
  eapply production_table_not_old; eassumption.
Qed.

(** ** What precedes validation, and what follows a failed lock *)

(** When the lock cannot be acquired the run stops there: it returns
    [False] with the status FAILED and calls the provider no more. *)
Lemma lock_failure_stops_run (fuel : nat) (self : config) (p : string)
    (prepared : dict string * bool) (s s1 s2 s3 : state) (e : exn) :
  before_validation self p s = (Ok prepared, s1) ->
  _validate_restore_point p s1 = (Ok true, s2) ->
  RestoreLock_enter fuel (lock_file self) s2 = (Raise e, s3) ->
  fst (run fuel self p s) = Ok false /\
  exit_code (fst (run fuel self p s)) = Some 1 /\
  (exists err, recorded (snd (run fuel self p s)) "FAILED" err) /\
  trace (snd (run fuel self p s)) = trace s1.
Proof.
  intros H1 H2 H3.
  assert (wp (run fuel self p)
             (fun r s' =>
                r = Ok false /\ (exists err, recorded s' "FAILED" err) /\
                trace s' = trace s1) s) as H.
  { unfold run. apply wp_try_except, wp_bind. wp_step.
    unfold validate_and_restore, RestoreLock_with.
    apply wp_bind. wp_step. cbn [negb].
    apply wp_bind, wp_bind. wp_step. unfold run_failed. wp_run.
    split; [reflexivity|]. split; [recorded_tac|].
    pose proof (silent_trace (_validate_restore_point p) s1
                  (_validate_restore_point_steps _ p)) as T2.
    pose proof (silent_trace (RestoreLock_enter fuel (lock_file self)) s2
                  (RestoreLock_enter_steps _ fuel (lock_file self))) as T3.
    rewrite H2 in T2. rewrite H3 in T3. cbn [snd] in *. cbn. congruence. }
  unfold wp in H. destruct H as (Hr & Hrec & Htr).
  split; [exact Hr|]. split; [now rewrite Hr|]. now split.
Qed.

(** ** The item counts *)

Definition raised (ev : event) : Prop := exists e, ev_result ev = inl e.

(** The events from [s] to [s'] and how the computation ended: a value
    after calls that all returned, or an exception after one that raised. *)
Definition counted {A} (s : state) (r : outcome A) (s' : state) : Prop :=
  exists evs, trace s' = (trace s ++ evs)%list /\
    match r with
    | Ok _ => Forall (fun ev => ~ raised ev) evs
    | Raise _ => Exists raised evs
    | Diverge => False
    end.

Lemma counted_refl {A} (s : state) (a : A) : counted s (Ok a) s.
Proof. exists []. split; [now rewrite app_nil_r|constructor]. Qed.

Lemma counted_trans {A B} (s s1 s2 : state) (a : A) (r : outcome B) :
  counted s (Ok a) s1 -> counted s1 r s2 -> counted s r s2.
Proof.
  intros [e1 [T1 F1]] [e2 [T2 F2]]. exists (e1 ++ e2)%list. split.
  - now rewrite T2, T1, app_assoc.
  - destruct r; [now apply Forall_app|apply Exists_app; now right|exact F2].
Qed.

Arguments counted_trans {A B s s1 s2 a r} _ _.

Lemma counted_same {A} (s s' : state) (a : A) :
  trace s' = trace s -> counted s (Ok a) s'.
Proof. intros H. exists []. split; [now rewrite app_nil_r|constructor]. Qed.

Lemma _count_items_counted (name : string) (s : state) :
  wp (_count_items name) (counted s) s.
Proof.
  unfold _count_items, dynamodb_scan_count.
  apply wp_try_except_ClientError, wp_invoke. intros pv [e|n] Hop.
  - assert (counted (A := Z) s (Raise e)
              (set_provider s pv {| ev_call := scan_count name;
                                    ev_result := inl e |})) as Hc.
    { eexists. split; [reflexivity|]. apply Exists_cons_hd. now exists e. }
    destruct e as [code msg|kind msg]; [|exact Hc].
    wp_run. exact Hc.
  - eexists. split; [reflexivity|]. repeat constructor. intros [e He].
    discriminate He.
Qed.

Lemma verify_table_counts_counted (self : config) (rt : dict string)
    (kv : string * string) (s : state) :
  dict_get rt (fst kv) <> None ->
  wp (verify_table_counts self rt kv) (counted s) s.
Proof.
  intros Hkey. unfold verify_table_counts.
  apply wp_bind, wp_subscript.
  destruct (dict_get rt (fst kv)) as [restore_table|]; [|congruence].
  destruct (dry_run self).
  - wp_run. now apply counted_same.
  - apply wp_bind.
    eapply wp_mono; [apply _count_items_counted|].
    intros [o| |] s1 H1; [|exact H1|exact H1].
    apply wp_bind.
    eapply wp_mono; [apply _count_items_counted|].
    intros [r| |] s2 H2; [|now apply (counted_trans H1)|destruct H2 as [? [_ []]]].
    pose proof (counted_trans H1 H2) as H12.
    wp_run; exact H12.
Qed.

Lemma verify_tables_counted (self : config) (rt : dict string)
    (l : dict string) (s : state) :
  (forall kv, In kv l -> dict_get rt (fst kv) <> None) ->
  wp (fold_each l tt (fun _ kv => verify_table_counts self rt kv)) (counted s) s.
Proof.
  revert s. induction l as [|kv l IH]; intros s Hkeys; cbn [fold_each].
  - apply wp_ret, counted_refl.
  - apply wp_bind.
    eapply wp_mono; [apply verify_table_counts_counted; apply Hkeys; now left|].
    intros [[]| |] s1 H1; [|exact H1|exact H1].
    eapply wp_mono; [apply IH; intros kv' Hin; apply Hkeys; now right|].
    intros r s2 H2. exact (counted_trans H1 H2).
Qed.

(** What [_verify_item_counts] logs for one table, by the order of the two
    counts. *)
Definition count_report (table_key : string) (original_count restore_count : Z)
    : list log_record :=
  match restore_count ?= original_count with
  | Eq =>
      [{| levelname := INFO;
          message := [FStr table_key; FLit ": original="; FInt original_count;
                      FLit ", restore="; FInt restore_count;
                      FLit " (counts match)"] |}]
  | Lt =>
      [{| levelname := INFO;
          message := [FStr table_key; FLit ": original="; FInt original_count;
                      FLit ", restore="; FInt restore_count;
                      FLit " (restore has ";
                      FInt (original_count - restore_count);
                      FLit " fewer items - expected for past restore point)"] |}]
  | Gt =>
      [{| levelname := WARNING;
          message := [FLit "Unexpected: restore table has MORE items than original for ";
                      FStr table_key; FLit ": original="; FInt original_count;
                      FLit ", restore="; FInt restore_count] |};
       {| levelname := WARNING;
          message := [FLit "This may indicate an issue - please verify manually"] |}]
  end.

Lemma verify_table_counts_report (self : config) (rt : dict string)
    (kv : string * string) (restore_table : string)
    (original_count restore_count : Z) (pv1 pv2 : provider) (s : state) :
  dry_run self = false ->
  dict_get rt (fst kv) = Some restore_table ->
  db_scan_count (provider_state s) (snd kv) = (pv1, inr original_count) ->
  db_scan_count pv1 restore_table = (pv2, inr restore_count) ->
  wp (verify_table_counts self rt kv)
     (fun r s' =>
        r = Ok tt /\
        log s' = (log s ++ count_report (fst kv) original_count restore_count)%list /\
        trace s' =
          (trace s ++
           [{| ev_call := scan_count (snd kv);
               ev_result := inr (RCount original_count) |};
            {| ev_call := scan_count restore_table;
               ev_result := inr (RCount restore_count) |}])%list) s.
Proof.
  intros Hdry Hkey H1 H2. unfold verify_table_counts, _count_items,
    dynamodb_scan_count.
  apply wp_bind, wp_subscript. rewrite Hkey, Hdry.
  apply wp_bind, wp_try_except_ClientError.
  apply wp_eq with
    (r := Ok original_count)
    (s' := set_provider s pv1 {| ev_call := scan_count (snd kv);
                                 ev_result := inr (RCount original_count) |});
    [unfold invoke; now rewrite H1|].
  apply wp_bind, wp_try_except_ClientError.
  apply wp_eq with
    (r := Ok restore_count)
    (s' := set_provider
             (set_provider s pv1 {| ev_call := scan_count (snd kv);
                                    ev_result := inr (RCount original_count) |})
             pv2 {| ev_call := scan_count restore_table;
                    ev_result := inr (RCount restore_count) |});
    [unfold invoke; cbn [provider_state set_provider]; now rewrite H2|].
  unfold count_report.
  destruct (Z.compare_spec restore_count original_count) as [Hc|Hc|Hc].
  - subst. rewrite Z.ltb_irrefl. wp_run.
    cbn. rewrite <- !app_assoc. now repeat split.
  - replace (original_count <? restore_count) with false
      by (symmetry; apply Z.ltb_ge; lia).
    replace (restore_count <? original_count) with true
      by (symmetry; apply Z.ltb_lt; lia).
    wp_run. cbn. rewrite <- !app_assoc. now repeat split.
  - replace (original_count <? restore_count) with true
      by (symmetry; apply Z.ltb_lt; lia).
    wp_run. cbn. rewrite <- !app_assoc. now repeat split.
Qed.

(** ** The batches of the swap *)

Definition batch_bounded (c : call) : Prop :=
  match c with
  | batch_write_item _ requests => (List.length requests <= 25)%nat
  | _ => True
  end.

Lemma run_call_bounded (self : config) (c : call) :
  any_run_call self c -> batch_bounded c.
Proof.
  intros [rt [st H]]. destruct st, c; cbn in *; try exact I; tauto.
Qed.

(** The items the scans among [evs] returned, in order. *)
Definition scanned (evs : list event) : list item :=
  flat_map (fun ev =>
              match ev_call ev, ev_result ev with
              | scan _ _, inr (RScan o) => Items o
              | _, _ => []
              end) evs.

(** The requests of the batches among [evs], in order. *)
Definition requested (evs : list event) : list write_request :=
  flat_map (fun ev =>
              match ev_call ev with
              | batch_write_item _ requests => requests
              | _ => []
              end) evs.

Definition not_scan (ev : event) : Prop :=
  match ev_call ev with scan _ _ => False | _ => True end.

(** [cursors t e evs e']: the scans among [evs] are scans of [t] that
    returned a page; the first starts where [e] says, each next one at the
    [LastEvaluatedKey] of the one before, and [e'] is where a further scan
    would start ([None]: the last page had no [LastEvaluatedKey]). *)
Inductive cursors (t : string)
    : option (option item) -> list event -> option (option item) -> Prop :=
| cursors_nil e : cursors t e [] e
| cursors_scan start o rest e' :
    cursors t (option_map Some (LastEvaluatedKey o)) rest e' ->
    cursors t (Some start)
      ({| ev_call := scan t start; ev_result := inr (RScan o) |} :: rest) e'
| cursors_other e ev rest e' :
    not_scan ev -> cursors t e rest e' -> cursors t e (ev :: rest) e'.

Lemma cursors_app (t : string) (e e1 e2 : option (option item))
    (a b : list event) :
  cursors t e a e1 -> cursors t e1 b e2 -> cursors t e (a ++ b) e2.
Proof.
  intros Ha Hb. induction Ha; cbn; [assumption|constructor; auto|constructor; auto].
Qed.

Lemma cursors_quiet (t : string) (e : option (option item)) (evs : list event) :
  Forall not_scan evs -> cursors t e evs e.
Proof. induction 1; constructor; assumption. Qed.

Lemma scanned_quiet (evs : list event) : Forall not_scan evs -> scanned evs = [].
Proof.
  induction 1 as [|ev evs H _ IH]; [reflexivity|].
  unfold scanned in *. cbn [flat_map]. rewrite IH.
  unfold not_scan in H. destruct (ev_call ev); try reflexivity. destruct H.
Qed.

Lemma scanned_app (a b : list event) :
  scanned (a ++ b) = (scanned a ++ scanned b)%list.
Proof. apply flat_map_app. Qed.

Lemma requested_app (a b : list event) :
  requested (a ++ b) = (requested a ++ requested b)%list.
Proof. apply flat_map_app. Qed.

Lemma requested_scan (t : string) (start : option item) (r : exn + response)
    (evs : list event) :
  requested ({| ev_call := scan t start; ev_result := r |} :: evs) =
  requested evs.
Proof. reflexivity. Qed.

Lemma scanned_scan (t : string) (start : option item) (o : scan_output)
    (evs : list event) :
  scanned ({| ev_call := scan t start; ev_result := inr (RScan o) |} :: evs) =
  (Items o ++ scanned evs)%list.
Proof. reflexivity. Qed.

Lemma range_from_eq (fuel start stop step : nat) :
  range_from (S fuel) start stop step =
  if (start <? stop)%nat then start :: range_from fuel (start + step) stop step
  else [].
Proof. reflexivity. Qed.

Lemma slice_batch {A} (l : list A) (i : nat) :
  (slice l i (i + batch_size) ++ skipn (i + batch_size) l)%list = skipn i l.
Proof.
  unfold slice. replace (i + batch_size - i)%nat with batch_size by lia.
  replace (i + batch_size)%nat with (batch_size + i)%nat by lia.
  rewrite <- skipn_skipn. apply firstn_skipn.
Qed.

(** The batches written for one page: no scan among the events, and on a
    normal end the requests are the [PutRequest]s of the page's items from
    [start] on, in order. *)
Lemma put_batches_from (target : string) (items : list item) (fuel : nat) :
  forall (start : nat) (n : Z) (s : state),
    (List.length items <= fuel + start)%nat ->
    wp (fold_each (range_from fuel start (List.length items) batch_size) n
          (fun items_written i =>
             let batch := slice items i (i + batch_size) in
             let put_requests := map PutRequest batch in
             match put_requests with
             | [] => ret items_written
             | _ =>
                 dynamodb_batch_write_item target put_requests ;;
                 ret (items_written + Z.of_nat (List.length put_requests))
             end))
       (fun r s' =>
          exists evs, trace s' = (trace s ++ evs)%list /\ Forall not_scan evs /\
            (r <> Diverge) /\
            forall n', r = Ok n' ->
                       requested evs = map PutRequest (skipn start items)) s.
Proof.
  induction fuel as [|fuel IH]; intros start n s Hlen.
  - cbn [range_from fold_each]. apply wp_ret. exists [].
    rewrite app_nil_r, skipn_all2 by lia. repeat split; [constructor|discriminate].
  - rewrite range_from_eq. destruct (Nat.ltb_spec start (List.length items)).
    + cbn [fold_each]. cbv zeta. apply wp_bind.
      pose proof (slice_batch items start) as Hs.
      destruct (map PutRequest (slice items start (start + batch_size)))
        as [|r0 rs] eqn:E.
      * apply wp_ret.
        eapply wp_mono; [apply (IH (start + batch_size)%nat); unfold batch_size; lia|].
        intros r s' (evs & T & Q & D & R). exists evs. repeat split; try assumption.
        intros n' Hr. rewrite (R n' Hr), <- Hs.
        apply map_eq_nil in E. rewrite E. reflexivity.
      * apply wp_bind. unfold dynamodb_batch_write_item.
        apply wp_invoke. intros pv [e|[]] Hop.
        -- eexists. split; [reflexivity|]. split; [repeat constructor|].
           split; discriminate.
        -- apply wp_ret.
           eapply wp_mono;
             [apply (IH (start + batch_size)%nat); unfold batch_size; lia|].
           intros r s' (evs & T & Q & D & R). eexists (_ :: evs). split.
           { rewrite T. cbn [trace set_provider]. rewrite <- app_assoc.
             reflexivity. }
           split; [constructor; [exact I|assumption]|]. split; [assumption|].
           intros n' Hr. unfold requested in *. cbn [flat_map ev_call].
           rewrite (R n' Hr), <- E, <- map_app, Hs. reflexivity.
    + cbn [fold_each]. apply wp_ret. exists [].
      rewrite app_nil_r, skipn_all2 by lia.
      repeat split; [constructor|discriminate].
Qed.

Lemma put_batches_covers (target : string) (items : list item) (n : Z)
    (s : state) :
  wp (put_batches target items n)
     (fun r s' =>
        exists evs, trace s' = (trace s ++ evs)%list /\ Forall not_scan evs /\
          (r <> Diverge) /\
          forall n', r = Ok n' -> requested evs = map PutRequest items) s.
Proof.
  unfold put_batches, range0.
  eapply wp_mono; [apply put_batches_from; lia|].
  intros r s' H. exact H.
Qed.

(** The pages after the first: the scans follow the cursors to the end and
    the requests are the [PutRequest]s of the scanned items. *)
Definition copied (source : string) (e : option (option item)) (s : state)
    (r : outcome Z) (s' : state) : Prop :=
  exists evs, trace s' = (trace s ++ evs)%list /\
    forall n, r = Ok n ->
              cursors source e evs None /\
              requested evs = map PutRequest (scanned evs).

Lemma copy_pages_covers (source target : string) (fuel : nat) :
  forall (scan_response : scan_output) (n : Z) (s : state),
    wp (copy_pages fuel source target scan_response n)
       (copied source (option_map Some (LastEvaluatedKey scan_response)) s) s.
Proof.
  induction fuel as [|fuel IH]; intros scan_response n s; cbn [copy_pages];
    (destruct (LastEvaluatedKey scan_response) as [last|]; cbn [option_map];
     [|apply wp_ret; exists []; rewrite app_nil_r; split; [reflexivity|];
       intros; split; [constructor|reflexivity]]).
  - exists []. rewrite app_nil_r. split; [reflexivity|]. discriminate.
  - apply wp_bind. unfold dynamodb_scan. apply wp_invoke. intros pv [e|o] Hop.
    + eexists. split; [reflexivity|]. discriminate.
    + apply wp_bind.
      eapply wp_mono; [apply put_batches_covers|].
      intros r s1 (evs1 & T1 & Q1 & D1 & R1).
      destruct r as [n1|e|]; [|
        eexists; split; [rewrite T1; cbn [trace set_provider];
                         rewrite <- app_assoc; reflexivity|discriminate]
        |congruence].
      eapply wp_mono; [apply IH|].
      intros r s2 (evs2 & T2 & R2).
      eexists (_ :: evs1 ++ evs2)%list. split.
      { rewrite T2, T1. cbn [trace set_provider].
        rewrite <- !app_assoc. reflexivity. }
      intros n2 Hr. destruct (R2 n2 Hr) as [C2 Q2]. split.
      * constructor. eapply cursors_app; [apply cursors_quiet; exact Q1|exact C2].
      * rewrite requested_scan, scanned_scan, requested_app, scanned_app.
        rewrite (R1 n1 eq_refl), Q2, (scanned_quiet evs1 Q1). cbn [app].
        now rewrite map_app.
Qed.

Lemma _copy_table_data_covers (fuel : nat) (source target : string) (s : state) :
  wp (_copy_table_data fuel source target) (copied source (Some None) s) s.
Proof.
  unfold _copy_table_data. apply wp_try_except, wp_bind.
  assert (forall e (s1 : state) evs,
             trace s1 = (trace s ++ evs)%list ->
             wp (logger ERROR [FLit "Error copying table data: "; FExn e] ;;
                 raise e)
                (copied source (Some None) s) s1) as Hfail.
  { intros e s1 evs T. wp_run. exists evs. split; [exact T|discriminate]. }
  unfold dynamodb_scan. apply wp_invoke. intros pv [e|o] Hop.
  - eapply Hfail. reflexivity.
  - apply wp_bind.
    eapply wp_mono; [apply put_batches_covers|].
    intros r s1 (evs1 & T1 & Q1 & D1 & R1).
    destruct r as [n1|e|]; [| |congruence].
    + eapply wp_mono; [apply copy_pages_covers|].
      intros r s2 (evs2 & T2 & R2).
      assert (trace s2 =
              (trace s ++ {| ev_call := scan source None;
                             ev_result := inr (RScan o) |} :: evs1 ++ evs2)%list)
        as T.
      { rewrite T2, T1. cbn [trace set_provider].
        rewrite <- !app_assoc. reflexivity. }
      destruct r as [n2|e|].
      * eexists. split; [exact T|]. intros n' _.
        destruct (R2 n2 eq_refl) as [C2 Q2]. split.
        -- constructor.
           eapply cursors_app; [apply cursors_quiet; exact Q1|exact C2].
        -- rewrite requested_scan, scanned_scan, requested_app, scanned_app.
           rewrite (R1 n1 eq_refl), Q2, (scanned_quiet evs1 Q1). cbn [app].
           now rewrite map_app.
      * eapply Hfail. exact T.
      * eexists. split; [exact T|discriminate].
    + eapply Hfail. rewrite T1. cbn [trace set_provider].
      rewrite <- app_assoc. reflexivity.
Qed.

(** The key of an item: its attributes named by the key schema. *)
Fixpoint project_from (key_names : list string) (it key : item) : option item :=
  match key_names with
  | [] => Some key
  | key_name :: rest =>
      match dict_get it key_name with
      | Some v => project_from rest it (dict_set key key_name v)
      | None => None
      end
  end.

(** Item by item, the requests delete the items by their keys. *)
Definition deletes (key_names : list string) (items : list item)
    (requests : list write_request) : Prop :=
  Forall2 (fun it request =>
             exists key, project_from key_names it [] = Some key /\
                         request = DeleteRequest key)
          items requests.

Lemma key_of_project (key_names : list string) (it : item) :
  forall (acc : item) (s : state),
    wp (fold_each key_names acc
          (fun key key_name =>
             v <- subscript it key_name ;; ret (dict_set key key_name v)))
       (fun r s' =>
          s' = s /\ r <> Diverge /\
          forall key, r = Ok key -> project_from key_names it acc = Some key) s.
Proof.
  induction key_names as [|k ks IH]; intros acc s; cbn [fold_each project_from].
  - apply wp_ret. repeat split; [discriminate|congruence].
  - apply wp_bind, wp_bind, wp_subscript.
    destruct (dict_get it k) as [v|].
    + apply wp_ret. apply IH.
    + repeat split; discriminate.
Qed.

Lemma delete_requests_project (key_names : list string) (batch : list item) :
  forall (acc : list write_request) (s : state),
    wp (fold_each batch acc
          (fun delete_requests it =>
             key <- key_of key_names it ;;
             ret (delete_requests ++ [DeleteRequest key])%list))
       (fun r s' =>
          s' = s /\ r <> Diverge /\
          forall requests, r = Ok requests ->
            exists rs, requests = (acc ++ rs)%list /\ deletes key_names batch rs) s.
Proof.
  induction batch as [|it batch IH]; intros acc s; cbn [fold_each].
  - apply wp_ret. repeat split; [discriminate|].
    intros requests [= <-]. exists []. rewrite app_nil_r.
    split; [reflexivity|constructor].
  - apply wp_bind, wp_bind. unfold key_of.
    eapply wp_mono; [apply key_of_project|].
    intros [key|e|] s1 (-> & D & K); [| |congruence].
    + apply wp_ret.
      eapply wp_mono; [apply IH|].
      intros r s2 (-> & D2 & R). repeat split; [assumption|].
      intros requests Hr. destruct (R requests Hr) as (rs & -> & Hd).
      exists (DeleteRequest key :: rs). rewrite <- app_assoc. split; [reflexivity|].
      constructor; [|exact Hd]. exists key. split; [now apply K|reflexivity].
    + repeat split; discriminate.
Qed.

Lemma deletes_app (key_names : list string) (a b : list item)
    (ra rb : list write_request) :
  deletes key_names a ra -> deletes key_names b rb ->
  deletes key_names (a ++ b) (ra ++ rb).
Proof. apply Forall2_app. Qed.
Arguments deletes_app {key_names a b ra rb} _ _.

Lemma delete_batches_from (table : string) (key_names : list string)
    (items : list item) (fuel : nat) :
  forall (start : nat) (n : Z) (s : state),
    (List.length items <= fuel + start)%nat ->
    wp (fold_each (range_from fuel start (List.length items) batch_size) n
          (fun items_deleted i =>
             let batch := slice items i (i + batch_size) in
             delete_requests <-
               fold_each batch []
                 (fun delete_requests it =>
                    key <- key_of key_names it ;;
                    ret (delete_requests ++ [DeleteRequest key])%list) ;;
             match delete_requests with
             | [] => ret items_deleted
             | _ =>
                 dynamodb_batch_write_item table delete_requests ;;
                 ret (items_deleted + Z.of_nat (List.length delete_requests))
             end))
       (fun r s' =>
          exists evs, trace s' = (trace s ++ evs)%list /\ Forall not_scan evs /\
            (r <> Diverge) /\
            forall n', r = Ok n' ->
                       deletes key_names (skipn start items) (requested evs)) s.
Proof.
  induction fuel as [|fuel IH]; intros start n s Hlen.
  - cbn [range_from fold_each]. apply wp_ret. exists [].
    rewrite app_nil_r, skipn_all2 by lia.
    repeat split; [constructor|discriminate|constructor].
  - rewrite range_from_eq. destruct (Nat.ltb_spec start (List.length items)).
    + cbn [fold_each]. cbv zeta. apply wp_bind, wp_bind.
      pose proof (slice_batch items start) as Hs.
      eapply wp_mono; [apply delete_requests_project|].
      intros [requests|e|] s1 (-> & D & R); [| |congruence].
      * destruct (R requests eq_refl) as (rs & -> & Hd). cbn [app] in *.
        destruct rs as [|r0 rs].
        -- apply wp_ret.
           eapply wp_mono;
             [apply (IH (start + batch_size)%nat); unfold batch_size; lia|].
           intros r s' (evs & T & Q & D' & R'). exists evs.
           repeat split; try assumption.
           intros n' Hr. rewrite <- Hs.
           apply (deletes_app Hd (R' n' Hr)).
        -- apply wp_bind. unfold dynamodb_batch_write_item.
           apply wp_invoke. intros pv [e|[]] Hop.
           ++ eexists. split; [reflexivity|]. split; [repeat constructor|].
              split; discriminate.
           ++ apply wp_ret.
              eapply wp_mono;
                [apply (IH (start + batch_size)%nat); unfold batch_size; lia|].
              intros r s' (evs & T & Q & D' & R'). eexists (_ :: evs). split.
              { rewrite T. cbn [trace set_provider]. rewrite <- app_assoc.
                reflexivity. }
              split; [constructor; [exact I|assumption]|]. split; [assumption|].
              intros n' Hr. rewrite <- Hs.
              change (requested (_ :: evs))
                with ((r0 :: rs) ++ requested evs)%list.
              apply (deletes_app Hd (R' n' Hr)).
      * eexists []. rewrite app_nil_r.
        repeat split; [constructor|discriminate|discriminate].
    + cbn [fold_each]. apply wp_ret. exists [].
      rewrite app_nil_r, skipn_all2 by lia.
      repeat split; [constructor|discriminate|constructor].
Qed.

Lemma delete_batches_covers (table : string) (key_names : list string)
    (items : list item) (n : Z) (s : state) :
  wp (delete_batches table key_names items n)
     (fun r s' =>
        exists evs, trace s' = (trace s ++ evs)%list /\ Forall not_scan evs /\
          (r <> Diverge) /\
          forall n', r = Ok n' -> deletes key_names items (requested evs)) s.
Proof.
  unfold delete_batches, range0.
  eapply wp_mono; [apply delete_batches_from; lia|].
  intros r s' H. exact H.
Qed.

Definition cleared (table : string) (key_names : list string)
    (e : option (option item)) (s : state) (r : outcome Z) (s' : state) : Prop :=
  exists evs, trace s' = (trace s ++ evs)%list /\
    forall n, r = Ok n ->
              cursors table e evs None /\
              deletes key_names (scanned evs) (requested evs).

Lemma clear_pages_covers (table : string) (key_names : list string)
    (fuel : nat) :
  forall (scan_response : scan_output) (n : Z) (s : state),
    wp (clear_pages fuel table key_names scan_response n)
       (cleared table key_names
          (option_map Some (LastEvaluatedKey scan_response)) s) s.
Proof.
  induction fuel as [|fuel IH]; intros scan_response n s; cbn [clear_pages];
    (destruct (LastEvaluatedKey scan_response) as [last|]; cbn [option_map];
     [|apply wp_ret; exists []; rewrite app_nil_r; split; [reflexivity|];
       intros; split; constructor]).
  - exists []. rewrite app_nil_r. split; [reflexivity|]. discriminate.
  - apply wp_bind. unfold dynamodb_scan. apply wp_invoke. intros pv [e|o] Hop.
    + eexists. split; [reflexivity|]. discriminate.
    + apply wp_bind.
      eapply wp_mono; [apply delete_batches_covers|].
      intros r s1 (evs1 & T1 & Q1 & D1 & R1).
      destruct r as [n1|e|]; [|
        eexists; split; [rewrite T1; cbn [trace set_provider];
                         rewrite <- app_assoc; reflexivity|discriminate]
        |congruence].
      eapply wp_mono; [apply IH|].
      intros r s2 (evs2 & T2 & R2).
      eexists (_ :: evs1 ++ evs2)%list. split.
      { rewrite T2, T1. cbn [trace set_provider].
        rewrite <- !app_assoc. reflexivity. }
      intros n2 Hr. destruct (R2 n2 Hr) as [C2 Q2]. split.
      * constructor. eapply cursors_app; [apply cursors_quiet; exact Q1|exact C2].
      * rewrite requested_scan, scanned_scan, requested_app, scanned_app.
        rewrite (scanned_quiet evs1 Q1). cbn [app].
        apply (deletes_app (R1 n1 eq_refl) Q2).
Qed.

(** [_clear_table] on a normal end: it described the table, then scanned
    it page after page to the last, and requested the deletion of every
    scanned item by its key. *)
Definition table_cleared (table : string) (s : state) (r : outcome unit)
    (s' : state) : Prop :=
  exists evs, trace s' = (trace s ++ evs)%list /\
    (r = Ok tt ->
     exists d rest,
       evs = {| ev_call := describe_table table; ev_result := inr (RTable d) |}
               :: rest /\
       cursors table (Some None) rest None /\
       deletes (KeySchema d) (scanned rest) (requested rest)).

Lemma _clear_table_covers (fuel : nat) (table : string) (s : state) :
  wp (_clear_table fuel table) (table_cleared table s) s.
Proof.
  unfold _clear_table. apply wp_try_except, wp_bind.
  assert (forall e (s1 : state) evs,
             trace s1 = (trace s ++ evs)%list ->
             wp (logger ERROR [FLit "Error clearing table "; FStr table;
                               FLit ": "; FExn e] ;;
                 raise e)
                (table_cleared table s) s1) as Hfail.
  { intros e s1 evs T. wp_run. exists evs. split; [exact T|discriminate]. }
  unfold dynamodb_describe_table. apply wp_invoke. intros pv0 [e|d] Hop0.
  { eapply Hfail. reflexivity. }
  apply wp_bind. unfold dynamodb_scan. apply wp_invoke. intros pv [e|o] Hop.
  { eapply Hfail. cbn [trace set_provider]. rewrite <- app_assoc. reflexivity. }
  apply wp_bind.
  eapply wp_mono; [apply delete_batches_covers|].
  intros r s1 (evs1 & T1 & Q1 & D1 & R1).
  destruct r as [n1|e|]; [| |congruence].
  - apply wp_bind.
    eapply wp_mono; [apply clear_pages_covers|].
    intros r s2 (evs2 & T2 & R2).
    assert (trace s2 =
            (trace s ++
             {| ev_call := describe_table table; ev_result := inr (RTable d) |}
             :: {| ev_call := scan table None; ev_result := inr (RScan o) |}
             :: evs1 ++ evs2)%list) as T.
    { rewrite T2, T1. cbn [trace set_provider].
      rewrite <- !app_assoc. reflexivity. }
    destruct r as [n2|e|].
    + wp_run. eexists. split; [exact T|]. intros _.
      destruct (R2 n2 eq_refl) as [C2 Q2]. eexists d, _.
      split; [reflexivity|]. split.
      * constructor.
        eapply cursors_app; [apply cursors_quiet; exact Q1|exact C2].
      * rewrite requested_scan, scanned_scan, requested_app, scanned_app.
        rewrite (scanned_quiet evs1 Q1). cbn [app].
        apply (deletes_app (R1 n1 eq_refl) Q2).
    + eapply Hfail. exact T.
    + eexists. split; [exact T|discriminate].
  - eapply Hfail. rewrite T1. cbn [trace set_provider].
    rewrite <- !app_assoc. reflexivity.
Qed.

(** * Further properties of the script *)

(** ** class RestoreLock *)

Definition lock_acquired_record (path : string) : log_record :=
  {| levelname := INFO; message := [FLit "Lock acquired: "; FStr path] |}.

Definition lock_failed_record : log_record :=
  {| levelname := ERROR;
     message := [FLit "Failed to acquire lock - restore already in progress"] |}.

Lemma wp_os_open_excl (Q : outcome unit -> state -> Prop) (s : state) :
  match lock_marker s with
  | Some _ => Q (Raise (PyError "FileExistsError" "File exists")) s
  | None => Q (Ok tt) (set_lock s (Some (clock s)) (lock_acquired s))
  end ->
  wp RestoreLock_os_open_excl Q s.
Proof. unfold wp, RestoreLock_os_open_excl. now destruct (lock_marker s). Qed.

Lemma wp_unlink (Q : outcome unit -> state -> Prop) (s : state) :
  match lock_marker s with
  | Some _ => Q (Ok tt) (set_lock s None (lock_acquired s))
  | None => Q (Raise (PyError "FileNotFoundError" "No such file")) s
  end ->
  wp RestoreLock_unlink Q s.
Proof. unfold wp, RestoreLock_unlink. now destruct (lock_marker s). Qed.

Lemma wp_is_stale (n : Z) (Q : outcome bool -> state -> Prop) (s : state) :
  Q (Ok match lock_marker s with
        | None => false
        | Some mtime => n * DateTime.second_us <? clock s - mtime
        end) s ->
  wp (RestoreLock__is_stale n) Q s.
Proof. unfold wp, RestoreLock__is_stale. now destruct (lock_marker s). Qed.

Lemma wp_set_lock_acquired (b : bool) (Q : outcome unit -> state -> Prop)
    (s : state) :
  Q (Ok tt) (set_lock s (lock_marker s) b) ->
  wp (RestoreLock_set_lock_acquired b) Q s.
Proof. auto. Qed.

Lemma wp_get_lock_acquired (Q : outcome bool -> state -> Prop) (s : state) :
  Q (Ok (lock_acquired s)) s -> wp RestoreLock_get_lock_acquired Q s.
Proof. auto. Qed.

Lemma wp_exists (Q : outcome bool -> state -> Prop) (s : state) :
  Q (Ok match lock_marker s with Some _ => true | None => false end) s ->
  wp RestoreLock_exists Q s.
Proof. auto. Qed.

(** One step of a [wp] goal about the lock. *)
Ltac wp_lock :=
  lazymatch goal with
  | |- wp RestoreLock_os_open_excl _ _ => apply wp_os_open_excl
  | |- wp RestoreLock_unlink _ _ => apply wp_unlink
  | |- wp (RestoreLock__is_stale _) _ _ => apply wp_is_stale
  | |- wp (RestoreLock_set_lock_acquired _) _ _ => apply wp_set_lock_acquired
  | |- wp RestoreLock_get_lock_acquired _ _ => apply wp_get_lock_acquired
  | |- wp RestoreLock_exists _ _ => apply wp_exists
  | |- wp (bind _ _) _ _ => apply wp_bind
  | |- wp (try_except _ _) _ _ => apply wp_try_except
  | |- wp (ret _) _ _ => apply wp_ret
  | |- wp (raise _) _ _ => apply wp_raise
  | |- wp (logger _ _) _ _ => apply wp_logger
  | |- wp time_time _ _ => apply wp_time_time
  | |- wp (time_sleep _) _ _ => apply wp_time_sleep
  end;
  cbn beta iota;
  cbn [lock_marker lock_acquired clock set_lock add_log set_clock
       is_FileExistsError String.eqb Ascii.eqb Bool.eqb negb andb].

(** One turn of the [while] loop of [acquire]. *)
Lemma RestoreLock_acquire_loop_S (fuel : nat) (path : string)
    (start_time timeout_seconds : Z) :
  RestoreLock_acquire_loop (S fuel) path start_time timeout_seconds =
  (now <- time_time ;;
   if now - start_time <? timeout_seconds * DateTime.second_us then
     try_except
       (RestoreLock_os_open_excl ;;
        RestoreLock_set_lock_acquired true ;;
        logger INFO [FLit "Lock acquired: "; FStr path] ;;
        ret true)
       (fun e =>
          if is_FileExistsError e then
            stale <- RestoreLock__is_stale 3600 ;;
            if stale then
              logger WARNING [FLit "Removing stale lock file"] ;;
              try_except RestoreLock_unlink (fun _ => ret tt) ;;
              RestoreLock_acquire_loop fuel path start_time timeout_seconds
            else
              time_sleep 500000 ;;
              RestoreLock_acquire_loop fuel path start_time timeout_seconds
          else raise e)
   else
     logger ERROR [FLit "Failed to acquire lock - restore already in progress"] ;;
     ret false).
Proof. reflexivity. Qed.

(** The state [acquire] leaves when it takes the lock at once. *)
Definition lock_taken (path : string) (s : state) : state :=
  add_log (set_lock s (Some (clock s)) true) (lock_acquired_record path).

Lemma RestoreLock_acquire_loop_takes (fuel : nat) (path : string)
    (start timeout_seconds : Z) (s : state) :
  lock_marker s = None ->
  clock s - start < timeout_seconds * DateTime.second_us ->
  RestoreLock_acquire_loop (S fuel) path start timeout_seconds s =
  (Ok true, lock_taken path s).
Proof.
  intros Hfree Htime.
  assert (wp (RestoreLock_acquire_loop (S fuel) path start timeout_seconds)
             (fun r s' => r = Ok true /\ s' = lock_taken path s) s) as H.
  { rewrite RestoreLock_acquire_loop_S. wp_lock. wp_lock.
    replace (clock s - start <? timeout_seconds * DateTime.second_us) with true
      by (symmetry; now apply Z.ltb_lt).
    wp_lock. wp_lock. wp_lock. rewrite Hfree. repeat wp_lock.
    split; reflexivity. }
  unfold wp in H.
  destruct (RestoreLock_acquire_loop (S fuel) path start timeout_seconds s)
    as [r s'].
  cbn [fst snd] in H. destruct H as [-> ->]. reflexivity.
Qed.

(** X1: [RestoreLock.acquire] where no lock file exists.  With a positive
    timeout it takes the lock at once: it returns [True], the lock file is
    created with the current time as its modification time, [lock_acquired]
    is set, no time is spent waiting and one INFO line is logged.  With a
    timeout of zero or less the loop is never entered: it returns [False]
    and creates no file. *)
Theorem acquire_takes_a_free_lock (fuel : nat) (path : string)
    (timeout_seconds : Z) (s : state) :
  lock_marker s = None ->
  (0 < timeout_seconds ->
   RestoreLock_acquire (S fuel) path timeout_seconds s =
   (Ok true, lock_taken path s)) /\
  (timeout_seconds <= 0 ->
   RestoreLock_acquire (S fuel) path timeout_seconds s =
   (Ok false, add_log s lock_failed_record)).
Proof.
  intros Hfree. split; intros Htime.
  - unfold RestoreLock_acquire, bind at 1, time_time.
    apply RestoreLock_acquire_loop_takes; [exact Hfree|].
    unfold DateTime.second_us. lia.
  - unfold RestoreLock_acquire, bind at 1, time_time.
    rewrite RestoreLock_acquire_loop_S. unfold bind at 1, time_time.
    replace (clock s - clock s <? timeout_seconds * DateTime.second_us)
      with false
      by (symmetry; apply Z.ltb_ge; unfold DateTime.second_us; lia).
    reflexivity.
Qed.

(** What a wait on the lock leaves as it was. *)
Definition waited (s s' : state) : Prop :=
  provider_state s' = provider_state s /\ lock_marker s' = lock_marker s /\
  lock_acquired s' = lock_acquired s /\
  restore_point_timestamp s' = restore_point_timestamp s /\
  status_file s' = status_file s /\ trace s' = trace s.

Lemma RestoreLock_acquire_loop_waits (mtime : Z) (path : string)
    (start timeout_seconds : Z) (n : nat) :
  forall (fuel : nat) (s : state),
    lock_marker s = Some mtime ->
    (n < fuel)%nat ->
    clock s - start = timeout_seconds * DateTime.second_us - Z.of_nat n * 500000 ->
    clock s + Z.of_nat n * 500000 - mtime <= 3600 * DateTime.second_us ->
    wp (RestoreLock_acquire_loop fuel path start timeout_seconds)
       (fun r s' =>
          r = Ok false /\ waited s s' /\
          clock s' = clock s + Z.of_nat n * 500000 /\
          log s' = (log s ++ [lock_failed_record])%list) s.
Proof.
  induction n as [|n IH]; intros fuel s Hheld Hfuel Hclock Hfresh;
    (destruct fuel as [|fuel]; [lia|]);
    rewrite RestoreLock_acquire_loop_S; wp_lock; wp_lock.
  - replace (clock s - start <? timeout_seconds * DateTime.second_us) with false
      by (symmetry; apply Z.ltb_ge; lia).
    repeat wp_lock. repeat split. lia.
  - replace (clock s - start <? timeout_seconds * DateTime.second_us) with true
      by (symmetry; apply Z.ltb_lt; lia).
    wp_lock. wp_lock. wp_lock. rewrite Hheld. cbn beta iota.
    cbn [is_FileExistsError String.eqb Ascii.eqb Bool.eqb].
    wp_lock. wp_lock. rewrite Hheld.
    replace (3600 * DateTime.second_us <? clock s - mtime) with false
      by (symmetry; apply Z.ltb_ge; lia).
    cbn beta iota. wp_lock. wp_lock.
    eapply wp_mono.
    { apply IH; cbn [lock_marker clock set_clock]; [exact Hheld|lia|lia|lia]. }
    intros r s' (Hr & Hw & Hc & Hl). cbn [clock set_clock log] in *.
    split; [exact Hr|]. split; [exact Hw|]. split; [lia|exact Hl].
Qed.

(** X2: [RestoreLock.acquire] while another process holds the lock, its
    lock file not older than an hour at the end of the wait.  The call polls
    every half second and gives up when the timeout has passed: it returns
    [False] after exactly [timeout_seconds] seconds, logs one ERROR line, and
    leaves the other process's lock file and its modification time as they
    were; [lock_acquired] stays as it was and the provider is not called. *)
Theorem acquire_gives_up_on_a_held_lock (fuel : nat) (path : string)
    (timeout_seconds mtime : Z) (s : state) :
  lock_marker s = Some mtime ->
  0 <= timeout_seconds ->
  (Z.to_nat (2 * timeout_seconds) < fuel)%nat ->
  clock s + timeout_seconds * DateTime.second_us - mtime
    <= 3600 * DateTime.second_us ->
  let r := RestoreLock_acquire fuel path timeout_seconds s in
  fst r = Ok false /\
  clock (snd r) = clock s + timeout_seconds * DateTime.second_us /\
  lock_marker (snd r) = Some mtime /\
  lock_acquired (snd r) = lock_acquired s /\
  provider_state (snd r) = provider_state s /\
  trace (snd r) = trace s /\
  log (snd r) = (log s ++ [lock_failed_record])%list.
Proof.
  intros Hheld Htime Hfuel Hfresh.
  assert (wp (RestoreLock_acquire fuel path timeout_seconds)
             (fun r s' =>
                r = Ok false /\ waited s s' /\
                clock s' =
                  clock s + Z.of_nat (Z.to_nat (2 * timeout_seconds)) * 500000 /\
                log s' = (log s ++ [lock_failed_record])%list) s) as H.
  { unfold RestoreLock_acquire. wp_lock. wp_lock.
    apply (RestoreLock_acquire_loop_waits mtime); [exact Hheld|exact Hfuel| |];
      rewrite Z2Nat.id by lia; unfold DateTime.second_us in *; lia. }
  unfold wp in H. destruct H as (Hr & Hw & Hc & Hl).
  destruct Hw as (Hp & Hm & Ha & _ & _ & Ht).
  cbn zeta. rewrite Z2Nat.id in Hc by lia.
  repeat split; try assumption; [|congruence].
  unfold DateTime.second_us. lia.
Qed.

(** X3: [RestoreLock.acquire] on a stale lock file, one whose modification
    time lies more than 3600 seconds back.  The file is removed and the lock
    taken in the same instant: the call returns [True] without waiting, the
    new lock file carries the current time, and a WARNING line precedes the
    INFO line of the acquisition. *)
Theorem acquire_replaces_a_stale_lock (fuel : nat) (path : string)
    (timeout_seconds mtime : Z) (s : state) :
  lock_marker s = Some mtime ->
  3600 * DateTime.second_us < clock s - mtime ->
  0 < timeout_seconds ->
  let r := RestoreLock_acquire (S (S fuel)) path timeout_seconds s in
  fst r = Ok true /\
  lock_marker (snd r) = Some (clock s) /\
  lock_acquired (snd r) = true /\
  clock (snd r) = clock s /\
  trace (snd r) = trace s /\
  log (snd r) =
    (log s ++ [{| levelname := WARNING;
                  message := [FLit "Removing stale lock file"] |};
               lock_acquired_record path])%list.
Proof.
  intros Hheld Hstale Htime.
  assert (wp (RestoreLock_acquire (S (S fuel)) path timeout_seconds)
             (fun r s' =>
                r = Ok true /\ lock_marker s' = Some (clock s) /\
                lock_acquired s' = true /\ clock s' = clock s /\
                trace s' = trace s /\
                log s' =
                  (log s ++ [{| levelname := WARNING;
                                message := [FLit "Removing stale lock file"] |};
                             lock_acquired_record path])%list) s) as H.
  { unfold RestoreLock_acquire. wp_lock. wp_lock.
    rewrite RestoreLock_acquire_loop_S. wp_lock. wp_lock.
    replace (clock s - clock s <? timeout_seconds * DateTime.second_us) with true
      by (symmetry; apply Z.ltb_lt; unfold DateTime.second_us; lia).
    wp_lock. wp_lock. wp_lock. rewrite Hheld. cbn beta iota.
    cbn [is_FileExistsError String.eqb Ascii.eqb Bool.eqb].
    wp_lock. wp_lock. rewrite Hheld.
    replace (3600 * DateTime.second_us <? clock s - mtime) with true
      by (symmetry; now apply Z.ltb_lt).
    cbn beta iota. wp_lock. wp_lock. wp_lock. wp_lock. wp_lock.
    rewrite Hheld. cbn beta iota.
    eapply wp_eq.
    { apply RestoreLock_acquire_loop_takes; cbn [lock_marker clock set_lock add_log];
        [reflexivity|unfold DateTime.second_us; lia]. }
    unfold lock_taken. cbn. rewrite <- app_assoc. repeat split. }
  exact H.
Qed.

(** ** The lock over a whole run *)

(** The lock file and the flag [lock_acquired] as they were. *)
Definition lock_kept (s s' : state) : Prop :=
  lock_marker s' = lock_marker s /\ lock_acquired s' = lock_acquired s.

#[export] Instance lock_kept_Frame : Frame lock_kept.
Proof.
  split; unfold lock_kept; cbn; try (intros; split; reflexivity).
  intros a b c [M1 A1] [M2 A2]. split; congruence.
Qed.

Lemma lock_kept_invoke {A} (c : call) (op : provider -> provider * (exn + A))
    (wrap : A -> response) :
  steps lock_kept (invoke c op wrap).
Proof.
  intros s. unfold invoke.
  destruct (op (provider_state s)) as [pv [e|a]]; split; reflexivity.
Qed.

Lemma lock_kept_time_sleep (d : Z) : steps lock_kept (time_sleep d).
Proof. intros s. split; reflexivity. Qed.

Ltac lock_kept_leaf :=
  first
    [ solve [auto with steps]
    | apply lock_kept_time_sleep
    | unfold dynamodb_describe_table, dynamodb_list_tables, dynamodb_delete_table,
        dynamodb_restore_table_to_point_in_time, dynamodb_scan_count,
        dynamodb_scan, dynamodb_batch_write_item,
        dynamodb_describe_continuous_backups;
      apply lock_kept_invoke ].

Ltac lock_kept_tac := steps_with lock_kept_leaf.

Lemma before_validation_lock_kept (self : config) (p : string) :
  steps lock_kept (before_validation self p).
Proof.
  unfold before_validation, reuse_or_clean, _check_existing_restore_tables,
    _find_old_restore_tables, _cleanup_existing_restore_tables.
  lock_kept_tac.
Qed.

Lemma poll_loop_lock_kept (fuel : nat) (self : config) (rt : dict string)
    (start timeout : Z) (active : list string) :
  steps lock_kept (poll_loop fuel self rt start timeout active).
Proof.
  revert active. induction fuel as [|fuel IH]; intros active; simpl;
    unfold poll_round; lock_kept_tac.
Qed.

Lemma clear_pages_lock_kept (fuel : nat) (t : string) (ks : list string)
    (r : scan_output) (n : Z) :
  steps lock_kept (clear_pages fuel t ks r n).
Proof.
  revert r n. induction fuel as [|fuel IH]; intros r n; simpl;
    destruct (LastEvaluatedKey r); unfold delete_batches; lock_kept_tac.
Qed.

Lemma copy_pages_lock_kept (fuel : nat) (src tgt : string) (r : scan_output)
    (n : Z) :
  steps lock_kept (copy_pages fuel src tgt r n).
Proof.
  revert r n. induction fuel as [|fuel IH]; intros r n; simpl;
    destruct (LastEvaluatedKey r); unfold put_batches; lock_kept_tac.
Qed.

Lemma restore_steps_lock_kept (fuel : nat) (self : config) (p : string)
    (rt : dict string) (skip : bool) :
  steps lock_kept (restore_steps fuel self p rt skip).
Proof.
  pose proof poll_loop_lock_kept. pose proof clear_pages_lock_kept.
  pose proof copy_pages_lock_kept.
  unfold restore_steps, poll_verify_swap, _initiate_pitr_restores,
    log_restore_window, _poll_restore_completion, _verify_item_counts,
    verify_table_counts, _count_items, _swap_data, _swap_table_data,
    _clear_table, _copy_table_data, delete_batches, put_batches,
    _delete_restore_tables.
  lock_kept_tac.
Qed.

(** The lock file after the [while] loop of [acquire]: held by this run when
    the loop returns [True]; as it was, or removed as stale, when it returns
    [False]. *)
Definition lock_after_acquire (s : state) (r : outcome bool) (s' : state)
    : Prop :=
  match r with
  | Ok true => lock_marker s' <> None /\ lock_acquired s' = true
  | Ok false =>
      (lock_marker s' = lock_marker s \/ lock_marker s' = None) /\
      lock_acquired s' = lock_acquired s
  | Raise _ => False
  | Diverge => True
  end.

Lemma RestoreLock_acquire_loop_lock (path : string) (start timeout_seconds : Z)
    (fuel : nat) :
  forall s : state,
    wp (RestoreLock_acquire_loop fuel path start timeout_seconds)
       (lock_after_acquire s) s.
Proof.
  induction fuel as [|fuel IH]; intros s; [exact I|].
  rewrite RestoreLock_acquire_loop_S. wp_lock. wp_lock.
  destruct (clock s - start <? timeout_seconds * DateTime.second_us);
    [|repeat wp_lock; split; [now left|reflexivity]].
  wp_lock. wp_lock. wp_lock.
  destruct (lock_marker s) as [mtime|] eqn:Hm.
  - cbn beta iota. cbn [is_FileExistsError String.eqb Ascii.eqb Bool.eqb].
    wp_lock. wp_lock. rewrite Hm.
    destruct (3600 * DateTime.second_us <? clock s - mtime).
    + wp_lock. wp_lock. wp_lock. wp_lock. wp_lock. rewrite Hm. cbn beta iota.
      eapply wp_mono; [apply IH|].
      intros [[|]|e|] s' H; cbn [lock_after_acquire lock_marker lock_acquired
                                   set_lock add_log] in *; try exact H.
      destruct H as [[H|H] Ha]; (split; [now right|exact Ha]).
    + wp_lock. wp_lock.
      eapply wp_mono; [apply IH|].
      intros [[|]|e|] s' H; cbn [lock_after_acquire lock_marker lock_acquired
                                   set_clock] in *; exact H.
  - repeat wp_lock. split; [discriminate|reflexivity].
Qed.

Lemma RestoreLock_with_lock {A} (fuel : nat) (path : string) (body : M A)
    (s : state) :
  steps lock_kept body ->
  wp (RestoreLock_with fuel path body)
     (fun r s' =>
        match r with
        | Ok _ => lock_marker s' = None
        | Raise _ => lock_marker s' = lock_marker s \/ lock_marker s' = None
        | Diverge => True
        end) s.
Proof.
  intros Hbody. unfold RestoreLock_with, RestoreLock_enter, RestoreLock_acquire.
  wp_lock. wp_lock. wp_lock. wp_lock. wp_lock. wp_lock.
  eapply wp_mono; [apply RestoreLock_acquire_loop_lock|].
  intros [[|]|e|] s1 H1; cbn [lock_after_acquire lock_marker lock_acquired
                               set_lock] in H1; cbn [negb];
    [| |destruct H1|exact I].
  - wp_lock. apply wp_finally, wp_any. intros r s2 H2.
    pose proof (Hbody s1) as [Hm Ha]. rewrite H2 in Hm, Ha. cbn [snd] in Hm, Ha.
    destruct H1 as [Hheld Hflag].
    assert (lock_marker (snd (RestoreLock_release path s2)) = None) as Hrel.
    { change (wp (RestoreLock_release path) (fun _ s' => lock_marker s' = None) s2).
      unfold RestoreLock_release. wp_lock. wp_lock. wp_lock. wp_lock.
      rewrite Ha, Hflag, Hm.
      destruct (lock_marker s1) as [mtime|] eqn:E; [|congruence].
      cbn [andb]. wp_lock. wp_lock. wp_lock. rewrite Hm. cbn beta iota.
      repeat wp_lock. reflexivity. }
    destruct r as [a|e|]; [exact Hrel|now right|exact I].
  - wp_lock. exact (proj1 H1).
Qed.

(** X4: a run leaves no lock of its own behind.  When [run] returns [True]
    no lock file exists; when it returns [False] the lock file is the one it
    found, untouched, or there is none; so a run that starts without a lock
    file and returns ends without one, whether the pipeline under the lock
    returned or raised. *)
Theorem run_leaves_no_lock_behind (fuel : nat) (self : config) (p : string)
    (s : state) :
  let r := run fuel self p s in
  (fst r = Ok true -> lock_marker (snd r) = None) /\
  (fst r = Ok false ->
   lock_marker (snd r) = lock_marker s \/ lock_marker (snd r) = None) /\
  (lock_marker s = None -> fst r <> Diverge -> lock_marker (snd r) = None).
Proof.
  assert (wp (run fuel self p)
             (fun r s' =>
                match r with
                | Ok true => lock_marker s' = None
                | Ok false => lock_marker s' = lock_marker s \/ lock_marker s' = None
                | Raise _ => False
                | Diverge => True
                end) s) as H.
  { assert (forall e (s1 : state),
               lock_marker s1 = lock_marker s \/ lock_marker s1 = None ->
               wp (run_failed self p e)
                  (fun r s' =>
                     match r with
                     | Ok true => lock_marker s' = None
                     | Ok false =>
                         lock_marker s' = lock_marker s \/ lock_marker s' = None
                     | Raise _ => False
                     | Diverge => True
                     end) s1) as Hfail.
    { intros e s1 H1. unfold run_failed. wp_run. exact H1. }
    unfold run. apply wp_try_except, wp_bind, wp_any. intros r s1 H1.
    pose proof (before_validation_lock_kept self p s) as [Hm1 _].
    rewrite H1 in Hm1. cbn [snd] in Hm1.
    destruct r as [prepared|e|]; [|apply Hfail; now left|exact I].
    unfold validate_and_restore. apply wp_bind, wp_any. intros r s2 H2.
    pose proof (_validate_restore_point_steps lock_kept p s1) as [Hm2 _].
    rewrite H2 in Hm2. cbn [snd] in Hm2.
    destruct r as [[|]|e|]; cbn [negb];
      [| |apply Hfail; left; congruence|exact I].
    - apply wp_bind.
      eapply wp_mono;
        [apply RestoreLock_with_lock, restore_steps_lock_kept|].
      intros [[|]|e|] s3 H3; [| | |exact I].
      + wp_run. exact H3.
      + wp_run. now right.
      + apply Hfail. destruct H3 as [H3|H3]; [left; congruence|now right].
    - wp_run. left. cbn. congruence. }
  unfold wp in H. cbn zeta.
  destruct (fst (run fuel self p s)) as [[|]|e|];
    (split; [|split]); try discriminate; try tauto; try (intros; exact H).
  - intros Hfree _. destruct H as [H|H]; congruence.
Qed.

(** ** The run as a whole *)

(** X5: a restore point that [isoparse] rejects.  The exception is raised
    by the parse at the top of [run], before the restore tables are named:
    the run calls the provider not once, touches neither the lock file nor
    [restore_point_timestamp], and ends in the handler of [run]: it logs
    "Unexpected error during restore", records FAILED and returns [False].
    [_validate_restore_point] is not reached. *)
Theorem unparseable_restore_point_stops_the_run (fuel : nat) (self : config)
    (p : string) (s : state) :
  isoparse p = None ->
  let r := run fuel self p s in
  fst r = Ok false /\
  (exists err, recorded (snd r) "FAILED" err) /\
  trace (snd r) = trace s /\
  provider_state (snd r) = provider_state s /\
  lock_marker (snd r) = lock_marker s /\
  restore_point_timestamp (snd r) = restore_point_timestamp s /\
  (exists e,
      fst (before_validation self p s) = Raise e /\
      In {| levelname := ERROR;
            message := [FLit "Unexpected error during restore: "; FExn e] |}
         (log (snd r))).
Proof.
  intros Hp.
  assert (wp (before_validation self p)
             (fun r s1 =>
                r = Raise (PyError "ValueError" "Invalid isoformat string") /\
                trace s1 = trace s /\ provider_state s1 = provider_state s /\
                lock_marker s1 = lock_marker s /\
                restore_point_timestamp s1 = restore_point_timestamp s) s) as Hb.
  { unfold before_validation, run_begin, name_restore_tables.
    wp_run; rewrite Hp; repeat split. }
  unfold wp in Hb. destruct Hb as (Hr & Ht & Hpv & Hm & Hts).
  assert (wp (run fuel self p)
             (fun r s' =>
                r = Ok false /\ (exists err, recorded s' "FAILED" err) /\
                trace s' = trace (snd (before_validation self p s)) /\
                provider_state s' = provider_state (snd (before_validation self p s)) /\
                lock_marker s' = lock_marker (snd (before_validation self p s)) /\
                restore_point_timestamp s' =
                  restore_point_timestamp (snd (before_validation self p s)) /\
                In {| levelname := ERROR;
                      message := [FLit "Unexpected error during restore: ";
                                  FExn (PyError "ValueError"
                                          "Invalid isoformat string")] |}
                   (log s')) s) as H.
  { unfold run. apply wp_try_except, wp_bind. unfold wp at 1.
    rewrite Hr. unfold run_failed. wp_run.
    split; [reflexivity|]. split; [eexists; recorded_tac|].
    repeat split. cbn [log add_log set_status_file].
    apply in_or_app. left. apply in_or_app. right. now left. }
  unfold wp in H. destruct H as (Ho & Hrec & Ht' & Hpv' & Hm' & Hts' & Hlog).
  cbn zeta. split; [exact Ho|]. split; [exact Hrec|].
  repeat split; try congruence.
  eexists. split; [exact Hr|exact Hlog].
Qed.

(** X6: the result of [run] and the status file agree.  No exception
    escapes [run]; when it returns, the status file holds COMPLETED, without
    an error message, exactly when the result is [True] (exit code 0), and
    FAILED exactly when the result is [False] (exit code 1). *)
Theorem run_result_matches_status (fuel : nat) (self : config) (p : string)
    (s : state) :
  let r := run fuel self p s in
  (forall e, fst r <> Raise e) /\
  (forall b, fst r = Ok b ->
     (b = true <-> recorded (snd r) "COMPLETED" None) /\
     (b = false <-> exists err, recorded (snd r) "FAILED" err) /\
     exit_code (fst r) = Some (if b then 0 else 1)).
Proof.
  pose proof (run_outcome fuel self p s) as H. unfold wp, run_post in H.
  cbn zeta. destruct (fst (run fuel self p s)) as [[|]|e|].
  - split; [discriminate|]. intros b [= <-].
    split; [tauto|]. split; [|reflexivity].
    split; [discriminate|]. intros [err (d & Hd & Hs & _)].
    destruct H as (d' & Hd' & Hs' & _). congruence.
  - split; [discriminate|]. intros b [= <-].
    split; [|split; [tauto|reflexivity]].
    split; [discriminate|]. intros (d & Hd & Hs & _).
    destruct H as [err (d' & Hd' & Hs' & _)]. congruence.
  - destruct H.
  - split; discriminate.
Qed.

(** X7: a run that finds a fresh lock of another process.  From the end
    of validation it waits five seconds for the lock, then gives up: the
    [RuntimeError] of [__enter__] reaches the handler of [run], which
    records FAILED with the message "Could not acquire restore lock" and
    returns [False].  The pipeline under the lock is not entered: the
    provider is not called after validation, and the other process's lock
    file stays as it was. *)
Theorem held_lock_stops_the_run (fuel : nat) (self : config) (p : string)
    (prepared : dict string * bool) (mtime : Z) (s s1 s2 : state) :
  before_validation self p s = (Ok prepared, s1) ->
  _validate_restore_point p s1 = (Ok true, s2) ->
  lock_marker s = Some mtime ->
  clock s2 + 5 * DateTime.second_us - mtime <= 3600 * DateTime.second_us ->
  (10 < fuel)%nat ->
  let r := run fuel self p s in
  fst r = Ok false /\
  recorded (snd r) "FAILED" (Some "Could not acquire restore lock") /\
  trace (snd r) = trace s1 /\
  lock_marker (snd r) = Some mtime /\
  clock (snd r) = clock s2 + 5 * DateTime.second_us.
Proof.
  intros H1 H2 Hheld Hfresh Hfuel.
  pose proof (before_validation_lock_kept self p s) as [Hm1 _].
  rewrite H1 in Hm1. cbn [snd] in Hm1.
  pose proof (_validate_restore_point_steps lock_kept p s1) as [Hm2 _].
  rewrite H2 in Hm2. cbn [snd] in Hm2.
  pose proof (silent_trace (_validate_restore_point p) s1
                (_validate_restore_point_steps _ p)) as T2.
  rewrite H2 in T2. cbn [snd] in T2.
  assert (wp (run fuel self p)
             (fun r s' =>
                r = Ok false /\
                recorded s' "FAILED" (Some "Could not acquire restore lock") /\
                trace s' = trace s2 /\ lock_marker s' = Some mtime /\
                clock s' = clock s2 + 5 * DateTime.second_us) s) as H.
  { unfold run. apply wp_try_except, wp_bind. wp_step.
    unfold validate_and_restore, RestoreLock_with, RestoreLock_enter,
      RestoreLock_acquire.
    apply wp_bind. wp_step. cbn [negb].
    repeat wp_lock.
    eapply wp_mono.
    { apply (RestoreLock_acquire_loop_waits mtime) with (n := 10%nat);
        cbn [lock_marker clock set_lock];
        [congruence|exact Hfuel|unfold DateTime.second_us; lia
        |unfold DateTime.second_us in *; lia]. }
    intros r s3 (-> & Hw & Hc & _). cbn [negb].
    destruct Hw as (_ & Hm3 & _ & _ & _ & Ht3).
    cbn [lock_marker clock trace set_lock] in *.
    unfold run_failed. wp_run.
    split; [reflexivity|]. split; [recorded_tac|].
    cbn. unfold DateTime.second_us in *.
    repeat split; try congruence; lia. }
  unfold wp in H. cbn zeta.
  destruct H as (Hr & Hrec & Ht & Hm & Hc).
  repeat split; try assumption. congruence.
Qed.

(** The calls of a run, by the restore tables its restore point names. *)
Lemma name_restore_tables_returns (self : config) (p : string)
    (restore_dt : DateTime.datetime) :
  isoparse p = Some restore_dt ->
  returns (name_restore_tables self p)
          (fun rt => rt = restore_table_names self restore_dt).
Proof.
  intros Hp s. now rewrite (name_restore_tables_eq self p restore_dt s Hp).
Qed.

Lemma before_validation_returns (self : config) (p : string)
    (restore_dt : DateTime.datetime) :
  isoparse p = Some restore_dt ->
  returns (before_validation self p)
          (fun prepared => fst prepared = restore_table_names self restore_dt).
Proof.
  intros Hp s. pose proof (before_validation_names self p s) as H.
  unfold wp in H. destruct (fst (before_validation self p s)); try exact I.
  destruct H as [d [Hd ->]]. congruence.
Qed.

Lemma before_validation_checks (self : config) (p : string)
    (restore_dt : DateTime.datetime) :
  isoparse p = Some restore_dt ->
  steps (emitting (on_call (stage_call self (restore_table_names self restore_dt)
                              Checking)))
        (before_validation self p).
Proof.
  intros Hp. unfold before_validation.
  apply steps_bind; [exact _|apply run_begin_steps; exact _|]. intros _.
  eapply steps_bind_returns;
    [exact _|apply (name_restore_tables_returns self p restore_dt Hp)
    |apply name_restore_tables_steps; exact _|].
  intros rt ->.
  pose proof (reuse_or_clean_steps self (restore_table_names self restore_dt)).
  steps_tac.
Qed.

Lemma run_emits (fuel : nat) (self : config) (p : string)
    (restore_dt : DateTime.datetime) :
  isoparse p = Some restore_dt ->
  steps (emitting (on_call (run_call self (restore_table_names self restore_dt))))
        (run fuel self p).
Proof.
  intros Hp. unfold run.
  apply steps_try_except; [exact _| |intros e; apply run_failed_steps; exact _].
  eapply steps_bind_returns;
    [exact _|apply (before_validation_returns self p restore_dt Hp)
    |apply (steps_stage (before_validation_checks self p restore_dt Hp))|].
  intros prepared ->. apply validate_and_restore_steps.
Qed.

(** A restore table of [self]: a production table name followed by
    [-restore-]. *)
Definition restore_table_of (self : config) (table_name : string) : Prop :=
  exists original_table,
    In original_table (values (tables self)) /\
    Str.startswith table_name (original_table ++ "-restore-") = true.

Lemma restore_table_names_are_restore_tables (self : config)
    (restore_dt : DateTime.datetime) (n : string) :
  In n (values (restore_table_names self restore_dt)) -> restore_table_of self n.
Proof.
  unfold restore_table_names, values. rewrite map_map. cbn [snd].
  intros H. apply in_map_iff in H as [kv [<- Hkv]].
  exists (snd kv). split; [now apply In_values|].
  unfold restore_table_name. rewrite <- Str.app_assoc. apply Str.startswith_app.
Qed.

Lemma restore_table_not_production (self : config) (n : string) :
  restore_table_of self n -> ~ In n (values (tables self)).
Proof.
  intros [original [Hin Hpre]] Hn. revert Hin Hpre Hn.
  unfold tables, _configure_table_names.
  destruct (String.eqb (environment self) "dev"); cbn;
    intros [<-|[<-|[<-|[]]]] Hpre [<-|[<-|[<-|[]]]];
    vm_compute in Hpre; discriminate.
Qed.

(** The tables a call of the run may address. *)
Definition confined (self : config) (restore_tables : dict string) (c : call)
    : Prop :=
  match c with
  | list_tables => True
  | describe_table n | scan_count n | scan n _ =>
      In n (values (tables self)) \/ In n (values restore_tables)
  | describe_continuous_backups n => In n (values (tables self))
  | restore_table_to_point_in_time source _ _ => In source (values (tables self))
  | batch_write_item n _ => In n (values (tables self))
  | delete_table n => restore_table_of self n /\ ~ In n (values (tables self))
  end.

(** X8: the tables a run touches.  For a restore point that parses, every
    provider call of the run addresses a production table of the
    environment or a restore table named for this restore point, the
    deletions of old restore tables apart: tables are described, counted and
    scanned among these only; restores are taken from production tables;
    item batches are written to production tables only; and every table
    deleted bears a production table name followed by [-restore-], so that
    no production table is ever deleted. *)
Theorem run_calls_are_confined (fuel : nat) (self : config) (p : string)
    (restore_dt : DateTime.datetime) (s : state) :
  isoparse p = Some restore_dt ->
  emitting (on_call (confined self (restore_table_names self restore_dt)))
           s (snd (run fuel self p s)).
Proof.
  intros Hp. eapply emitting_weaken; [|apply (run_emits fuel self p restore_dt Hp)].
  intros ev [st H]. unfold on_call in *.
  destruct st, (ev_call ev); cbn [stage_call confined] in *;
    try exact I; try tauto.
  - destruct H as [_ [Hold _]]. split; [exact Hold|].
    now apply restore_table_not_production.
  - destruct H as [_ Hin].
    apply restore_table_names_are_restore_tables in Hin.
    split; [exact Hin|now apply restore_table_not_production].
Qed.

(** ** Failed runs keep the restore tables *)

Lemma _delete_restore_tables_no_raise (self : config) (rt : dict string)
    (s : state) :
  wp (_delete_restore_tables self rt) (fun r _ => forall e, r <> Raise e) s.
Proof.
  unfold _delete_restore_tables. apply wp_try_except, wp_any.
  intros [a|e|] s1 _; [discriminate|wp_run; discriminate|discriminate].
Qed.

Section FailedRun.

Variables (fuel : nat) (self : config) (p : string) (rt : dict string).

(** The calls of every stage but the deletion of the restore tables. *)
Definition before_deleting (c : call) : Prop :=
  exists st, st <> Deleting /\ stage_call self rt st c.

(** Unless the computation returned [True], it has issued no call of the
    last stage. *)
Definition unfinished (s : state) (r : outcome bool) (s' : state) : Prop :=
  match r with
  | Ok true | Diverge => True
  | _ => emitting (on_call before_deleting) s s'
  end.

Lemma stage_before_deleting (st : stage) {A} (m : M A) (s : state) :
  st <> Deleting ->
  steps (emitting (on_call (stage_call self rt st))) m ->
  emitting (on_call before_deleting) s (snd (m s)).
Proof.
  intros Hst Hm. eapply emitting_weaken; [|apply Hm].
  intros ev H. now exists st.
Qed.

Lemma emitting_then (P : event -> Prop) (a b c : state) :
  emitting P a b -> trace c = trace b -> emitting P a c.
Proof.
  intros H T. eapply frame_trans; [exact H|now apply emitting_same_trace].
Qed.

Lemma poll_verify_swap_unfinished (s : state) :
  wp (poll_verify_swap fuel self p rt) (unfinished s) s.
Proof.
  unfold poll_verify_swap.
  apply wp_bind, wp_any. intros r1 s1 H1.
  pose proof (stage_before_deleting Polling _ s ltac:(discriminate)
                (_poll_restore_completion_steps fuel self rt)) as E1.
  rewrite H1 in E1. cbn [snd] in E1.
  destruct r1 as [[|]|e|]; cbn [negb];
    [|wp_run; eapply emitting_then; [exact E1|reflexivity]|exact E1|exact I].
  apply wp_bind, wp_any. intros r2 s2 H2.
  pose proof (stage_before_deleting Verifying _ s1 ltac:(discriminate)
                (_verify_item_counts_steps self rt)) as E2.
  rewrite H2 in E2. cbn [snd] in E2.
  pose proof (frame_trans _ _ _ E1 E2) as E12.
  destruct r2 as [[|]|e|]; cbn [negb];
    [|wp_run; eapply emitting_then; [exact E12|reflexivity]|exact E12|exact I].
  apply wp_bind, wp_any. intros r3 s3 H3.
  pose proof (stage_before_deleting Swapping _ s2 ltac:(discriminate)
                (_swap_data_steps fuel self rt)) as E3.
  rewrite H3 in E3. cbn [snd] in E3.
  pose proof (frame_trans _ _ _ E12 E3) as E123.
  destruct r3 as [[|]|e|]; cbn [negb];
    [|wp_run; eapply emitting_then; [exact E123|reflexivity]|exact E123|exact I].
  apply wp_bind.
  eapply wp_mono; [apply _delete_restore_tables_no_raise|].
  intros [deleted|e|] s4 H4; [wp_run; exact I|now destruct (H4 e)|exact I].
Qed.

Lemma restore_steps_unfinished (skip : bool) (s : state) :
  wp (restore_steps fuel self p rt skip) (unfinished s) s.
Proof.
  unfold restore_steps. apply wp_bind, wp_any. intros r1 s1 H1.
  assert (emitting (on_call before_deleting) s s1) as E1.
  { destruct skip; cbn [negb] in H1.
    - injection H1 as _ <-. apply frame_refl.
    - pose proof (stage_before_deleting Initiating _ s ltac:(discriminate)
                    (_initiate_pitr_restores_steps self rt p)) as E.
      now rewrite H1 in E. }
  destruct r1 as [[|]|e|]; cbn [negb];
    [|wp_run; eapply emitting_then; [exact E1|reflexivity]|exact E1|exact I].
  eapply wp_mono; [apply poll_verify_swap_unfinished|].
  intros [[|]|e|] s2 H2; cbn [unfinished] in *; try exact I;
    eapply frame_trans; eassumption.
Qed.

Lemma validate_and_restore_unfinished (skip : bool) (s : state) :
  wp (validate_and_restore fuel self p rt skip) (unfinished s) s.
Proof.
  unfold validate_and_restore. apply wp_bind, wp_any. intros r1 s1 H1.
  pose proof (silent_trace (_validate_restore_point p) s
                (_validate_restore_point_steps _ p)) as T1.
  rewrite H1 in T1. cbn [snd] in T1.
  destruct r1 as [[|]|e|]; cbn [negb];
    [|wp_run; now apply emitting_same_trace
     |now apply emitting_same_trace|exact I].
  apply wp_bind. unfold RestoreLock_with.
  apply wp_bind, wp_any. intros r2 s2 H2.
  pose proof (silent_trace (RestoreLock_enter fuel (lock_file self)) s1
                (RestoreLock_enter_steps _ fuel (lock_file self))) as T2.
  rewrite H2 in T2. cbn [snd] in T2.
  destruct r2 as [[]|e|];
    [|apply emitting_same_trace; congruence|exact I].
  apply wp_finally.
  eapply wp_mono; [apply restore_steps_unfinished|].
  intros r3 s3 H3.
  assert (r3 = Ok true \/ r3 = Diverge \/
          emitting (on_call before_deleting) s
                   (snd (RestoreLock_release (lock_file self) s3))) as H.
  { destruct r3 as [[|]|e|]; cbn [unfinished] in H3; auto;
      right; right;
      (eapply emitting_then;
       [apply (frame_trans s s2 s3); [apply emitting_same_trace; congruence|exact H3]
       |apply RestoreLock_release_trace]). }
  destruct r3 as [[|]|e|]; [wp_run; exact I| | |exact I];
    (destruct H as [H|[H|H]]; [discriminate|discriminate|]);
    [wp_run|]; exact H.
Qed.

End FailedRun.

(** X9: the restore tables of the restore point outlive a failed run.  For
    a restore point that parses, a run that returns [False] has deleted no
    restore table named for this restore point, wherever it failed:
    [_delete_restore_tables] is the last stage and nothing raises or fails
    after it.  (The old restore tables of other restore points are deleted
    before.) *)
Theorem failed_run_keeps_its_restore_tables (fuel : nat) (self : config)
    (p : string) (restore_dt : DateTime.datetime) (s : state) :
  isoparse p = Some restore_dt ->
  fst (run fuel self p s) = Ok false ->
  emitting
    (on_call (fun c =>
                match c with
                | delete_table n =>
                    ~ In n (values (restore_table_names self restore_dt))
                | _ => True
                end))
    s (snd (run fuel self p s)).
Proof.
  intros Hp.
  set (rt := restore_table_names self restore_dt).
  assert (wp (run fuel self p)
             (fun r s' =>
                r = Ok false ->
                emitting (on_call (before_deleting self rt)) s s') s) as H.
  { unfold run. apply wp_try_except, wp_bind, wp_any. intros r1 s1 H1.
    pose proof (stage_before_deleting self rt Checking _ s ltac:(discriminate)
                  (before_validation_checks self p restore_dt Hp)) as E1.
    pose proof (before_validation_returns self p restore_dt Hp s) as R1.
    rewrite H1 in E1, R1. cbn [fst snd] in E1, R1.
    destruct r1 as [prepared|e|]; [| |discriminate].
    - rewrite R1. fold rt.
      eapply wp_mono; [apply validate_and_restore_unfinished|].
      intros [[|]|e|] s2 H2; cbn [unfinished] in H2; [discriminate| | |discriminate].
      + intros _. eapply frame_trans; eassumption.
      + unfold run_failed. wp_run. intros _.
        eapply emitting_then; [eapply frame_trans; eassumption|reflexivity].
    - unfold run_failed. wp_run. intros _.
      eapply emitting_then; [exact E1|reflexivity]. }
  intros Hr. unfold wp in H. specialize (H Hr).
  eapply emitting_weaken; [|exact H].
  intros ev [st [Hst Hc]]. unfold on_call in *.
  destruct st, (ev_call ev); cbn [stage_call] in Hc; try exact I;
    try contradiction.
  destruct Hc as [_ [_ Hcur]]. exact Hcur.
Qed.

(** ** The search for old restore tables *)

(** The test of the innermost loop of [_find_old_restore_tables]: the name
    starts with a production table name followed by [-restore-]. *)
Definition matches_restore_pattern (originals : dict string)
    (table_name : string) : bool :=
  existsb (fun original_table =>
             Str.startswith table_name (original_table ++ "-restore-"))
          (values originals).

Definition is_old_restore_table (self : config)
    (current_table_names : list string) (table_name : string) : bool :=
  matches_restore_pattern (tables self) table_name &&
  negb (Str.mem table_name current_table_names).

Lemma match_restore_pattern_eq (originals : dict string) (table_name : string)
    (current old : list string) :
  match_restore_pattern originals table_name current old =
  (old ++ if matches_restore_pattern originals table_name &&
             negb (Str.mem table_name current)
          then [table_name] else [])%list.
Proof.
  unfold matches_restore_pattern.
  induction originals as [|[k original] rest IH]; cbn [match_restore_pattern].
  - cbn. now rewrite app_nil_r.
  - cbn [values map snd existsb].
    destruct (Str.startswith table_name (original ++ "-restore-")); cbn [orb andb].
    + destruct (Str.mem table_name current); cbn [negb];
        [now rewrite app_nil_r|reflexivity].
    + exact IH.
Qed.

Lemma find_old_page_eq (self : config) (current page old : list string) :
  fold_left
    (fun old_tables table_name =>
       match_restore_pattern (tables self) table_name current old_tables)
    page old =
  (old ++ filter (is_old_restore_table self current) page)%list.
Proof.
  revert old. induction page as [|n page IH]; intros old; cbn [fold_left filter].
  - now rewrite app_nil_r.
  - rewrite IH, match_restore_pattern_eq. fold (is_old_restore_table self current n).
    destruct (is_old_restore_table self current n);
      [now rewrite <- app_assoc|now rewrite app_nil_r].
Qed.

Lemma find_old_pages_eq (self : config) (current : list string)
    (pages : list (list string)) (old : list string) :
  fold_left
    (fun old_tables page =>
       fold_left
         (fun old_tables table_name =>
            match_restore_pattern (tables self) table_name current old_tables)
         page old_tables)
    pages old =
  (old ++ filter (is_old_restore_table self current) (List.concat pages))%list.
Proof.
  revert old. induction pages as [|page pages IH]; intros old;
    cbn [fold_left List.concat].
  - now rewrite app_nil_r.
  - rewrite IH, find_old_page_eq, filter_app. now rewrite <- app_assoc.
Qed.

(** X10: what [_find_old_restore_tables] selects.  When the listing of the
    tables answers, the result is the listed names, in the order of the
    listing, that start with a production table name followed by
    [-restore-] and are not among the current restore table names: every
    such table is found, and no other.  When the listing raises, whatever
    the exception, the result is the empty list and a WARNING is logged:
    the method itself never raises. *)
Theorem find_old_restore_tables_selects (self : config) (rt : dict string)
    (s : state) :
  let r := _find_old_restore_tables self rt s in
  match snd (db_list_tables (provider_state s)) with
  | inr pages =>
      fst r = Ok (filter (is_old_restore_table self (values rt)) (List.concat pages))
  | inl e =>
      fst r = Ok [] /\
      last_message (snd r) =
        Some (WARNING, [FLit "Error checking for old restore tables: "; FExn e])
  end.
Proof.
  cbn zeta. unfold _find_old_restore_tables, try_except, bind,
    dynamodb_list_tables, invoke.
  destruct (db_list_tables (provider_state s)) as [pv [e|pages]]; cbn [fst snd].
  - split; [reflexivity|]. apply last_message_add_log.
  - unfold ret. cbn [fst]. now rewrite find_old_pages_eq.
Qed.

(** ** Deleting tables *)

(** The events a computation added to the trace. *)
Definition emitted (s s' : state) (evs : list event) : Prop :=
  trace s' = (trace s ++ evs)%list.

Lemma emitted_refl (s : state) : emitted s s [].
Proof. unfold emitted. now rewrite app_nil_r. Qed.

Lemma emitted_trans (a b c : state) (e1 e2 : list event) :
  emitted a b e1 -> emitted b c e2 -> emitted a c (e1 ++ e2)%list.
Proof. unfold emitted. intros H1 H2. now rewrite H2, H1, app_assoc. Qed.

Definition answered (ev : event) : Prop :=
  match ev_result ev with inr _ => True | inl _ => False end.

(** The exception is not a [ClientError]. *)
Definition not_ClientError (e : exn) : Prop := error_code e = None.

Lemma cleanup_loop_attempts (table_names : list string) :
  forall s : state,
    wp (fold_each table_names tt
          (fun _ table_name =>
             try_except_ClientError
               (logger INFO [FLit "Deleting existing restore table: ";
                             FStr table_name] ;;
                dynamodb_delete_table table_name ;;
                logger INFO [FLit "Successfully deleted "; FStr table_name])
               (fun e =>
                  logger ERROR [FLit "Failed to delete "; FStr table_name;
                                FLit ": "; FExn e])))
       (fun r s' =>
          clock s' = clock s /\
          exists evs, emitted s s' evs /\
            match r with
            | Ok _ => map ev_call evs = map delete_table table_names
            | Raise e => not_ClientError e
            | Diverge => False
            end) s.
Proof.
  induction table_names as [|n names IH]; intros s; cbn [fold_each].
  - apply wp_ret. split; [reflexivity|]. exists []. split; [apply emitted_refl|].
    reflexivity.
  - apply wp_bind, wp_try_except_ClientError, wp_bind, wp_logger, wp_bind.
    unfold dynamodb_delete_table. apply wp_invoke. intros pv [e|[]] Hop.
    + destruct e as [code msg|kind msg].
      * apply wp_logger.
        eapply wp_mono; [apply IH|].
        intros r s' [Hc [evs [He Hr]]]. split; [exact Hc|].
        eexists (_ :: evs). split.
        { unfold emitted in *. rewrite He. cbn [trace add_log set_provider].
          now rewrite <- app_assoc. }
        destruct r; [cbn [map]; now rewrite Hr|exact Hr|exact Hr].
      * split; [reflexivity|]. eexists. split; [reflexivity|reflexivity].
    + apply wp_logger.
      eapply wp_mono; [apply IH|].
      intros r s' [Hc [evs [He Hr]]]. split; [exact Hc|].
      eexists (_ :: evs). split.
      { unfold emitted in *. rewrite He. cbn [trace add_log set_provider].
        now rewrite <- app_assoc. }
      destruct r; [cbn [map]; now rewrite Hr|exact Hr|exact Hr].
Qed.

(** X11: [_cleanup_existing_restore_tables] attempts every table.  A
    [ClientError] from [delete_table] is logged and the loop goes on, so
    when the method returns it has called [delete_table] once for each name,
    in order, and nothing else; it has then waited ten seconds, unless the
    list was empty, in which case it has done nothing at all.  Only an
    exception that is not a [ClientError] ends the loop early. *)
Theorem cleanup_attempts_every_table (table_names : list string) (s : state) :
  let r := _cleanup_existing_restore_tables table_names s in
  (forall u, fst r = Ok u ->
     exists evs, emitted s (snd r) evs /\
       map ev_call evs = map delete_table table_names /\
       clock (snd r) =
         clock s + (match table_names with
                    | [] => 0
                    | _ => 10 * DateTime.second_us
                    end)) /\
  (forall e, fst r = Raise e -> not_ClientError e) /\
  fst r <> Diverge /\
  (table_names = [] -> r = (Ok tt, s)).
Proof.
  assert (wp (_cleanup_existing_restore_tables table_names)
             (fun r s' =>
                match r with
                | Ok _ =>
                    exists evs, emitted s s' evs /\
                      map ev_call evs = map delete_table table_names /\
                      clock s' =
                        clock s + (match table_names with
                                   | [] => 0
                                   | _ => 10 * DateTime.second_us
                                   end)
                | Raise e => not_ClientError e
                | Diverge => False
                end) s) as H.
  { unfold _cleanup_existing_restore_tables. apply wp_bind.
    eapply wp_mono; [apply cleanup_loop_attempts|].
    intros [[]|e|] s1 [Hc [evs [He Hr]]]; [|exact Hr|exact Hr].
    destruct table_names as [|n names].
    - apply wp_ret. exists evs. repeat split; try assumption. lia.
    - wp_run. exists evs. repeat split; try assumption.
      cbn [clock add_log set_clock]. lia. }
  unfold wp in H. cbn zeta.
  destruct (fst (_cleanup_existing_restore_tables table_names s)) as [[]|e|] eqn:E.
  - split; [intros _ _; exact H|]. split; [discriminate|].
    split; [discriminate|]. intros ->. reflexivity.
  - split; [discriminate|]. split; [now intros e' [= <-]|].
    split; [discriminate|]. intros ->. discriminate E.
  - destruct H.
Qed.

(** ** The check for existing restore tables *)

(** The statuses the answered [describe_table] calls among [evs] reported,
    added to [existing] as [_check_existing_restore_tables] adds them. *)
Definition described (evs : list event) (existing : dict string) : dict string :=
  fold_left
    (fun existing ev =>
       match ev_call ev, ev_result ev with
       | describe_table table_name, inr (RTable response) =>
           dict_set existing table_name (TableStatus response)
       | _, _ => existing
       end)
    evs existing.

Lemma check_existing_loop (restore_tables : dict string) :
  forall (existing : dict string) (s : state),
    wp (fold_each restore_tables existing
          (fun existing kv =>
             let table_name := snd kv in
             try_except_ClientError
               (response <- dynamodb_describe_table table_name ;;
                ret (dict_set existing table_name (TableStatus response)))
               (fun e =>
                  (if negb (code_is e "ResourceNotFoundException") then
                     logger WARNING
                       [FLit "Error checking table "; FStr table_name;
                        FLit ": "; FExn e]
                   else ret tt) ;;
                  ret existing)))
       (fun r s' =>
          exists evs, emitted s s' evs /\
            match r with
            | Ok result =>
                map ev_call evs = map describe_table (values restore_tables) /\
                result = described evs existing
            | Raise e => not_ClientError e
            | Diverge => False
            end) s.
Proof.
  induction restore_tables as [|[k n] rest IH]; intros existing s;
    cbn [fold_each].
  - apply wp_ret. exists []. split; [apply emitted_refl|]. now split.
  - cbn zeta. cbn [snd].
    apply wp_bind, wp_try_except_ClientError, wp_bind.
    unfold dynamodb_describe_table. apply wp_invoke. intros pv [e|d] Hop.
    + destruct e as [code msg|kind msg].
      * apply wp_bind.
        apply wp_mono with
          (Q1 := fun r s1 =>
                   r = Ok tt /\
                   trace s1 =
                     (trace s ++ [{| ev_call := describe_table n;
                                     ev_result := inl (ClientError code msg) |}])%list).
        { destruct (negb (code_is (ClientError code msg)
                            "ResourceNotFoundException"));
            [apply wp_logger|apply wp_ret]; now split. }
        intros r s1 [-> T1]. apply wp_ret.
        eapply wp_mono; [apply IH|].
        intros r s' [evs [He Hr]]. eexists (_ :: evs). split.
        { unfold emitted in *. rewrite He, T1. now rewrite <- app_assoc. }
        destruct r; [|exact Hr|exact Hr].
        destruct Hr as [Hc ->]. split; [cbn [map values snd]; now f_equal|].
        reflexivity.
      * eexists. split; [reflexivity|reflexivity].
    + apply wp_ret.
      eapply wp_mono; [apply IH|].
      intros r s' [evs [He Hr]]. eexists (_ :: evs). split.
      { unfold emitted in *. rewrite He. cbn [trace set_provider].
        now rewrite <- app_assoc. }
      destruct r; [|exact Hr|exact Hr].
      destruct Hr as [Hc ->]. split; [cbn [map values snd]; now f_equal|].
      reflexivity.
Qed.

(** X12: what [_check_existing_restore_tables] reports.  It describes each
    restore table once, in order, and its result holds exactly the tables
    whose [describe_table] answered, each with the status reported.  A
    [ClientError] of any code leaves the table out of the result: one that
    is not [ResourceNotFoundException] is logged as a WARNING, and the table
    counts as absent all the same.  No [ClientError] escapes the method. *)
Theorem check_existing_reports_described_tables (restore_tables : dict string)
    (s : state) :
  let r := _check_existing_restore_tables restore_tables s in
  (forall existing, fst r = Ok existing ->
     exists evs, emitted s (snd r) evs /\
       map ev_call evs = map describe_table (values restore_tables) /\
       existing = described evs []) /\
  (forall e, fst r = Raise e -> not_ClientError e) /\
  fst r <> Diverge.
Proof.
  assert (wp (_check_existing_restore_tables restore_tables)
             (fun r s' =>
                exists evs, emitted s s' evs /\
                  match r with
                  | Ok result =>
                      map ev_call evs = map describe_table (values restore_tables) /\
                      result = described evs []
                  | Raise e => not_ClientError e
                  | Diverge => False
                  end) s) as H
    by apply check_existing_loop.
  unfold wp in H. cbn zeta.
  destruct (fst (_check_existing_restore_tables restore_tables s))
    as [existing|e|]; destruct H as [evs [He Hr]].
  - split; [|split; discriminate].
    intros existing' [= <-]. exists evs. tauto.
  - split; [discriminate|]. split; [now intros e' [= <-]|discriminate].
  - destruct Hr.
Qed.

(** ** Deleting the restore tables *)

(** The call raised an exception that is not a [ClientError]. *)
Definition failed_otherwise (ev : event) : Prop :=
  exists e, ev_result ev = inl e /\ not_ClientError e.

Lemma answered_not_raised (evs : list event) :
  Forall answered evs -> ~ Exists raised evs.
Proof.
  intros Hall Hex. apply Exists_exists in Hex as [ev [Hin [e He]]].
  rewrite Forall_forall in Hall. specialize (Hall ev Hin).
  unfold answered in Hall. now rewrite He in Hall.
Qed.

Lemma not_all_answered (evs : list event) :
  ~ Forall answered evs -> Exists raised evs.
Proof.
  induction evs as [|ev evs IH]; intros H; [destruct H; constructor|].
  destruct (ev_result ev) as [e|a] eqn:E.
  - apply Exists_cons_hd. now exists e.
  - apply Exists_cons_tl, IH. intros Hall. apply H.
    constructor; [unfold answered; now rewrite E|exact Hall].
Qed.

Lemma failed_otherwise_raised (evs : list event) :
  Exists failed_otherwise evs -> Exists raised evs.
Proof.
  intros H. eapply Exists_impl; [|exact H]. intros ev [e [He _]]. now exists e.
Qed.

Lemma delete_restore_tables_loop (self : config) (restore_tables : dict string) :
  dry_run self = false ->
  forall (all_deleted : bool) (s : state),
    wp (fold_each restore_tables all_deleted
          (fun all_deleted kv =>
             let restore_table := snd kv in
             if dry_run self then
               logger INFO [FLit "[DRY RUN] Would delete "; FStr restore_table] ;;
               ret all_deleted
             else
               try_except_ClientError
                 (logger INFO [FLit "Deleting restore table: "; FStr restore_table] ;;
                  dynamodb_delete_table restore_table ;;
                  logger INFO [FLit "Deleted "; FStr restore_table] ;;
                  ret all_deleted)
                 (fun e =>
                    logger WARNING [FLit "Failed to delete "; FStr restore_table;
                                    FLit ": "; FExn e] ;;
                    ret false)))
       (fun r s' =>
          exists evs, emitted s s' evs /\
            match r with
            | Ok result =>
                map ev_call evs = map delete_table (values restore_tables) /\
                (result = true <-> all_deleted = true /\ Forall answered evs)
            | Raise e => Exists failed_otherwise evs
            | Diverge => False
            end) s.
Proof.
  intros Hwet. rewrite Hwet.
  induction restore_tables as [|[k n] rest IH]; intros all_deleted s;
    cbn [fold_each].
  - apply wp_ret. exists []. split; [apply emitted_refl|].
    split; [reflexivity|]. split; [intros H; split; [exact H|constructor]|].
    intros [H _]. exact H.
  - cbn zeta. cbn [snd].
    apply wp_bind, wp_try_except_ClientError, wp_bind, wp_logger, wp_bind.
    unfold dynamodb_delete_table. apply wp_invoke. intros pv [e|[]] Hop.
    + destruct e as [code msg|kind msg].
      * apply wp_bind, wp_logger, wp_ret.
        eapply wp_mono; [apply IH|].
        intros r s' [evs [He Hr]]. eexists (_ :: evs). split.
        { unfold emitted in *. rewrite He. cbn [trace add_log set_provider].
          now rewrite <- app_assoc. }
        destruct r as [result|e|]; [| |exact Hr].
        -- destruct Hr as [Hc Hres]. split; [cbn [map values snd]; now f_equal|].
           split.
           ++ intros Ht. apply Hres in Ht as [Ht _]. discriminate.
           ++ intros [_ Hall]. inversion Hall as [|? ? Hev _]. destruct Hev.
        -- now apply Exists_cons_tl.
      * eexists. split; [reflexivity|].
        apply Exists_cons_hd. eexists. split; reflexivity.
    + apply wp_bind, wp_logger, wp_ret.
      eapply wp_mono; [apply IH|].
      intros r s' [evs [He Hr]]. eexists (_ :: evs). split.
      { unfold emitted in *. rewrite He. cbn [trace add_log set_provider].
        now rewrite <- app_assoc. }
      destruct r as [result|e|]; [| |exact Hr].
      * destruct Hr as [Hc Hres]. split; [cbn [map values snd]; now f_equal|].
        rewrite Hres. split.
        -- intros [Ha Hall]. split; [exact Ha|]. constructor; [exact I|exact Hall].
        -- intros [Ha Hall]. split; [exact Ha|]. now inversion Hall.
      * now apply Exists_cons_tl.
Qed.

(** X13: [_delete_restore_tables] outside dry-run mode.  It never raises.
    It returns [True] exactly when it has called [delete_table] once for
    each restore table, in order, and every call answered.  A [ClientError]
    from one table is logged as a WARNING and the remaining tables are still
    attempted: unless a call raised an exception of another kind, every
    restore table has been attempted when the method returns. *)
Theorem delete_restore_tables_attempts_every_table (self : config)
    (restore_tables : dict string) (s : state) :
  dry_run self = false ->
  let r := _delete_restore_tables self restore_tables s in
  exists evs, emitted s (snd r) evs /\
    (fst r = Ok true \/ fst r = Ok false) /\
    (fst r = Ok true <->
     map ev_call evs = map delete_table (values restore_tables) /\
     Forall answered evs) /\
    (~ Exists failed_otherwise evs ->
     map ev_call evs = map delete_table (values restore_tables)).
Proof.
  intros Hwet.
  assert (wp (_delete_restore_tables self restore_tables)
             (fun r s' =>
                exists evs, emitted s s' evs /\
                  match r with
                  | Ok true =>
                      map ev_call evs = map delete_table (values restore_tables) /\
                      Forall answered evs
                  | Ok false =>
                      Exists raised evs /\
                      (~ Exists failed_otherwise evs ->
                       map ev_call evs = map delete_table (values restore_tables))
                  | _ => False
                  end) s) as H.
  { unfold _delete_restore_tables. apply wp_try_except, wp_bind, wp_logger.
    eapply wp_mono; [apply (delete_restore_tables_loop self restore_tables Hwet)|].
    cbn [trace add_log].
    intros [result|e|] s' [evs [He Hr]]; [| |destruct Hr].
    - exists evs. split; [exact He|]. destruct Hr as [Hc Hres].
      destruct result.
      + split; [exact Hc|]. now apply Hres.
      + split; [|intros _; exact Hc].
        apply not_all_answered. intros Hall.
        assert (false = true) as Hf; [|discriminate Hf].
        apply Hres. now split.
    - wp_run. exists evs. split; [exact He|].
      split; [now apply failed_otherwise_raised|]. intros Hno. now destruct Hno. }
  unfold wp in H. cbn zeta. destruct H as [evs [He Hr]]. exists evs.
  split; [exact He|].
  destruct (fst (_delete_restore_tables self restore_tables s)) as [[|]|e|];
    try destruct Hr.
  - split; [now left|]. split; [tauto|]. intros _. tauto.
  - split; [now right|]. split; [|assumption].
    split; [discriminate|]. intros [_ Hall].
    now apply answered_not_raised in Hall.
Qed.

(** ** Polling *)

(** The restore table of [kv] was described and reported ACTIVE. *)
Definition reported_active (kv : string * string) (ev : event) : Prop :=
  ev_call ev = describe_table (snd kv) /\
  exists response,
    ev_result ev = inr (RTable response) /\ TableStatus response = "ACTIVE".

Lemma poll_round_active (self : config) (elapsed : Z)
    (restore_tables : dict string) :
  dry_run self = false ->
  forall (acc : bool * list string) (s : state),
    wp (fold_each restore_tables acc
          (fun acc kv =>
             let table_key := fst kv in
             let restore_table := snd kv in
             if dry_run self then ret acc
             else
               try_except_ClientError
                 (response <- dynamodb_describe_table restore_table ;;
                  let status := TableStatus response in
                  if negb (String.eqb status "ACTIVE") then
                    logger INFO [FLit "["; FInt elapsed; FLit "s] "; FStr table_key;
                                 FLit ": "; FStr status] ;;
                    ret (false, snd acc)
                  else if negb (Str.mem restore_table (snd acc)) then
                    logger INFO [FLit "["; FInt elapsed; FLit "s] "; FStr table_key;
                                 FLit ": ACTIVE"] ;;
                    ret (fst acc, (snd acc ++ [restore_table])%list)
                  else ret acc)
                 (fun e =>
                    if code_is e "ResourceNotFoundException" then
                      logger INFO [FLit "["; FInt elapsed; FLit "s] "; FStr table_key;
                                   FLit ": Table not found yet (still creating)"] ;;
                      ret (false, snd acc)
                    else raise e)))
       (fun r s' =>
          exists evs, emitted s s' evs /\
            forall result, r = Ok result -> fst result = true ->
              fst acc = true /\ Forall2 reported_active restore_tables evs) s.
Proof.
  intros Hwet. rewrite Hwet.
  induction restore_tables as [|[k n] rest IH]; intros acc s; cbn [fold_each].
  - apply wp_ret. exists []. split; [apply emitted_refl|].
    intros result [= <-] H. split; [exact H|constructor].
  - cbn zeta. cbn [fst snd].
    assert (forall (s1 : state) b (l : list string) ev,
               trace s1 = (trace s ++ [ev])%list ->
               (b = true -> fst acc = true /\ reported_active (k, n) ev) ->
               wp (fold_each rest (b, l)
                     (fun acc kv =>
                        try_except_ClientError
                          (response <- dynamodb_describe_table (snd kv) ;;
                           if negb (String.eqb (TableStatus response) "ACTIVE") then
                             logger INFO [FLit "["; FInt elapsed; FLit "s] ";
                                          FStr (fst kv); FLit ": ";
                                          FStr (TableStatus response)] ;;
                             ret (false, snd acc)
                           else if negb (Str.mem (snd kv) (snd acc)) then
                             logger INFO [FLit "["; FInt elapsed; FLit "s] ";
                                          FStr (fst kv); FLit ": ACTIVE"] ;;
                             ret (fst acc, (snd acc ++ [snd kv])%list)
                           else ret acc)
                          (fun e =>
                             if code_is e "ResourceNotFoundException" then
                               logger INFO [FLit "["; FInt elapsed; FLit "s] ";
                                            FStr (fst kv);
                                            FLit ": Table not found yet (still creating)"] ;;
                               ret (false, snd acc)
                             else raise e)))
                  (fun r s' =>
                     exists evs, emitted s s' evs /\
                       forall result, r = Ok result -> fst result = true ->
                         fst acc = true /\
                         Forall2 reported_active ((k, n) :: rest) evs) s1) as Hnext.
    { intros s1 b l ev T1 Hb.
      eapply wp_mono; [apply IH|].
      intros r s' [evs [He Hr]]. exists (ev :: evs). split.
      { unfold emitted in *. rewrite He, T1. now rewrite <- app_assoc. }
      intros result Hres Ht. destruct (Hr result Hres Ht) as [Hb' HF].
      cbn [fst] in Hb'. destruct (Hb Hb') as [Ha Hev].
      split; [exact Ha|]. now constructor. }
    apply wp_bind, wp_try_except_ClientError, wp_bind.
    unfold dynamodb_describe_table. apply wp_invoke. intros pv [e|d] Hop.
    + destruct e as [code msg|kind msg].
      * destruct (code_is (ClientError code msg) "ResourceNotFoundException").
        -- apply wp_bind, wp_logger, wp_ret.
           eapply Hnext; [reflexivity|discriminate].
        -- apply wp_raise. eexists. split; [reflexivity|]. discriminate.
      * eexists. split; [reflexivity|]. discriminate.
    + destruct (String.eqb (TableStatus d) "ACTIVE") eqn:Hst; cbn [negb].
      * assert (fst acc = true ->
                fst acc = true /\
                reported_active (k, n)
                  {| ev_call := describe_table n; ev_result := inr (RTable d) |})
          as Hev.
        { intros Ha. split; [exact Ha|]. split; [reflexivity|].
          exists d. split; [reflexivity|]. now apply String.eqb_eq. }
        destruct (negb (Str.mem n (snd acc))).
        -- apply wp_bind, wp_logger, wp_ret.
           eapply Hnext; [reflexivity|exact Hev].
        -- apply wp_ret. destruct acc as [b l].
           eapply Hnext; [reflexivity|exact Hev].
      * apply wp_bind, wp_logger, wp_ret.
        eapply Hnext; [reflexivity|discriminate].
Qed.

Lemma poll_loop_sound (self : config) (restore_tables : dict string)
    (start timeout_seconds : Z) :
  dry_run self = false ->
  forall (fuel : nat) (active_tables : list string) (s : state),
    wp (poll_loop fuel self restore_tables start timeout_seconds active_tables)
       (fun r s' =>
          r = Ok true ->
          exists before round,
            emitted s s' (before ++ round)%list /\
            Forall2 reported_active restore_tables round) s.
Proof.
  intros Hwet.
  induction fuel as [|fuel IH]; intros active_tables s; cbn [poll_loop];
    [discriminate|].
  apply wp_bind, wp_time_time.
  destruct (clock s - start <? timeout_seconds * DateTime.second_us);
    [|wp_run; discriminate].
  apply wp_bind, wp_time_time, wp_bind.
  unfold poll_round.
  eapply wp_mono; [apply (poll_round_active self _ restore_tables Hwet)|].
  intros [[b l]|e|] s1 [evs [He Hr]]; [|discriminate|discriminate].
  cbn [fst snd]. destruct b.
  - wp_run. intros _. exists [], evs. split; [exact He|].
    now apply (Hr (true, l) eq_refl eq_refl).
  - apply wp_bind, wp_logger, wp_bind, wp_time_sleep.
    eapply wp_mono; [apply IH|].
    intros r s2 H2 Hr2. destruct (H2 Hr2) as [before [round [He2 HF]]].
    exists (evs ++ before)%list, round. split; [|exact HF].
    unfold emitted in *. rewrite He2. cbn [trace add_log set_clock].
    rewrite He. now rewrite <- !app_assoc.
Qed.

(** X14: [_poll_restore_completion] outside dry-run mode returns [True]
    only on the evidence of a full round: its last provider calls are one
    [describe_table] for each restore table, in order, and each of them
    answered with the status ACTIVE.  A table that is missing or in another
    status keeps the poll waiting; no exception escapes the method. *)
Theorem poll_succeeds_only_when_all_active (fuel : nat) (self : config)
    (restore_tables : dict string) (s : state) :
  dry_run self = false ->
  let r := _poll_restore_completion fuel self restore_tables s in
  (forall e, fst r <> Raise e) /\
  (fst r = Ok true ->
   exists before round,
     emitted s (snd r) (before ++ round)%list /\
     Forall2 reported_active restore_tables round).
Proof.
  intros Hwet.
  assert (wp (_poll_restore_completion fuel self restore_tables)
             (fun r s' =>
                (forall e, r <> Raise e) /\
                (r = Ok true ->
                 exists before round,
                   emitted s s' (before ++ round)%list /\
                   Forall2 reported_active restore_tables round)) s) as H.
  { unfold _poll_restore_completion.
    apply wp_try_except, wp_bind, wp_time_time, wp_bind, wp_logger.
    eapply wp_mono; [apply (poll_loop_sound self restore_tables _ _ Hwet)|].
    intros [b|e|] s' H.
    - split; [discriminate|]. exact H.
    - wp_run. split; discriminate.
    - split; discriminate. }
  exact H.
Qed.

(** X15: [_poll_restore_completion] with a timeout of zero minutes or
    less.  The [while] loop is never entered: the method returns [False] at
    once, having logged the timeout as an ERROR, without describing any
    table and without sleeping, in dry-run mode as well. *)
Theorem poll_without_timeout_fails_at_once (fuel : nat) (self : config)
    (restore_tables : dict string) (s : state) :
  timeout_minutes self <= 0 ->
  let r := _poll_restore_completion (S fuel) self restore_tables s in
  fst r = Ok false /\
  trace (snd r) = trace s /\ clock (snd r) = clock s /\
  provider_state (snd r) = provider_state s /\
  last_message (snd r) =
    Some (ERROR, [FLit "Restore operation timed out after ";
                  FInt (timeout_minutes self); FLit " minutes"]).
Proof.
  intros Htime.
  assert (wp (_poll_restore_completion (S fuel) self restore_tables)
             (fun r s' =>
                r = Ok false /\ trace s' = trace s /\ clock s' = clock s /\
                provider_state s' = provider_state s /\
                last_message s' =
                  Some (ERROR, [FLit "Restore operation timed out after ";
                                FInt (timeout_minutes self); FLit " minutes"])) s)
    as H.
  { unfold _poll_restore_completion. cbn [poll_loop].
    wp_to_if. cbn [clock add_log].
    replace (clock s - clock s <? timeout_minutes self * 60 * DateTime.second_us)
      with false
      by (symmetry; apply Z.ltb_ge; unfold DateTime.second_us; lia).
    wp_run. repeat split. apply last_message_add_log. }
  exact H.
Qed.

(** ** Initiating the restores *)

Lemma _get_restore_table_names_stored (self : config)
    (restore_dt : DateTime.datetime) (s : state) :
  restore_point_timestamp s = Some (DateTime.strftime_compact restore_dt) ->
  _get_restore_table_names self s = (Ok (restore_table_names self restore_dt), s).
Proof.
  intros Hts.
  assert (wp (_get_restore_table_names self)
             (fun r s' => r = Ok (restore_table_names self restore_dt) /\ s' = s)
             s) as H.
  { unfold _get_restore_table_names. do 2 wp_step. rewrite Hts.
    destruct (String.eqb_spec (DateTime.strftime_compact restore_dt) "") as [E|_];
      [now apply DateTime.strftime_compact_nonempty in E|].
    wp_run. split; reflexivity. }
  unfold wp in H. destruct (_get_restore_table_names self s) as [r s'].
  cbn [fst snd] in H. destruct H as [-> ->]. reflexivity.
Qed.

Definition no_restore (ev : event) : Prop := is_restore (ev_call ev) = false.

Lemma log_restore_window_quiet (original_table : string) (e : exn) (s : state) :
  wp (log_restore_window original_table e)
     (fun r s' =>
        r = Ok tt /\ exists after, emitted s s' after /\ Forall no_restore after) s.
Proof.
  unfold log_restore_window, dynamodb_describe_table,
    dynamodb_describe_continuous_backups.
  wp_run;
    (split; [reflexivity|]);
    eexists; (split; [unfold emitted; cbn [trace add_log set_provider];
                      rewrite <- ?app_assoc; cbn [app]; try reflexivity;
                      now rewrite app_nil_r
                     |repeat constructor]).
Qed.

(** The restore of the table of [kv] into its restore table was initiated,
    and the call answered. *)
Definition initiated (restore_tables : dict string) (instant : Z)
    (kv : string * string) (ev : event) : Prop :=
  exists restore_table,
    dict_get restore_tables (fst kv) = Some restore_table /\
    ev_call ev = restore_table_to_point_in_time (snd kv) restore_table instant /\
    answered ev.

(** A restore call raised the [ClientError] [e]; no restore was initiated
    after it. *)
Definition stopped_at_failure (e : exn) (evs : list event) : Prop :=
  exists before ev after,
    evs = (before ++ ev :: after)%list /\
    is_restore (ev_call ev) = true /\ ev_result ev = inl e /\
    Forall answered before /\ Forall no_restore after.

Lemma initiate_loop (self : config) (restore_tables : dict string) (instant : Z) :
  dry_run self = false ->
  forall (originals : dict string) (s : state),
    wp (fold_each originals tt
          (fun _ kv =>
             let original_table := snd kv in
             restore_table <- subscript restore_tables (fst kv) ;;
             if dry_run self then
               logger INFO [FLit "[DRY RUN] Would restore "; FStr original_table;
                            FLit " to "; FStr restore_table]
             else
               logger INFO [FLit "Initiating PITR restore for "; FStr original_table;
                            FLit " -> "; FStr restore_table] ;;
               try_except_ClientError
                 (dynamodb_restore_table_to_point_in_time
                    original_table restore_table instant ;;
                  logger INFO [FLit "PITR restore initiated for "; FStr restore_table])
                 (fun e =>
                    if code_is e "InvalidRestoreTimeException" then
                      log_restore_window original_table e ;;
                      raise e
                    else raise e)))
       (fun r s' =>
          exists evs, emitted s s' evs /\
            match r with
            | Ok _ => Forall2 (initiated restore_tables instant) originals evs
            | Raise (ClientError code msg) =>
                stopped_at_failure (ClientError code msg) evs
            | _ => True
            end) s.
Proof.
  intros Hwet. rewrite Hwet.
  induction originals as [|[k original] rest IH]; intros s; cbn [fold_each].
  - apply wp_ret. exists []. split; [apply emitted_refl|constructor].
  - cbn zeta. cbn [fst snd]. apply wp_bind, wp_bind, wp_subscript.
    destruct (dict_get restore_tables k) as [restore_table|] eqn:Hk;
      [|exists []; split; [apply emitted_refl|exact I]].
    apply wp_bind, wp_logger, wp_try_except_ClientError, wp_bind.
    unfold dynamodb_restore_table_to_point_in_time.
    apply wp_invoke. intros pv [e|[]] Hop.
    + destruct e as [code msg|kind msg];
        [|eexists; split; [reflexivity|exact I]].
      assert (forall s1 : state,
                 trace s1 =
                   (trace s ++
                    [{| ev_call :=
                          restore_table_to_point_in_time original restore_table
                            instant;
                        ev_result := inl (ClientError code msg) |}])%list ->
                 forall after (s2 : state),
                   emitted s1 s2 after -> Forall no_restore after ->
                   exists evs, emitted s s2 evs /\
                     stopped_at_failure (ClientError code msg) evs) as Hstop.
      { intros s1 T1 after s2 He Hq.
        exists ({| ev_call :=
                     restore_table_to_point_in_time original restore_table
                       instant;
                   ev_result := inl (ClientError code msg) |} :: after).
        split.
        - unfold emitted in *. rewrite He, T1. now rewrite <- app_assoc.
        - eexists [], _, after. split; [reflexivity|].
          repeat split; try assumption. constructor. }
      destruct (code_is (ClientError code msg) "InvalidRestoreTimeException").
      * apply wp_bind.
        eapply wp_mono; [apply log_restore_window_quiet|].
        intros r s2 [-> [after [He Hq]]]. apply wp_raise.
        eapply Hstop; [|exact He|exact Hq]. reflexivity.
      * apply wp_raise.
        eapply Hstop; [|apply emitted_refl|constructor]. reflexivity.
    + apply wp_logger.
      eapply wp_mono; [apply IH|].
      intros r s' [evs [He Hr]]. eexists (_ :: evs). split.
      { unfold emitted in *. rewrite He. cbn [trace add_log set_provider].
        now rewrite <- app_assoc. }
      destruct r as [[]|[code msg|kind msg]|]; try exact I.
      * constructor; [|exact Hr].
        exists restore_table. cbn [fst snd ev_call]. repeat split. exact Hk.
      * destruct Hr as (before & ev & after & -> & Hc & He' & Hb & Ha).
        eexists (_ :: before), ev, after. split; [reflexivity|].
        repeat split; try assumption. constructor; [exact I|exact Hb].
Qed.

(** The restores [_initiate_pitr_restores] requests for a parsed restore
    point: each production table into its restore table, at the instant the
    restore point denotes. *)
Definition restore_calls (self : config) (restore_dt : DateTime.datetime)
    : list call :=
  map (fun kv =>
         restore_table_to_point_in_time (snd kv)
           (restore_table_name (snd kv) restore_dt) (restore_instant restore_dt))
      (tables self).

Lemma initiated_restore_calls (self : config) (restore_dt : DateTime.datetime)
    (evs : list event) :
  Forall2 (initiated (restore_table_names self restore_dt)
             (restore_instant restore_dt))
          (tables self) evs ->
  map ev_call evs = restore_calls self restore_dt /\ Forall answered evs.
Proof.
  unfold restore_calls, restore_table_names, tables, _configure_table_names.
  cbn [base_names map fst snd].
  intros H.
  inversion H as [|? e1 ? l1 [t1 [K1 [C1 A1]]] H1]; subst; clear H.
  inversion H1 as [|? e2 ? l2 [t2 [K2 [C2 A2]]] H2]; subst; clear H1.
  inversion H2 as [|? e3 ? l3 [t3 [K3 [C3 A3]]] H3]; subst; clear H2.
  inversion H3; subst; clear H3.
  cbn [dict_get fst snd String.eqb Ascii.eqb Bool.eqb] in K1, K2, K3, C1, C2, C3.
  injection K1 as <-. injection K2 as <-. injection K3 as <-.
  cbn [map]. rewrite C1, C2, C3. split; [reflexivity|].
  repeat constructor; assumption.
Qed.

(** X16: [_initiate_pitr_restores] outside dry-run mode, for a restore
    point that parses, once [run] has stored its timestamp.  When it returns
    [True] it has issued exactly one restore for each production table, in
    order: into the restore table named for the restore point, the table
    that [run] polls afterwards, and at the UTC instant the restore point
    denotes, the one that validation compared with the clock.  When it
    returns [False] a restore call raised a [ClientError]: the restores
    before it had answered and are not undone, and none is initiated after
    it. *)
Theorem initiate_restores_every_table (self : config) (p : string)
    (restore_dt : DateTime.datetime) (s : state) :
  dry_run self = false ->
  isoparse p = Some restore_dt ->
  restore_point_timestamp s = Some (DateTime.strftime_compact restore_dt) ->
  let r := _initiate_pitr_restores self p s in
  exists evs, emitted s (snd r) evs /\
    (fst r = Ok true ->
     map ev_call evs = restore_calls self restore_dt /\ Forall answered evs) /\
    (fst r = Ok false ->
     exists code msg, stopped_at_failure (ClientError code msg) evs).
Proof.
  intros Hwet Hp Hts.
  assert (wp (_initiate_pitr_restores self p)
             (fun r s' =>
                exists evs, emitted s s' evs /\
                  (r = Ok true ->
                   map ev_call evs = restore_calls self restore_dt /\
                   Forall answered evs) /\
                  (r = Ok false ->
                   exists code msg, stopped_at_failure (ClientError code msg) evs))
             s) as H.
  { unfold _initiate_pitr_restores.
    apply wp_try_except_ClientError, wp_bind.
    eapply wp_eq; [apply (_get_restore_table_names_stored self restore_dt s Hts)|].
    apply wp_bind, wp_parse. rewrite Hp. cbn beta iota zeta.
    apply wp_bind, wp_logger, wp_bind.
    eapply wp_mono;
      [apply (initiate_loop self (restore_table_names self restore_dt)
                (restore_instant restore_dt) Hwet)|].
    cbn [trace add_log].
    intros [[]|[code msg|kind msg]|] s' [evs [He Hr]].
    - apply wp_ret. exists evs. split; [exact He|]. split; [|discriminate].
      intros _. now apply initiated_restore_calls.
    - wp_run. exists evs. split; [exact He|]. split; [discriminate|].
      intros _. now exists code, msg.
    - exists evs. split; [exact He|]. split; discriminate.
    - exists evs. split; [exact He|]. split; discriminate. }
  exact H.
Qed.

(** ** The swap of one table *)

(** Item batches are written to [table] only. *)
Definition writes_to (table : string) (c : call) : Prop :=
  match c with
  | batch_write_item n _ => n = table
  | _ => True
  end.

Ltac writes_leaf :=
  first
    [ solve [auto with steps]
    | unfold dynamodb_describe_table, dynamodb_scan, dynamodb_batch_write_item;
      apply steps_invoke; intros ?; unfold on_call; cbn [ev_call writes_to];
      solve [exact I | reflexivity] ].

Lemma clear_pages_writes (fuel : nat) (table : string) (ks : list string)
    (r : scan_output) (n : Z) :
  steps (emitting (on_call (writes_to table))) (clear_pages fuel table ks r n).
Proof.
  revert r n. induction fuel as [|fuel IH]; intros r n; simpl;
    destruct (LastEvaluatedKey r); unfold delete_batches; steps_with writes_leaf.
Qed.

Lemma copy_pages_writes (fuel : nat) (source target : string) (r : scan_output)
    (n : Z) :
  steps (emitting (on_call (writes_to target))) (copy_pages fuel source target r n).
Proof.
  revert r n. induction fuel as [|fuel IH]; intros r n; simpl;
    destruct (LastEvaluatedKey r); unfold put_batches; steps_with writes_leaf.
Qed.

Lemma _swap_table_data_writes (fuel : nat) (original_table restore_table : string) :
  steps (emitting (on_call (writes_to original_table)))
        (_swap_table_data fuel original_table restore_table).
Proof.
  pose proof (clear_pages_writes fuel original_table).
  pose proof (copy_pages_writes fuel restore_table original_table).
  unfold _swap_table_data, _clear_table, _copy_table_data, delete_batches,
    put_batches.
  steps_with writes_leaf.
Qed.

(** X17: the swap of one table.  [_swap_table_data] never raises and
    writes item batches to the production table only.  When it returns
    [True] its provider calls are, in this order: the description of the
    production table; the scans of the production table, page after page to
    the last, with the deletion of every scanned item by its key; then the
    scans of the restore table, page after page to the last, with a
    [PutRequest] for every scanned item.  The production table is cleared
    before the first item is copied. *)
Theorem swap_table_data_clears_then_copies (fuel : nat)
    (original_table restore_table : string) (s : state) :
  let r := _swap_table_data fuel original_table restore_table s in
  (forall e, fst r <> Raise e) /\
  emitting (on_call (writes_to original_table)) s (snd r) /\
  (fst r = Ok true ->
   exists response cleared_evs copied_evs,
     emitted s (snd r)
       ({| ev_call := describe_table original_table;
           ev_result := inr (RTable response) |} :: cleared_evs ++ copied_evs) /\
     cursors original_table (Some None) cleared_evs None /\
     deletes (KeySchema response) (scanned cleared_evs) (requested cleared_evs) /\
     cursors restore_table (Some None) copied_evs None /\
     requested copied_evs = map PutRequest (scanned copied_evs)).
Proof.
  assert (wp (_swap_table_data fuel original_table restore_table)
             (fun r s' =>
                (forall e, r <> Raise e) /\
                (r = Ok true ->
                 exists response cleared_evs copied_evs,
                   emitted s s'
                     ({| ev_call := describe_table original_table;
                         ev_result := inr (RTable response) |}
                        :: cleared_evs ++ copied_evs) /\
                   cursors original_table (Some None) cleared_evs None /\
                   deletes (KeySchema response) (scanned cleared_evs)
                           (requested cleared_evs) /\
                   cursors restore_table (Some None) copied_evs None /\
                   requested copied_evs = map PutRequest (scanned copied_evs))) s)
    as H.
  { unfold _swap_table_data.
    apply wp_try_except, wp_bind, wp_logger, wp_bind, wp_logger, wp_bind.
    eapply wp_mono; [apply _clear_table_covers|].
    intros [[]|e|] s1 [evs1 [T1 R1]];
      [|wp_run; split; discriminate|split; discriminate].
    destruct (R1 eq_refl) as (response & cleared_evs & -> & C1 & D1).
    apply wp_bind, wp_logger, wp_bind.
    eapply wp_mono; [apply _copy_table_data_covers|].
    intros [n|e|] s2 [evs2 [T2 R2]];
      [|wp_run; split; discriminate|split; discriminate].
    destruct (R2 n eq_refl) as [C2 P2].
    wp_run. split; [discriminate|]. intros _.
    exists response, cleared_evs, evs2. split.
    { unfold emitted. cbn [trace add_log] in *. rewrite T2. cbn [trace add_log].
      rewrite T1. cbn [trace add_log]. now rewrite <- app_assoc. }
    repeat split; assumption. }
  unfold wp in H. cbn zeta. destruct H as [Hn Ht].
  split; [exact Hn|]. split; [apply _swap_table_data_writes|exact Ht].
Qed.

(** ** Batches of twenty-five *)

Lemma batches_from {A} (items : list A) (fuel : nat) :
  forall start : nat,
    (List.length items <= fuel + start)%nat ->
    List.concat (map (fun i => slice items i (i + batch_size))
                     (range_from fuel start (List.length items) batch_size)) =
    skipn start items /\
    Forall (fun i =>
              (1 <= List.length (slice items i (i + batch_size)) <= batch_size)%nat /\
              ((i + batch_size <= List.length items)%nat ->
               List.length (slice items i (i + batch_size)) = batch_size))
           (range_from fuel start (List.length items) batch_size).
Proof.
  induction fuel as [|fuel IH]; intros start Hlen.
  - cbn [range_from map List.concat]. rewrite skipn_all2 by lia.
    split; [reflexivity|constructor].
  - rewrite range_from_eq. destruct (Nat.ltb_spec start (List.length items)).
    + destruct (IH (start + batch_size)%nat) as [Hc Hf];
        [unfold batch_size; lia|].
      cbn [map List.concat]. rewrite Hc. split; [apply slice_batch|].
      constructor; [|exact Hf].
      unfold slice. replace (start + batch_size - start)%nat with batch_size by lia.
      rewrite length_firstn, length_skipn. unfold batch_size. lia.
    + cbn [map List.concat]. rewrite skipn_all2 by lia.
      split; [reflexivity|constructor].
Qed.

(** X18: the batching of a scanned page, as [_clear_table] and
    [_copy_table_data] do it with [range(0, len(items), 25)] and
    [items[i:i + 25]].  The batches, in order, make up the page: every item
    is in exactly one batch, in its place.  No batch is empty, none holds
    more than twenty-five items, and every batch that starts twenty-five
    items or more before the end of the page holds exactly twenty-five; an
    empty page gives no batch. *)
Theorem batches_partition_the_page {A} (items : list A) :
  let starts := range0 (List.length items) batch_size in
  List.concat (map (fun i => slice items i (i + batch_size)) starts) = items /\
  Forall (fun i =>
            (1 <= List.length (slice items i (i + batch_size)) <= 25)%nat /\
            ((i + batch_size <= List.length items)%nat ->
             List.length (slice items i (i + batch_size)) = 25%nat))
         starts /\
  (items = [] -> starts = []).
Proof.
  cbn zeta. unfold range0.
  destruct (batches_from items (List.length items) 0) as [Hc Hf]; [lia|].
  split; [exact Hc|]. split; [exact Hf|].
  intros ->. reflexivity.
Qed.

(** ** The earlier build: strict verification

    [_verify_item_counts] as [scripts/restore_dynamodb_pitr.py] has it:
    a difference between the two counts of a table ends the verification
    with [False].  [_count_items] is the same in both builds. *)

Definition _verify_item_counts_strict (self : config)
    (restore_tables : dict string) : M bool :=
  try_except
    (logger INFO [FLit "Verifying item counts..."] ;;
     returned <-
       for_each (tables self)
         (fun kv =>
            let table_key := fst kv in
            let original_table := snd kv in
            restore_table <- subscript restore_tables table_key ;;
            if dry_run self then
              logger INFO [FLit "[DRY RUN] Would verify counts for ";
                           FStr original_table] ;;
              ret None
            else
              original_count <- _count_items original_table ;;
              restore_count <- _count_items restore_table ;;
              if negb (original_count =? restore_count) then
                logger ERROR
                  [FLit "Item count mismatch for "; FStr table_key;
                   FLit ": original="; FInt original_count;
                   FLit ", restore="; FInt restore_count] ;;
                ret (Some false)
              else
                (* the literal ends in a check mark, left out here *)
                logger INFO
                  [FStr table_key; FLit ": original="; FInt original_count;
                   FLit ", restore="; FInt restore_count] ;;
                ret None) ;;
     match returned with
     | Some b => ret b
     | None => ret true
     end)
    (fun e =>
       logger ERROR [FLit "Error verifying item counts: "; FExn e] ;;
       ret false).

Definition count_event (table_name : string) (n : Z) : event :=
  {| ev_call := scan_count table_name; ev_result := inr (RCount n) |}.

Lemma _count_items_event (table_name : string) (s : state) :
  wp (_count_items table_name)
     (fun r s' =>
        match r with
        | Ok n => emitted s s' [count_event table_name n]
        | Raise e => exists ev, emitted s s' [ev] /\ raised ev
        | Diverge => False
        end) s.
Proof.
  unfold _count_items, dynamodb_scan_count.
  apply wp_try_except_ClientError, wp_invoke. intros pv [e|n] Hop.
  - assert (exists ev,
               emitted s (set_provider s pv {| ev_call := scan_count table_name;
                                               ev_result := inl e |}) [ev] /\
               raised ev) as H.
    { eexists. split; [reflexivity|]. now exists e. }
    destruct e as [code msg|kind msg]; [wp_run|]; exact H.
  - reflexivity.
Qed.

(** Table by table, the original and the restore table were counted, in
    this order, and the counts were equal. *)
Fixpoint counts_equal (restore_tables originals : dict string)
    (evs : list event) : Prop :=
  match originals, evs with
  | [], [] => True
  | kv :: rest, e1 :: e2 :: evs' =>
      (exists restore_table n,
          dict_get restore_tables (fst kv) = Some restore_table /\
          e1 = count_event (snd kv) n /\ e2 = count_event restore_table n) /\
      counts_equal restore_tables rest evs'
  | _, _ => False
  end.

(** The last two calls counted a table and its restore table and found
    different counts. *)
Definition counts_differ (restore_tables originals : dict string)
    (evs : list event) : Prop :=
  exists before kv restore_table n m,
    In kv originals /\ dict_get restore_tables (fst kv) = Some restore_table /\
    evs = (before ++ [count_event (snd kv) n; count_event restore_table m])%list /\
    n <> m.

Lemma strict_verify_loop (self : config) (restore_tables : dict string) :
  dry_run self = false ->
  forall (originals : dict string) (s : state),
    wp (for_each originals
          (fun kv =>
             let table_key := fst kv in
             let original_table := snd kv in
             restore_table <- subscript restore_tables table_key ;;
             if dry_run self then
               logger INFO [FLit "[DRY RUN] Would verify counts for ";
                            FStr original_table] ;;
               ret None
             else
               original_count <- _count_items original_table ;;
               restore_count <- _count_items restore_table ;;
               if negb (original_count =? restore_count) then
                 logger ERROR
                   [FLit "Item count mismatch for "; FStr table_key;
                    FLit ": original="; FInt original_count;
                    FLit ", restore="; FInt restore_count] ;;
                 ret (Some false)
               else
                 logger INFO
                   [FStr table_key; FLit ": original="; FInt original_count;
                    FLit ", restore="; FInt restore_count] ;;
                 ret None))
       (fun r s' =>
          exists evs, emitted s s' evs /\
            match r with
            | Ok None => counts_equal restore_tables originals evs
            | Ok (Some b) =>
                b = false /\ counts_differ restore_tables originals evs
            | Raise e =>
                Exists raised evs \/
                exists kv, In kv originals /\
                           dict_get restore_tables (fst kv) = None
            | Diverge => False
            end) s.
Proof.
  intros Hwet. rewrite Hwet.
  induction originals as [|[k original] rest IH]; intros s; cbn [for_each].
  - apply wp_ret. exists []. split; [apply emitted_refl|exact I].
  - cbn zeta. cbn [fst snd]. apply wp_bind, wp_bind, wp_subscript.
    destruct (dict_get restore_tables k) as [restore_table|] eqn:Hk.
    2:{ exists []. split; [apply emitted_refl|]. right.
        exists (k, original). split; [now left|exact Hk]. }
    apply wp_bind.
    eapply wp_mono; [apply _count_items_event|].
    intros [n|e|] s1 H1; [| |destruct H1].
    2:{ destruct H1 as [ev [He Hr]]. exists [ev]. split; [exact He|].
        left. now constructor. }
    apply wp_bind.
    eapply wp_mono; [apply _count_items_event|].
    intros [m|e|] s2 H2; [| |destruct H2].
    2:{ destruct H2 as [ev [He Hr]]. eexists. split.
        - exact (emitted_trans _ _ _ _ _ H1 He).
        - left. apply Exists_cons_tl. now constructor. }
    pose proof (emitted_trans _ _ _ _ _ H1 H2) as H12. cbn [app] in H12.
    destruct (Z.eqb_spec n m) as [<-|Hne]; cbn [negb].
    + apply wp_bind, wp_logger, wp_ret.
      eapply wp_mono; [apply IH|].
      intros r s' [evs [He Hr]].
      exists ([count_event original n; count_event restore_table n] ++ evs)%list.
      split; [exact (emitted_trans _ _ _ _ _ H12 He)|].
      destruct r as [[b|]|e|]; [| | |exact Hr].
      * destruct Hr as [-> (before & kv & t & a & c & Hin & Hkv & -> & Hab)].
        split; [reflexivity|].
        exists ([count_event original n; count_event restore_table n] ++ before)%list,
          kv, t, a, c.
        split; [now right|]. split; [exact Hkv|]. split; [|exact Hab].
        now rewrite <- app_assoc.
      * cbn [app counts_equal fst snd]. split; [|exact Hr].
        now exists restore_table, n.
      * destruct Hr as [Hr|[kv [Hin Hkv]]].
        -- left. now apply Exists_cons_tl, Exists_cons_tl.
        -- right. exists kv. split; [now right|exact Hkv].
    + apply wp_bind, wp_logger, wp_ret, wp_ret.
      eexists. split; [exact H12|]. split; [reflexivity|].
      exists [], (k, original), restore_table, n, m.
      split; [now left|]. split; [exact Hk|]. split; [reflexivity|exact Hne].
Qed.

(** X19: the verification of the earlier build is strict.  Outside
    dry-run mode [_verify_item_counts] of [scripts/restore_dynamodb_pitr.py]
    never raises, and returns [True] only when it has counted every
    production table and its restore table, in order, and each pair of
    counts was equal.  It returns [False] at the first pair of counts that
    differ, without counting the tables after it, or when a count raised,
    or when a table has no restore table name. *)
Theorem earlier_verification_is_strict (self : config)
    (restore_tables : dict string) (s : state) :
  dry_run self = false ->
  let r := _verify_item_counts_strict self restore_tables s in
  exists evs, emitted s (snd r) evs /\
    (fst r = Ok true \/ fst r = Ok false) /\
    (fst r = Ok true -> counts_equal restore_tables (tables self) evs) /\
    (fst r = Ok false ->
     counts_differ restore_tables (tables self) evs \/
     Exists raised evs \/
     exists kv, In kv (tables self) /\ dict_get restore_tables (fst kv) = None).
Proof.
  intros Hwet.
  assert (wp (_verify_item_counts_strict self restore_tables)
             (fun r s' =>
                exists evs, emitted s s' evs /\
                  match r with
                  | Ok true => counts_equal restore_tables (tables self) evs
                  | Ok false =>
                      counts_differ restore_tables (tables self) evs \/
                      Exists raised evs \/
                      exists kv, In kv (tables self) /\
                                 dict_get restore_tables (fst kv) = None
                  | _ => False
                  end) s) as H.
  { unfold _verify_item_counts_strict.
    apply wp_try_except, wp_bind, wp_logger, wp_bind.
    eapply wp_mono; [apply (strict_verify_loop self restore_tables Hwet)|].
    cbn [trace add_log].
    intros [[b|]|e|] s' [evs [He Hr]]; [| | |destruct Hr].
    - destruct Hr as [-> Hd]. apply wp_ret. exists evs. split; [exact He|].
      now left.
    - apply wp_ret. exists evs. now split.
    - wp_run. exists evs. split; [exact He|]. now right. }
  unfold wp in H. cbn zeta. destruct H as [evs [He Hr]]. exists evs.
  split; [exact He|].
  destruct (fst (_verify_item_counts_strict self restore_tables s))
    as [[|]|e|]; [| |destruct Hr|destruct Hr].
  - split; [now left|]. split; [intros _; exact Hr|discriminate].
  - split; [now right|]. split; [discriminate|intros _; exact Hr].
Qed.

(** * The run, stage by stage *)

(** ** From the first poll to the end of the run *)

Lemma try_except_no_raise {A} (m : M A) (h : exn -> M A) (s : state) :
  (forall e s' e', fst (h e s') <> Raise e') ->
  forall e, fst (try_except m h s) <> Raise e.
Proof.
  intros Hh e. unfold try_except.
  destruct (m s) as [[a|e0|] s']; cbn [fst]; [discriminate|apply Hh|discriminate].
Qed.

Lemma _poll_restore_completion_no_raise (fuel : nat) (self : config)
    (rt : dict string) (s : state) (e : exn) :
  fst (_poll_restore_completion fuel self rt s) <> Raise e.
Proof.
  unfold _poll_restore_completion. apply try_except_no_raise. discriminate.
Qed.

Lemma _verify_item_counts_no_raise (self : config) (rt : dict string)
    (s : state) (e : exn) :
  fst (_verify_item_counts self rt s) <> Raise e.
Proof.
  unfold _verify_item_counts. apply try_except_no_raise. discriminate.
Qed.

Lemma _swap_data_no_raise (fuel : nat) (self : config) (rt : dict string)
    (s : state) (e : exn) :
  fst (_swap_data fuel self rt s) <> Raise e.
Proof.
  unfold _swap_data. apply try_except_no_raise. discriminate.
Qed.

(** How [run] ends once it polls from the state [s]: [result] and [s'] are
    its result and final state.  Polling runs from [s]; if it returns [True]
    the verification runs from the state the polling left, then the swap
    from the state the verification left, then the deletion of the restore
    tables from the state the swap left.  A stage that returns [False] ends
    the run with [False], the status FAILED and the reason of that stage, and
    nothing is called after it; when the swap returned [True] the run ends
    with [True] and the status COMPLETED, after the deletion of the restore
    tables, whatever that returned.  No stage raises; if one runs out of
    fuel the run has no result and stops in the state of that stage. *)
Definition pipeline (fuel : nat) (self : config) (restore_tables : dict string)
    (s : state) (result : outcome bool) (s' : state) : Prop :=
  match _poll_restore_completion fuel self restore_tables s with
  | (Ok true, s1) =>
      match _verify_item_counts self restore_tables s1 with
      | (Ok true, s2) =>
          match _swap_data fuel self restore_tables s2 with
          | (Ok true, s3) =>
              match _delete_restore_tables self restore_tables s3 with
              | (Ok _, s4) =>
                  result = Ok true /\ recorded s' "COMPLETED" None /\
                  trace s' = trace s4
              | (Raise _, _) => False
              | (Diverge, s4) => result = Diverge /\ s' = s4
              end
          | (Ok false, s3) =>
              result = Ok false /\
              recorded s' "FAILED" (Some "Data swap failed") /\
              trace s' = trace s3
          | (Raise _, _) => False
          | (Diverge, s3) => result = Diverge /\ s' = s3
          end
      | (Ok false, s2) =>
          result = Ok false /\
          recorded s' "FAILED" (Some "Item count mismatch") /\
          trace s' = trace s2
      | (Raise _, _) => False
      | (Diverge, s2) => result = Diverge /\ s' = s2
      end
  | (Ok false, s1) =>
      result = Ok false /\
      recorded s' "FAILED" (Some "Restore operation timed out") /\
      trace s' = trace s1
  | (Raise _, _) => False
  | (Diverge, s1) => result = Diverge /\ s' = s1
  end.

(** [run] up to the first poll, given how the stages before it ended. *)
Ltac run_to_polling :=
  unfold run; apply wp_try_except, wp_bind; wp_step;
  unfold validate_and_restore, RestoreLock_with;
  apply wp_bind; wp_step; cbn [negb];
  apply wp_bind, wp_bind; wp_step; apply wp_finally;
  unfold restore_steps; apply wp_bind; wp_step; cbn [negb];
  unfold poll_verify_swap; apply wp_bind; wp_step; cbn [negb].

Ltac next_stage := apply wp_bind; wp_step; cbn [negb].

Ltac stage_raised lemma :=
  match goal with
  | H : _ = (Raise ?e, _) |- False =>
      eapply lemma; rewrite H; reflexivity
  end.

Lemma run_from_polling (fuel : nat) (self : config) (p : string)
    (prepared : dict string * bool) (s s1 s2 s3 s4 : state) :
  before_validation self p s = (Ok prepared, s1) ->
  _validate_restore_point p s1 = (Ok true, s2) ->
  RestoreLock_enter fuel (lock_file self) s2 = (Ok tt, s3) ->
  (if negb (snd prepared) then _initiate_pitr_restores self p else ret true) s3 =
    (Ok true, s4) ->
  pipeline fuel self (fst prepared) s4
           (fst (run fuel self p s)) (snd (run fuel self p s)).
Proof.
  intros H1 H2 H3 H4. unfold pipeline.
  set (rt := fst prepared) in *.
  destruct (_poll_restore_completion fuel self rt s4) as [[[|]|e|] s5] eqn:H5.
  - destruct (_verify_item_counts self rt s5) as [[[|]|e|] s6] eqn:H6.
    + destruct (_swap_data fuel self rt s6) as [[[|]|e|] s7] eqn:H7.
      * destruct (_delete_restore_tables self rt s7) as [[b|e|] s8] eqn:H8.
        -- change (wp (run fuel self p)
                      (fun r s' =>
                         r = Ok true /\ recorded s' "COMPLETED" None /\
                         trace s' = trace s8) s).
           run_to_polling. do 3 next_stage.
           wp_run; (split; [reflexivity|]); (split; [recorded_tac|]);
             cbn [trace add_log set_status_file];
             now rewrite RestoreLock_release_trace.
        -- pose proof (_delete_restore_tables_no_raise self rt s7) as Hn.
           unfold wp in Hn. rewrite H8 in Hn. now apply (Hn e).
        -- change (wp (run fuel self p) (fun r s' => r = Diverge /\ s' = s8) s).
           run_to_polling. do 3 next_stage. now split.
      * change (wp (run fuel self p)
                   (fun r s' =>
                      r = Ok false /\
                      recorded s' "FAILED" (Some "Data swap failed") /\
                      trace s' = trace s7) s).
        run_to_polling. do 2 next_stage.
        wp_run. split; [reflexivity|]. split.
        -- apply recorded_release. recorded_tac.
        -- now rewrite RestoreLock_release_trace.
      * stage_raised _swap_data_no_raise.
      * change (wp (run fuel self p) (fun r s' => r = Diverge /\ s' = s7) s).
        run_to_polling. do 2 next_stage. now split.
    + change (wp (run fuel self p)
                 (fun r s' =>
                    r = Ok false /\
                    recorded s' "FAILED" (Some "Item count mismatch") /\
                    trace s' = trace s6) s).
      run_to_polling. next_stage.
      wp_run. split; [reflexivity|]. split.
      * apply recorded_release. recorded_tac.
      * now rewrite RestoreLock_release_trace.
    + stage_raised _verify_item_counts_no_raise.
    + change (wp (run fuel self p) (fun r s' => r = Diverge /\ s' = s6) s).
      run_to_polling. next_stage. now split.
  - change (wp (run fuel self p)
               (fun r s' =>
                  r = Ok false /\
                  recorded s' "FAILED" (Some "Restore operation timed out") /\
                  trace s' = trace s5) s).
    run_to_polling.
    wp_run. split; [reflexivity|]. split.
    + apply recorded_release. recorded_tac.
    + now rewrite RestoreLock_release_trace.
  - stage_raised _poll_restore_completion_no_raise.
  - change (wp (run fuel self p) (fun r s' => r = Diverge /\ s' = s5) s).
    run_to_polling. now split.
Qed.

(** ** The verification of the item counts *)

Lemma _count_items_answer (table_name : string) (s : state) :
  wp (_count_items table_name)
     (fun r s' =>
        match r with
        | Ok n => emitted s s' [count_event table_name n] /\ log s' = log s
        | Raise e => exists ev, emitted s s' [ev] /\ raised ev
        | Diverge => False
        end) s.
Proof.
  unfold _count_items, dynamodb_scan_count.
  apply wp_try_except_ClientError, wp_invoke. intros pv [e|n] Hop.
  - assert (exists ev,
               emitted s (set_provider s pv {| ev_call := scan_count table_name;
                                               ev_result := inl e |}) [ev] /\
               raised ev) as H.
    { eexists. split; [reflexivity|]. now exists e. }
    destruct e as [code msg|kind msg]; [wp_run|]; exact H.
  - split; reflexivity.
Qed.

(** Table by table, the original and the restore table were counted, in
    this order, both counts were returned, and [records] is the report on
    each pair of counts: see [count_report] for its three cases. *)
Fixpoint counts_reported (restore_tables originals : dict string)
    (evs : list event) (records : list log_record) : Prop :=
  match originals, evs with
  | [], [] => records = []
  | kv :: rest, e1 :: e2 :: evs' =>
      exists restore_table original_count restore_count records',
        dict_get restore_tables (fst kv) = Some restore_table /\
        e1 = count_event (snd kv) original_count /\
        e2 = count_event restore_table restore_count /\
        records =
          (count_report (fst kv) original_count restore_count ++ records')%list /\
        counts_reported restore_tables rest evs' records'
  | _, _ => False
  end.

Lemma counts_reported_answered (restore_tables : dict string) :
  forall (originals : dict string) (evs : list event) (records : list log_record),
    counts_reported restore_tables originals evs records -> Forall answered evs.
Proof.
  induction originals as [|kv rest IH]; intros evs records H.
  - destruct evs; [constructor|destruct H].
  - destruct evs as [|e1 [|e2 evs]]; [destruct H|destruct H|].
    destruct H as (t & n & m & records' & _ & -> & -> & _ & H).
    repeat constructor. exact (IH _ _ H).
Qed.

Lemma verify_table_counts_reports (self : config) (rt : dict string)
    (kv : string * string) (restore_table : string) (s : state) :
  dry_run self = false ->
  dict_get rt (fst kv) = Some restore_table ->
  wp (verify_table_counts self rt kv)
     (fun r s' =>
        match r with
        | Ok _ =>
            exists original_count restore_count,
              emitted s s' [count_event (snd kv) original_count;
                            count_event restore_table restore_count] /\
              log s' =
                (log s ++ count_report (fst kv) original_count restore_count)%list
        | Raise _ => exists evs, emitted s s' evs /\ Exists raised evs
        | Diverge => False
        end) s.
Proof.
  intros Hwet Hkey. unfold verify_table_counts.
  apply wp_bind, wp_subscript. rewrite Hkey, Hwet.
  apply wp_bind.
  eapply wp_mono; [apply _count_items_answer|].
  intros [n|e|] s1 H1; [| |destruct H1].
  2:{ destruct H1 as [ev [He Hr]]. exists [ev]. split; [exact He|].
      now constructor. }
  destruct H1 as [E1 L1]. apply wp_bind.
  eapply wp_mono; [apply _count_items_answer|].
  intros [m|e|] s2 H2; [| |destruct H2].
  2:{ destruct H2 as [ev [He Hr]]. eexists. split.
      - exact (emitted_trans _ _ _ _ _ E1 He).
      - apply Exists_cons_tl. now constructor. }
  destruct H2 as [E2 L2].
  pose proof (emitted_trans _ _ _ _ _ E1 E2) as E12. cbn [app] in E12.
  destruct (Z.compare_spec m n) as [Hc|Hc|Hc].
  - subst m. rewrite Z.ltb_irrefl. wp_run. exists n, n.
    split; [exact E12|]. unfold count_report. rewrite Z.compare_refl.
    cbn [log add_log]. now rewrite L2, L1.
  - replace (n <? m) with false by (symmetry; apply Z.ltb_ge; lia).
    replace (m <? n) with true by (symmetry; apply Z.ltb_lt; lia).
    wp_run. exists n, m.
    split; [exact E12|]. unfold count_report.
    rewrite (proj2 (Z.compare_lt_iff m n) Hc).
    cbn [log add_log]. now rewrite L2, L1.
  - replace (n <? m) with true by (symmetry; apply Z.ltb_lt; lia).
    wp_run. exists n, m.
    split; [exact E12|]. unfold count_report.
    rewrite (proj2 (Z.compare_gt_iff m n) Hc).
    cbn [log add_log]. rewrite L2, L1.
    now rewrite <- app_assoc.
Qed.

Lemma verify_loop_reports (self : config) (rt : dict string) :
  dry_run self = false ->
  forall (originals : dict string) (s : state),
    (forall kv, In kv originals -> dict_get rt (fst kv) <> None) ->
    wp (fold_each originals tt (fun _ kv => verify_table_counts self rt kv))
       (fun r s' =>
          exists evs, emitted s s' evs /\
            match r with
            | Ok _ =>
                exists records,
                  counts_reported rt originals evs records /\
                  log s' = (log s ++ records)%list
            | Raise _ => Exists raised evs
            | Diverge => False
            end) s.
Proof.
  intros Hwet.
  induction originals as [|kv rest IH]; intros s Hkeys; cbn [fold_each].
  - apply wp_ret. exists []. split; [apply emitted_refl|].
    exists []. split; [reflexivity|now rewrite app_nil_r].
  - destruct (dict_get rt (fst kv)) as [restore_table|] eqn:Hkey;
      [|exfalso; apply (Hkeys kv); [now left|exact Hkey]].
    apply wp_bind.
    eapply wp_mono; [apply (verify_table_counts_reports self rt kv _ s Hwet Hkey)|].
    intros [[]|e|] s1 H1; [| |destruct H1].
    2:{ exact H1. }
    destruct H1 as (n & m & E1 & L1).
    eapply wp_mono; [apply IH; intros kv' Hin; apply Hkeys; now right|].
    intros r s2 [evs [E2 H2]].
    exists ([count_event (snd kv) n; count_event restore_table m] ++ evs)%list.
    split; [exact (emitted_trans _ _ _ _ _ E1 E2)|].
    destruct r as [[]|e|]; [| |exact H2].
    + destruct H2 as (records & Hc & L2).
      exists (count_report (fst kv) n m ++ records)%list. split.
      * cbn [app counts_reported]. exists restore_table, n, m, records.
        repeat split; assumption.
      * rewrite L2, L1. now rewrite <- app_assoc.
    + now apply Exists_cons_tl, Exists_cons_tl.
Qed.

(** [_verify_item_counts] outside dry-run mode, for restore table names
    that cover the production tables. *)
Lemma _verify_item_counts_reports (self : config) (rt : dict string) (s : state) :
  dry_run self = false ->
  (forall kv, In kv (tables self) -> dict_get rt (fst kv) <> None) ->
  wp (_verify_item_counts self rt)
     (fun r s' =>
        exists evs, emitted s s' evs /\
          match r with
          | Ok true =>
              exists records,
                counts_reported rt (tables self) evs records /\
                log s' =
                  (log s ++
                   {| levelname := INFO;
                      message := [FLit "Checking item counts..."] |} :: records)%list
          | Ok false => Exists raised evs
          | _ => False
          end) s.
Proof.
  intros Hwet Hkeys. unfold _verify_item_counts.
  apply wp_try_except, wp_bind, wp_logger, wp_bind.
  eapply wp_mono; [apply (verify_loop_reports self rt Hwet _ _ Hkeys)|].
  cbn [trace add_log log].
  intros [[]|e|] s1 [evs [He Hr]]; [| |destruct Hr].
  - apply wp_ret. exists evs. split; [exact He|].
    destruct Hr as (records & Hc & L). exists records. split; [exact Hc|].
    rewrite L. now rewrite <- app_assoc.
  - wp_run. exists evs. now split.
Qed.

Lemma verify_loop_dry (self : config) (rt : dict string) :
  dry_run self = true ->
  forall (originals : dict string) (s : state),
    (forall kv, In kv originals -> dict_get rt (fst kv) <> None) ->
    wp (fold_each originals tt (fun _ kv => verify_table_counts self rt kv))
       (fun r s' => r = Ok tt /\ trace s' = trace s) s.
Proof.
  intros Hdry.
  induction originals as [|kv rest IH]; intros s Hkeys; cbn [fold_each].
  - apply wp_ret. now split.
  - apply wp_bind. unfold verify_table_counts at 1.
    apply wp_bind, wp_subscript.
    destruct (dict_get rt (fst kv)) as [t|] eqn:Hkey;
      [|exfalso; apply (Hkeys kv); [now left|exact Hkey]].
    rewrite Hdry. apply wp_logger.
    apply (IH (add_log s _)). intros kv' Hin. apply Hkeys. now right.
Qed.

(** C2 (amended): outside dry-run mode [_verify_item_counts] returns
    [True] exactly when every count scan it issued answered, whatever the
    counts are.  It then has counted every production table and its restore
    table, in order, and has logged, after "Checking item counts...", the
    report on each pair of counts: one INFO line when they are equal or the
    restored count is lower, two WARNING lines when the restored count is
    higher.  It returns [False] only after a count scan raised, and never
    raises itself.  In dry-run mode it returns [True] without a call.  In a
    run that has polled, the verification runs from the state the polling
    left: after [True] the run goes on to the swap and ends as the swap and
    the clean-up decide; after [False] it ends with the status FAILED and
    the reason "Item count mismatch". *)
Theorem verify_item_counts_is_advisory (fuel : nat) (self : config) (p : string)
    (rt : dict string) :
  (forall kv, In kv (tables self) -> dict_get rt (fst kv) <> None) ->
  (forall s,
      dry_run self = false ->
      let r := _verify_item_counts self rt s in
      exists evs, emitted s (snd r) evs /\
        (fst r = Ok true \/ fst r = Ok false) /\
        (fst r = Ok true <-> Forall answered evs) /\
        (fst r = Ok true ->
         exists records,
           counts_reported rt (tables self) evs records /\
           log (snd r) =
             (log s ++
              {| levelname := INFO;
                 message := [FLit "Checking item counts..."] |} :: records)%list)) /\
  (forall s,
      dry_run self = true ->
      fst (_verify_item_counts self rt s) = Ok true /\
      trace (snd (_verify_item_counts self rt s)) = trace s) /\
  (forall prepared s s1 s2 s3 s4,
      before_validation self p s = (Ok prepared, s1) ->
      _validate_restore_point p s1 = (Ok true, s2) ->
      RestoreLock_enter fuel (lock_file self) s2 = (Ok tt, s3) ->
      (if negb (snd prepared) then _initiate_pitr_restores self p else ret true)
        s3 = (Ok true, s4) ->
      pipeline fuel self (fst prepared) s4
               (fst (run fuel self p s)) (snd (run fuel self p s))).
Proof.
  intros Hkeys. split; [|split].
  - intros s Hwet. cbn zeta.
    pose proof (_verify_item_counts_reports self rt s Hwet Hkeys) as H.
    unfold wp in H. destruct H as [evs [He Hr]]. exists evs.
    split; [exact He|].
    destruct (fst (_verify_item_counts self rt s)) as [[|]|e|];
      [| |destruct Hr|destruct Hr].
    + destruct Hr as (records & Hc & L).
      split; [now left|]. split.
      * split; [intros _; exact (counts_reported_answered _ _ _ _ Hc)|reflexivity].
      * intros _. now exists records.
    + split; [now right|]. split; [|discriminate].
      split; [discriminate|].
      intros Hall. exfalso. exact (answered_not_raised _ Hall Hr).
  - intros s Hdry.
    assert (wp (_verify_item_counts self rt)
               (fun r s' => r = Ok true /\ trace s' = trace s) s) as H.
    { unfold _verify_item_counts.
      apply wp_try_except, wp_bind, wp_logger, wp_bind.
      eapply wp_mono; [apply (verify_loop_dry self rt Hdry _ _ Hkeys)|].
      intros r s1 [-> T]. wp_run. split; [reflexivity|exact T]. }
    exact H.
  - intros prepared s s1 s2 s3 s4. apply run_from_polling.
Qed.

(** ** The swap, table by table *)

Lemma emitted_inj (s s' : state) (a b : list event) :
  emitted s s' a -> emitted s s' b -> a = b.
Proof.
  unfold emitted. intros Ha Hb. rewrite Ha in Hb. exact (app_inv_head _ _ _ Hb).
Qed.

Lemma wp_and {A} (m : M A) (P Q : outcome A -> state -> Prop) (s : state) :
  wp m P s -> wp m Q s -> wp m (fun r s' => P r s' /\ Q r s') s.
Proof. unfold wp. now split. Qed.

(** The scan returned a page with a [LastEvaluatedKey]. *)
Definition continues (ev : event) : bool :=
  match ev_call ev, ev_result ev with
  | scan _ _, inr (RScan o) =>
      match LastEvaluatedKey o with Some _ => true | None => false end
  | _, _ => false
  end.

(** The number of scans among [evs] that returned a [LastEvaluatedKey]. *)
Definition continued (evs : list event) : nat :=
  List.length (filter continues evs).

Lemma continued_app (a b : list event) :
  continued (a ++ b) = (continued a + continued b)%nat.
Proof. unfold continued. now rewrite filter_app, length_app. Qed.

Lemma continued_cons (ev : event) (evs : list event) :
  (continued evs <= continued (ev :: evs))%nat.
Proof.
  unfold continued. cbn [filter]. destruct (continues ev); cbn [List.length]; lia.
Qed.

Lemma continued_scan (t : string) (start : option item) (o : scan_output)
    (evs : list event) :
  LastEvaluatedKey o <> None ->
  continued ({| ev_call := scan t start; ev_result := inr (RScan o) |} :: evs) =
  S (continued evs).
Proof.
  intros H. unfold continued. cbn [filter continues ev_call ev_result].
  destruct (LastEvaluatedKey o); [reflexivity|congruence].
Qed.

(** An item among [items] lacks one of the key attributes. *)
Definition lacks_key (key_names : list string) (items : list item) : Prop :=
  exists it, In it items /\ project_from key_names it [] = None.

Lemma In_slice {A} (l : list A) (i j : nat) (x : A) :
  In x (slice l i j) -> In x l.
Proof.
  unfold slice. intros H. rewrite <- (firstn_skipn i l).
  apply in_or_app. right. rewrite <- (firstn_skipn (j - i) (skipn i l)).
  apply in_or_app. now left.
Qed.

Lemma key_of_raise (key_names : list string) (it : item) :
  forall (acc : item) (s : state),
    wp (fold_each key_names acc
          (fun key key_name =>
             v <- subscript it key_name ;; ret (dict_set key key_name v)))
       (fun r _ => forall e, r = Raise e -> project_from key_names it acc = None) s.
Proof.
  induction key_names as [|k ks IH]; intros acc s; cbn [fold_each project_from].
  - apply wp_ret. discriminate.
  - apply wp_bind, wp_bind, wp_subscript. destruct (dict_get it k) as [v|].
    + apply wp_ret. apply IH.
    + intros e _. reflexivity.
Qed.

Lemma delete_requests_raise (key_names : list string) (batch : list item) :
  forall (acc : list write_request) (s : state),
    wp (fold_each batch acc
          (fun delete_requests it =>
             key <- key_of key_names it ;;
             ret (delete_requests ++ [DeleteRequest key])%list))
       (fun r s' =>
          s' = s /\ r <> Diverge /\
          forall e, r = Raise e -> lacks_key key_names batch) s.
Proof.
  induction batch as [|it batch IH]; intros acc s; cbn [fold_each].
  - apply wp_ret. repeat split; discriminate.
  - apply wp_bind, wp_bind. unfold key_of.
    eapply wp_mono;
      [apply (wp_and _ _ _ _ (key_of_project key_names it [] s)
                (key_of_raise key_names it [] s))|].
    intros [key|e|] s1 [(-> & Hd & Hk) Hr].
    + apply wp_ret. eapply wp_mono; [apply IH|].
      intros r s2 (-> & Hd2 & H). split; [reflexivity|]. split; [exact Hd2|].
      intros e Hr'. destruct (H e Hr') as [it' [Hin Hp]].
      exists it'. split; [now right|exact Hp].
    + split; [reflexivity|]. split; [discriminate|].
      intros e' _. exists it. split; [now left|]. exact (Hr e eq_refl).
    + congruence.
Qed.

Lemma delete_batches_otherwise (table : string) (key_names : list string)
    (items : list item) :
  forall (starts : list nat) (n : Z) (s : state),
    wp (fold_each starts n
          (fun items_deleted i =>
             let batch := slice items i (i + batch_size) in
             delete_requests <-
               fold_each batch []
                 (fun delete_requests it =>
                    key <- key_of key_names it ;;
                    ret (delete_requests ++ [DeleteRequest key])%list) ;;
             match delete_requests with
             | [] => ret items_deleted
             | _ =>
                 dynamodb_batch_write_item table delete_requests ;;
                 ret (items_deleted + Z.of_nat (List.length delete_requests))
             end))
       (fun r s' =>
          exists evs, emitted s s' evs /\
            match r with
            | Ok _ => True
            | Raise _ => Exists raised evs \/ lacks_key key_names items
            | Diverge => False
            end) s.
Proof.
  induction starts as [|i starts IH]; intros n s; cbn [fold_each].
  - apply wp_ret. exists []. split; [apply emitted_refl|exact I].
  - apply wp_bind. cbn zeta. apply wp_bind.
    eapply wp_mono; [apply delete_requests_raise|].
    intros [requests|e|] s1 (-> & Hd & Hr); [| |congruence].
    + assert (forall s2 : state,
                 emitted s s2 [] \/ (exists ev, emitted s s2 [ev] /\ ~ raised ev) ->
                 wp (fold_each starts
                       match requests with
                       | [] => n
                       | _ => n + Z.of_nat (List.length requests)
                       end
                       (fun items_deleted i =>
                          let batch := slice items i (i + batch_size) in
                          delete_requests <-
                            fold_each batch []
                              (fun delete_requests it =>
                                 key <- key_of key_names it ;;
                                 ret (delete_requests ++ [DeleteRequest key])%list) ;;
                          match delete_requests with
                          | [] => ret items_deleted
                          | _ =>
                              dynamodb_batch_write_item table delete_requests ;;
                              ret (items_deleted +
                                   Z.of_nat (List.length delete_requests))
                          end))
                    (fun r s' =>
                       exists evs, emitted s s' evs /\
                         match r with
                         | Ok _ => True
                         | Raise _ => Exists raised evs \/ lacks_key key_names items
                         | Diverge => False
                         end) s2) as Hnext.
      { intros s2 Hs2. eapply wp_mono; [apply IH|].
        intros r s3 [evs [He H]]. destruct Hs2 as [E|[ev [E Hev]]].
        - exists evs. split; [exact (emitted_trans _ _ _ _ _ E He)|exact H].
        - exists ([ev] ++ evs)%list.
          split; [exact (emitted_trans _ _ _ _ _ E He)|].
          destruct r; [exact I| |exact H].
          destruct H as [H|H]; [left; now apply Exists_cons_tl|now right]. }
      destruct requests as [|r0 rs].
      * apply wp_ret. apply Hnext. left. apply emitted_refl.
      * apply wp_bind. unfold dynamodb_batch_write_item.
        apply wp_invoke. intros pv [e|[]] Hop.
        -- eexists. split; [reflexivity|]. left. constructor. now exists e.
        -- apply wp_ret. apply Hnext. right. eexists. split; [reflexivity|].
           intros [e He]. discriminate He.
    + exists []. split; [apply emitted_refl|]. right.
      destruct (Hr e eq_refl) as [it [Hin Hp]].
      exists it. split; [exact (In_slice _ _ _ _ Hin)|exact Hp].
Qed.

Lemma put_batches_otherwise (target : string) (items : list item) :
  forall (starts : list nat) (n : Z) (s : state),
    wp (fold_each starts n
          (fun items_written i =>
             let batch := slice items i (i + batch_size) in
             let put_requests := map PutRequest batch in
             match put_requests with
             | [] => ret items_written
             | _ =>
                 dynamodb_batch_write_item target put_requests ;;
                 ret (items_written + Z.of_nat (List.length put_requests))
             end))
       (fun r s' =>
          exists evs, emitted s s' evs /\
            match r with
            | Ok _ => True
            | Raise _ => Exists raised evs
            | Diverge => False
            end) s.
Proof.
  induction starts as [|i starts IH]; intros n s; cbn [fold_each].
  - apply wp_ret. exists []. split; [apply emitted_refl|exact I].
  - apply wp_bind. cbn zeta.
    destruct (map PutRequest (slice items i (i + batch_size))) as [|r0 rs].
    + apply wp_ret. apply IH.
    + apply wp_bind. unfold dynamodb_batch_write_item.
      apply wp_invoke. intros pv [e|[]] Hop.
      * eexists. split; [reflexivity|]. constructor. now exists e.
      * apply wp_ret. eapply wp_mono; [apply IH|].
        intros r s3 [evs [He H]]. eexists (_ :: evs). split.
        { unfold emitted in *. rewrite He. cbn [trace set_provider].
          now rewrite <- app_assoc. }
        destruct r; [exact I| |exact H]. now apply Exists_cons_tl.
Qed.

Lemma scan_emitted (s s1 s2 : state) (pv : provider) (ev : event)
    (evs1 evs2 : list event) :
  emitted (set_provider s pv ev) s1 evs1 -> emitted s1 s2 evs2 ->
  emitted s s2 (ev :: evs1 ++ evs2).
Proof.
  unfold emitted. intros E1 E2. rewrite E2, E1. cbn [trace set_provider].
  now rewrite <- !app_assoc.
Qed.

Lemma lacks_key_app (key_names : list string) (a b : list item) :
  lacks_key key_names a \/ lacks_key key_names b ->
  lacks_key key_names (a ++ b).
Proof.
  intros [[it [Hin Hp]]|[it [Hin Hp]]]; exists it;
    (split; [apply in_or_app; auto|exact Hp]).
Qed.

(** How the loop of [_clear_table] over the later pages ends otherwise than
    well: with an exception when a call raised or a scanned item lacks a
    key attribute; out of fuel when [fuel] scans in a row have returned a
    [LastEvaluatedKey]. *)
Lemma clear_pages_otherwise (table : string) (key_names : list string)
    (fuel : nat) :
  forall (scan_response : scan_output) (n : Z) (s : state),
    wp (clear_pages fuel table key_names scan_response n)
       (fun r s' =>
          exists evs, emitted s s' evs /\
            match r with
            | Ok _ => True
            | Raise _ => Exists raised evs \/ lacks_key key_names (scanned evs)
            | Diverge =>
                (fuel <= continued evs)%nat /\
                LastEvaluatedKey scan_response <> None
            end) s.
Proof.
  induction fuel as [|fuel IH]; intros scan_response n s; cbn [clear_pages];
    (destruct (LastEvaluatedKey scan_response) as [last|];
     [|apply wp_ret; exists []; split; [apply emitted_refl|exact I]]).
  - exists []. split; [apply emitted_refl|]. split; [apply Nat.le_0_l|discriminate].
  - apply wp_bind. unfold dynamodb_scan. apply wp_invoke. intros pv [e|o] Hop.
    + eexists. split; [reflexivity|]. left. constructor. now exists e.
    + apply wp_bind. unfold delete_batches.
      eapply wp_mono; [apply delete_batches_otherwise|].
      intros r s1 [evs1 [E1 R1]].
      destruct r as [n1|e|]; [| |destruct R1].
      2:{ eexists (_ :: evs1). split.
          { unfold emitted in *. rewrite E1. cbn [trace set_provider].
            now rewrite <- app_assoc. }
          destruct R1 as [H|H]; [left; now apply Exists_cons_tl|right].
          rewrite scanned_scan. apply lacks_key_app. now left. }
      eapply wp_mono; [apply IH|].
      intros r s2 [evs2 [E2 R2]].
      eexists (_ :: evs1 ++ evs2)%list.
      split; [exact (scan_emitted _ _ _ _ _ _ _ E1 E2)|].
      destruct r as [n2|e|]; [exact I| |].
      * destruct R2 as [H|H].
        -- left. apply Exists_cons_tl, Exists_app. now right.
        -- right. rewrite scanned_scan, scanned_app.
           apply lacks_key_app. right. apply lacks_key_app. now right.
      * destruct R2 as [Hf Hk]. split; [|discriminate].
        rewrite (continued_scan _ _ _ _ Hk), continued_app. lia.
Qed.

(** The description of [table] was answered, and an item scanned after it
    lacks one of the key attributes of that description. *)
Definition key_missing (table : string) (evs : list event) : Prop :=
  exists response rest,
    evs = {| ev_call := describe_table table;
             ev_result := inr (RTable response) |} :: rest /\
    lacks_key (KeySchema response) (scanned rest).

Lemma _clear_table_otherwise (fuel : nat) (table : string) (s : state) :
  wp (_clear_table fuel table)
     (fun r s' =>
        exists evs, emitted s s' evs /\
          match r with
          | Ok _ => True
          | Raise _ => Exists raised evs \/ key_missing table evs
          | Diverge => (fuel < continued evs)%nat
          end) s.
Proof.
  unfold _clear_table. apply wp_try_except, wp_bind.
  assert (forall e (s1 : state) evs,
             emitted s s1 evs ->
             Exists raised evs \/ key_missing table evs ->
             wp (A := unit)
                (logger ERROR [FLit "Error clearing table "; FStr table;
                               FLit ": "; FExn e] ;;
                 raise e)
                (fun r s' =>
                   exists evs, emitted s s' evs /\
                     match r with
                     | Ok _ => True
                     | Raise _ => Exists raised evs \/ key_missing table evs
                     | Diverge => (fuel < continued evs)%nat
                     end) s1) as Hfail.
  { intros e s1 evs T H. wp_run. exists evs. split; [exact T|exact H]. }
  unfold dynamodb_describe_table. apply wp_invoke. intros pv0 [e|d] Hop0.
  { eapply Hfail; [reflexivity|]. left. constructor. now exists e. }
  apply wp_bind. unfold dynamodb_scan. apply wp_invoke. intros pv [e|o] Hop.
  { eapply Hfail.
    - unfold emitted. cbn [trace set_provider]. rewrite <- app_assoc. reflexivity.
    - left. apply Exists_cons_tl. constructor. now exists e. }
  apply wp_bind. unfold delete_batches.
  eapply wp_mono; [apply delete_batches_otherwise|].
  intros r s1 [evs1 [E1 R1]].
  set (described := {| ev_call := describe_table table;
                       ev_result := inr (RTable d) |}) in *.
  set (first_page := {| ev_call := scan table None;
                        ev_result := inr (RScan o) |}) in *.
  assert (emitted s s1 (described :: first_page :: evs1)) as T1.
  { unfold emitted in *. rewrite E1. cbn [trace set_provider].
    now rewrite <- !app_assoc. }
  destruct r as [n1|e|]; [| |destruct R1].
  - apply wp_bind.
    eapply wp_mono; [apply clear_pages_otherwise|].
    intros r s2 [evs2 [E2 R2]].
    pose proof (emitted_trans _ _ _ _ _ T1 E2) as T2. cbn [app] in T2.
    destruct r as [n2|e|].
    + wp_run. eexists. split; [exact T2|exact I].
    + eapply Hfail; [exact T2|]. destruct R2 as [H|H].
      * left. apply Exists_cons_tl, Exists_cons_tl, Exists_app. now right.
      * right. exists d, (first_page :: evs1 ++ evs2)%list.
        split; [reflexivity|]. unfold first_page.
        rewrite scanned_scan, scanned_app.
        apply lacks_key_app. right. apply lacks_key_app. now right.
    + eexists. split; [exact T2|]. destruct R2 as [Hf Hk].
      apply Nat.lt_le_trans with (m := continued (first_page :: evs1 ++ evs2));
        [|apply continued_cons].
      unfold first_page. rewrite (continued_scan _ _ _ _ Hk), continued_app. lia.
  - eapply Hfail; [exact T1|]. destruct R1 as [H|H].
    + left. now apply Exists_cons_tl, Exists_cons_tl.
    + right. exists d, (first_page :: evs1). split; [reflexivity|].
      unfold first_page. rewrite scanned_scan. apply lacks_key_app. now left.
Qed.

Lemma copy_pages_otherwise (source target : string) (fuel : nat) :
  forall (scan_response : scan_output) (n : Z) (s : state),
    wp (copy_pages fuel source target scan_response n)
       (fun r s' =>
          exists evs, emitted s s' evs /\
            match r with
            | Ok _ => True
            | Raise _ => Exists raised evs
            | Diverge =>
                (fuel <= continued evs)%nat /\
                LastEvaluatedKey scan_response <> None
            end) s.
Proof.
  induction fuel as [|fuel IH]; intros scan_response n s; cbn [copy_pages];
    (destruct (LastEvaluatedKey scan_response) as [last|];
     [|apply wp_ret; exists []; split; [apply emitted_refl|exact I]]).
  - exists []. split; [apply emitted_refl|]. split; [apply Nat.le_0_l|discriminate].
  - apply wp_bind. unfold dynamodb_scan. apply wp_invoke. intros pv [e|o] Hop.
    + eexists. split; [reflexivity|]. constructor. now exists e.
    + apply wp_bind. unfold put_batches.
      eapply wp_mono; [apply put_batches_otherwise|].
      intros r s1 [evs1 [E1 R1]].
      destruct r as [n1|e|]; [| |destruct R1].
      2:{ eexists (_ :: evs1). split.
          { unfold emitted in *. rewrite E1. cbn [trace set_provider].
            now rewrite <- app_assoc. }
          now apply Exists_cons_tl. }
      eapply wp_mono; [apply IH|].
      intros r s2 [evs2 [E2 R2]].
      eexists (_ :: evs1 ++ evs2)%list.
      split; [exact (scan_emitted _ _ _ _ _ _ _ E1 E2)|].
      destruct r as [n2|e|]; [exact I| |].
      * apply Exists_cons_tl, Exists_app. now right.
      * destruct R2 as [Hf Hk]. split; [|discriminate].
        rewrite (continued_scan _ _ _ _ Hk), continued_app. lia.
Qed.

Lemma _copy_table_data_otherwise (fuel : nat) (source target : string)
    (s : state) :
  wp (_copy_table_data fuel source target)
     (fun r s' =>
        exists evs, emitted s s' evs /\
          match r with
          | Ok _ => True
          | Raise _ => Exists raised evs
          | Diverge => (fuel < continued evs)%nat
          end) s.
Proof.
  unfold _copy_table_data. apply wp_try_except, wp_bind.
  assert (forall e (s1 : state) evs,
             emitted s s1 evs -> Exists raised evs ->
             wp (A := Z)
                (logger ERROR [FLit "Error copying table data: "; FExn e] ;;
                 raise e)
                (fun r s' =>
                   exists evs, emitted s s' evs /\
                     match r with
                     | Ok _ => True
                     | Raise _ => Exists raised evs
                     | Diverge => (fuel < continued evs)%nat
                     end) s1) as Hfail.
  { intros e s1 evs T H. wp_run. exists evs. split; [exact T|exact H]. }
  unfold dynamodb_scan. apply wp_invoke. intros pv [e|o] Hop.
  { eapply Hfail; [reflexivity|]. constructor. now exists e. }
  apply wp_bind. unfold put_batches.
  eapply wp_mono; [apply put_batches_otherwise|].
  intros r s1 [evs1 [E1 R1]].
  set (first_page := {| ev_call := scan source None;
                        ev_result := inr (RScan o) |}) in *.
  assert (emitted s s1 (first_page :: evs1)) as T1.
  { unfold emitted in *. rewrite E1. cbn [trace set_provider].
    now rewrite <- !app_assoc. }
  destruct r as [n1|e|]; [| |destruct R1].
  - eapply wp_mono; [apply copy_pages_otherwise|].
    intros r s2 [evs2 [E2 R2]].
    pose proof (emitted_trans _ _ _ _ _ T1 E2) as T2. cbn [app] in T2.
    destruct r as [n2|e|].
    + eexists. split; [exact T2|exact I].
    + eapply Hfail; [exact T2|].
      apply Exists_cons_tl, Exists_app. now right.
    + eexists. split; [exact T2|]. destruct R2 as [Hf Hk].
      unfold first_page. rewrite (continued_scan _ _ _ _ Hk), continued_app. lia.
  - eapply Hfail; [exact T1|]. now apply Exists_cons_tl.
Qed.

(** The calls of a swap of one table that went well: the description of
    the production table; the scans of the production table, from its
    first page, each further scan starting at the [LastEvaluatedKey] of the
    page before, up to a page without one, with the deletion of every
    scanned item by its key, item by item; then the scans of the restore
    table in the same way, with a [PutRequest] for every scanned item, item
    by item. *)
Definition cleared_then_copied (original_table restore_table : string)
    (evs : list event) : Prop :=
  exists response cleared_evs copied_evs,
    evs = ({| ev_call := describe_table original_table;
              ev_result := inr (RTable response) |}
             :: cleared_evs ++ copied_evs)%list /\
    cursors original_table (Some None) cleared_evs None /\
    deletes (KeySchema response) (scanned cleared_evs) (requested cleared_evs) /\
    cursors restore_table (Some None) copied_evs None /\
    requested copied_evs = map PutRequest (scanned copied_evs).

(** The production table was cleared and then filled from the restore
    table, and every batch went to the production table. *)
Definition table_swapped (original_table restore_table : string)
    (evs : list event) : Prop :=
  cleared_then_copied original_table restore_table evs /\
  Forall (on_call (writes_to original_table)) evs.

Lemma _swap_table_data_calls (fuel : nat) (original_table restore_table : string)
    (s : state) :
  wp (_swap_table_data fuel original_table restore_table)
     (fun r s' =>
        exists evs, emitted s s' evs /\
          match r with
          | Ok true => cleared_then_copied original_table restore_table evs
          | Ok false => Exists raised evs \/ key_missing original_table evs
          | Raise _ => False
          | Diverge => (fuel < continued evs)%nat
          end) s.
Proof.
  unfold _swap_table_data.
  apply wp_try_except, wp_bind, wp_logger, wp_bind, wp_logger, wp_bind.
  eapply wp_mono;
    [apply (wp_and _ _ _ _ (_clear_table_covers fuel original_table _)
              (_clear_table_otherwise fuel original_table _))|].
  intros r s1 [[evs1 [T1 R1]] [evs1' [T1' O1]]].
  assert (evs1' = evs1) as -> by (eapply emitted_inj; eassumption).
  destruct r as [[]|e|].
  - destruct (R1 eq_refl) as (response & cleared_evs & -> & C1 & D1).
    apply wp_bind, wp_logger, wp_bind.
    eapply wp_mono;
      [apply (wp_and _ _ _ _
                (_copy_table_data_covers fuel restore_table original_table _)
                (_copy_table_data_otherwise fuel restore_table original_table _))|].
    intros r s2 [[evs2 [T2 R2]] [evs2' [T2' O2]]].
    assert (evs2' = evs2) as -> by (eapply emitted_inj; eassumption).
    pose proof (emitted_trans s s1 s2 _ _ T1 T2) as T12.
    destruct r as [n|e|].
    + destruct (R2 n eq_refl) as [C2 P2]. wp_run.
      eexists. split; [exact T12|].
      exists response, cleared_evs, evs2.
      split; [now rewrite <- app_comm_cons|]. repeat split; assumption.
    + wp_run. eexists. split; [exact T12|].
      left. apply Exists_app. now right.
    + eexists. split; [exact T12|]. rewrite continued_app. lia.
  - wp_run. exists evs1. split; [exact T1|exact O1].
  - exists evs1. split; [exact T1|exact O1].
Qed.

Lemma _swap_table_data_spec (fuel : nat) (original_table restore_table : string)
    (s : state) :
  wp (_swap_table_data fuel original_table restore_table)
     (fun r s' =>
        exists evs, emitted s s' evs /\
          match r with
          | Ok true => table_swapped original_table restore_table evs
          | Ok false => Exists raised evs \/ key_missing original_table evs
          | Raise _ => False
          | Diverge => (fuel < continued evs)%nat
          end) s.
Proof.
  pose proof (_swap_table_data_calls fuel original_table restore_table s) as Hc.
  pose proof (_swap_table_data_writes fuel original_table restore_table s) as Hw.
  unfold wp in *. destruct Hc as [evs [E H]]. destruct Hw as [evs' [E' F]].
  assert (evs' = evs) as -> by (eapply emitted_inj; eassumption).
  exists evs. split; [exact E|].
  destruct (fst (_swap_table_data fuel original_table restore_table s))
    as [[|]|e|]; [now split|exact H|exact H|exact H].
Qed.

(** Table by table, in order, each production table was swapped with its
    restore table, and nothing else was called. *)
Fixpoint swapped (restore_tables originals : dict string) (evs : list event)
    : Prop :=
  match originals with
  | [] => evs = []
  | kv :: rest =>
      exists restore_table evs1 evs2,
        dict_get restore_tables (fst kv) = Some restore_table /\
        evs = (evs1 ++ evs2)%list /\
        table_swapped (snd kv) restore_table evs1 /\
        swapped restore_tables rest evs2
  end.

(** The swap stopped at a production table: the last calls are those of
    its swap, and among them one raised, or a scanned item lacks a key
    attribute of the table. *)
Definition swap_stopped (originals : dict string) (evs : list event) : Prop :=
  exists before kv failing,
    In kv originals /\ evs = (before ++ failing)%list /\
    (Exists raised failing \/ key_missing (snd kv) failing).

Lemma swap_loop (fuel : nat) (self : config) (rt : dict string) :
  dry_run self = false ->
  forall (originals : dict string) (s : state),
    (forall kv, In kv originals -> dict_get rt (fst kv) <> None) ->
    wp (for_each originals
          (fun kv =>
             let table_key := fst kv in
             let original_table := snd kv in
             restore_table <- subscript rt table_key ;;
             if dry_run self then
               logger INFO [FLit "[DRY RUN] Would swap data for ";
                            FStr original_table] ;;
               ret None
             else
               swapped <- _swap_table_data fuel original_table restore_table ;;
               if negb swapped then
                 logger ERROR [FLit "Failed to swap data for "; FStr table_key] ;;
                 ret (Some false)
               else ret None))
       (fun r s' =>
          exists evs, emitted s s' evs /\
            match r with
            | Ok None => swapped rt originals evs
            | Ok (Some b) => b = false /\ swap_stopped originals evs
            | Raise _ => False
            | Diverge => (fuel < continued evs)%nat
            end) s.
Proof.
  intros Hwet. rewrite Hwet.
  induction originals as [|kv rest IH]; intros s Hkeys; cbn [for_each].
  - apply wp_ret. exists []. split; [apply emitted_refl|reflexivity].
  - cbn zeta. apply wp_bind, wp_bind, wp_subscript.
    destruct (dict_get rt (fst kv)) as [restore_table|] eqn:Hkey;
      [|exfalso; apply (Hkeys kv); [now left|exact Hkey]].
    apply wp_bind.
    eapply wp_mono; [apply _swap_table_data_spec|].
    intros [[|]|e|] s1 [evs1 [E1 R1]]; [| |destruct R1|]; cbn [negb].
    + apply wp_ret.
      eapply wp_mono; [apply IH; intros kv' Hin; apply Hkeys; now right|].
      intros r s2 [evs2 [E2 R2]]. exists (evs1 ++ evs2)%list.
      split; [exact (emitted_trans _ _ _ _ _ E1 E2)|].
      destruct r as [[b|]|e|]; [| |exact R2|].
      * destruct R2 as [-> (before & kv' & failing & Hin & -> & Hf)].
        split; [reflexivity|].
        exists (evs1 ++ before)%list, kv', failing.
        split; [now right|]. split; [now rewrite app_assoc|exact Hf].
      * cbn [swapped]. exists restore_table, evs1, evs2.
        split; [exact Hkey|]. split; [reflexivity|]. split; [exact R1|exact R2].
      * rewrite continued_app. lia.
    + apply wp_bind, wp_logger, wp_ret, wp_ret.
      exists evs1. split; [exact E1|]. split; [reflexivity|].
      exists [], kv, evs1. split; [now left|]. split; [reflexivity|exact R1].
    + exists evs1. split; [exact E1|exact R1].
Qed.

(** [_swap_data] outside dry-run mode, for restore table names that cover
    the production tables. *)
Lemma _swap_data_spec (fuel : nat) (self : config) (rt : dict string) (s : state) :
  dry_run self = false ->
  (forall kv, In kv (tables self) -> dict_get rt (fst kv) <> None) ->
  wp (_swap_data fuel self rt)
     (fun r s' =>
        exists evs, emitted s s' evs /\
          match r with
          | Ok true => swapped rt (tables self) evs
          | Ok false => swap_stopped (tables self) evs
          | Raise _ => False
          | Diverge => (fuel < continued evs)%nat
          end) s.
Proof.
  intros Hwet Hkeys. unfold _swap_data.
  apply wp_try_except, wp_bind, wp_logger, wp_bind.
  eapply wp_mono; [apply (swap_loop fuel self rt Hwet _ _ Hkeys)|].
  intros [[b|]|e|] s1 [evs [He Hr]]; [| |destruct Hr|].
  - destruct Hr as [-> Hs]. apply wp_ret. exists evs. now split.
  - apply wp_ret. exists evs. now split.
  - exists evs. now split.
Qed.

Lemma restore_table_names_keys (self : config) (restore_dt : DateTime.datetime)
    (kv : string * string) :
  In kv (tables self) ->
  dict_get (restore_table_names self restore_dt) (fst kv) <> None.
Proof.
  unfold restore_table_names, tables, _configure_table_names, base_names.
  cbn [map fst snd]. intros [<-|[<-|[<-|[]]]]; discriminate.
Qed.

Ltac run_not_true :=
  let Hr := fresh "Hr" in
  intros Hr; exfalso; revert Hr;
  match goal with
  | |- fst (run ?fuel ?self ?p ?s) = Ok true -> False =>
      change (wp (run fuel self p) (fun r _ => r <> Ok true) s)
  end;
  unfold run, validate_and_restore, RestoreLock_with, restore_steps, run_failed;
  wp_run; discriminate.

(** What the stages of a run that returned [True] returned. *)
Lemma run_true_stages (fuel : nat) (self : config) (p : string) (s : state) :
  fst (run fuel self p s) = Ok true ->
  exists prepared s1 s2 s3 s4,
    before_validation self p s = (Ok prepared, s1) /\
    _validate_restore_point p s1 = (Ok true, s2) /\
    RestoreLock_enter fuel (lock_file self) s2 = (Ok tt, s3) /\
    (if negb (snd prepared) then _initiate_pitr_restores self p else ret true) s3 =
      (Ok true, s4).
Proof.
  destruct (before_validation self p s) as [[prepared|e|] s1] eqn:H1;
    [|run_not_true|run_not_true].
  destruct (_validate_restore_point p s1) as [[[|]|e|] s2] eqn:H2;
    [|run_not_true|run_not_true|run_not_true].
  destruct (RestoreLock_enter fuel (lock_file self) s2) as [[[]|e|] s3] eqn:H3;
    [|run_not_true|run_not_true].
  destruct ((if negb (snd prepared) then _initiate_pitr_restores self p
             else ret true) s3) as [[[|]|e|] s4] eqn:H4;
    [|run_not_true|run_not_true|run_not_true].
  intros _. now exists prepared, s1, s2, s3, s4.
Qed.

Lemma emitting_emitted (P : event -> Prop) (s s' : state) :
  emitting P s s' -> exists evs, emitted s s' evs.
Proof. intros [evs [E _]]. now exists evs. Qed.

(** The calls of a run up to its first poll. *)
Lemma run_to_polling_emitted (fuel : nat) (self : config) (p : string)
    (prepared : dict string * bool) (s s1 s2 s3 s4 : state) :
  before_validation self p s = (Ok prepared, s1) ->
  _validate_restore_point p s1 = (Ok true, s2) ->
  RestoreLock_enter fuel (lock_file self) s2 = (Ok tt, s3) ->
  (if negb (snd prepared) then _initiate_pitr_restores self p else ret true) s3 =
    (Ok true, s4) ->
  exists evs, emitted s s4 evs.
Proof.
  intros H1 H2 H3 H4.
  pose proof (before_validation_steps self p s) as E1.
  pose proof (_validate_restore_point_steps (emitting (fun _ => True)) p s1) as E2.
  pose proof (RestoreLock_enter_steps (fun _ => True) fuel (lock_file self) s2)
    as E3.
  rewrite H1 in E1. rewrite H2 in E2. rewrite H3 in E3. cbn [snd] in *.
  apply emitting_emitted in E1 as [e1 E1].
  apply emitting_emitted in E2 as [e2 E2].
  apply emitting_emitted in E3 as [e3 E3].
  assert (exists e4, emitted s3 s4 e4) as [e4 E4].
  { destruct (snd prepared); cbn [negb] in H4.
    - injection H4 as <-. exists []. apply emitted_refl.
    - pose proof (_initiate_pitr_restores_steps self (fst prepared) p s3) as E.
      rewrite H4 in E. exact (emitting_emitted _ _ _ E). }
  eexists.
  exact (emitted_trans _ _ _ _ _
           (emitted_trans _ _ _ _ _ (emitted_trans _ _ _ _ _ E1 E2) E3) E4).
Qed.

(** ** Re-entry *)

Lemma _poll_restore_completion_sound (fuel : nat) (self : config)
    (rt : dict string) (s : state) :
  dry_run self = false ->
  wp (_poll_restore_completion fuel self rt)
     (fun r s' =>
        r = Ok true ->
        exists before round,
          emitted s s' (before ++ round)%list /\
          Forall2 reported_active rt round) s.
Proof.
  intros Hwet. unfold _poll_restore_completion.
  apply wp_try_except, wp_bind, wp_time_time, wp_bind, wp_logger.
  eapply wp_mono; [apply (poll_loop_sound self rt _ _ Hwet)|].
  intros [b|e|] s' H; [exact H|wp_run; discriminate|discriminate].
Qed.

(** Asked to describe [names] one after the other, from the state [pv]
    on, the provider reports each of them ACTIVE. *)
Fixpoint reports_active (pv : provider) (names : list string) : Prop :=
  match names with
  | [] => True
  | n :: rest =>
      exists pv' d,
        db_describe_table pv n = (pv', inr d) /\ TableStatus d = "ACTIVE" /\
        reports_active pv' rest
  end.

Lemma poll_round_complete (self : config) (elapsed : Z) :
  dry_run self = false ->
  forall (restore_tables : dict string) (acc : bool * list string) (s : state),
    fst acc = true ->
    reports_active (provider_state s) (values restore_tables) ->
    wp (fold_each restore_tables acc
          (fun acc kv =>
             let table_key := fst kv in
             let restore_table := snd kv in
             if dry_run self then ret acc
             else
               try_except_ClientError
                 (response <- dynamodb_describe_table restore_table ;;
                  let status := TableStatus response in
                  if negb (String.eqb status "ACTIVE") then
                    logger INFO [FLit "["; FInt elapsed; FLit "s] "; FStr table_key;
                                 FLit ": "; FStr status] ;;
                    ret (false, snd acc)
                  else if negb (Str.mem restore_table (snd acc)) then
                    logger INFO [FLit "["; FInt elapsed; FLit "s] "; FStr table_key;
                                 FLit ": ACTIVE"] ;;
                    ret (fst acc, (snd acc ++ [restore_table])%list)
                  else ret acc)
                 (fun e =>
                    if code_is e "ResourceNotFoundException" then
                      logger INFO [FLit "["; FInt elapsed; FLit "s] "; FStr table_key;
                                   FLit ": Table not found yet (still creating)"] ;;
                      ret (false, snd acc)
                    else raise e)))
       (fun r s' =>
          clock s' = clock s /\
          exists active round,
            r = Ok (true, active) /\ emitted s s' round /\
            Forall2 reported_active restore_tables round) s.
Proof.
  intros Hwet. rewrite Hwet.
  induction restore_tables as [|[k n] rest IH]; intros acc s Hacc Hactive;
    cbn [fold_each].
  - apply wp_ret. split; [reflexivity|]. exists (snd acc), [].
    split; [destruct acc; cbn in *; now subst|].
    split; [apply emitted_refl|constructor].
  - cbn [values map snd reports_active] in Hactive.
    destruct Hactive as (pv' & d & Hop & Hstatus & Hrest).
    cbn zeta. cbn [fst snd].
    set (described := {| ev_call := describe_table n;
                         ev_result := inr (RTable d) |}).
    assert (forall (acc' : bool * list string) (s1 : state),
               fst acc' = true -> clock s1 = clock s ->
               provider_state s1 = pv' ->
               emitted s s1 [described] ->
               wp (fold_each rest acc'
                     (fun acc kv =>
                        try_except_ClientError
                          (response <- dynamodb_describe_table (snd kv) ;;
                           if negb (String.eqb (TableStatus response) "ACTIVE") then
                             logger INFO [FLit "["; FInt elapsed; FLit "s] ";
                                          FStr (fst kv); FLit ": ";
                                          FStr (TableStatus response)] ;;
                             ret (false, snd acc)
                           else if negb (Str.mem (snd kv) (snd acc)) then
                             logger INFO [FLit "["; FInt elapsed; FLit "s] ";
                                          FStr (fst kv); FLit ": ACTIVE"] ;;
                             ret (fst acc, (snd acc ++ [snd kv])%list)
                           else ret acc)
                          (fun e =>
                             if code_is e "ResourceNotFoundException" then
                               logger INFO [FLit "["; FInt elapsed; FLit "s] ";
                                            FStr (fst kv);
                                            FLit ": Table not found yet (still creating)"] ;;
                               ret (false, snd acc)
                             else raise e)))
                  (fun r s' =>
                     clock s' = clock s /\
                     exists active round,
                       r = Ok (true, active) /\ emitted s s' round /\
                       Forall2 reported_active ((k, n) :: rest) round) s1)
      as Hnext.
    { intros acc' s1 Hacc' C1 P1 E1.
      eapply wp_mono; [apply (IH acc' s1 Hacc'); now rewrite P1|].
      intros r s2 [C2 (active & round & -> & E2 & F2)].
      split; [congruence|]. exists active, (described :: round).
      split; [reflexivity|].
      split; [exact (emitted_trans _ _ _ _ _ E1 E2)|].
      constructor; [|exact F2]. split; [reflexivity|].
      exists d. now split. }
    apply wp_bind, wp_try_except_ClientError, wp_bind.
    unfold dynamodb_describe_table.
    apply wp_eq with (r := Ok d) (s' := set_provider s pv' described);
      [unfold invoke; now rewrite Hop|].
    rewrite Hstatus. cbn [String.eqb Ascii.eqb Bool.eqb negb].
    destruct (negb (Str.mem n (snd acc))).
    + apply wp_bind, wp_logger, wp_ret.
      apply Hnext; [exact Hacc|reflexivity|reflexivity|reflexivity].
    + apply wp_ret.
      apply Hnext; [exact Hacc|reflexivity|reflexivity|reflexivity].
Qed.

(** When the restore tables are ACTIVE, polling with time left returns
    [True] after one round, without waiting. *)
Lemma _poll_restore_completion_complete (fuel : nat) (self : config)
    (rt : dict string) (s : state) :
  dry_run self = false -> 0 < timeout_minutes self ->
  reports_active (provider_state s) (values rt) ->
  wp (_poll_restore_completion (S fuel) self rt)
     (fun r s' =>
        r = Ok true /\ clock s' = clock s /\
        exists round, emitted s s' round /\ Forall2 reported_active rt round) s.
Proof.
  intros Hwet Htime Hactive. unfold _poll_restore_completion. cbn [poll_loop].
  wp_to_if. cbn [clock add_log].
  replace (clock s - clock s <? timeout_minutes self * 60 * DateTime.second_us)
    with true
    by (symmetry; apply Z.ltb_lt; unfold DateTime.second_us; lia).
  apply wp_bind, wp_time_time, wp_bind.
  unfold poll_round.
  eapply wp_mono;
    [apply poll_round_complete; [exact Hwet|reflexivity|exact Hactive]|].
  intros r s1 [C1 (active & round & -> & E1 & F1)]. cbn [fst].
  wp_run. split; [reflexivity|]. split; [exact C1|]. now exists round.
Qed.

(** C5: when [run] finds a restore table named for its restore point, be
    they all ACTIVE or not, it sets [skip_restore] without listing or
    deleting any table, and no restore initiation is issued in the whole
    run.  Once the restore point is validated and the lock acquired, the
    run polls at once, without a call in between, and goes on from there
    stage by stage as [pipeline] says: verification after a poll that
    returned [True], the swap after a verification that returned [True],
    the deletion of the restore tables after a swap that returned [True],
    and FAILED with the reason of the stage that returned [False].  When
    the provider reports the restore tables ACTIVE, the polling returns
    [True] after one round, so that the run goes on to the verification;
    when it does not, the polling waits as in any other run.  Outside
    dry-run mode the calls of such a run that returns [True] are, in this
    order: the descriptions of the restore tables of the existence check;
    the descriptions of the polling, the last round of which reported every
    restore table ACTIVE; the counts of every production table and its
    restore table; the swap of every production table with its restore
    table; the deletions of the restore tables. *)
Theorem existing_restore_tables_skip_initiation (fuel : nat) (self : config)
    (p : string) (s s1 s2 : state) (rt existing : dict string) :
  name_restore_tables self p (snd (run_begin self p s)) = (Ok rt, s1) ->
  _check_existing_restore_tables rt s1 = (Ok existing, s2) ->
  existing <> [] ->
  (exists s3, before_validation self p s = (Ok (rt, true), s3) /\
              trace s3 = trace s2) /\
  emitting (on_call (fun c => is_restore c = false)) s (snd (run fuel self p s)) /\
  (forall s3 s4 s5,
      before_validation self p s = (Ok (rt, true), s3) ->
      _validate_restore_point p s3 = (Ok true, s4) ->
      RestoreLock_enter fuel (lock_file self) s4 = (Ok tt, s5) ->
      trace s5 = trace s2 /\
      pipeline fuel self rt s5
               (fst (run fuel self p s)) (snd (run fuel self p s)) /\
      (dry_run self = false -> 0 < timeout_minutes self ->
       reports_active (provider_state s5) (values rt) ->
       fst (_poll_restore_completion fuel self rt s5) = Ok true /\
       exists round,
         emitted s5 (snd (_poll_restore_completion fuel self rt s5)) round /\
         Forall2 reported_active rt round)) /\
  (dry_run self = false ->
   fst (run fuel self p s) = Ok true ->
   exists checked polled counted swapped_evs deleted,
     emitted s (snd (run fuel self p s))
       (checked ++ polled ++ counted ++ swapped_evs ++ deleted)%list /\
     map ev_call checked = map describe_table (values rt) /\
     Forall (on_call (stage_call self rt Polling)) polled /\
     (exists before round,
         polled = (before ++ round)%list /\ Forall2 reported_active rt round) /\
     (exists records, counts_reported rt (tables self) counted records) /\
     swapped rt (tables self) swapped_evs /\
     Forall (on_call (stage_call self rt Deleting)) deleted).
Proof.
  intros Hname Hcheck Hne.
  pose proof (reuse_or_clean_skip self rt existing s1 s2 Hcheck Hne) as Hskip.
  unfold wp in Hskip.
  destruct (reuse_or_clean self rt s1) as [r s3] eqn:Hreuse.
  cbn [fst snd] in Hskip. destruct Hskip as [-> Htrace].
  destruct (run_begin_eq self p s) as [l [Hbegin _]].
  assert (before_validation self p s = (Ok (rt, true), s3)) as Hbefore.
  { unfold before_validation, bind. rewrite Hbegin in *. cbn [snd] in Hname.
    now rewrite Hname, Hreuse. }
  assert (forall s4 s5,
             _validate_restore_point p s3 = (Ok true, s4) ->
             RestoreLock_enter fuel (lock_file self) s4 = (Ok tt, s5) ->
             trace s5 = trace s2) as Hquiet.
  { intros s4 s5 H2 H3.
    pose proof (silent_trace (_validate_restore_point p) s3
                  (_validate_restore_point_steps _ p)) as T2.
    pose proof (silent_trace (RestoreLock_enter fuel (lock_file self)) s4
                  (RestoreLock_enter_steps _ fuel (lock_file self))) as T3.
    rewrite H2 in T2. rewrite H3 in T3. cbn [snd] in *. congruence. }
  split; [now exists s3|]. split; [|split].
  - rewrite (run_prepared fuel self p (rt, true) s s3 Hbefore). cbn [fst snd].
    pose proof (before_validation_emits self p s) as Hev.
    unfold wp in Hev. rewrite Hbefore in Hev. cbn [fst snd] in Hev.
    eapply frame_trans.
    + eapply emitting_weaken; [|exact Hev].
      intros ev H. apply (checking_not_restore self). now exists rt.
    + apply validate_and_restore_skip_steps.
  - intros s3' s4 s5 H1 H2 H3. rewrite Hbefore in H1. injection H1 as <-.
    split; [exact (Hquiet s4 s5 H2 H3)|]. split.
    + exact (run_from_polling fuel self p (rt, true) s s3 s4 s5 s5
               Hbefore H2 H3 eq_refl).
    + intros Hwet Htime Hactive.
      destruct fuel as [|fuel]; [discriminate H3|].
      pose proof (_poll_restore_completion_complete fuel self rt s5
                    Hwet Htime Hactive) as Hc.
      unfold wp in Hc. destruct Hc as (Hr & _ & Hround). now split.
  - intros Hwet Hr.
    destruct (run_true_stages fuel self p s Hr)
      as (prepared & s3' & s4 & s5 & s5' & H1 & H2 & H3 & H4).
    rewrite Hbefore in H1. injection H1 as <- <-.
    cbn [snd negb] in H4. injection H4 as <-.
    pose proof (run_from_polling fuel self p (rt, true) s s3 s4 s5 s5
                  Hbefore H2 H3 eq_refl) as Hpipe.
    pose proof (Hquiet s4 s5 H2 H3) as T5.
    pose proof (before_validation_names self p s) as Hnames.
    unfold wp in Hnames. rewrite Hbefore in Hnames. cbn [fst] in Hnames.
    destruct Hnames as [restore_dt [Hp Hrt]].
    assert (forall kv, In kv (tables self) -> dict_get rt (fst kv) <> None)
      as Hkeys.
    { rewrite Hrt. apply restore_table_names_keys. }
    assert (exists checked,
               emitted s s2 checked /\
               map ev_call checked = map describe_table (values rt))
      as (checked & E2 & Hchecked).
    { assert (wp (_check_existing_restore_tables rt)
                 (fun r s' =>
                    exists evs, emitted s1 s' evs /\
                      match r with
                      | Ok result =>
                          map ev_call evs = map describe_table (values rt) /\
                          result = described evs []
                      | Raise e => not_ClientError e
                      | Diverge => False
                      end) s1) as Hc by apply check_existing_loop.
      unfold wp in Hc. rewrite Hcheck in Hc. cbn [fst snd] in Hc.
      destruct Hc as (evs & Ec & Hcalls & _). exists evs. split; [|exact Hcalls].
      pose proof (silent_trace (run_begin self p) s (run_begin_steps _ self p))
        as T0.
      pose proof (silent_trace (name_restore_tables self p)
                    (snd (run_begin self p s))
                    (name_restore_tables_steps _ self p)) as T1.
      rewrite Hname in T1. cbn [snd] in T1.
      unfold emitted in *. congruence. }
    unfold pipeline in Hpipe. cbn [fst] in Hpipe.
    pose proof (_poll_restore_completion_steps fuel self rt s5) as F5.
    pose proof (_poll_restore_completion_sound fuel self rt s5 Hwet) as E5.
    unfold wp in E5.
    destruct (_poll_restore_completion fuel self rt s5) as [[[|]|e|] s6];
      [|exfalso; destruct Hpipe; congruence|destruct Hpipe
      |exfalso; destruct Hpipe; congruence].
    pose proof (_verify_item_counts_reports self rt s6 Hwet Hkeys) as E6.
    unfold wp in E6.
    destruct (_verify_item_counts self rt s6) as [[[|]|e|] s7];
      [|exfalso; destruct Hpipe; congruence|destruct Hpipe
      |exfalso; destruct Hpipe; congruence].
    pose proof (_swap_data_spec fuel self rt s7 Hwet Hkeys) as E7.
    unfold wp in E7.
    destruct (_swap_data fuel self rt s7) as [[[|]|e|] s8];
      [|exfalso; destruct Hpipe; congruence|destruct Hpipe
      |exfalso; destruct Hpipe; congruence].
    pose proof (_delete_restore_tables_steps self rt s8) as E8.
    destruct (_delete_restore_tables self rt s8) as [[b|e|] s9];
      [|destruct Hpipe|destruct Hpipe; congruence].
    destruct Hpipe as (_ & _ & Htr). cbn [fst snd] in *.
    destruct (E5 eq_refl) as (before & round & E5' & Hround).
    destruct F5 as (polled & F5 & Hpolled).
    assert (polled = (before ++ round)%list) as Hsplit
      by (eapply emitted_inj; eassumption).
    destruct E6 as (counted & E6 & records & Hcounted & _).
    destruct E7 as (swapped_evs & E7 & Hswapped).
    destruct E8 as (deleted & E8 & Hdeleted).
    exists checked, polled, counted, swapped_evs, deleted.
    split.
    { unfold emitted in *. rewrite Htr, E8, E7, E6, F5, T5, E2.
      now rewrite <- !app_assoc. }
    split; [exact Hchecked|]. split; [exact Hpolled|].
    split; [now exists before, round|]. split; [now exists records|].
    split; [exact Hswapped|exact Hdeleted].
Qed.

(** ** Polling gives up *)

(** A call raised, and not with the code ResourceNotFoundException. *)
Definition poll_error (ev : event) : Prop :=
  exists e, ev_result ev = inl e /\
            code_is e "ResourceNotFoundException" = false.

Lemma fold_each_calls {A B} (P : event -> Prop) (l : list A)
    (body : B -> A -> M B) :
  (forall acc x s,
      wp (body acc x)
         (fun r s' =>
            clock s' = clock s /\
            exists evs, emitted s s' evs /\
              match r with
              | Ok _ => True
              | Raise _ => Exists P evs
              | Diverge => False
              end) s) ->
  forall acc s,
    wp (fold_each l acc body)
       (fun r s' =>
          clock s' = clock s /\
          exists evs, emitted s s' evs /\
            match r with
            | Ok _ => True
            | Raise _ => Exists P evs
            | Diverge => False
            end) s.
Proof.
  intros Hbody. induction l as [|x l IH]; intros acc s; cbn [fold_each].
  - apply wp_ret. split; [reflexivity|]. exists [].
    split; [apply emitted_refl|exact I].
  - apply wp_bind. eapply wp_mono; [apply Hbody|].
    intros [acc'|e|] s1 [C1 [evs1 [E1 R1]]]; [| |destruct R1].
    + eapply wp_mono; [apply IH|].
      intros r s2 [C2 [evs2 [E2 R2]]]. split; [congruence|].
      exists (evs1 ++ evs2)%list.
      split; [exact (emitted_trans _ _ _ _ _ E1 E2)|].
      destruct r; [exact I|apply Exists_app; now right|exact R2].
    + split; [exact C1|]. now exists evs1.
Qed.

(** A polling round takes no time, cannot run out of fuel, and raises only
    when a description raised otherwise than with ResourceNotFoundException. *)
Lemma poll_round_otherwise (self : config) (rt : dict string) (elapsed : Z)
    (active : list string) (s : state) :
  wp (poll_round self rt elapsed active)
     (fun r s' =>
        clock s' = clock s /\
        exists evs, emitted s s' evs /\
          match r with
          | Ok _ => True
          | Raise _ => Exists poll_error evs
          | Diverge => False
          end) s.
Proof.
  unfold poll_round. apply fold_each_calls. intros acc kv s0. cbn beta zeta.
  destruct (dry_run self).
  - apply wp_ret. split; [reflexivity|]. exists [].
    split; [apply emitted_refl|exact I].
  - apply wp_try_except_ClientError, wp_bind.
    unfold dynamodb_describe_table. apply wp_invoke. intros pv [e|d] Hop.
    + destruct e as [code msg|kind msg].
      * destruct (code_is (ClientError code msg) "ResourceNotFoundException")
          eqn:Hc.
        -- wp_run. split; [reflexivity|]. eexists. split; [reflexivity|exact I].
        -- apply wp_raise. split; [reflexivity|]. eexists.
           split; [reflexivity|]. constructor. eexists. split; [reflexivity|exact Hc].
      * split; [reflexivity|]. eexists. split; [reflexivity|].
        constructor. eexists. split; reflexivity.
    + wp_run; (split; [reflexivity|]); eexists; (split; [reflexivity|exact I]).
Qed.

(** The [while] loop of the polling ends within [n] rounds when the time
    left is at most [n] polling intervals.  It returns [True] before the
    timeout has elapsed, and [False] once it has, less than [bound] after
    the start; it raises only when a description raised. *)
Lemma poll_loop_gives_up (self : config) (rt : dict string)
    (start timeout_seconds bound : Z) :
  timeout_seconds * DateTime.second_us + poll_interval * DateTime.second_us
    <= bound ->
  forall (n fuel : nat) (active : list string) (s : state),
    (n < fuel)%nat ->
    timeout_seconds * DateTime.second_us - (clock s - start) <=
      Z.of_nat n * (poll_interval * DateTime.second_us) ->
    clock s - start < bound ->
    wp (poll_loop fuel self rt start timeout_seconds active)
       (fun r s' =>
          exists evs, emitted s s' evs /\
            match r with
            | Ok true => clock s' - start < timeout_seconds * DateTime.second_us
            | Ok false =>
                timeout_seconds * DateTime.second_us <= clock s' - start < bound
            | Raise _ => Exists poll_error evs
            | Diverge => False
            end) s.
Proof.
  intros Hbound.
  induction n as [|n IH]; intros fuel active s Hfuel Hrem Hhead;
    (destruct fuel as [|fuel]; [lia|]); cbn [poll_loop];
    apply wp_bind, wp_time_time;
    destruct (Z.ltb_spec (clock s - start) (timeout_seconds * DateTime.second_us))
      as [Hlt|Hge];
    try (wp_run; exists [];
         split; [unfold emitted; cbn [trace add_log]; now rewrite app_nil_r|];
         cbn [clock add_log]; lia).
  - exfalso. lia.
  - apply wp_bind, wp_time_time, wp_bind.
    eapply wp_mono; [apply poll_round_otherwise|].
    intros r s1 [C1 [evs1 [E1 R1]]].
    destruct r as [[b l]|e|]; [| |destruct R1]; cbn [fst snd].
    + destruct b.
      * wp_run. exists evs1. split; [exact E1|].
        cbn [clock add_log]. rewrite C1. exact Hlt.
      * apply wp_bind, wp_logger, wp_bind, wp_time_sleep.
        eapply wp_mono;
          [apply (IH fuel); cbn [clock add_log set_clock];
           unfold poll_interval, DateTime.second_us in *; lia|].
        intros r s2 [evs2 [E2 R2]]. exists (evs1 ++ evs2)%list.
        split; [exact (emitted_trans s s1 s2 _ _ E1 E2)|].
        destruct r as [[|]|e|]; [exact R2|exact R2| |exact R2].
        apply Exists_app. now right.
    + exists evs1. now split.
Qed.

(** [_poll_restore_completion] with more fuel than the timeout has polling
    intervals.  It returns, and does not raise.  It returns [True] before
    the timeout has elapsed.  It returns [False] when the timeout has
    elapsed, and then less than one polling interval after it (or at once,
    if the timeout is negative), or when a description raised otherwise
    than with ResourceNotFoundException. *)
Lemma _poll_restore_completion_gives_up (fuel : nat) (self : config)
    (rt : dict string) (s : state) :
  (Z.to_nat (6 * timeout_minutes self) < fuel)%nat ->
  wp (_poll_restore_completion fuel self rt)
     (fun r s' =>
        exists evs, emitted s s' evs /\
          match r with
          | Ok true =>
              clock s' - clock s < timeout_minutes self * 60 * DateTime.second_us
          | Ok false =>
              timeout_minutes self * 60 * DateTime.second_us <= clock s' - clock s
                < Z.max 0 (timeout_minutes self * 60 * DateTime.second_us)
                  + poll_interval * DateTime.second_us \/
              Exists poll_error evs
          | _ => False
          end) s.
Proof.
  intros Hfuel. unfold _poll_restore_completion.
  apply wp_try_except, wp_bind, wp_time_time, wp_bind, wp_logger.
  eapply wp_mono;
    [apply (poll_loop_gives_up self rt (clock s) (timeout_minutes self * 60)
              (Z.max 0 (timeout_minutes self * 60 * DateTime.second_us)
               + poll_interval * DateTime.second_us))
       with (n := Z.to_nat (6 * timeout_minutes self));
     [lia|exact Hfuel| |];
     cbn [clock add_log]; unfold poll_interval, DateTime.second_us; lia|].
  cbn [trace add_log clock].
  intros [[|]|e|] s' [evs [E R]]; [| | |destruct R].
  - exists evs. now split.
  - exists evs. split; [exact E|]. now left.
  - wp_run. exists evs. split; [exact E|]. now right.
Qed.

Definition reported_activeb (kv : string * string) (ev : event) : bool :=
  match ev_call ev, ev_result ev with
  | describe_table n, inr (RTable response) =>
      String.eqb n (snd kv) && String.eqb (TableStatus response) "ACTIVE"
  | _, _ => false
  end.

Fixpoint round_activeb (restore_tables : dict string) (round : list event) : bool :=
  match restore_tables, round with
  | [], [] => true
  | kv :: rest, ev :: evs => reported_activeb kv ev && round_activeb rest evs
  | _, _ => false
  end.

(** The last calls among [evs], one for each restore table, are
    descriptions of the restore tables, in order, that reported ACTIVE. *)
Definition last_round_active (restore_tables : dict string) (evs : list event)
    : bool :=
  round_activeb restore_tables
    (skipn (List.length evs - List.length restore_tables) evs).

Lemma round_activeb_complete (restore_tables : dict string) :
  forall round, Forall2 reported_active restore_tables round ->
                round_activeb restore_tables round = true.
Proof.
  induction restore_tables as [|kv rest IH]; intros round H;
    inversion H as [|? ev ? evs Hev Hrest]; subst; cbn [round_activeb].
  - reflexivity.
  - rewrite (IH _ Hrest), andb_true_r.
    destruct Hev as [Hc [response [Hr Hs]]]. unfold reported_activeb.
    rewrite Hc, Hr, Hs. now rewrite String.eqb_refl.
Qed.

Lemma not_observed_active (restore_tables : dict string) (s s' : state)
    (evs : list event) :
  emitted s s' evs ->
  last_round_active restore_tables evs = false ->
  forall before round,
    emitted s s' (before ++ round)%list ->
    ~ Forall2 reported_active restore_tables round.
Proof.
  intros E Hlast before round E' H.
  rewrite (emitted_inj _ _ _ _ E E') in Hlast. unfold last_round_active in Hlast.
  rewrite length_app, <- (Forall2_length H) in Hlast.
  replace (List.length before + List.length restore_tables
           - List.length restore_tables)%nat
    with (List.length before + 0)%nat in Hlast by lia.
  rewrite skipn_app, Nat.add_0_r, skipn_all in Hlast.
  replace (List.length before - List.length before)%nat with 0%nat in Hlast by lia.
  cbn [skipn app] in Hlast.
  rewrite (round_activeb_complete _ _ H) in Hlast. discriminate.
Qed.

(** C7: a run that gets as far as polling.  Outside dry-run mode and with
    more fuel than the timeout has polling intervals, if no round of the
    polling has every restore table reported ACTIVE, then
    [_poll_restore_completion] returns, and returns [False]: when the
    timeout has elapsed, and less than one polling interval after it, or
    when a description raised.  Whenever [_poll_restore_completion] returns
    [False], the run returns [False] (exit code 1) with the status FAILED
    and the reason "Restore operation timed out"; nothing is called after
    the polling, and in the whole run there is no item write or delete and
    no deletion of a restore table of this restore point or of a production
    table. *)
Theorem poll_timeout_leaves_tables (fuel : nat) (self : config) (p : string)
    (prepared : dict string * bool) (s s1 s2 s3 s4 : state) :
  before_validation self p s = (Ok prepared, s1) ->
  _validate_restore_point p s1 = (Ok true, s2) ->
  RestoreLock_enter fuel (lock_file self) s2 = (Ok tt, s3) ->
  (if negb (snd prepared) then _initiate_pitr_restores self p else ret true) s3 =
    (Ok true, s4) ->
  let polling := _poll_restore_completion fuel self (fst prepared) s4 in
  (dry_run self = false ->
   (Z.to_nat (6 * timeout_minutes self) < fuel)%nat ->
   (forall before round,
       emitted s4 (snd polling) (before ++ round)%list ->
       ~ Forall2 reported_active (fst prepared) round) ->
   fst polling = Ok false /\
   exists polled,
     emitted s4 (snd polling) polled /\
     (timeout_minutes self * 60 * DateTime.second_us
        <= clock (snd polling) - clock s4
        < Z.max 0 (timeout_minutes self * 60 * DateTime.second_us)
          + poll_interval * DateTime.second_us \/
      Exists poll_error polled)) /\
  (fst polling = Ok false ->
   fst (run fuel self p s) = Ok false /\
   exit_code (fst (run fuel self p s)) = Some 1 /\
   recorded (snd (run fuel self p s)) "FAILED"
            (Some "Restore operation timed out") /\
   trace (snd (run fuel self p s)) = trace (snd polling) /\
   emitting (on_call (leaves_tables self (fst prepared))) s
            (snd (run fuel self p s))).
Proof.
  intros H1 H2 H3 H4 polling. subst polling.
  destruct (_poll_restore_completion fuel self (fst prepared) s4) as [r s5]
    eqn:H5.
  cbn [fst snd]. split.
  - intros Hwet Hfuel Hno.
    pose proof (_poll_restore_completion_gives_up fuel self (fst prepared) s4
                  Hfuel) as Hgives.
    pose proof (_poll_restore_completion_sound fuel self (fst prepared) s4 Hwet)
      as Hsound.
    unfold wp in Hgives, Hsound. rewrite H5 in Hgives, Hsound.
    cbn [fst snd] in *.
    destruct Hgives as [polled [E5 Hr]].
    destruct r as [[|]|e|]; [|clear Hsound|destruct Hr|destruct Hr].
    { exfalso. destruct (Hsound eq_refl) as (before & round & E & F).
      exact (Hno before round E F). }
    split; [reflexivity|]. now exists polled.
  - intros ->.
    pose proof (run_from_polling fuel self p prepared s s1 s2 s3 s4 H1 H2 H3 H4)
      as Hpipe.
    unfold pipeline in Hpipe. rewrite H5 in Hpipe.
    destruct Hpipe as (Hres & Hrec & Htr).
    split; [exact Hres|]. split; [now rewrite Hres|]. split; [exact Hrec|].
    split; [exact Htr|].
    set (P := on_call (leaves_tables self (fst prepared))).
    assert (emitting P s s1) as E1.
    { pose proof (before_validation_emits self p s) as Hev.
      unfold wp in Hev. rewrite H1 in Hev. cbn [fst snd] in Hev.
      eapply emitting_weaken; [|exact Hev].
      intros ev. apply stage_leaves_tables. now left. }
    assert (emitting P s1 s2) as E2.
    { pose proof (_validate_restore_point_steps (emitting P) p s1) as Hev.
      now rewrite H2 in Hev. }
    assert (emitting P s2 s3) as E3.
    { pose proof (RestoreLock_enter_steps P fuel (lock_file self) s2) as Hev.
      now rewrite H3 in Hev. }
    assert (emitting P s3 s4) as E4.
    { destruct (snd prepared); cbn [negb] in H4.
      - injection H4 as <-. apply frame_refl.
      - pose proof (_initiate_pitr_restores_steps self (fst prepared) p s3) as Hev.
        rewrite H4 in Hev. cbn [snd] in Hev.
        eapply emitting_weaken; [|exact Hev].
        intros ev. apply stage_leaves_tables. right. now left. }
    assert (emitting P s4 s5) as E6.
    { pose proof (_poll_restore_completion_steps fuel self (fst prepared) s4)
        as Hev.
      rewrite H5 in Hev. cbn [snd] in Hev.
      eapply emitting_weaken; [|exact Hev].
      intros ev. apply stage_leaves_tables. right. now right. }
    assert (emitting P s5 (snd (run fuel self p s))) as E7.
    { now apply emitting_same_trace. }
    repeat (eapply frame_trans; [eassumption|]). apply frame_refl.
Qed.

(** ** The batches of the swap, and fuel for the run *)

Lemma _initiate_pitr_restores_total (self : config) (p : string) :
  total (_initiate_pitr_restores self p).
Proof.
  unfold _initiate_pitr_restores, _get_restore_table_names, log_restore_window,
    dynamodb_restore_table_to_point_in_time, dynamodb_describe_table,
    dynamodb_describe_continuous_backups.
  total_tac.
Qed.

Lemma _verify_item_counts_total (self : config) (rt : dict string) :
  total (_verify_item_counts self rt).
Proof.
  unfold _verify_item_counts, verify_table_counts, _count_items,
    dynamodb_scan_count.
  total_tac.
Qed.

Lemma _delete_restore_tables_total (self : config) (rt : dict string) :
  total (_delete_restore_tables self rt).
Proof. unfold _delete_restore_tables, dynamodb_delete_table. total_tac. Qed.

(** [_swap_data], in any mode and for any restore table names, runs out of
    fuel only after more than [fuel] scans have returned a
    [LastEvaluatedKey]. *)
Lemma _swap_data_fuel (fuel : nat) (self : config) (rt : dict string) (s : state) :
  wp (_swap_data fuel self rt)
     (fun r s' =>
        r = Diverge ->
        exists evs, emitted s s' evs /\ (fuel < continued evs)%nat) s.
Proof.
  unfold _swap_data. apply wp_try_except, wp_bind, wp_logger, wp_bind.
  assert (forall (originals : dict string) (s0 : state),
             wp (for_each originals
                   (fun kv =>
                      let table_key := fst kv in
                      let original_table := snd kv in
                      restore_table <- subscript rt table_key ;;
                      if dry_run self then
                        logger INFO [FLit "[DRY RUN] Would swap data for ";
                                     FStr original_table] ;;
                        ret None
                      else
                        swapped <-
                          _swap_table_data fuel original_table restore_table ;;
                        if negb swapped then
                          logger ERROR [FLit "Failed to swap data for ";
                                        FStr table_key] ;;
                          ret (Some false)
                        else ret None))
                (fun r s' =>
                   exists evs, emitted s0 s' evs /\
                     (r = Diverge -> (fuel < continued evs)%nat)) s0) as Hloop.
  { induction originals as [|kv rest IH]; intros s0; cbn [for_each].
    - apply wp_ret. exists []. split; [apply emitted_refl|discriminate].
    - cbn zeta. apply wp_bind, wp_bind, wp_subscript.
      destruct (dict_get rt (fst kv)) as [restore_table|];
        [|exists []; split; [apply emitted_refl|discriminate]].
      destruct (dry_run self).
      + apply wp_bind, wp_logger, wp_ret. apply (IH (add_log s0 _)).
      + apply wp_bind.
        eapply wp_mono; [apply _swap_table_data_spec|].
        intros [[|]|e|] s1 [evs1 [E1 R1]]; [| |destruct R1|]; cbn [negb].
        * apply wp_ret. eapply wp_mono; [apply IH|].
          intros r s2 [evs2 [E2 R2]]. exists (evs1 ++ evs2)%list.
          split; [exact (emitted_trans _ _ _ _ _ E1 E2)|].
          intros Hr. specialize (R2 Hr). rewrite continued_app. lia.
        * apply wp_bind, wp_logger, wp_ret, wp_ret.
          exists evs1. split; [exact E1|discriminate].
        * exists evs1. split; [exact E1|]. intros _. exact R1. }
  eapply wp_mono; [apply Hloop|].
  intros [[b|]|e|] s1 [evs [E H]]; wp_run; try discriminate.
  intros _. exists evs. split; [exact E|exact (H eq_refl)].
Qed.

Ltac run_returns :=
  let Hr := fresh "Hr" in
  intros Hr; exfalso; revert Hr;
  match goal with
  | |- fst (run ?fuel ?self ?p ?s) = Diverge -> False =>
      change (wp (run fuel self p) (fun r _ => r <> Diverge) s)
  end;
  unfold run, validate_and_restore, RestoreLock_with, restore_steps, run_failed;
  wp_run; discriminate.

Ltac stage_total lemma :=
  let Hr := fresh "Hr" in
  intros Hr; exfalso;
  match goal with
  | H : ?m ?s = (Diverge, _) |- _ =>
      let T := fresh "T" in
      pose proof (lemma s) as T; rewrite H in T; now apply T
  end.

(** With fuel for the wait on the lock and for the polling, [run] returns
    unless more than [fuel] scans have returned a [LastEvaluatedKey]. *)
Lemma run_out_of_fuel (fuel : nat) (self : config) (p : string) (s : state) :
  (12 <= fuel)%nat ->
  (Z.to_nat (6 * timeout_minutes self) < fuel)%nat ->
  fst (run fuel self p s) = Diverge ->
  exists evs,
    emitted s (snd (run fuel self p s)) evs /\ (fuel < continued evs)%nat.
Proof.
  intros Hlock Hpoll.
  destruct (before_validation self p s) as [[prepared|e|] s1] eqn:H1;
    [|run_returns|stage_total (before_validation_total self p)].
  destruct (_validate_restore_point p s1) as [[[|]|e|] s2] eqn:H2;
    [|run_returns|run_returns|stage_total (_validate_restore_point_total p)].
  destruct (RestoreLock_enter fuel (lock_file self) s2) as [[[]|e|] s3] eqn:H3;
    [|run_returns
     |stage_total (RestoreLock_enter_total fuel (lock_file self) Hlock)].
  destruct ((if negb (snd prepared) then _initiate_pitr_restores self p
             else ret true) s3) as [[[|]|e|] s4] eqn:H4;
    [|run_returns|run_returns|].
  2:{ exfalso. destruct (snd prepared); cbn [negb] in H4; [discriminate H4|].
      pose proof (_initiate_pitr_restores_total self p s3) as T.
      rewrite H4 in T. now apply T. }
  intros Hr.
  pose proof (run_from_polling fuel self p prepared s s1 s2 s3 s4 H1 H2 H3 H4)
    as Hpipe.
  destruct (run_to_polling_emitted fuel self p prepared s s1 s2 s3 s4
              H1 H2 H3 H4) as [e4 E4].
  unfold pipeline in Hpipe.
  set (rt := fst prepared) in *.
  pose proof (_poll_restore_completion_steps fuel self rt s4) as E5.
  pose proof (_poll_restore_completion_gives_up fuel self rt s4 Hpoll) as G5.
  unfold wp in G5.
  destruct (_poll_restore_completion fuel self rt s4) as [[[|]|e|] s5];
    [|exfalso; destruct Hpipe; congruence|destruct Hpipe
     |exfalso; now destruct G5 as [? [_ []]]].
  pose proof (_verify_item_counts_steps self rt s5) as E6.
  pose proof (_verify_item_counts_total self rt s5) as G6.
  destruct (_verify_item_counts self rt s5) as [[[|]|e|] s6];
    [|exfalso; destruct Hpipe; congruence|destruct Hpipe
     |exfalso; now apply G6].
  pose proof (_swap_data_fuel fuel self rt s6) as G7. unfold wp in G7.
  destruct (_swap_data fuel self rt s6) as [[[|]|e|] s7];
    [|exfalso; destruct Hpipe; congruence|destruct Hpipe|].
  - pose proof (_delete_restore_tables_total self rt s7) as G8.
    destruct (_delete_restore_tables self rt s7) as [[b|e|] s8];
      [exfalso; destruct Hpipe; congruence|destruct Hpipe
      |exfalso; now apply G8].
  - destruct Hpipe as [_ ->]. cbn [fst snd] in *.
    destruct (G7 eq_refl) as [evs [E7 Hf]].
    apply emitting_emitted in E5 as [e5 E5].
    apply emitting_emitted in E6 as [e6 E6].
    exists ((e4 ++ e5 ++ e6) ++ evs)%list. split.
    + unfold emitted in *. rewrite E7, E6, E5, E4. now rewrite <- !app_assoc.
    + rewrite continued_app. lia.
Qed.

(** C8: every batch the run issues holds at most twenty-five requests,
    whatever the sizes of the tables.  Outside dry-run mode [_swap_data]
    never raises, and when it returns [True] its calls are, table by table
    and in order, the swap of each production table with its restore
    table: the scans of the production table follow the
    [LastEvaluatedKey]s from the first page to a page without one, and the
    requests of the deletion batches are, item by item, the deletions of
    the scanned items by their keys; the scans of the restore table do the
    same, and the requests of the write batches are, item by item, the
    [PutRequest]s of the scanned items.  So every scanned row is in exactly
    one batch.  It returns [False] only when it stopped at a table because a
    call raised or a scanned item lacks a key attribute, and it runs out of
    fuel only after more than [fuel] scans have returned a
    [LastEvaluatedKey]: with more fuel than the tables have pages it
    returns.  A run that returns [True] has made these calls of the swap,
    for the restore tables named for its restore point; and with fuel for
    the wait on the lock and for the polling, a run returns unless more
    than [fuel] scans have returned a [LastEvaluatedKey]. *)
Theorem swap_batches_bounded_and_exhaustive (fuel : nat) (self : config)
    (p : string) (s : state) :
  emitting (on_call batch_bounded) s (snd (run fuel self p s)) /\
  (forall rt s0,
      dry_run self = false ->
      (forall kv, In kv (tables self) -> dict_get rt (fst kv) <> None) ->
      let r := _swap_data fuel self rt s0 in
      (forall e, fst r <> Raise e) /\
      exists evs, emitted s0 (snd r) evs /\
        Forall (on_call batch_bounded) evs /\
        (fst r = Ok true -> swapped rt (tables self) evs) /\
        (fst r = Ok false -> swap_stopped (tables self) evs) /\
        (fst r = Diverge -> (fuel < continued evs)%nat)) /\
  (dry_run self = false ->
   fst (run fuel self p s) = Ok true ->
   exists restore_dt before evs after,
     isoparse p = Some restore_dt /\
     emitted s (snd (run fuel self p s)) (before ++ evs ++ after)%list /\
     swapped (restore_table_names self restore_dt) (tables self) evs) /\
  ((12 <= fuel)%nat ->
   (Z.to_nat (6 * timeout_minutes self) < fuel)%nat ->
   fst (run fuel self p s) = Diverge ->
   exists evs,
     emitted s (snd (run fuel self p s)) evs /\ (fuel < continued evs)%nat).
Proof.
  split; [|split; [|split; [|apply run_out_of_fuel]]].
  - eapply emitting_weaken; [|apply run_steps].
    intros ev. apply run_call_bounded.
  - intros rt s0 Hwet Hkeys. cbn zeta.
    split; [intros e; apply _swap_data_no_raise|].
    pose proof (_swap_data_spec fuel self rt s0 Hwet Hkeys) as H.
    pose proof (_swap_data_steps fuel self rt s0) as [evs' [E' F']].
    unfold wp in H. destruct H as [evs [E H]].
    assert (evs' = evs) as -> by (eapply emitted_inj; eassumption).
    exists evs. split; [exact E|]. split.
    { eapply Forall_impl; [|exact F'].
      intros ev Hev. apply (run_call_bounded self). exists rt, Swapping. exact Hev. }
    destruct (fst (_swap_data fuel self rt s0)) as [[|]|e|];
      repeat split; try discriminate; try (intros _; exact H).
  - intros Hwet Hr.
    destruct (run_true_stages fuel self p s Hr)
      as (prepared & s1 & s2 & s3 & s4 & H1 & H2 & H3 & H4).
    pose proof (before_validation_names self p s) as Hnames.
    unfold wp in Hnames. rewrite H1 in Hnames. cbn [fst] in Hnames.
    destruct Hnames as [restore_dt [Hp Hrt]].
    pose proof (run_from_polling fuel self p prepared s s1 s2 s3 s4 H1 H2 H3 H4)
      as Hpipe.
    destruct (run_to_polling_emitted fuel self p prepared s s1 s2 s3 s4
                H1 H2 H3 H4) as [e4 E4].
    unfold pipeline in Hpipe. rewrite Hrt in *.
    set (rt := restore_table_names self restore_dt) in *.
    pose proof (_poll_restore_completion_steps fuel self rt s4) as E5.
    destruct (_poll_restore_completion fuel self rt s4) as [[[|]|e|] s5];
      [|exfalso; destruct Hpipe; congruence|destruct Hpipe
      |exfalso; destruct Hpipe; congruence].
    pose proof (_verify_item_counts_steps self rt s5) as E6.
    destruct (_verify_item_counts self rt s5) as [[[|]|e|] s6];
      [|exfalso; destruct Hpipe; congruence|destruct Hpipe
      |exfalso; destruct Hpipe; congruence].
    pose proof (_swap_data_spec fuel self rt s6 Hwet
                  (restore_table_names_keys self restore_dt)) as E7.
    unfold wp in E7.
    destruct (_swap_data fuel self rt s6) as [[[|]|e|] s7];
      [|exfalso; destruct Hpipe; congruence|destruct Hpipe
      |exfalso; destruct Hpipe; congruence].
    pose proof (_delete_restore_tables_steps self rt s7) as E8.
    destruct (_delete_restore_tables self rt s7) as [[b|e|] s8];
      [|destruct Hpipe|destruct Hpipe; congruence].
    destruct Hpipe as (_ & _ & Htr). cbn [fst snd] in *.
    apply emitting_emitted in E5 as [e5 E5].
    apply emitting_emitted in E6 as [e6 E6].
    apply emitting_emitted in E8 as [e8 E8].
    destruct E7 as [evs [E7 Hs]].
    exists restore_dt, (e4 ++ e5 ++ e6)%list, evs, e8.
    split; [exact Hp|]. split; [|exact Hs].
    unfold emitted in *. rewrite Htr, E8, E7, E6, E5, E4.
    now rewrite <- !app_assoc.
Qed.

(** ** Dry runs, to their end *)

Lemma _poll_restore_completion_no_time (fuel : nat) (self : config)
    (rt : dict string) (s : state) :
  timeout_minutes self <= 0 ->
  fst (_poll_restore_completion (S fuel) self rt s) = Ok false.
Proof.
  intros Htime.
  change (wp (_poll_restore_completion (S fuel) self rt)
             (fun r _ => r = Ok false) s).
  unfold _poll_restore_completion. cbn [poll_loop].
  wp_to_if. cbn [clock add_log].
  replace (clock s - clock s <? timeout_minutes self * 60 * DateTime.second_us)
    with false
    by (symmetry; apply Z.ltb_ge; unfold DateTime.second_us; lia).
  wp_run. reflexivity.
Qed.

(** C9 (amended): in dry-run mode the run issues no restore initiation, no
    table deletion and no item write or delete, for any input; it writes to
    the log and leaves a status record; with fuel for the wait on the lock it
    returns, with the status COMPLETED when it returns [True] and FAILED
    when it returns [False].  It returns [True], with the status COMPLETED,
    when the preparation meets no error, the restore point passes
    validation, the lock is acquired and the polling timeout is positive,
    and only then: in every other case it returns [False] with the status
    FAILED. *)
Theorem dry_run_spares_the_tables (fuel : nat) (self : config) (p : string)
    (s : state) :
  dry_run self = true ->
  emitting (on_call (fun c => mutating c = false)) s (snd (run fuel self p s)) /\
  (exists l, log (snd (run fuel self p s)) = (log s ++ l)%list /\ l <> []) /\
  (exists d, status_file (snd (run fuel self p s)) = Some d) /\
  ((12 <= fuel)%nat ->
   exists b, fst (run fuel self p s) = Ok b /\
             run_post (Ok b) (snd (run fuel self p s))) /\
  (forall prepared s1 s2 s3,
      before_validation self p s = (Ok prepared, s1) ->
      _validate_restore_point p s1 = (Ok true, s2) ->
      RestoreLock_enter fuel (lock_file self) s2 = (Ok tt, s3) ->
      0 < timeout_minutes self ->
      fst (run fuel self p s) = Ok true /\
      recorded (snd (run fuel self p s)) "COMPLETED" None) /\
  (fst (run fuel self p s) = Ok true ->
   exists prepared s1 s2 s3,
     before_validation self p s = (Ok prepared, s1) /\
     _validate_restore_point p s1 = (Ok true, s2) /\
     RestoreLock_enter fuel (lock_file self) s2 = (Ok tt, s3) /\
     0 < timeout_minutes self) /\
  ((12 <= fuel)%nat ->
   ~ (exists prepared s1 s2 s3,
         before_validation self p s = (Ok prepared, s1) /\
         _validate_restore_point p s1 = (Ok true, s2) /\
         RestoreLock_enter fuel (lock_file self) s2 = (Ok tt, s3) /\
         0 < timeout_minutes self) ->
   fst (run fuel self p s) = Ok false /\
   exists err, recorded (snd (run fuel self p s)) "FAILED" err).
Proof.
  intros Hdry.
  assert ((12 <= fuel)%nat ->
          exists b, fst (run fuel self p s) = Ok b /\
                    run_post (Ok b) (snd (run fuel self p s))) as Hreturns.
  { intros Hfuel. pose proof (run_outcome fuel self p s) as Hpost.
    pose proof (dry_run_total fuel self p s Hdry Hfuel) as Htot.
    unfold wp in Hpost.
    destruct (fst (run fuel self p s)) as [b|e|] eqn:E;
      [now exists b|destruct Hpost|congruence]. }
  assert (fst (run fuel self p s) = Ok true ->
          exists prepared s1 s2 s3,
            before_validation self p s = (Ok prepared, s1) /\
            _validate_restore_point p s1 = (Ok true, s2) /\
            RestoreLock_enter fuel (lock_file self) s2 = (Ok tt, s3) /\
            0 < timeout_minutes self) as Honly.
  { intros Hr.
    destruct (run_true_stages fuel self p s Hr)
      as (prepared & s1 & s2 & s3 & s4 & H1 & H2 & H3 & H4).
    exists prepared, s1, s2, s3.
    split; [exact H1|]. split; [exact H2|]. split; [exact H3|].
    destruct (Z.ltb_spec 0 (timeout_minutes self)) as [Htime|Htime];
      [exact Htime|exfalso].
    pose proof (run_from_polling fuel self p prepared s s1 s2 s3 s4 H1 H2 H3 H4)
      as Hpipe.
    unfold pipeline in Hpipe.
    destruct fuel as [|fuel]; [discriminate H3|].
    pose proof (_poll_restore_completion_no_time fuel self (fst prepared) s4 Htime)
      as Hpoll.
    destruct (_poll_restore_completion (S fuel) self (fst prepared) s4)
      as [r s5].
    cbn [fst] in Hpoll. subst r. destruct Hpipe as [Hres _]. congruence. }
  split; [now apply dry_run_emits|].
  split; [apply run_leaves_log_and_status|].
  split; [apply run_leaves_log_and_status|].
  split; [exact Hreturns|]. split; [|split; [exact Honly|]].
  - intros prepared s1 s2 s3 H1 H2 H3 Htime.
    assert (1 <= fuel)%nat as Hfuel.
    { destruct fuel as [|fuel]; [|lia]. discriminate H3. }
    pose proof (before_validation_names self p s) as Hnames.
    unfold wp in Hnames. rewrite H1 in Hnames. cbn [fst] in Hnames.
    destruct Hnames as [restore_dt [Hp Hrt]].
    assert (wp (run fuel self p)
               (fun r s' => r = Ok true /\ recorded s' "COMPLETED" None) s) as H.
    { unfold run. apply wp_try_except, wp_bind. wp_step.
      unfold validate_and_restore, RestoreLock_with. rewrite Hrt.
      apply wp_bind. wp_step. cbn [negb].
      apply wp_bind, wp_bind. wp_step. apply wp_finally.
      eapply wp_mono;
        [apply (restore_steps_dry fuel self p restore_dt (snd prepared) s3 Hdry Hp
                  Hfuel)|].
      intros r s4 [_ Hr]. rewrite (Hr Htime). wp_run.
      split; [reflexivity|recorded_tac]. }
    exact H.
  - intros Hfuel Hnot.
    destruct (Hreturns Hfuel) as [[|] [Hres Hpost]].
    + exfalso. exact (Hnot (Honly Hres)).
    + split; [exact Hres|exact Hpost].
Qed.

(** ** What precedes validation *)

(** C3 (amended): before the restore point is validated the run calls the
    provider only to check for restore tables, and for a restore point that
    parses these calls are tied to the restore table names of this very
    restore point: descriptions of these restore tables, the listing of the
    tables, and, outside dry-run mode only, deletions of tables that are
    named like restore tables of a production table and are not among
    them.  No restore initiation, scan, count or item write precedes the
    validation.  A restore point that does not parse stops the run before
    any call, and the validation itself calls nothing.  When validation
    rejects the restore point nothing more is called: the run returns
    [False] with the status FAILED and the reason "Invalid restore
    point". *)
Theorem calls_before_validation (fuel : nat) (self : config) (p : string)
    (s : state) :
  (forall restore_dt,
      isoparse p = Some restore_dt ->
      emitting (on_call (stage_call self (restore_table_names self restore_dt)
                                    Checking))
               s (snd (before_validation self p s))) /\
  (forall rt c,
      stage_call self rt Checking c <->
      match c with
      | describe_table n => In n (values rt)
      | list_tables => True
      | delete_table n => dry_run self = false /\ old_restore_table self rt n
      | _ => False
      end) /\
  (isoparse p = None -> trace (snd (before_validation self p s)) = trace s) /\
  (forall s1, trace (snd (_validate_restore_point p s1)) = trace s1) /\
  (forall prepared s1 s2,
      before_validation self p s = (Ok prepared, s1) ->
      _validate_restore_point p s1 = (Ok false, s2) ->
      fst (run fuel self p s) = Ok false /\
      recorded (snd (run fuel self p s)) "FAILED" (Some "Invalid restore point") /\
      trace (snd (run fuel self p s)) = trace s1).
Proof.
  split; [|split; [|split; [|split]]].
  - intros restore_dt Hp. apply (before_validation_checks self p restore_dt Hp).
  - intros rt c. destruct c; cbn [stage_call]; tauto.
  - intros Hp. unfold before_validation, bind.
    pose proof (silent_trace (run_begin self p) s (run_begin_steps _ self p))
      as T0.
    destruct (run_begin self p s) as [[[]|e|] s0]; cbn [snd] in *;
      [|exact T0|exact T0].
    pose proof (silent_trace (name_restore_tables self p) s0
                  (name_restore_tables_steps _ self p)) as T1.
    destruct (name_restore_tables self p s0) as [[rt|e|] s1] eqn:H1;
      cbn [snd] in *; [|congruence|congruence].
    exfalso. unfold name_restore_tables, bind, parse in H1.
    rewrite Hp in H1. discriminate H1.
  - intros s1.
    exact (silent_trace (_validate_restore_point p) s1
             (_validate_restore_point_steps _ p)).
  - intros prepared s1 s2 H1 H2.
    assert (wp (run fuel self p)
               (fun r s' =>
                  r = Ok false /\
                  recorded s' "FAILED" (Some "Invalid restore point") /\
                  trace s' = trace s1) s) as H.
    { unfold run. apply wp_try_except, wp_bind. wp_step.
      unfold validate_and_restore. apply wp_bind. wp_step. cbn [negb].
      wp_run. split; [reflexivity|]. split; [recorded_tac|].
      pose proof (silent_trace (_validate_restore_point p) s1
                    (_validate_restore_point_steps _ p)) as T.
      rewrite H2 in T. exact T. }
    exact H.
Qed.

End Orchestrator.

Arguments state provider : clear implicits.
Arguments M provider A : clear implicits.

(** ** A concrete provider and runtime

    A small in-memory service and an ISO-8601 reader for fixed-width
    timestamps, to run the orchestrator on concrete inputs. *)

Module Demo.

Record table := {
  t_name : string;
  t_status : string;
  t_keys : list string;
  t_items : list item
}.

Record world := {
  w_tables : list table;
  w_restore_status : string;     (* the status a restored table is created in *)
  w_page : nat                   (* items per scan page *)
}.

Definition with_tables (w : world) (ts : list table) : world :=
  {| w_tables := ts; w_restore_status := w_restore_status w; w_page := w_page w |}.

Definition find_table (w : world) (name : string) : option table :=
  find (fun t => String.eqb (t_name t) name) (w_tables w).

Definition not_found (name : string) : exn :=
  ClientError "ResourceNotFoundException" ("Table not found: " ++ name).

Fixpoint item_eqb (a b : item) : bool :=
  match a, b with
  | [], [] => true
  | (k, v) :: a', (k', v') :: b' =>
      String.eqb k k' && String.eqb v v' && item_eqb a' b'
  | _, _ => false
  end.

Definition describe (w : world) (name : string)
    : world * (exn + table_description) :=
  match find_table w name with
  | Some t =>
      (w, inr {| TableStatus := t_status t; KeySchema := t_keys t;
                 RestoreSummary_EarliestRestorableDateTime := None;
                 LatestRestorableDateTime := None |})
  | None => (w, inl (not_found name))
  end.

Definition list_all (w : world) : world * (exn + list (list string)) :=
  (w, inr [map t_name (w_tables w)]).

Definition delete (w : world) (name : string) : world * (exn + unit) :=
  match find_table w name with
  | Some _ =>
      (with_tables w
         (filter (fun t => negb (String.eqb (t_name t) name)) (w_tables w)),
       inr tt)
  | None => (w, inl (not_found name))
  end.

Definition restore (w : world) (source target : string) (instant : Z)
    : world * (exn + unit) :=
  match find_table w source, find_table w target with
  | Some t, None =>
      (with_tables w
         (w_tables w ++
          [{| t_name := target; t_status := w_restore_status w;
              t_keys := t_keys t; t_items := t_items t |}])%list,
       inr tt)
  | Some _, Some _ =>
      (w, inl (ClientError "TableAlreadyExistsException" target))
  | None, _ => (w, inl (not_found source))
  end.

Definition count (w : world) (name : string) : world * (exn + Z) :=
  match find_table w name with
  | Some t => (w, inr (Z.of_nat (List.length (t_items t))))
  | None => (w, inl (not_found name))
  end.

(** The items after the cursor, or all of them when the cursor is gone. *)
Fixpoint after (cursor : item) (items : list item) : option (list item) :=
  match items with
  | [] => None
  | it :: rest => if item_eqb it cursor then Some rest else after cursor rest
  end.

Definition page (w : world) (name : string) (start : option item)
    : world * (exn + scan_output) :=
  match find_table w name with
  | Some t =>
      let pending :=
        match start with
        | None => t_items t
        | Some cursor =>
            match after cursor (t_items t) with
            | Some rest => rest
            | None => t_items t
            end
        end in
      let items := firstn (w_page w) pending in
      (w, inr {| Items := items;
                 LastEvaluatedKey :=
                   if (w_page w <? List.length pending)%nat
                   then Some (last items []) else None |})
  | None => (w, inl (not_found name))
  end.

Definition key_matches (key it : item) : bool :=
  forallb (fun kv =>
             match dict_get it (fst kv) with
             | Some v => String.eqb v (snd kv)
             | None => false
             end) key.

Definition apply_request (items : list item) (r : write_request) : list item :=
  match r with
  | DeleteRequest key => filter (fun it => negb (key_matches key it)) items
  | PutRequest it => (items ++ [it])%list
  end.

Definition write (w : world) (name : string) (requests : list write_request)
    : world * (exn + unit) :=
  match find_table w name with
  | Some _ =>
      if (25 <? List.length requests)%nat then
        (w, inl (ClientError "ValidationException" "Too many items in the batch"))
      else
        (with_tables w
           (map (fun t =>
                   if String.eqb (t_name t) name then
                     {| t_name := t_name t; t_status := t_status t;
                        t_keys := t_keys t;
                        t_items := fold_left apply_request requests (t_items t) |}
                   else t)
                (w_tables w)),
         inr tt)
  | None => (w, inl (not_found name))
  end.

Definition backups (w : world) (name : string)
    : world * (exn + point_in_time_recovery_description) :=
  (w, inr {| pitr_EarliestRestorableDateTime := None;
             pitr_LatestRestorableDateTime := None |}).

#[export] Instance service : DynamoDB world := {|
  db_describe_table := describe;
  db_list_tables := list_all;
  db_delete_table := delete;
  db_restore_table_to_point_in_time := restore;
  db_scan_count := count;
  db_scan := page;
  db_batch_write_item := write;
  db_describe_continuous_backups := backups
|}.

(** Reading [YYYY-MM-DDTHH:MM:SS], with an optional [Z] or [+HH:MM] or
    [-HH:MM]. *)
Definition digit_value (c : ascii) : option Z :=
  let n := Z.of_nat (nat_of_ascii c) in
  if (48 <=? n) && (n <=? 57) then Some (n - 48) else None.

Fixpoint number (n : nat) (acc : Z) (s : string) : option (Z * string) :=
  match n with
  | O => Some (acc, s)
  | S n' =>
      match s with
      | String c s' =>
          match digit_value c with
          | Some d => number n' (acc * 10 + d) s'
          | None => None
          end
      | EmptyString => None
      end
  end.

Definition expect (c : ascii) (s : string) : option string :=
  match s with
  | String d s' => if Ascii.eqb c d then Some s' else None
  | EmptyString => None
  end.

Definition zone (s : string) : option (option DateTime.tzinfo) :=
  match s with
  | EmptyString => Some None
  | String "Z" EmptyString =>
      Some (Some {| DateTime.utcoffset := 0; DateTime.tzname := "UTC" |})
  | String sign s' =>
      match number 2 0 s' with
      | Some (h, s'') =>
          match expect ":" s'' with
          | Some s3 =>
              match number 2 0 s3 with
              | Some (m, EmptyString) =>
                  let off := h * 3600 + m * 60 in
                  if Ascii.eqb sign "+" then
                    Some (Some {| DateTime.utcoffset := off; DateTime.tzname := s |})
                  else if Ascii.eqb sign "-" then
                    Some (Some {| DateTime.utcoffset := - off; DateTime.tzname := s |})
                  else None
              | _ => None
              end
          | None => None
          end
      | None => None
      end
  end.

Definition read_iso (s : string) : option DateTime.datetime :=
  match number 4 0 s with
  | Some (y, s) =>
  match expect "-" s with
  | Some s =>
  match number 2 0 s with
  | Some (mo, s) =>
  match expect "-" s with
  | Some s =>
  match number 2 0 s with
  | Some (d, s) =>
  match expect "T" s with
  | Some s =>
  match number 2 0 s with
  | Some (h, s) =>
  match expect ":" s with
  | Some s =>
  match number 2 0 s with
  | Some (mi, s) =>
  match expect ":" s with
  | Some s =>
  match number 2 0 s with
  | Some (sec, s) =>
  match zone s with
  | Some z =>
      Some {| DateTime.year := y; DateTime.month := mo; DateTime.day := d;
              DateTime.hour := h; DateTime.minute := mi; DateTime.second := sec;
              DateTime.microsecond := 0; DateTime.tz := z |}
  | None => None end
  | None => None end
  | None => None end
  | None => None end
  | None => None end
  | None => None end
  | None => None end
  | None => None end
  | None => None end
  | None => None end
  | None => None end
  | None => None end.

(** Central European Time all year round, and a host clock on UTC. *)
#[export] Instance runtime : Runtime := {|
  isoparse := read_iso;
  berlin := fun _ => {| DateTime.utcoffset := 3600; DateTime.tzname := "CET" |};
  local_now := DateTime.utc_datetime
|}.

(** *** Scenarios *)

Definition cfg (dry : bool) : config :=
  {| environment := "dev"; region := "eu-central-1"; timeout_minutes := 1;
     dry_run := dry; lock_file := "/tmp/dynamodb_restore.lock";
     verbose := false; restore_id := "restore-2025-12-20T10-00-00Z" |}.

Definition row (id : string) : item := [("id", id); ("author", "anonymous")].

Definition table_of (name status : string) (items : list item) : table :=
  {| t_name := name; t_status := status; t_keys := ["id"]; t_items := items |}.

Definition production : list table :=
  [table_of "quote-lambda-tf-quotes-dev" "ACTIVE" [row "1"; row "2"; row "3"];
   table_of "quote-lambda-tf-user-likes-dev" "ACTIVE" [row "a"];
   table_of "quote-lambda-tf-user-views-dev" "ACTIVE" []].

(** An old restore table of another restore point, left by an earlier run. *)
Definition leftover : table :=
  table_of "quote-lambda-tf-quotes-dev-restore-20251201120000" "ACTIVE" [row "0"].

(** The restore tables of 2025-12-19 18:00:00, the last still being created. *)
Definition restored : list table :=
  [table_of "quote-lambda-tf-quotes-dev-restore-20251219180000" "ACTIVE"
     [row "1"; row "2"];
   table_of "quote-lambda-tf-user-likes-dev-restore-20251219180000" "ACTIVE"
     [row "a"; row "b"];
   table_of "quote-lambda-tf-user-views-dev-restore-20251219180000" "CREATING" []].

Definition world_of (tables : list table) (restore_status : string) : world :=
  {| w_tables := tables; w_restore_status := restore_status; w_page := 2 |}.

(** 2025-12-20 09:00:00 UTC. *)
Definition today : Z := 1766221200000000.

Definition start (w : world) (marker : option Z) : state world :=
  {| provider_state := w; clock := today; lock_marker := marker;
     lock_acquired := false; restore_point_timestamp := None;
     status_file := None; log := []; trace := [] |}.

Definition yesterday_evening : string := "2025-12-19T18:00:00".
Definition next_year : string := "2026-12-19T18:00:00".
Definition two_months_ago : string := "2025-10-19T18:00:00".

Definition calls (s : state world) : list call := map ev_call (trace s).

Definition status_of (s : state world) : option (string * option string) :=
  match status_file s with
  | Some d => Some (sd_status d, sd_error_message d)
  | None => None
  end.

(** A whole restore: the old restore table is removed, three restores are
    initiated, and each production table is cleared and refilled page by
    page. *)
Example run_completes :
  let r := run 20 (cfg false) yesterday_evening
               (start (world_of (production ++ [leftover]) "ACTIVE") None) in
  fst r = Ok true /\
  status_of (snd r) = Some ("COMPLETED", None) /\
  map t_name (w_tables (provider_state (snd r))) =
    ["quote-lambda-tf-quotes-dev"; "quote-lambda-tf-user-likes-dev";
     "quote-lambda-tf-user-views-dev"] /\
  find_table (provider_state (snd r)) "quote-lambda-tf-quotes-dev" =
    Some (table_of "quote-lambda-tf-quotes-dev" "ACTIVE"
            [row "1"; row "2"; row "3"]) /\
  lock_marker (snd r) = None.
Proof. vm_compute. repeat split. Qed.

(** *** The claims on these scenarios *)

Definition at_18 (z : option DateTime.tzinfo) : DateTime.datetime :=
  {| DateTime.year := 2025; DateTime.month := 12; DateTime.day := 19;
     DateTime.hour := 18; DateTime.minute := 0; DateTime.second := 0;
     DateTime.microsecond := 0; DateTime.tz := z |}.

Definition utc : DateTime.tzinfo :=
  {| DateTime.utcoffset := 0; DateTime.tzname := "UTC" |}.

Definition plus_one : DateTime.tzinfo :=
  {| DateTime.utcoffset := 3600; DateTime.tzname := "+01:00" |}.

Lemma at_18_valid (z : option DateTime.tzinfo) : DateTime.valid (at_18 z).
Proof. unfold DateTime.valid. cbn. lia. Defined.

Definition idle : state world := start (world_of production "ACTIVE") None.

Lemma restore_table_names_from_restore_point_witness :
  isoparse "2025-12-19T18:00:00Z" = Some (at_18 (Some utc)) /\
  isoparse "2025-12-20T18:00:00Z" <> None /\
  fst (name_restore_tables (cfg false) "2025-12-19T18:00:00Z" idle) =
    Ok [("quotes", "quote-lambda-tf-quotes-dev-restore-20251219180000");
        ("user_likes", "quote-lambda-tf-user-likes-dev-restore-20251219180000");
        ("user_views", "quote-lambda-tf-user-views-dev-restore-20251219180000")] /\
  fst (name_restore_tables (cfg false) "2025-12-19T18:00:00Z"
         (start (world_of production "ACTIVE") (Some today))) =
    fst (name_restore_tables (cfg false) "2025-12-19T18:00:00Z" idle).
Proof.
  assert (isoparse "2025-12-19T18:00:00Z" = Some (at_18 (Some utc))) as Hp
    by reflexivity.
  assert (isoparse "2025-12-19T18:00:00+01:00" = Some (at_18 (Some plus_one)))
    as Hp' by reflexivity.
  split; [exact Hp|]. split; [discriminate|].
  destruct (restore_table_names_from_restore_point (cfg false)
              "2025-12-19T18:00:00Z" "2025-12-19T18:00:00+01:00"
              (at_18 (Some utc)) (at_18 (Some plus_one))
              idle (start (world_of production "ACTIVE") (Some today))
              Hp Hp' (at_18_valid _) (at_18_valid _))
    as (H1 & H2 & _).
  split; [exact H1|exact H2].
Defined.

(** C4: another run holds the lock, taken at this very moment.  The run
    fails on the lock with exit code 1 and the status FAILED, after it has
    deleted a restore table: the clean-up of old restore tables comes
    before the lock is taken. *)
Lemma restore_table_deleted_without_lock :
  let r := run 20 (cfg false) yesterday_evening
               (start (world_of (production ++ [leftover]) "ACTIVE")
                      (Some today)) in
  fst r = Ok false /\
  exit_code (fst r) = Some 1 /\
  status_of (snd r) = Some ("FAILED", Some "Could not acquire restore lock") /\
  calls (snd r) =
    [describe_table "quote-lambda-tf-quotes-dev-restore-20251219180000";
     describe_table "quote-lambda-tf-user-likes-dev-restore-20251219180000";
     describe_table "quote-lambda-tf-user-views-dev-restore-20251219180000";
     list_tables;
     delete_table "quote-lambda-tf-quotes-dev-restore-20251201120000"] /\
  find_table (provider_state (snd r))
    "quote-lambda-tf-quotes-dev-restore-20251201120000" = None /\
  lock_marker (snd r) = Some today.
Proof. vm_compute. repeat split. Qed.

(** C9, as first stated: a dry run with a restore point in the future ends
    FAILED. *)
Lemma dry_run_can_fail :
  let r := run 20 (cfg true) next_year idle in
  dry_run (cfg true) = true /\
  fst r = Ok false /\
  status_of (snd r) = Some ("FAILED", Some "Invalid restore point").
Proof. vm_compute. repeat split. Qed.

Definition restore_names : dict string :=
  [("quotes", "quote-lambda-tf-quotes-dev-restore-20251219180000");
   ("user_likes", "quote-lambda-tf-user-likes-dev-restore-20251219180000");
   ("user_views", "quote-lambda-tf-user-views-dev-restore-20251219180000")].

(** The restore tables are in place; the restored counts are lower, higher
    and equal. *)
Definition reentry : state world :=
  start (world_of (production ++ restored) "ACTIVE") None.

Definition on_19 (y m : Z) : DateTime.datetime :=
  {| DateTime.year := y; DateTime.month := m; DateTime.day := 19;
     DateTime.hour := 18; DateTime.minute := 0; DateTime.second := 0;
     DateTime.microsecond := 0; DateTime.tz := None |}.

Lemma validate_restore_point_window_witness :
  isoparse two_months_ago <> None /\
  fst (_validate_restore_point two_months_ago idle) = Ok false /\
  fst (run 20 (cfg false) two_months_ago idle) = Ok false /\
  fst (_validate_restore_point next_year idle) = Ok false /\
  fst (_validate_restore_point yesterday_evening idle) = Ok true.
Proof.
  split; [discriminate|].
  assert (isoparse two_months_ago = Some (on_19 2025 10)) as Ha by reflexivity.
  assert (isoparse next_year = Some (on_19 2026 12)) as Hb by reflexivity.
  assert (isoparse yesterday_evening = Some (on_19 2025 12)) as Hc by reflexivity.
  destruct (validate_restore_point_window 20 (cfg false) two_months_ago
              (on_19 2025 10) idle Ha) as (Hold & _ & _).
  destruct (validate_restore_point_window 20 (cfg false) next_year
              (on_19 2026 12) idle Hb) as (_ & Hfuture & _).
  destruct (validate_restore_point_window 20 (cfg false) yesterday_evening
              (on_19 2025 12) idle Hc) as (_ & _ & Hin).
  destruct (Hold ltac:(vm_compute; reflexivity)) as (H1 & _ & H2 & _).
  destruct (Hfuture ltac:(vm_compute; reflexivity)) as (H3 & _).
  pose proof (Hin ltac:(vm_compute; split; discriminate)) as H4.
  repeat split; assumption.
Defined.

(** Restored tables stay in CREATING: polling gives up after a minute. *)
Definition stuck : state world := start (world_of production "CREATING") None.

(** *** Further properties on these scenarios *)

Definition lock_path : string := "/tmp/dynamodb_restore.lock".

(** Another process took the lock at this very moment. *)
Definition held : state world := start (world_of production "ACTIVE") (Some today).

(** A lock file left two hours ago. *)
Definition abandoned : state world :=
  start (world_of production "ACTIVE") (Some (today - 7200 * DateTime.second_us)).

(** The three restore tables of 2025-12-19 18:00:00, all ACTIVE. *)
Definition ready : state world :=
  start (world_of
           (production ++
            [table_of "quote-lambda-tf-quotes-dev-restore-20251219180000" "ACTIVE"
               [row "1"; row "2"];
             table_of "quote-lambda-tf-user-likes-dev-restore-20251219180000"
               "ACTIVE" [row "a"];
             table_of "quote-lambda-tf-user-views-dev-restore-20251219180000"
               "ACTIVE" []])
           "ACTIVE")
        None.

(** A configuration that leaves polling no time. *)
Definition cfg_no_wait : config :=
  {| environment := "dev"; region := "eu-central-1"; timeout_minutes := 0;
     dry_run := false; lock_file := lock_path;
     verbose := false; restore_id := "restore-2025-12-20T10-00-00Z" |}.

Lemma acquire_takes_a_free_lock_witness :
  lock_marker idle = None /\
  RestoreLock_acquire 1 lock_path 5 idle = (Ok true, lock_taken lock_path idle) /\
  RestoreLock_acquire 1 lock_path 0 idle =
    (Ok false, add_log idle lock_failed_record).
Proof.
  assert (lock_marker idle = None) as Hfree by reflexivity.
  destruct (acquire_takes_a_free_lock 0 lock_path 5 idle Hfree) as [Hpos _].
  destruct (acquire_takes_a_free_lock 0 lock_path 0 idle Hfree) as [_ Hzero].
  split; [exact Hfree|]. split; [apply Hpos; lia|apply Hzero; lia].
Defined.

Lemma acquire_gives_up_on_a_held_lock_witness :
  lock_marker held = Some today /\
  fst (RestoreLock_acquire 11 lock_path 5 held) = Ok false /\
  clock (snd (RestoreLock_acquire 11 lock_path 5 held)) =
    today + 5 * DateTime.second_us /\
  lock_marker (snd (RestoreLock_acquire 11 lock_path 5 held)) = Some today.
Proof.
  assert (lock_marker held = Some today) as Hheld by reflexivity.
  assert (0 <= 5) as Htime by lia.
  assert (Z.to_nat (2 * 5) < 11)%nat as Hfuel by (vm_compute; lia).
  assert (clock held + 5 * DateTime.second_us - today
          <= 3600 * DateTime.second_us) as Hfresh by (vm_compute; discriminate).
  destruct (acquire_gives_up_on_a_held_lock 11 lock_path 5 today held
              Hheld Htime Hfuel Hfresh) as (Hr & Hc & Hm & _).
  split; [exact Hheld|]. split; [exact Hr|]. split; [exact Hc|exact Hm].
Defined.

Lemma acquire_replaces_a_stale_lock_witness :
  lock_marker abandoned = Some (today - 7200 * DateTime.second_us) /\
  fst (RestoreLock_acquire 2 lock_path 5 abandoned) = Ok true /\
  lock_marker (snd (RestoreLock_acquire 2 lock_path 5 abandoned)) = Some today /\
  clock (snd (RestoreLock_acquire 2 lock_path 5 abandoned)) = today.
Proof.
  assert (lock_marker abandoned = Some (today - 7200 * DateTime.second_us))
    as Hheld by reflexivity.
  assert (3600 * DateTime.second_us <
          clock abandoned - (today - 7200 * DateTime.second_us)) as Hstale
    by (vm_compute; reflexivity).
  assert (0 < 5) as Htime by lia.
  destruct (acquire_replaces_a_stale_lock 0 lock_path 5
              (today - 7200 * DateTime.second_us) abandoned Hheld Hstale Htime)
    as (Hr & Hm & _ & Hc & _).
  split; [exact Hheld|]. split; [exact Hr|]. split; [exact Hm|exact Hc].
Defined.

Lemma unparseable_restore_point_stops_the_run_witness :
  isoparse "yesterday" = None /\
  fst (run 20 (cfg false) "yesterday" idle) = Ok false /\
  trace (snd (run 20 (cfg false) "yesterday" idle)) = [] /\
  restore_point_timestamp (snd (run 20 (cfg false) "yesterday" idle)) = None.
Proof.
  assert (isoparse "yesterday" = None) as Hp by reflexivity.
  destruct (unparseable_restore_point_stops_the_run 20 (cfg false) "yesterday"
              idle Hp) as (Hr & _ & Ht & _ & _ & Hts & _).
  split; [exact Hp|]. split; [exact Hr|]. split; [exact Ht|exact Hts].
Defined.

Lemma held_lock_stops_the_run_witness :
  let self := cfg false in
  let p := yesterday_evening in
  let s1 := snd (before_validation self p held) in
  let s2 := snd (_validate_restore_point p s1) in
  before_validation self p held = (Ok (restore_names, false), s1) /\
  _validate_restore_point p s1 = (Ok true, s2) /\
  lock_marker held = Some today /\
  fst (run 20 self p held) = Ok false /\
  recorded (snd (run 20 self p held)) "FAILED"
           (Some "Could not acquire restore lock") /\
  lock_marker (snd (run 20 self p held)) = Some today /\
  clock (snd (run 20 self p held)) = clock s2 + 5 * DateTime.second_us.
Proof.
  intros self p s1 s2.
  assert (before_validation self p held = (Ok (restore_names, false), s1)) as H1
    by (vm_compute; reflexivity).
  assert (_validate_restore_point p s1 = (Ok true, s2)) as H2
    by (vm_compute; reflexivity).
  assert (lock_marker held = Some today) as Hheld by reflexivity.
  assert (clock s2 + 5 * DateTime.second_us - today
          <= 3600 * DateTime.second_us) as Hfresh by (vm_compute; discriminate).
  assert (10 < 20)%nat as Hfuel by lia.
  destruct (held_lock_stops_the_run 20 self p (restore_names, false) today
              held s1 s2 H1 H2 Hheld Hfresh Hfuel) as (Hr & Hrec & _ & Hm & Hc).
  split; [exact H1|]. split; [exact H2|]. split; [exact Hheld|].
  split; [exact Hr|]. split; [exact Hrec|]. split; [exact Hm|exact Hc].
Defined.

Lemma run_calls_are_confined_witness :
  let s := start (world_of (production ++ [leftover]) "ACTIVE") None in
  isoparse yesterday_evening = Some (on_19 2025 12) /\
  emitting
    (on_call (confined (cfg false) (restore_table_names (cfg false) (on_19 2025 12))))
    s (snd (run 20 (cfg false) yesterday_evening s)).
Proof.
  intros s.
  assert (isoparse yesterday_evening = Some (on_19 2025 12)) as Hp by reflexivity.
  split; [exact Hp|].
  apply (run_calls_are_confined 20 (cfg false) yesterday_evening (on_19 2025 12)
           s Hp).
Defined.

Lemma failed_run_keeps_its_restore_tables_witness :
  isoparse yesterday_evening = Some (on_19 2025 12) /\
  fst (run 20 (cfg false) yesterday_evening stuck) = Ok false /\
  emitting
    (on_call (fun c =>
                match c with
                | delete_table n =>
                    ~ In n (values (restore_table_names (cfg false) (on_19 2025 12)))
                | _ => True
                end))
    stuck (snd (run 20 (cfg false) yesterday_evening stuck)).
Proof.
  assert (isoparse yesterday_evening = Some (on_19 2025 12)) as Hp by reflexivity.
  assert (fst (run 20 (cfg false) yesterday_evening stuck) = Ok false) as Hr
    by (vm_compute; reflexivity).
  split; [exact Hp|]. split; [exact Hr|].
  apply (failed_run_keeps_its_restore_tables 20 (cfg false) yesterday_evening
           (on_19 2025 12) stuck Hp Hr).
Defined.

Lemma delete_restore_tables_attempts_every_table_witness :
  dry_run (cfg false) = false /\
  fst (_delete_restore_tables (cfg false) restore_names ready) = Ok true /\
  exists evs,
    emitted ready (snd (_delete_restore_tables (cfg false) restore_names ready))
            evs /\
    map ev_call evs = map delete_table (values restore_names).
Proof.
  assert (dry_run (cfg false) = false) as Hwet by reflexivity.
  split; [exact Hwet|].
  assert (fst (_delete_restore_tables (cfg false) restore_names ready) = Ok true)
    as Hr by (vm_compute; reflexivity).
  split; [exact Hr|].
  destruct (delete_restore_tables_attempts_every_table (cfg false) restore_names
              ready Hwet) as (evs & He & _ & Hiff & _).
  exists evs. split; [exact He|]. apply Hiff. exact Hr.
Defined.

Lemma poll_succeeds_only_when_all_active_witness :
  dry_run (cfg false) = false /\
  fst (_poll_restore_completion 20 (cfg false) restore_names ready) = Ok true /\
  exists before round,
    emitted ready
      (snd (_poll_restore_completion 20 (cfg false) restore_names ready))
      (before ++ round)%list /\
    Forall2 reported_active restore_names round.
Proof.
  assert (dry_run (cfg false) = false) as Hwet by reflexivity.
  split; [exact Hwet|].
  assert (fst (_poll_restore_completion 20 (cfg false) restore_names ready) =
          Ok true) as Hr by (vm_compute; reflexivity).
  split; [exact Hr|].
  destruct (poll_succeeds_only_when_all_active 20 (cfg false) restore_names ready
              Hwet) as [_ H].
  exact (H Hr).
Defined.

Lemma poll_without_timeout_fails_at_once_witness :
  timeout_minutes cfg_no_wait <= 0 /\
  fst (_poll_restore_completion 1 cfg_no_wait restore_names ready) = Ok false /\
  trace (snd (_poll_restore_completion 1 cfg_no_wait restore_names ready)) = [].
Proof.
  assert (timeout_minutes cfg_no_wait <= 0) as Htime by (vm_compute; discriminate).
  destruct (poll_without_timeout_fails_at_once 0 cfg_no_wait restore_names ready
              Htime) as (Hr & Ht & _).
  split; [exact Htime|]. split; [exact Hr|exact Ht].
Defined.

Lemma initiate_restores_every_table_witness :
  let s := snd (name_restore_tables (cfg false) yesterday_evening idle) in
  dry_run (cfg false) = false /\
  isoparse yesterday_evening = Some (on_19 2025 12) /\
  restore_point_timestamp s = Some (DateTime.strftime_compact (on_19 2025 12)) /\
  fst (_initiate_pitr_restores (cfg false) yesterday_evening s) = Ok true /\
  exists evs,
    emitted s (snd (_initiate_pitr_restores (cfg false) yesterday_evening s)) evs /\
    map ev_call evs = restore_calls (cfg false) (on_19 2025 12).
Proof.
  intros s.
  assert (dry_run (cfg false) = false) as Hwet by reflexivity.
  assert (isoparse yesterday_evening = Some (on_19 2025 12)) as Hp by reflexivity.
  assert (restore_point_timestamp s =
          Some (DateTime.strftime_compact (on_19 2025 12))) as Hts
    by (vm_compute; reflexivity).
  assert (fst (_initiate_pitr_restores (cfg false) yesterday_evening s) = Ok true)
    as Hr by (vm_compute; reflexivity).
  split; [exact Hwet|]. split; [exact Hp|]. split; [exact Hts|].
  split; [exact Hr|].
  destruct (initiate_restores_every_table (cfg false) yesterday_evening
              (on_19 2025 12) s Hwet Hp Hts) as (evs & He & Hok & _).
  exists evs. split; [exact He|]. exact (proj1 (Hok Hr)).
Defined.

Lemma earlier_verification_is_strict_witness :
  dry_run (cfg false) = false /\
  fst (_verify_item_counts (cfg false) restore_names reentry) = Ok true /\
  fst (_verify_item_counts_strict (cfg false) restore_names reentry) = Ok false /\
  fst (_verify_item_counts_strict (cfg false) restore_names ready) = Ok false /\
  exists evs,
    emitted reentry
      (snd (_verify_item_counts_strict (cfg false) restore_names reentry)) evs /\
    List.length evs = 2%nat.
Proof.
  assert (dry_run (cfg false) = false) as Hwet by reflexivity.
  split; [exact Hwet|].
  split; [vm_compute; reflexivity|].
  split; [vm_compute; reflexivity|].
  split; [vm_compute; reflexivity|].
  destruct (earlier_verification_is_strict (cfg false) restore_names reentry Hwet)
    as (evs & He & _).
  exists evs. split; [exact He|].
  unfold emitted in He. vm_compute in He.
  destruct evs as [|e1 [|e2 [|e3 evs]]]; try discriminate He. reflexivity.
Defined.

(** *** The run, stage by stage, on these scenarios *)

(** A provider whose count scans are throttled; all else is as in
    [service]. *)
Definition throttled : DynamoDB world := {|
  db_describe_table := describe;
  db_list_tables := list_all;
  db_delete_table := delete;
  db_restore_table_to_point_in_time := restore;
  db_scan_count :=
    fun w _ =>
      (w, inl (ClientError "ProvisionedThroughputExceededException"
                           "Rate exceeded"));
  db_scan := page;
  db_batch_write_item := write;
  db_describe_continuous_backups := backups
|}.

(** C2, as first stated: the restore tables are in place and ACTIVE, and
    the first count scan is throttled.  [_verify_item_counts] returns
    [False] and the run ends FAILED with the reason "Item count mismatch",
    before the swap: no item was written. *)
Lemma count_failure_fails_the_run :
  let r := run (db := throttled) 20 (cfg false) yesterday_evening ready in
  fst (_verify_item_counts (db := throttled) (cfg false) restore_names ready) =
    Ok false /\
  fst r = Ok false /\
  status_of (snd r) = Some ("FAILED", Some "Item count mismatch") /\
  calls (snd r) =
    [describe_table "quote-lambda-tf-quotes-dev-restore-20251219180000";
     describe_table "quote-lambda-tf-user-likes-dev-restore-20251219180000";
     describe_table "quote-lambda-tf-user-views-dev-restore-20251219180000";
     describe_table "quote-lambda-tf-quotes-dev-restore-20251219180000";
     describe_table "quote-lambda-tf-user-likes-dev-restore-20251219180000";
     describe_table "quote-lambda-tf-user-views-dev-restore-20251219180000";
     scan_count "quote-lambda-tf-quotes-dev"].
Proof.
  vm_compute. repeat split.
Qed.

Lemma verify_item_counts_is_advisory_witness :
  (forall kv, In kv (tables (cfg false)) -> dict_get restore_names (fst kv) <> None) /\
  fst (_verify_item_counts (cfg false) restore_names reentry) = Ok true /\
  map levelname (log (snd (_verify_item_counts (cfg false) restore_names reentry))) =
    [INFO; INFO; WARNING; WARNING; INFO].
Proof.
  assert (forall kv, In kv (tables (cfg false)) ->
                     dict_get restore_names (fst kv) <> None) as Hkeys.
  { intros kv [<-|[<-|[<-|[]]]]; discriminate. }
  split; [exact Hkeys|].
  destruct (verify_item_counts_is_advisory 20 (cfg false) yesterday_evening
              restore_names Hkeys) as (Hwet & _ & _).
  destruct (Hwet reentry eq_refl) as (evs & _ & [Hok|Hfail] & _).
  - split; [exact Hok|reflexivity].
  - vm_compute in Hfail. discriminate Hfail.
Defined.

(** C1: the restore points 18:00 UTC and 18:00 +01:00 are an hour apart,
    and the run names their restore tables alike.  With the restore tables
    of 18:00 UTC in place, the run for 18:00 +01:00 takes them for its own:
    it initiates no restore, fills the production tables from them and ends
    COMPLETED. *)
Lemma restore_point_offset_is_dropped :
  let r := run 20 (cfg false) "2025-12-19T18:00:00+01:00" ready in
  isoparse "2025-12-19T18:00:00Z" = Some (at_18 (Some utc)) /\
  isoparse "2025-12-19T18:00:00+01:00" = Some (at_18 (Some plus_one)) /\
  restore_instant (at_18 (Some utc)) - restore_instant (at_18 (Some plus_one)) =
    3600 * DateTime.second_us /\
  fst (name_restore_tables (cfg false) "2025-12-19T18:00:00Z" idle) =
    Ok restore_names /\
  fst (name_restore_tables (cfg false) "2025-12-19T18:00:00+01:00" idle) =
    Ok restore_names /\
  fst r = Ok true /\
  status_of (snd r) = Some ("COMPLETED", None) /\
  existsb is_restore (calls (snd r)) = false /\
  find_table (provider_state (snd r)) "quote-lambda-tf-quotes-dev" =
    Some (table_of "quote-lambda-tf-quotes-dev" "ACTIVE" [row "1"; row "2"]).
Proof. vm_compute. repeat split. Qed.

(** C3, as first stated: with a restore point in the future the provider
    is called four times before the validation that rejects it. *)
Lemma provider_called_before_validation :
  exists prepared s1,
    before_validation (cfg false) next_year idle = (Ok prepared, s1) /\
    fst (_validate_restore_point next_year s1) = Ok false /\
    calls s1 =
      [describe_table "quote-lambda-tf-quotes-dev-restore-20261219180000";
       describe_table "quote-lambda-tf-user-likes-dev-restore-20261219180000";
       describe_table "quote-lambda-tf-user-views-dev-restore-20261219180000";
       list_tables].
Proof. eexists _, _. split; [vm_compute; reflexivity|]. split; reflexivity. Qed.

Lemma calls_before_validation_witness :
  let r := run 20 (cfg false) next_year idle in
  fst r = Ok false /\
  recorded (snd r) "FAILED" (Some "Invalid restore point") /\
  trace (snd r) = trace (snd (before_validation (cfg false) next_year idle)).
Proof.
  pose (s1 := snd (before_validation (cfg false) next_year idle)).
  pose (s2 := snd (_validate_restore_point next_year s1)).
  assert (before_validation (cfg false) next_year idle =
          (Ok ([("quotes", "quote-lambda-tf-quotes-dev-restore-20261219180000");
                ("user_likes",
                 "quote-lambda-tf-user-likes-dev-restore-20261219180000");
                ("user_views",
                 "quote-lambda-tf-user-views-dev-restore-20261219180000")],
               false), s1))
    as H1 by (vm_compute; reflexivity).
  assert (_validate_restore_point next_year s1 = (Ok false, s2)) as H2
    by (vm_compute; reflexivity).
  destruct (calls_before_validation 20 (cfg false) next_year idle)
    as (_ & _ & _ & _ & Hstop).
  exact (Hstop _ s1 s2 H1 H2).
Defined.

Lemma tables_named :
  forall kv, In kv (tables (cfg false)) -> dict_get restore_names (fst kv) <> None.
Proof. intros kv [<-|[<-|[<-|[]]]]; discriminate. Defined.

(** The restore tables of the restore point are in place and ACTIVE: the
    run initiates no restore, polls, counts, swaps and deletes. *)
Lemma existing_restore_tables_skip_initiation_witness :
  let r := run 20 (cfg false) yesterday_evening ready in
  let s1 := snd (name_restore_tables (cfg false) yesterday_evening
                   (snd (run_begin (cfg false) yesterday_evening ready))) in
  let existing :=
    [("quote-lambda-tf-quotes-dev-restore-20251219180000", "ACTIVE");
     ("quote-lambda-tf-user-likes-dev-restore-20251219180000", "ACTIVE");
     ("quote-lambda-tf-user-views-dev-restore-20251219180000", "ACTIVE")] in
  let s2 := snd (_check_existing_restore_tables restore_names s1) in
  name_restore_tables (cfg false) yesterday_evening
    (snd (run_begin (cfg false) yesterday_evening ready)) =
    (Ok restore_names, s1) /\
  _check_existing_restore_tables restore_names s1 = (Ok existing, s2) /\
  existing <> [] /\
  emitting (on_call (fun c => is_restore c = false)) ready (snd r) /\
  fst r = Ok true /\
  exists checked polled counted swapped_evs deleted,
    emitted ready (snd r)
      (checked ++ polled ++ counted ++ swapped_evs ++ deleted)%list /\
    map ev_call checked = map describe_table (values restore_names) /\
    Forall (on_call (stage_call (cfg false) restore_names Polling)) polled /\
    (exists before round,
        polled = (before ++ round)%list /\
        Forall2 reported_active restore_names round) /\
    (exists records,
        counts_reported restore_names (tables (cfg false)) counted records) /\
    swapped restore_names (tables (cfg false)) swapped_evs /\
    Forall (on_call (stage_call (cfg false) restore_names Deleting)) deleted.
Proof.
  intros r s1 existing s2.
  assert (name_restore_tables (cfg false) yesterday_evening
            (snd (run_begin (cfg false) yesterday_evening ready)) =
          (Ok restore_names, s1)) as Hname by reflexivity.
  assert (_check_existing_restore_tables restore_names s1 = (Ok existing, s2))
    as Hcheck by reflexivity.
  assert (existing <> []) as Hne by discriminate.
  assert (fst r = Ok true) as Hr by (vm_compute; reflexivity).
  split; [exact Hname|]. split; [exact Hcheck|]. split; [exact Hne|].
  destruct (existing_restore_tables_skip_initiation 20 (cfg false)
              yesterday_evening ready s1 s2 restore_names existing
              Hname Hcheck Hne) as (_ & Hno & _ & Hcalls).
  split; [exact Hno|]. split; [exact Hr|].
  exact (Hcalls eq_refl Hr).
Defined.

Lemma poll_timeout_leaves_tables_witness :
  let self := cfg false in
  let p := yesterday_evening in
  let prepared := (restore_names, false) in
  let s1 := snd (before_validation self p stuck) in
  let s2 := snd (_validate_restore_point p s1) in
  let s3 := snd (RestoreLock_enter 20 (lock_file self) s2) in
  let s4 := snd (_initiate_pitr_restores self p s3) in
  let s5 := snd (_poll_restore_completion 20 self restore_names s4) in
  let polled := skipn (List.length (trace s4)) (trace s5) in
  dry_run self = false /\
  (Z.to_nat (6 * timeout_minutes self) < 20)%nat /\
  before_validation self p stuck = (Ok prepared, s1) /\
  _validate_restore_point p s1 = (Ok true, s2) /\
  RestoreLock_enter 20 (lock_file self) s2 = (Ok tt, s3) /\
  (if negb (snd prepared) then _initiate_pitr_restores self p else ret true) s3 =
    (Ok true, s4) /\
  emitted s4 s5 polled /\
  last_round_active restore_names polled = false /\
  fst (_poll_restore_completion 20 self restore_names s4) = Ok false /\
  clock s5 - clock s4 = 60 * DateTime.second_us /\
  fst (run 20 self p stuck) = Ok false /\
  recorded (snd (run 20 self p stuck)) "FAILED"
           (Some "Restore operation timed out") /\
  trace (snd (run 20 self p stuck)) = trace s5.
Proof.
  intros self p prepared s1 s2 s3 s4 s5 polled.
  assert (dry_run self = false) as Hwet by reflexivity.
  assert (Z.to_nat (6 * timeout_minutes self) < 20)%nat as Hfuel
    by (vm_compute; lia).
  assert (before_validation self p stuck = (Ok prepared, s1)) as H1
    by (vm_compute; reflexivity).
  assert (_validate_restore_point p s1 = (Ok true, s2)) as H2
    by (vm_compute; reflexivity).
  assert (RestoreLock_enter 20 (lock_file self) s2 = (Ok tt, s3)) as H3
    by (vm_compute; reflexivity).
  assert ((if negb (snd prepared) then _initiate_pitr_restores self p
           else ret true) s3 = (Ok true, s4)) as H4
    by (vm_compute; reflexivity).
  assert (emitted s4 s5 polled) as H5 by (vm_compute; reflexivity).
  assert (last_round_active restore_names polled = false) as H6
    by (vm_compute; reflexivity).
  destruct (poll_timeout_leaves_tables 20 self p prepared stuck s1 s2 s3 s4
              H1 H2 H3 H4) as (Hgives & Hfails).
  destruct (Hgives Hwet Hfuel
              (not_observed_active restore_names s4 s5 polled H5 H6))
    as (Hpoll & _).
  destruct (Hfails Hpoll) as (Hr & _ & Hrec & Htr & _).
  split; [exact Hwet|]. split; [exact Hfuel|].
  split; [exact H1|]. split; [exact H2|]. split; [exact H3|].
  split; [exact H4|]. split; [exact H5|]. split; [exact H6|].
  split; [exact Hpoll|]. split; [vm_compute; reflexivity|].
  split; [exact Hr|]. split; [exact Hrec|exact Htr].
Defined.

(** A whole restore: every production table is swapped with its restore
    table, page by page, in batches of at most twenty-five. *)
Lemma swap_batches_bounded_and_exhaustive_witness :
  let s := start (world_of (production ++ [leftover]) "ACTIVE") None in
  let r := run 20 (cfg false) yesterday_evening s in
  dry_run (cfg false) = false /\
  fst r = Ok true /\
  emitting (on_call batch_bounded) s (snd r) /\
  (exists restore_dt before evs after,
      isoparse yesterday_evening = Some restore_dt /\
      emitted s (snd r) (before ++ evs ++ after)%list /\
      swapped (restore_table_names (cfg false) restore_dt) (tables (cfg false))
              evs) /\
  fst (_swap_data 20 (cfg false) restore_names ready) = Ok true /\
  exists evs,
    emitted ready (snd (_swap_data 20 (cfg false) restore_names ready)) evs /\
    swapped restore_names (tables (cfg false)) evs.
Proof.
  intros s r.
  assert (dry_run (cfg false) = false) as Hwet by reflexivity.
  assert (fst r = Ok true) as Hr by (vm_compute; reflexivity).
  assert (fst (_swap_data 20 (cfg false) restore_names ready) = Ok true) as Hs
    by (vm_compute; reflexivity).
  destruct (swap_batches_bounded_and_exhaustive 20 (cfg false) yesterday_evening
              s) as (Hbound & Hswap & Hrun & _).
  split; [exact Hwet|]. split; [exact Hr|]. split; [exact Hbound|].
  split; [exact (Hrun Hwet Hr)|]. split; [exact Hs|].
  destruct (Hswap restore_names ready Hwet tables_named)
    as (_ & evs & He & _ & Hok & _).
  exists evs. split; [exact He|exact (Hok Hs)].
Defined.

Lemma dry_run_spares_the_tables_witness :
  dry_run (cfg true) = true /\
  emitting (on_call (fun c => mutating c = false)) reentry
           (snd (run 20 (cfg true) yesterday_evening reentry)) /\
  fst (run 20 (cfg true) yesterday_evening reentry) = Ok true /\
  recorded (snd (run 20 (cfg true) yesterday_evening reentry)) "COMPLETED" None /\
  fst (run 20 (cfg true) next_year idle) = Ok false /\
  exists err, recorded (snd (run 20 (cfg true) next_year idle)) "FAILED" err.
Proof.
  assert (dry_run (cfg true) = true) as Hdry by reflexivity.
  split; [exact Hdry|].
  destruct (dry_run_spares_the_tables 20 (cfg true) yesterday_evening reentry
              Hdry) as (Hev & _ & _ & _ & Hdone & _).
  split; [exact Hev|].
  pose (s1 := snd (before_validation (cfg true) yesterday_evening reentry)).
  pose (s2 := snd (_validate_restore_point yesterday_evening s1)).
  pose (s3 := snd (RestoreLock_enter 20 (lock_file (cfg true)) s2)).
  assert (before_validation (cfg true) yesterday_evening reentry =
          (Ok (restore_names, true), s1)) as H1 by (vm_compute; reflexivity).
  assert (_validate_restore_point yesterday_evening s1 = (Ok true, s2)) as H2
    by (vm_compute; reflexivity).
  assert (RestoreLock_enter 20 (lock_file (cfg true)) s2 = (Ok tt, s3)) as H3
    by (vm_compute; reflexivity).
  assert (0 < timeout_minutes (cfg true)) as H4 by reflexivity.
  destruct (Hdone (restore_names, true) s1 s2 s3 H1 H2 H3 H4) as [Hr Hrec].
  split; [exact Hr|]. split; [exact Hrec|].
  destruct (dry_run_spares_the_tables 20 (cfg true) next_year idle Hdry)
    as (_ & _ & _ & _ & _ & _ & Hfailed).
  apply Hfailed; [lia|].
  intros (prepared & t1 & t2 & t3 & G1 & G2 & _).
  vm_compute in G1. injection G1 as <- <-.
  vm_compute in G2. discriminate G2.
Defined.

End Demo.
